(** * mbuild.formats.lammpsdata: the LAMMPS data-file writer

    A shallow embedding of [write_lammpsdata] (mbuild/formats/lammpsdata.py)
    and the properties of its type canonicaliser, coefficient deriver and
    section emitter.

    Numbers.  A Python float is modelled by the rational it denotes and its
    arithmetic is exact ([Q]); results of [**], [np.cos] and [np.sqrt]
    leave the rationals and are real numbers ([R]); numpy scalars, which
    can be [nan] or [inf], are extended reals ([npfloat]).  Binary rounding
    of float arithmetic is not modelled.

    Output.  The file is the list of the [data.write] calls made on it, each
    call carrying its format string, as the source spells it, and the
    arguments of the format (the title line, which the source builds by
    concatenation, is the format [{} - created by mBuild] applied to the
    file name).  Messages sent to [print] and [warn] are not part of the
    file and are left out.

    Python.  The semantics is that of Python 3: true division, [round] to
    the even neighbour, dicts that keep insertion order. *)

From Stdlib Require Import ZArith QArith Qround Qabs Qreals Reals Lra Lia.
From Stdlib Require Import String Ascii List Permutation.
From stdpp Require Import base decidable list sets strings.

#[global] Instance Q_eq_dec : EqDecision Q.
Proof. solve_decision. Defined.

(** ** Python built-ins *)

Module Py.

(** Exceptions the writer can leave with. *)
Inductive exn : Type :=
| ValueError (msg : string)
| IndexError
| KeyError
| AttributeError
| TypeError
| ZeroDivisionError
| UnboundLocalError (name : string).

#[global] Instance exn_eq_dec : EqDecision exn.
Proof. solve_decision. Defined.

(** A computation that returns or raises. *)
Definition result (A : Type) : Type := exn + A.

Definition ret {A} (a : A) : result A := inr a.
Definition raise {A} (e : exn) : result A := inl e.
Definition bind {A B} (m : result A) (k : A -> result B) : result B :=
  match m with
  | inl e => inl e
  | inr a => k a
  end.

Fixpoint mapM {A B} (f : A -> result B) (l : list A) : result (list B) :=
  match l with
  | [] => ret []
  | x :: l' =>
      bind (f x) (fun y => bind (mapM f l') (fun ys => ret (y :: ys)))
  end.

(** [for x in l: acc = f(acc, x)], left to right, stopping at a raise. *)
Fixpoint foldM {A B} (f : B -> A -> result B) (l : list A) (acc : B)
  : result B :=
  match l with
  | [] => ret acc
  | x :: l' => bind (f acc x) (foldM f l')
  end.

(** [round(x)] to the nearest integer, ties to the even one. *)
Definition round_half_even (x : Q) : Z :=
  let f := Qfloor x in
  match Qcompare (x - inject_Z f) (1 # 2) with
  | Lt => f
  | Gt => (f + 1)%Z
  | Eq => if Z.even f then f else (f + 1)%Z
  end.

(** [round(x, ndigits)]: the result is kept as the fraction
    [z / 10^ndigits], so that two rounded values are equal as numbers
    exactly when they are equal as terms. *)
Definition round (x : Q) (ndigits : nat) : Q :=
  let scale := Pos.pow 10 (Pos.of_nat ndigits) in
  match ndigits with
  | O => inject_Z (round_half_even x)
  | S _ => Qmake (round_half_even (x * inject_Z (Zpos scale))) scale
  end.

(** The same on a real argument (the result of [**]). *)
Definition round_half_even_real (x : R) : Z :=
  let f := Zfloor x in
  if Rlt_dec (x - IZR f) (1 / 2) then f
  else if Rlt_dec (1 / 2) (x - IZR f) then (f + 1)%Z
  else if Z.even f then f else (f + 1)%Z.

Definition round_real (x : R) (ndigits : nat) : R :=
  (IZR (round_half_even_real (x * 10 ^ ndigits)) / 10 ^ ndigits)%R.

(** [tuple(sorted((a, b)))] on two strings: Python compares strings by
    code point, and [sorted] is stable. *)
Definition sorted_pair (a b : string) : string * string :=
  if String.ltb b a then (b, a) else (a, b).

(** [enumerate(l)]. *)
Fixpoint enumerate_from {A} (i : nat) (l : list A) : list (nat * A) :=
  match l with
  | [] => []
  | x :: l' => (i, x) :: enumerate_from (S i) l'
  end.
Definition enumerate {A} (l : list A) : list (nat * A) :=
  enumerate_from 0 l.

(** [l.index(x)]: the first position of [x], [ValueError] when absent. *)
Fixpoint index_from {A} `{EqDecision A} (i : nat) (x : A) (l : list A)
  : option nat :=
  match l with
  | [] => None
  | y :: l' => if decide (y = x) then Some i else index_from (S i) x l'
  end.
Definition index {A} `{EqDecision A} (x : A) (l : list A) : result nat :=
  match index_from 0 x l with
  | Some i => ret i
  | None => raise (ValueError "x is not in list")
  end.

(** [l[i]]. *)
Definition getitem {A} (l : list A) (i : nat) : result A :=
  match l !! i with
  | Some x => ret x
  | None => raise IndexError
  end.

(** A [dict] (insertion ordered, as is [OrderedDict]): setting a key that
    is present replaces its value in place, a new key goes to the end. *)
Definition dict (K V : Type) : Type := list (K * V).

Fixpoint dict_set {K V} `{EqDecision K} (k : K) (v : V) (d : dict K V)
  : dict K V :=
  match d with
  | [] => [(k, v)]
  | (k', v') :: d' =>
      if decide (k' = k) then (k, v) :: d' else (k', v') :: dict_set k v d'
  end.

Fixpoint dict_lookup {K V} `{EqDecision K} (k : K) (d : dict K V)
  : option V :=
  match d with
  | [] => None
  | (k', v') :: d' => if decide (k' = k) then Some v' else dict_lookup k d'
  end.

(** [d[k]]. *)
Definition dict_get {K V} `{EqDecision K} (k : K) (d : dict K V)
  : result V :=
  match dict_lookup k d with
  | Some v => ret v
  | None => raise KeyError
  end.

(** [dict(items)]. *)
Definition dict_of_list {K V} `{EqDecision K} (items : list (K * V))
  : dict K V :=
  fold_left (fun d kv => dict_set (fst kv) (snd kv) d) items [].

(** [itertools.combinations_with_replacement(l, 2)]. *)
Fixpoint combinations_with_replacement_2 {A} (l : list A) : list (A * A) :=
  match l with
  | [] => []
  | x :: l' =>
      map (fun y => (x, y)) (x :: l') ++ combinations_with_replacement_2 l'
  end.

(** The iteration order of a [set] built from a list.  It depends on the
    hashes of the elements, and the hash of a string changes from one
    interpreter process to the next, so the order is an input of the
    model: [set_iter K l] is the sequence in which [set(l)] is iterated. *)
Definition set_order : Type :=
  forall (K : Type), EqDecision K -> list K -> list K.

(** What every interpreter guarantees of it: the elements of [l], each
    once. *)
Definition set_order_ok (set_iter : set_order) : Prop :=
  forall (K : Type) (H : EqDecision K) (l : list K),
    NoDup (set_iter K H l) /\ forall x, x ∈ set_iter K H l <-> x ∈ l.

(** Two orders that a set can have: first occurrences in list order, and
    the reverse of that. *)
Fixpoint first_occurrences {K} `{EqDecision K} (seen l : list K) : list K :=
  match l with
  | [] => []
  | x :: l' =>
      if decide (x ∈ seen) then first_occurrences seen l'
      else x :: first_occurrences (x :: seen) l'
  end.

Definition insertion_order : set_order :=
  fun K H l => @first_occurrences K H [] l.
Definition reverse_order : set_order :=
  fun K H l => rev (@first_occurrences K H [] l).

End Py.

Notation "x <- m ;; k" := (Py.bind m (fun x => k))
  (at level 100, m at next level, right associativity, only parsing).

(** ** mbuild.utils.sorting *)

Module Sorting.

(** An element of a natural-sort key: a run of digits read as an integer,
    or a run of other characters. *)
Inductive chunk : Type :=
| CStr (s : string)
| CInt (n : N).

Definition is_digit (c : ascii) : bool :=
  let n := N_of_ascii c in ((48 <=? n)%N && (n <=? 57)%N)%bool.

Definition digit_value (c : ascii) : N := (N_of_ascii c - 48)%N.

(** [int(text)] on a run of digits. *)
Definition atoi_digits (s : string) : N :=
  fold_left (fun acc c => (10 * acc + digit_value c)%N)
            (list_ascii_of_string s) 0%N.

(** One step of [re.split(r'(\d+)', text)], read from the right: the head
    of the accumulator is the run being extended; the flag says whether
    it is a run of digits. *)
Definition split_step (c : ascii) (acc : list (bool * string))
  : list (bool * string) :=
  match acc with
  | [] => [(is_digit c, String c EmptyString)]
  | (d, run) :: rest =>
      if Bool.eqb d (is_digit c) then (d, String c run) :: rest
      else (is_digit c, String c EmptyString) :: (d, run) :: rest
  end.

(** The split always starts and ends with a run of non-digits, which may
    be empty. *)
Definition split_digits (text : string) : list (bool * string) :=
  let runs :=
    fold_right split_step [(false, EmptyString)]
               (list_ascii_of_string text) in
  match runs with
  | (true, _) :: _ => (false, EmptyString) :: runs
  | _ => runs
  end.

(** Modelled from the spec: [natural_sort] of mbuild/utils/sorting.py is
    not among the sources.  The spec has the atom-type list sorted "using
    a natural ordering (numeric substrings compared as integers, not
    lexicographically) so that e.g. type C2 sorts before C10": the key of
    a label is its split into runs, the digit runs read as integers. *)
Definition natural_sort (text : string) : list chunk :=
  map (fun r : bool * string =>
         if fst r then CInt (atoi_digits (snd r)) else CStr (snd r))
      (split_digits text).

(** Python's order on the elements of a key.  A string is never compared
    with an integer, as the two alternate in every key. *)
Definition chunk_compare (a b : chunk) : comparison :=
  match a, b with
  | CStr s, CStr t => String.compare s t
  | CInt n, CInt m => N.compare n m
  | CStr _, CInt _ => Lt
  | CInt _, CStr _ => Gt
  end.

(** Python's order on lists. *)
Fixpoint key_compare (k1 k2 : list chunk) : comparison :=
  match k1, k2 with
  | [], [] => Eq
  | [], _ :: _ => Lt
  | _ :: _, [] => Gt
  | a :: k1', b :: k2' =>
      match chunk_compare a b with
      | Eq => key_compare k1' k2'
      | c => c
      end
  end.

Definition key_lt (a b : string) : bool :=
  match key_compare (natural_sort a) (natural_sort b) with
  | Lt => true
  | _ => false
  end.

(** [l.sort(key=natural_sort)]: a stable sort, here by insertion. *)
Fixpoint insert_sorted (x : string) (l : list string) : list string :=
  match l with
  | [] => [x]
  | y :: l' => if key_lt y x then y :: insert_sorted x l' else x :: y :: l'
  end.

Definition sort_natural (l : list string) : list string :=
  fold_right insert_sorted [] l.

End Sorting.

(** ** numpy scalars *)

Module Np.

(** A numpy float64: a finite number, an infinity or [nan].  Operations on
    them never raise; an invalid one gives [nan] (and a warning). *)
Inductive npfloat : Type :=
| Fin (r : R)
| PInf
| NInf
| NaN.

Definition of_Q (q : Q) : npfloat := Fin (Q2R q).

Definition is_finite (x : npfloat) : Prop :=
  match x with Fin _ => True | _ => False end.

Definition neg (x : npfloat) : npfloat :=
  match x with
  | Fin r => Fin (- r)
  | PInf => NInf
  | NInf => PInf
  | NaN => NaN
  end.

Definition add (x y : npfloat) : npfloat :=
  match x, y with
  | NaN, _ | _, NaN => NaN
  | Fin a, Fin b => Fin (a + b)
  | PInf, NInf | NInf, PInf => NaN
  | PInf, _ | _, PInf => PInf
  | NInf, _ | _, NInf => NInf
  end.

Definition sub (x y : npfloat) : npfloat := add x (neg y).

(** The sign of a finite number: [Gt] positive, [Lt] negative. *)
Definition sign (r : R) : comparison :=
  if Rlt_dec 0 r then Gt else if Rlt_dec r 0 then Lt else Eq.

Definition signed_inf (s : comparison) : npfloat :=
  match s with Gt => PInf | Lt => NInf | Eq => NaN end.

Definition flip (s : comparison) : comparison :=
  match s with Gt => Lt | Lt => Gt | Eq => Eq end.

Definition mul (x y : npfloat) : npfloat :=
  match x, y with
  | NaN, _ | _, NaN => NaN
  | Fin a, Fin b => Fin (a * b)
  | Fin a, PInf | PInf, Fin a => signed_inf (sign a)
  | Fin a, NInf | NInf, Fin a => signed_inf (flip (sign a))
  | PInf, PInf | NInf, NInf => PInf
  | PInf, NInf | NInf, PInf => NInf
  end.

(** Division: a finite non-zero number over zero is an infinity, zero over
    zero is [nan].  The zero of the model has no sign; the only divisor
    of the writer, a square root, is never a negative zero. *)
Definition div (x y : npfloat) : npfloat :=
  match x, y with
  | NaN, _ | _, NaN => NaN
  | Fin a, Fin b =>
      if Req_dec_T b 0 then signed_inf (sign a) else Fin (a / b)
  | Fin _, _ => Fin 0
  | PInf, Fin b => if Rlt_dec b 0 then NInf else PInf
  | NInf, Fin b => if Rlt_dec b 0 then PInf else NInf
  | _, _ => NaN
  end.

(** [np.sqrt]: [nan] on a negative argument. *)
Definition sqrt (x : npfloat) : npfloat :=
  match x with
  | Fin r => if Rlt_dec r 0 then NaN else Fin (R_sqrt.sqrt r)
  | PInf => PInf
  | NInf | NaN => NaN
  end.

(** [np.cos]. *)
Definition cos (x : npfloat) : npfloat :=
  match x with
  | Fin r => Fin (Rtrigo_def.cos r)
  | _ => NaN
  end.

(** [np.radians]. *)
Definition radians (deg : Q) : npfloat := Fin (Q2R deg * PI / 180).

(** [x**2]. *)
Definition square (x : npfloat) : npfloat := mul x x.

(** [np.min] and [np.max] of two numbers; [nan] propagates. *)
Definition min2 (x y : npfloat) : npfloat :=
  match x, y with
  | NaN, _ | _, NaN => NaN
  | NInf, _ | _, NInf => NInf
  | PInf, z | z, PInf => z
  | Fin a, Fin b => Fin (Rmin a b)
  end.

Definition max2 (x y : npfloat) : npfloat :=
  match x, y with
  | NaN, _ | _, NaN => NaN
  | PInf, _ | _, PInf => PInf
  | NInf, z | z, NInf => z
  | Fin a, Fin b => Fin (Rmax a b)
  end.

(** [np.min(l)] and [np.max(l)] on a list that starts with [x]. *)
Definition min (x : npfloat) (l : list npfloat) : npfloat :=
  fold_left min2 l x.
Definition max (x : npfloat) (l : list npfloat) : npfloat :=
  fold_left max2 l x.

(** [np.allclose(a, b)] with the default tolerances, on finite arrays:
    [|a_i - b_i| <= atol + rtol * |b_i|] at every index. *)
Definition rtol : Q := 1e-5.
Definition atol : Q := 1e-8.

Definition isclose (a b : Q) : bool :=
  Qle_bool (Qabs (a - b)) (atol + rtol * Qabs b).

Definition allclose (a b : Q * Q * Q) : bool :=
  let '(a1, a2, a3) := a in
  let '(b1, b2, b3) := b in
  (isclose a1 b1 && isclose a2 b2 && isclose a3 b3)%bool.

End Np.


(** ** The input: a parmed [Structure] *)

(** An atom.  Two references to atoms in the bonded terms of one structure
    are the same object exactly when they carry the same [idx]. *)
Module Atom.
Record t : Type := mk
  { idx : nat;
    type : string;
    name : string;
    charge : Q;
    mass : Q;
    xx : Q;
    xy : Q;
    xz : Q;
    epsilon : Q;
    sigma : Q }.

(** [a is b], for atoms of one structure. *)
Definition same (a b : t) : bool := Nat.eqb (idx a) (idx b).
End Atom.

Module BondType.
Record t : Type := mk { k : Q; req : Q }.
End BondType.

(** A bond; its [type] is [None] as long as no force field was applied. *)
Module Bond.
Record t : Type := mk
  { atom1 : Atom.t; atom2 : Atom.t; type : option BondType.t }.
End Bond.

Module AngleType.
Record t : Type := mk { k : Q; theteq : Q }.
End AngleType.

Module Angle.
Record t : Type := mk
  { atom1 : Atom.t; atom2 : Atom.t; atom3 : Atom.t; type : AngleType.t }.
End Angle.

Module UreyBradley.
Record t : Type := mk
  { atom1 : Atom.t; atom2 : Atom.t; type : BondType.t }.
End UreyBradley.

Module RBTorsionType.
Record t : Type := mk
  { c0 : Q; c1 : Q; c2 : Q; c3 : Q; c4 : Q; c5 : Q; scee : Q; scnb : Q }.
End RBTorsionType.

Module RBTorsion.
Record t : Type := mk
  { atom1 : Atom.t; atom2 : Atom.t; atom3 : Atom.t; atom4 : Atom.t;
    type : RBTorsionType.t }.
End RBTorsion.

Module DihedralType.
Record t : Type := mk
  { phi_k : Q; per : Q; phase : Q; scee : Q; scnb : Q }.
End DihedralType.

(** A dihedral; its [type] is the list of its terms (a
    [DihedralTypeList]). *)
Module Dihedral.
Record t : Type := mk
  { atom1 : Atom.t; atom2 : Atom.t; atom3 : Atom.t; atom4 : Atom.t;
    improper : bool;
    type : list DihedralType.t }.
End Dihedral.

Module ImproperType.
Record t : Type := mk { psi_k : Q; psi_eq : Q }.
End ImproperType.

Module Improper.
Record t : Type := mk
  { atom1 : Atom.t; atom2 : Atom.t; atom3 : Atom.t; atom4 : Atom.t;
    type : ImproperType.t }.
End Improper.

Module Structure.
(** [box] is [(box[0:3], box[3:6])]: lengths and angles.  [has_NBFIX] and
    [nbfix_types] are what [structure.has_NBFIX()] and
    [ParameterSet.from_structure(structure).nbfix_types.items()] return:
    the override of a pair of type labels is [(rmin, epsilon)]. *)
Record t : Type := mk
  { atoms : list Atom.t;
    bonds : list Bond.t;
    bond_types : list BondType.t;
    angles : list Angle.t;
    urey_bradleys : list UreyBradley.t;
    rb_torsions : list RBTorsion.t;
    dihedrals : list Dihedral.t;
    impropers : list Improper.t;
    box : (Q * Q * Q) * (Q * Q * Q);
    combining_rule : string;
    has_NBFIX : bool;
    nbfix_types : list ((string * string) * (Q * Q)) }.
End Structure.

(** ** mbuild.Box *)

Module Box.
Record t : Type := mk
  { mins : Q * Q * Q;
    maxs : Q * Q * Q;
    lengths : Q * Q * Q;
    angles : Q * Q * Q }.

(** Modelled from the spec: the class [Box] of mbuild is not among the
    sources.  The writer builds it from lengths and angles and reads back
    "min/max per axis", the lengths and the angles; a box given by its
    lengths starts at the origin. *)
Definition of_lengths (lengths angles : Q * Q * Q) : t :=
  {| mins := (0, 0, 0)%Q; maxs := lengths;
     lengths := lengths; angles := angles |}.
End Box.

(** ** mbuild.formats.lammpsdata *)

Module Lammps.

(** The arguments of [write_lammpsdata] other than the structure. *)
Record config : Type := mk_config
  { filename : string;
    atom_style : string;
    detect_forcefield_style : bool;
    nbfix_in_data_file : bool;
    use_urey_bradleys : bool;
    use_rb_torsions : bool;
    use_dihedrals : bool }.

(** The defaults of the signature. *)
Definition default_config (filename : string) : config :=
  {| filename := filename;
     atom_style := "full";
     detect_forcefield_style := true;
     nbfix_in_data_file := true;
     use_urey_bradleys := false;
     use_rb_torsions := true;
     use_dihedrals := false |}.

Definition dquote : string := String "034"%char EmptyString.

Definition invalid_atom_style (atom_style : string) : Py.exn :=
  Py.ValueError
    ("Atom style " ++ dquote ++ atom_style ++ dquote
     ++ " is invalid or is not currently supported").

Definition multiple_dihedral_styles : Py.exn :=
  Py.ValueError
    "Multiple dihedral styles detected, check your Forcefield XML and structure".

Definition unsupported_combining_rule : Py.exn :=
  Py.ValueError "Only lorentz and geometric combining rules are supported".

(** Truth value of a list. *)
Definition nonempty {A} (l : list A) : bool :=
  match l with [] => false | _ :: _ => true end.

(** [atom_style in ['full', 'molecular']]. *)
Definition bonded_style (atom_style : string) : bool :=
  bool_decide (atom_style ∈ ["full"; "molecular"]).

(** *** Canonical keys *)

Definition bond_key : Type := Q * Q * (string * string).
Definition angle_key : Type := Q * Q * string * (string * string).
Definition charmm_angle_key : Type := Q * Q * Q * Q * (string * string).
Definition rb_torsion_key : Type :=
  Q * Q * Q * Q * Q * Q * Q * Q * string * string * string * string.
Definition charmm_dihedral_key : Type :=
  Q * Z * Z * Q * Q * Q * string * string * string * string.
Definition improper_key : Type :=
  Q * Q * string * string * string * string.

(** The key of a bond, lines 173-176; a bond without a type has no [k]. *)
Definition bond_key_of (bond : Bond.t) : Py.result bond_key :=
  match Bond.type bond with
  | None => Py.raise Py.AttributeError
  | Some ty =>
      Py.ret (Py.round (BondType.k ty) 3,
              Py.round (BondType.req ty) 3,
              Py.sorted_pair (Atom.type (Bond.atom1 bond))
                             (Atom.type (Bond.atom2 bond)))
  end.

(** Lines 205-209. *)
Definition angle_key_of (angle : Angle.t) : angle_key :=
  (Py.round (AngleType.k (Angle.type angle)) 3,
   Py.round (AngleType.theteq (Angle.type angle)) 3,
   Atom.type (Angle.atom2 angle),
   Py.sorted_pair (Atom.type (Angle.atom1 angle))
                  (Atom.type (Angle.atom3 angle))).

(** Lines 187-192: the loop over all Urey-Bradley terms; every term whose
    atoms are the end atoms of the angle, in this order, overwrites
    [ub_k] and [ub_req]. *)
Definition ub_matches (angle : Angle.t) (ub : UreyBradley.t) : bool :=
  (Atom.same (Angle.atom1 angle) (UreyBradley.atom1 ub)
   && Atom.same (Angle.atom3 angle) (UreyBradley.atom2 ub))%bool.

Definition find_urey_bradley (angle : Angle.t)
  (urey_bradleys : list UreyBradley.t) : Q * Q :=
  fold_left
    (fun (found : Q * Q) ub =>
       if ub_matches angle ub
       then (BondType.k (UreyBradley.type ub),
             BondType.req (UreyBradley.type ub))
       else found)
    urey_bradleys (0, 0)%Q.

(** Lines 193-197. *)
Definition charmm_angle_key_of (urey_bradleys : list UreyBradley.t)
  (angle : Angle.t) : charmm_angle_key :=
  let '(ub_k, ub_req) := find_urey_bradley angle urey_bradleys in
  (Py.round (AngleType.k (Angle.type angle)) 3,
   Py.round (AngleType.theteq (Angle.type angle)) 3,
   Py.round ub_k 3,
   Py.round ub_req 3,
   Py.sorted_pair (Atom.type (Angle.atom1 angle))
                  (Atom.type (Angle.atom3 angle))).

(** Lines 219-229. *)
Definition rb_torsion_key_of (dihedral : RBTorsion.t) : rb_torsion_key :=
  let ty := RBTorsion.type dihedral in
  (Py.round (RBTorsionType.c0 ty) 3,
   Py.round (RBTorsionType.c1 ty) 3,
   Py.round (RBTorsionType.c2 ty) 3,
   Py.round (RBTorsionType.c3 ty) 3,
   Py.round (RBTorsionType.c4 ty) 3,
   Py.round (RBTorsionType.c5 ty) 3,
   Py.round (RBTorsionType.scee ty) 1,
   Py.round (RBTorsionType.scnb ty) 1,
   Atom.type (RBTorsion.atom1 dihedral),
   Atom.type (RBTorsion.atom2 dihedral),
   Atom.type (RBTorsion.atom3 dihedral),
   Atom.type (RBTorsion.atom4 dihedral)).

(** Lines 246-257: the keys of one dihedral, one per term; none for an
    improper one.  The weight divides by the number of terms. *)
Definition charmm_dihedral_keys_of (dihedral : Dihedral.t)
  : Py.result (list charmm_dihedral_key) :=
  if Dihedral.improper dihedral then Py.ret []
  else
    match Dihedral.type dihedral with
    | [] => Py.raise Py.ZeroDivisionError
    | terms =>
        let weight := (1 / inject_Z (Z.of_nat (length terms)))%Q in
        Py.ret
          (map (fun dih_type =>
                  (Py.round (DihedralType.phi_k dih_type) 3,
                   Py.round_half_even (DihedralType.per dih_type),
                   Py.round_half_even (DihedralType.phase dih_type),
                   Py.round weight 4,
                   Py.round (DihedralType.scee dih_type) 1,
                   Py.round (DihedralType.scnb dih_type) 1,
                   Atom.type (Dihedral.atom1 dihedral),
                   Atom.type (Dihedral.atom2 dihedral),
                   Atom.type (Dihedral.atom3 dihedral),
                   Atom.type (Dihedral.atom4 dihedral)))
               terms)
    end.

(** Lines 264-267. *)
Definition improper_key_of (improper : Improper.t) : improper_key :=
  (Py.round (ImproperType.psi_k (Improper.type improper)) 3,
   Py.round (ImproperType.psi_eq (Improper.type improper)) 3,
   Atom.type (Improper.atom1 improper),
   Atom.type (Improper.atom2 improper),
   Atom.type (Improper.atom3 improper),
   Atom.type (Improper.atom4 improper)).

(** The table of angle types holds keys of one of two shapes, the table of
    dihedral types likewise. *)
Inductive angle_table : Type :=
| CharmmAngles (table : Py.dict charmm_angle_key nat)
| HarmonicAngles (table : Py.dict angle_key nat).

Inductive dihedral_table : Type :=
| OplsDihedrals (table : Py.dict rb_torsion_key nat)
| CharmmDihedrals (table : Py.dict charmm_dihedral_key nat).

(** The local variables of [write_lammpsdata] at line 274, where the file
    is opened.  [unique_bond_types] is [None] while the name is unbound;
    the other tables are read under the test they were bound under, and
    hold nothing while unbound. *)
Record locals : Type := mk_locals
  { xyz : list (Q * Q * Q);
    forcefield : bool;
    box : Box.t;
    types : list string;
    unique_types : list string;
    charges : list Q;
    urey_bradleys_used : bool;
    rb_torsions_used : bool;
    dihedrals_used : bool;
    bonds : list (nat * nat);
    angles : list (nat * nat * nat);
    dihedrals : list (nat * nat * nat * nat);
    impropers : list (nat * nat * nat * nat);
    bond_types : list nat;
    unique_bond_types : option (Py.dict bond_key nat);
    angle_types : list nat;
    unique_angle_types : angle_table;
    dihedral_types : list nat;
    unique_dihedral_types : dihedral_table;
    improper_types : list nat;
    unique_improper_types : Py.dict improper_key nat }.

Section Writer.

(** The iteration order of the sets of this interpreter process. *)
Variable set_iter : Py.set_order.

(** [structure.join_dihedrals()] of parmed, as a function of the list of
    dihedrals. *)
Variable join_dihedrals : list Dihedral.t -> list Dihedral.t.

(** [RB_to_OPLS] of mbuild/utils/conversion.py, which is not among the
    sources. *)
Variable RB_to_OPLS : Q -> Q -> Q -> Q -> Q -> Q -> Q * Q * Q * Q.

(** [OrderedDict([(y, x+1) for x, y in dict(enumerate(set(keys))).items()])]:
    the table from canonical key to type ID. *)
Definition enumerate_set {K} `{EqDecision K} (keys : list K)
  : Py.dict K nat :=
  Py.dict_of_list
    (map (fun xy : nat * K => (snd xy, fst xy + 1))
         (Py.dict_of_list (Py.enumerate (set_iter K _ keys)))).

(** [[table[key] for key in keys]]. *)
Definition lookup_all {K} `{EqDecision K} (table : Py.dict K nat)
  (keys : list K) : Py.result (list nat) :=
  Py.mapM (fun key => Py.dict_get key table) keys.

(** Lines 113-114. *)
Definition unique_types_of (types : list string) : list string :=
  Sorting.sort_natural (set_iter string _ types).

(** Lines 121-140: the styles in use, [(use_urey_bradleys, use_rb_torsions,
    use_dihedrals)]. *)
Definition detect_styles (structure : Structure.t) (cfg : config)
  : bool * bool * bool :=
  if detect_forcefield_style cfg then
    (nonempty (Structure.urey_bradleys structure),
     nonempty (Structure.rb_torsions structure),
     nonempty (Structure.dihedrals structure))
  else
    (use_urey_bradleys cfg, use_rb_torsions cfg, use_dihedrals cfg).

(** Lines 169-181. *)
Definition bond_tables (structure : Structure.t)
  : Py.result (list nat * option (Py.dict bond_key nat)) :=
  if nonempty (Structure.bonds structure) then
    if Nat.eqb (length (Structure.bond_types structure)) 0 then
      Py.ret (repeat 1 (length (Structure.bonds structure)), None)
    else
      keys <- Py.mapM bond_key_of (Structure.bonds structure) ;;
      let unique_bond_types := enumerate_set keys in
      bond_types <- lookup_all unique_bond_types keys ;;
      Py.ret (bond_types, Some unique_bond_types)
  else Py.ret ([], None).

(** Lines 183-215. *)
Definition angle_tables (structure : Structure.t)
  (use_urey_bradleys : bool) : Py.result (list nat * angle_table) :=
  if nonempty (Structure.angles structure) then
    if use_urey_bradleys then
      let charmm_angle_types :=
        map (charmm_angle_key_of (Structure.urey_bradleys structure))
            (Structure.angles structure) in
      let unique_angle_types := enumerate_set charmm_angle_types in
      angle_types <- lookup_all unique_angle_types charmm_angle_types ;;
      Py.ret (angle_types, CharmmAngles unique_angle_types)
    else
      let keys := map angle_key_of (Structure.angles structure) in
      let unique_angle_types := enumerate_set keys in
      angle_types <- lookup_all unique_angle_types keys ;;
      Py.ret (angle_types, HarmonicAngles unique_angle_types)
  else Py.ret ([], HarmonicAngles []).

(** Lines 244-257: the keys of all terms of the joined dihedrals. *)
Definition charmm_dihedrals_of (structure : Structure.t)
  : Py.result (list charmm_dihedral_key) :=
  per_dihedral <- Py.mapM charmm_dihedral_keys_of
                    (join_dihedrals (Structure.dihedrals structure)) ;;
  Py.ret (concat per_dihedral).

(** Lines 217-261; [dihedrals] is the list of lines 150-161. *)
Definition dihedral_tables (structure : Structure.t)
  (dihedrals : list (nat * nat * nat * nat))
  (use_rb_torsions use_dihedrals : bool)
  : Py.result (list nat * dihedral_table) :=
  if nonempty dihedrals then
    if use_rb_torsions then
      let keys := map rb_torsion_key_of (Structure.rb_torsions structure) in
      let unique_dihedral_types := enumerate_set keys in
      dihedral_types <- lookup_all unique_dihedral_types keys ;;
      Py.ret (dihedral_types, OplsDihedrals unique_dihedral_types)
    else if use_dihedrals then
      charmm_dihedrals <- charmm_dihedrals_of structure ;;
      let unique_dihedral_types := enumerate_set charmm_dihedrals in
      dihedral_types <- lookup_all unique_dihedral_types charmm_dihedrals ;;
      Py.ret (dihedral_types, CharmmDihedrals unique_dihedral_types)
    else Py.ret ([], OplsDihedrals [])
  else Py.ret ([], OplsDihedrals []).

(** Lines 263-272. *)
Definition improper_tables (structure : Structure.t)
  : Py.result (list nat * Py.dict improper_key nat) :=
  if nonempty (Structure.impropers structure) then
    let keys := map improper_key_of (Structure.impropers structure) in
    let unique_improper_types := enumerate_set keys in
    improper_types <- lookup_all unique_improper_types keys ;;
    Py.ret (improper_types, unique_improper_types)
  else Py.ret ([], []).

(** Lines 64-272: everything before the file is opened. *)
Definition prepare (structure : Structure.t) (cfg : config)
  : Py.result locals :=
  if bool_decide (atom_style cfg ∈ ["atomic"; "charge"; "molecular"; "full"])
  then
    let atoms := Structure.atoms structure in
    let xyz := map (fun atom => (Atom.xx atom, Atom.xy atom, Atom.xz atom))
                   atoms in
    first <- Py.getitem atoms 0 ;;
    let forcefield := negb (String.eqb (Atom.type first) "") in
    let '(lx, ly, lz) := fst (Structure.box structure) in
    let box := Box.of_lengths (0.1 * lx, 0.1 * ly, 0.1 * lz)%Q
                              (snd (Structure.box structure)) in
    let types := if forcefield then map Atom.type atoms
                 else map Atom.name atoms in
    let unique_types := unique_types_of types in
    let charges := map Atom.charge atoms in
    let '(use_urey_bradleys, use_rb_torsions, use_dihedrals) :=
      detect_styles structure cfg in
    if (use_rb_torsions && use_dihedrals)%bool
    then Py.raise multiple_dihedral_styles
    else
      let bonds :=
        map (fun bond => (Atom.idx (Bond.atom1 bond) + 1,
                          Atom.idx (Bond.atom2 bond) + 1))
            (Structure.bonds structure) in
      let angles :=
        map (fun angle => (Atom.idx (Angle.atom1 angle) + 1,
                           Atom.idx (Angle.atom2 angle) + 1,
                           Atom.idx (Angle.atom3 angle) + 1))
            (Structure.angles structure) in
      let dihedrals :=
        if use_rb_torsions then
          map (fun dihedral => (Atom.idx (RBTorsion.atom1 dihedral) + 1,
                                Atom.idx (RBTorsion.atom2 dihedral) + 1,
                                Atom.idx (RBTorsion.atom3 dihedral) + 1,
                                Atom.idx (RBTorsion.atom4 dihedral) + 1))
              (Structure.rb_torsions structure)
        else if use_dihedrals then
          map (fun dihedral => (Atom.idx (Dihedral.atom1 dihedral) + 1,
                                Atom.idx (Dihedral.atom2 dihedral) + 1,
                                Atom.idx (Dihedral.atom3 dihedral) + 1,
                                Atom.idx (Dihedral.atom4 dihedral) + 1))
              (Structure.dihedrals structure)
        else [] in
      let impropers :=
        map (fun improper => (Atom.idx (Improper.atom1 improper) + 1,
                              Atom.idx (Improper.atom2 improper) + 1,
                              Atom.idx (Improper.atom3 improper) + 1,
                              Atom.idx (Improper.atom4 improper) + 1))
            (Structure.impropers structure) in
      bt <- bond_tables structure ;;
      agt <- angle_tables structure use_urey_bradleys ;;
      dt <- dihedral_tables structure dihedrals
                            use_rb_torsions use_dihedrals ;;
      it <- improper_tables structure ;;
      Py.ret
        {| xyz := xyz; forcefield := forcefield; box := box;
           types := types; unique_types := unique_types;
           charges := charges;
           urey_bradleys_used := use_urey_bradleys;
           rb_torsions_used := use_rb_torsions;
           dihedrals_used := use_dihedrals;
           bonds := bonds; angles := angles;
           dihedrals := dihedrals; impropers := impropers;
           bond_types := fst bt; unique_bond_types := snd bt;
           angle_types := fst agt; unique_angle_types := snd agt;
           dihedral_types := fst dt; unique_dihedral_types := snd dt;
           improper_types := fst it; unique_improper_types := snd it |}
  else Py.raise (invalid_atom_style (atom_style cfg)).

(** *** The file *)

(** An argument of a format string. *)
Inductive value : Type :=
| Int (z : Z)
| Float (q : Q)
| Real (r : R)
| NpFloat (x : Np.npfloat)
| Str (s : string).

(** One call [data.write(format.format(args))]; the format is the literal
    of the source, escapes as written there. *)
Record write_call : Type := Write { format : string; args : list value }.

Definition IntN (n : nat) : value := Int (Z.of_nat n).

(** What a part of the writer leaves behind: the calls it made, and whether
    it ran to its end or raised. *)
Definition emitted : Type := list write_call * Py.result unit.

Definition wrote (calls : list write_call) : emitted := (calls, Py.ret tt).
Definition failed (e : Py.exn) : emitted := ([], Py.raise e).

Definition and_then (first second : emitted) : emitted :=
  match snd first with
  | inl _ => first
  | inr _ => (fst first ++ fst second, snd second)
  end.

(** A value is computed, then used; nothing is written if it raises. *)
Definition computing {A} (m : Py.result A) (k : A -> emitted) : emitted :=
  match m with
  | inl e => failed e
  | inr a => k a
  end.

(** [for x in l: data.write(f(x))]: the loop stops where [f] raises, the
    earlier calls stay. *)
Fixpoint write_each {A} (f : A -> Py.result write_call) (l : list A)
  : emitted :=
  match l with
  | [] => wrote []
  | x :: l' =>
      match f x with
      | inl e => failed e
      | inr call => and_then (wrote [call]) (write_each f l')
      end
  end.

Notation "a ;;; b" := (and_then a b)
  (at level 61, left associativity, only parsing).

(** Lines 275-295. *)
Definition header (structure : Structure.t) (cfg : config) (v : locals)
  : list write_call :=
  [ Write "{} - created by mBuild\n\n" [Str (filename cfg)];
    Write "{:d} atoms\n" [IntN (length (Structure.atoms structure))] ]
  ++ (if bonded_style (atom_style cfg) then
        [ Write "{:d} bonds\n" [IntN (length (bonds v))];
          Write "{:d} angles\n" [IntN (length (angles v))];
          Write "{:d} dihedrals\n" [IntN (length (dihedrals v))];
          Write "{:d} impropers\n\n" [IntN (length (impropers v))] ]
      else [])
  ++ [ Write "{:d} atom types\n"
         [IntN (length (set_iter string _ (types v)))] ]
  ++ (if bonded_style (atom_style cfg) then
        (if nonempty (bonds v) then
           [ Write "{:d} bond types\n"
               [IntN (length (set_iter nat _ (bond_types v)))] ]
         else [])
        ++ (if nonempty (angles v) then
              [ Write "{:d} angle types\n"
                  [IntN (length (set_iter nat _ (angle_types v)))] ]
            else [])
        ++ (if nonempty (dihedrals v) then
              [ Write "{:d} dihedral types\n"
                  [IntN (length (set_iter nat _ (dihedral_types v)))] ]
            else [])
        ++ (if nonempty (impropers v) then
              [ Write "{:d} improper types\n"
                  [IntN (length (set_iter nat _ (improper_types v)))] ]
            else [])
      else [])
  ++ [ Write "\n" [] ].

(** The triclinic cell of lines 304-324: the tilt factors, and the bounds
    of the three axes. *)
Record triclinic : Type := mk_triclinic
  { tilt_xy : Np.npfloat; tilt_xz : Np.npfloat; tilt_yz : Np.npfloat;
    cell_ly : Np.npfloat; cell_lz : Np.npfloat;
    xlo_bound : Np.npfloat; xhi_bound : Np.npfloat;
    ylo_bound : Np.npfloat; yhi_bound : Np.npfloat;
    zlo_bound : Np.npfloat; zhi_bound : Np.npfloat }.

Definition triclinic_cell (box : Box.t) : triclinic :=
  let '(la, lb, lc) := Box.lengths box in
  let a := Np.of_Q (10 * la) in
  let b := Np.of_Q (10 * lb) in
  let c := Np.of_Q (10 * lc) in
  let '(alpha_deg, beta_deg, gamma_deg) := Box.angles box in
  let alpha := Np.radians alpha_deg in
  let beta := Np.radians beta_deg in
  let gamma := Np.radians gamma_deg in
  let lx := a in
  let xy := Np.mul b (Np.cos gamma) in
  let xz := Np.mul c (Np.cos beta) in
  let ly := Np.sqrt (Np.sub (Np.square b) (Np.square xy)) in
  let yz := Np.div (Np.sub (Np.mul (Np.mul b c) (Np.cos alpha))
                           (Np.mul xy xz)) ly in
  let lz := Np.sqrt (Np.sub (Np.sub (Np.square c) (Np.square xz))
                            (Np.square yz)) in
  let '(mx, my, mz) := Box.mins box in
  let xlo := Np.of_Q (10 * mx) in
  let ylo := Np.of_Q (10 * my) in
  let zlo := Np.of_Q (10 * mz) in
  let xhi := Np.add xlo lx in
  let yhi := Np.add ylo ly in
  let zhi := Np.add zlo lz in
  {| tilt_xy := xy; tilt_xz := xz; tilt_yz := yz;
     cell_ly := ly; cell_lz := lz;
     xlo_bound := Np.add xlo (Np.min (Np.Fin 0) [xy; xz; Np.add xy xz]);
     xhi_bound := Np.add xhi (Np.max (Np.Fin 0) [xy; xz; Np.add xy xz]);
     ylo_bound := Np.add ylo (Np.min (Np.Fin 0) [yz]);
     yhi_bound := Np.add yhi (Np.max (Np.Fin 0) [yz]);
     zlo_bound := zlo;
     zhi_bound := zhi |}.

(** Lines 297-333. *)
Definition box_section (box : Box.t) : list write_call :=
  if Np.allclose (Box.angles box) (90, 90, 90)%Q then
    let '(mx, my, mz) := Box.mins box in
    let '(Mx, My, Mz) := Box.maxs box in
    map (fun lohi : Q * Q * string =>
           Write "{0:.6f} {1:.6f} {2}lo {2}hi\n"
                 [Float (10 * fst (fst lohi)); Float (10 * snd (fst lohi));
                  Str (snd lohi)])
        [(mx, Mx, "x"); (my, My, "y"); (mz, Mz, "z")]
  else
    let cell := triclinic_cell box in
    [ Write "{0:.6f} {1:.6f} xlo xhi\n"
        [NpFloat (xlo_bound cell); NpFloat (xhi_bound cell)];
      Write "{0:.6f} {1:.6f} ylo yhi\n"
        [NpFloat (ylo_bound cell); NpFloat (yhi_bound cell)];
      Write "{0:.6f} {1:.6f} zlo zhi\n"
        [NpFloat (zlo_bound cell); NpFloat (zhi_bound cell)];
      Write "{0:.6f} {1:.6f} {2:6f} xy xz yz\n"
        [NpFloat (tilt_xy cell); NpFloat (tilt_xz cell);
         NpFloat (tilt_yz cell)] ].

(** [dict([(unique_types.index(atom_type)+1, x) for atom_type, x in
    zip(types, values)])], lines 337 and 348-350. *)
Definition by_type_id {V} (unique_types types : list string)
  (values : list V) : Py.result (Py.dict nat V) :=
  items <- Py.mapM
             (fun tv : string * V =>
                i <- Py.index (fst tv) unique_types ;;
                Py.ret (i + 1, snd tv))
             (zip types values) ;;
  Py.ret (Py.dict_of_list items).

(** Lines 336-341. *)
Definition masses_section (structure : Structure.t) (v : locals)
  : emitted :=
  let masses := map Atom.mass (Structure.atoms structure) in
  computing (by_type_id (unique_types v) (types v) masses) (fun mass_dict =>
    wrote [ Write "\nMasses\n\n" [] ] ;;;
    write_each
      (fun item : nat * Q =>
         label <- Py.getitem (unique_types v) (fst item - 1) ;;
         Py.ret (Write "{:d}\t{:.6f}\t# {}\n"
                       [IntN (fst item); Float (snd item); Str label]))
      mass_dict).

(** The value of [x ** 0.5]: complex when [x] is negative. *)
Inductive pynum : Type :=
| PyReal (r : R)
| PyComplex.

Definition pow_half (x : Q) : pynum :=
  if Qle_bool 0 x then PyReal (sqrt (Q2R x)) else PyComplex.

(** [round(x, ndigits)], which a complex number does not support. *)
Definition round_num (x : pynum) (ndigits : nat) : Py.result R :=
  match x with
  | PyReal r => Py.ret (Py.round_real r ndigits)
  | PyComplex => Py.raise Py.TypeError
  end.

(** Lines 358-365: the overrides under the sorted pair of their labels; a
    later one replaces an earlier one of the same sorted pair. *)
Definition sorted_nbfix_types (nbfix_types : list ((string * string) * (Q * Q)))
  : Py.dict (string * string) (Q * Q) :=
  fold_left
    (fun new_nbfix_types (item : (string * string) * (Q * Q)) =>
       Py.dict_set (Py.sorted_pair (fst (fst item)) (snd (fst item)))
                   (snd item) new_nbfix_types)
    nbfix_types [].

(** Lines 371-394: the body of the loop over the pairs of types. *)
Definition pair_coeff (structure : Structure.t)
  (unique_types : list string)
  (sigma_dict epsilon_dict : Py.dict nat Q)
  (nbfix_types : Py.dict (string * string) (Q * Q))
  (coeffs : Py.dict (nat * nat) (R * R)) (combo : string * string)
  : Py.result (Py.dict (nat * nat) (R * R)) :=
  match Py.dict_lookup combo nbfix_types with
  | Some (rmin, epsilon) =>
      i1 <- Py.index (fst combo) unique_types ;;
      i2 <- Py.index (snd combo) unique_types ;;
      let type1 := i1 + 1 in
      let type2 := i2 + 1 in
      let sigma := (Q2R rmin / Rpower 2 (1 / 6))%R in
      Py.ret (Py.dict_set (type1, type2)
                (Py.round_real sigma 8, Py.round_real (Q2R epsilon) 8)
                coeffs)
  | None =>
      i1 <- Py.index (fst combo) unique_types ;;
      i2 <- Py.index (snd combo) unique_types ;;
      let type1 := i1 + 1 in
      let type2 := i2 + 1 in
      se <-
        (if Nat.eqb type1 type2 then
           sigma <- Py.dict_get type1 sigma_dict ;;
           epsilon <- Py.dict_get type1 epsilon_dict ;;
           Py.ret (PyReal (Q2R sigma), PyReal (Q2R epsilon))
         else
           sigma <-
             (if String.eqb (Structure.combining_rule structure) "lorentz"
              then
                s1 <- Py.dict_get type1 sigma_dict ;;
                s2 <- Py.dict_get type2 sigma_dict ;;
                Py.ret (PyReal (Q2R ((s1 + s2) * 0.5)))
              else if String.eqb (Structure.combining_rule structure)
                                 "geometric"
              then
                s1 <- Py.dict_get type1 sigma_dict ;;
                s2 <- Py.dict_get type2 sigma_dict ;;
                Py.ret (pow_half (s1 * s2))
              else Py.raise unsupported_combining_rule) ;;
           e1 <- Py.dict_get type1 epsilon_dict ;;
           e2 <- Py.dict_get type2 epsilon_dict ;;
           Py.ret (sigma, pow_half (e1 * e2))) ;;
      sigma <- round_num (fst se) 8 ;;
      epsilon <- round_num (snd se) 8 ;;
      Py.ret (Py.dict_set (type1, type2) (sigma, epsilon) coeffs)
  end.

(** Lines 369-394: the table of pair coefficients, [(sigma, epsilon)] by
    pair of type IDs. *)
Definition pair_coeffs (structure : Structure.t)
  (unique_types : list string) (sigma_dict epsilon_dict : Py.dict nat Q)
  : Py.result (Py.dict (nat * nat) (R * R)) :=
  Py.foldM
    (pair_coeff structure unique_types sigma_dict epsilon_dict
                (sorted_nbfix_types (Structure.nbfix_types structure)))
    (Py.combinations_with_replacement_2 unique_types) [].

(** Lines 355-416: the pair coefficients. *)
Definition pair_section (structure : Structure.t) (cfg : config)
  (v : locals) (sigma_dict epsilon_dict : Py.dict nat Q)
  (forcefield_dict : Py.dict nat string) : emitted :=
  if Structure.has_NBFIX structure then
    computing
      (pair_coeffs structure (unique_types v) sigma_dict epsilon_dict)
      (fun coeffs =>
         if nbfix_in_data_file cfg then
           wrote [ Write "\nPairIJ Coeffs # modified lj\n" [];
                   Write "# type1 type2 \tepsilon (kcal/mol) \tsigma (Angstrom)\n" [] ] ;;;
           write_each
             (fun item : (nat * nat) * (R * R) =>
                let '((type1, type2), (sigma, epsilon)) := item in
                ff1 <- Py.dict_get type1 forcefield_dict ;;
                ff2 <- Py.dict_get type2 forcefield_dict ;;
                Py.ret (Write "{0} \t{1} \t{2} \t\t{3}\t\t# {4}\t{5}\n"
                              [IntN type1; IntN type2; Real epsilon;
                               Real sigma; Str ff1; Str ff2]))
             coeffs
         else
           wrote [ Write "\nPair Coeffs # lj\n\n" [] ] ;;;
           write_each
             (fun item : nat * Q =>
                sigma <- Py.dict_get (fst item) sigma_dict ;;
                Py.ret (Write "{}\t{:.5f}\t{:.5f}\n"
                              [IntN (fst item); Float (snd item);
                               Float sigma]))
             epsilon_dict ;;;
           (* the cross terms are printed, not written; the lookups of the
              [print] loop can still raise *)
           computing
             (Py.mapM
                (fun item : (nat * nat) * (R * R) =>
                   ff1 <- Py.dict_get (fst (fst item)) forcefield_dict ;;
                   ff2 <- Py.dict_get (snd (fst item)) forcefield_dict ;;
                   Py.ret (ff1, ff2))
                coeffs)
             (fun _ => wrote []))
  else
    wrote [ Write "\nPair Coeffs # lj \n" [];
            Write "#\tepsilon (kcal/mol)\t\tsigma (Angstrom)\n" [] ] ;;;
    write_each
      (fun item : nat * Q =>
         sigma <- Py.dict_get (fst item) sigma_dict ;;
         ff <- Py.dict_get (fst item) forcefield_dict ;;
         Py.ret (Write "{}\t{:.5f}\t\t{:.5f}\t\t# {}\n"
                       [IntN (fst item); Float (snd item); Float sigma;
                        Str ff]))
      epsilon_dict.

(** Lines 419-423. *)
Definition bond_coeffs_section (v : locals) : emitted :=
  if nonempty (bonds v) then
    wrote [ Write "\nBond Coeffs # harmonic\n" [];
            Write "#\tk(kcal/mol/angstrom^2)\t\treq(angstrom)\n" [] ] ;;;
    match unique_bond_types v with
    | None => failed (Py.UnboundLocalError "unique_bond_types")
    | Some table =>
        wrote
          (map (fun item : bond_key * nat =>
                  let '((k, req, (t1, t2)), idx) := item in
                  Write "{}\t{}\t\t{}\t\t# {}\t{}\n"
                        [IntN idx; Float k; Float req; Str t1; Str t2])
               table)
    end
  else wrote [].

(** Lines 426-438. *)
Definition angle_coeffs_section (v : locals) : emitted :=
  if nonempty (angles v) then
    match unique_angle_types v with
    | CharmmAngles table =>
        wrote
          ([ Write "\nAngle Coeffs # charmm\n" [];
             Write "#\tk(kcal/mol/rad^2)\t\ttheteq(deg)\tk(kcal/mol/angstrom^2)\treq(angstrom)\n" [] ]
           ++ map (fun item : charmm_angle_key * nat =>
                     let '((k, theteq, ub_k, ub_req, _), idx) := item in
                     Write "{}\t{}\t{:.5f}\t{:.5f}\t{:.5f}\n"
                           [IntN idx; Float k; Float theteq; Float ub_k;
                            Float ub_req])
                  table)
    | HarmonicAngles table =>
        wrote
          ([ Write "\nAngle Coeffs # harmonic\n" [];
             Write "#\tk(kcal/mol/rad^2)\t\ttheteq(deg)\n" [] ]
           ++ map (fun item : angle_key * nat =>
                     let '((k, theteq, vertex, (t1, t3)), idx) := item in
                     Write "{}\t{}\t\t{:.5f}\t# {}\t{}\t{}\n"
                           [IntN idx; Float k; Float theteq; Str t1;
                            Str vertex; Str t3])
                  table)
    end
  else wrote [].

(** Lines 441-465. *)
Definition dihedral_coeffs_section (v : locals) : emitted :=
  if nonempty (dihedrals v) then
    match unique_dihedral_types v with
    | OplsDihedrals table =>
        wrote
          ([ Write "\nDihedral Coeffs # opls\n" [];
             Write "#\tf1(kcal/mol)\tf2(kcal/mol)\tf3(kcal/mol)\tf4(kcal/mol)\n" [] ]
           ++ map (fun item : rb_torsion_key * nat =>
                     let '((c0, c1, c2, c3, c4, c5, _, _, t1, t2, t3, t4),
                           idx) := item in
                     let '(f1, f2, f3, f4) := RB_to_OPLS c0 c1 c2 c3 c4 c5 in
                     Write "{}\t{:.5f}\t{:.5f}\t\t{:.5f}\t\t{:.5f}\t# {}\t{}\t{}\t{}\n"
                           [IntN idx; Float f1; Float f2; Float f3; Float f4;
                            Str t1; Str t2; Str t3; Str t4])
                  table)
    | CharmmDihedrals table =>
        wrote
          ([ Write "\nDihedral Coeffs # charmm\n" [];
             Write "#k, n, phi, weight\n" [] ]
           ++ map (fun item : charmm_dihedral_key * nat =>
                     let '((k, n, phi, weight, _, _, t1, t2, t3, t4), idx) :=
                       item in
                     Write "{}\t{:.5f}\t{:d}\t{:d}\t{:.5f}\t# {}\t{}\t{}\t{}\n"
                           [IntN idx; Float k; Int n; Int phi; Float weight;
                            Str t1; Str t2; Str t3; Str t4])
                  table)
    end
  else wrote [].

(** Lines 468-475. *)
Definition improper_coeffs_section (v : locals) : emitted :=
  if nonempty (impropers v) then
    wrote
      ([ Write "\nImproper Coeffs # harmonic\n" [];
         Write "#k, psi\n" [] ]
       ++ map (fun item : improper_key * nat =>
                 let '((k, psi, t1, t2, t3, t4), idx) := item in
                 Write "{}\t{:.5f}\t{:.5f}\t# {}\t{}\t{}\t{}\n"
                       [IntN idx; Float k; Float psi;
                        Str t1; Str t2; Str t3; Str t4])
              (unique_improper_types v))
  else wrote [].

(** Lines 343-475: the coefficient sections, written only when the first
    atom has a type. *)
Definition forcefield_sections (structure : Structure.t) (cfg : config)
  (v : locals) : emitted :=
  if forcefield v then
    let atoms := Structure.atoms structure in
    computing (by_type_id (unique_types v) (types v)
                          (map Atom.epsilon atoms)) (fun epsilon_dict =>
    computing (by_type_id (unique_types v) (types v)
                          (map Atom.sigma atoms)) (fun sigma_dict =>
    computing (by_type_id (unique_types v) (types v)
                          (map Atom.type atoms)) (fun forcefield_dict =>
      pair_section structure cfg v sigma_dict epsilon_dict forcefield_dict ;;;
      bond_coeffs_section v ;;;
      angle_coeffs_section v ;;;
      dihedral_coeffs_section v ;;;
      improper_coeffs_section v)))
  else wrote [].

(** Lines 478-492. *)
Definition atoms_section (cfg : config) (v : locals) : emitted :=
  wrote [ Write "\nAtoms\n\n" [] ] ;;;
  write_each
    (fun row : nat * (Q * Q * Q) =>
       let '(i, (x, y, z)) := row in
       atom_type <- Py.getitem (types v) i ;;
       type_index <- Py.index atom_type (unique_types v) ;;
       charge <- Py.getitem (charges v) i ;;
       Py.ret
         (if String.eqb (atom_style cfg) "atomic" then
            Write "{index:d}\t{type_index:d}\t{x:.6f}\t{y:.6f}\t{z:.6f}\n"
                  [IntN (i + 1); IntN (type_index + 1);
                   Float x; Float y; Float z]
          else if String.eqb (atom_style cfg) "charge" then
            Write "{index:d}\t{type_index:d}\t{charge:.6f}\t{x:.6f}\t{y:.6f}\t{z:.6f}\n"
                  [IntN (i + 1); IntN (type_index + 1); Float charge;
                   Float x; Float y; Float z]
          else if String.eqb (atom_style cfg) "molecular" then
            Write "{index:d}\t{zero:d}\t{type_index:d}\t{x:.6f}\t{y:.6f}\t{z:.6f}\n"
                  [IntN (i + 1); IntN 0; IntN (type_index + 1);
                   Float x; Float y; Float z]
          else
            Write "{index:d}\t{zero:d}\t{type_index:d}\t{charge:.6f}\t{x:.6f}\t{y:.6f}\t{z:.6f}\n"
                  [IntN (i + 1); IntN 0; IntN (type_index + 1); Float charge;
                   Float x; Float y; Float z]))
    (Py.enumerate (xyz v)).

(** Lines 496-500. *)
Definition bonds_section (v : locals) : emitted :=
  if nonempty (bonds v) then
    wrote [ Write "\nBonds\n\n" [] ] ;;;
    write_each
      (fun row : nat * (nat * nat) =>
         let '(i, (a1, a2)) := row in
         ty <- Py.getitem (bond_types v) i ;;
         Py.ret (Write "{:d}\t{:d}\t{:d}\t{:d}\n"
                       [IntN (i + 1); IntN ty; IntN a1; IntN a2]))
      (Py.enumerate (bonds v))
  else wrote [].

(** Lines 503-507. *)
Definition angles_section (v : locals) : emitted :=
  if nonempty (angles v) then
    wrote [ Write "\nAngles\n\n" [] ] ;;;
    write_each
      (fun row : nat * (nat * nat * nat) =>
         let '(i, (a1, a2, a3)) := row in
         ty <- Py.getitem (angle_types v) i ;;
         Py.ret (Write "{:d}\t{:d}\t{:d}\t{:d}\t{:d}\n"
                       [IntN (i + 1); IntN ty; IntN a1; IntN a2; IntN a3]))
      (Py.enumerate (angles v))
  else wrote [].

(** Lines 510-515. *)
Definition dihedrals_section (v : locals) : emitted :=
  if nonempty (dihedrals v) then
    wrote [ Write "\nDihedrals\n\n" [] ] ;;;
    write_each
      (fun row : nat * (nat * nat * nat * nat) =>
         let '(i, (a1, a2, a3, a4)) := row in
         ty <- Py.getitem (dihedral_types v) i ;;
         Py.ret (Write "{:d}\t{:d}\t{:d}\t{:d}\t{:d}\t{:d}\n"
                       [IntN (i + 1); IntN ty;
                        IntN a1; IntN a2; IntN a3; IntN a4]))
      (Py.enumerate (dihedrals v))
  else wrote [].

(** Lines 517-522: the atoms of an improper are written in the order
    3, 2, 1, 4. *)
Definition impropers_section (v : locals) : emitted :=
  if nonempty (impropers v) then
    wrote [ Write "\nImpropers\n\n" [] ] ;;;
    write_each
      (fun row : nat * (nat * nat * nat * nat) =>
         let '(i, (a1, a2, a3, a4)) := row in
         ty <- Py.getitem (improper_types v) i ;;
         Py.ret (Write "{:d}\t{:d}\t{:d}\t{:d}\t{:d}\t{:d}\n"
                       [IntN (i + 1); IntN ty;
                        IntN a3; IntN a2; IntN a1; IntN a4]))
      (Py.enumerate (impropers v))
  else wrote [].

(** Lines 494-522. *)
Definition bonded_sections (cfg : config) (v : locals) : emitted :=
  if bonded_style (atom_style cfg) then
    bonds_section v ;;; angles_section v ;;;
    dihedrals_section v ;;; impropers_section v
  else wrote [].

(** Lines 274-522: the body of [with open(filename, 'w') as data]. *)
Definition write_file (structure : Structure.t) (cfg : config) (v : locals)
  : emitted :=
  wrote (header structure cfg v) ;;;
  wrote (box_section (box v)) ;;;
  masses_section structure v ;;;
  forcefield_sections structure cfg v ;;;
  atoms_section cfg v ;;;
  bonded_sections cfg v.

(** The effect of a call: the content of the file, [None] if the file was
    never opened, and how the call ended. *)
Record outcome : Type := mk_outcome
  { file : option (list write_call);
    ended : Py.result unit }.

Definition write_lammpsdata (structure : Structure.t) (cfg : config)
  : outcome :=
  match prepare structure cfg with
  | inl e => {| file := None; ended := inl e |}
  | inr v =>
      let out := write_file structure cfg v in
      {| file := Some (fst out); ended := snd out |}
  end.

(** The bytes written by a call. *)
Definition written (o : outcome) : list write_call :=
  match file o with
  | None => []
  | Some calls => calls
  end.

End Writer.

End Lammps.

(** * Specifications *)

Module Spec.

(** An item [(x, y)] of [enumerate] as the item [(y, x + 1)] of a type
    table. *)
Definition flip_item {K} (xy : nat * K) : K * nat := (snd xy, fst xy + 1).

(** What the claims ask of the type IDs of one category: [table] maps
    the distinct keys one-to-one onto [1..N], [ids] are the IDs of [keys]
    in order, and the count written in the header, [len(set(ids))], is
    [N], the number of distinct keys. *)
Definition type_ids_ok (set_iter : Py.set_order) {K} `{EqDecision K}
  (keys : list K) (table : Py.dict K nat) (ids : list nat) : Prop :=
  let N := length (remove_dups keys) in
  length table = N
  /\ (forall k1 k2 id,
        Py.dict_lookup k1 table = Some id ->
        Py.dict_lookup k2 table = Some id -> k1 = k2)
  /\ (forall id, 1 <= id <= N <->
                 exists k, k ∈ keys /\ Py.dict_lookup k table = Some id)
  /\ Forall2 (fun k id => Py.dict_lookup k table = Some id /\ 1 <= id <= N)
             keys ids
  /\ length (set_iter nat _ ids) = N.

End Spec.

Module ClaimSpec.

Import Lammps.

(** A count of the header: every call that gets as far as the header, with
    an atom style that carries bonded terms and locals for which the line
    applies, writes [label] with the count [n]. *)
Definition header_declares (set_iter : Py.set_order)
  (join_dihedrals : list Dihedral.t -> list Dihedral.t)
  (structure : Structure.t) (applies : locals -> Prop)
  (label : string) (n : nat) : Prop :=
  forall cfg v,
    prepare set_iter join_dihedrals structure cfg = inr v ->
    applies v ->
    bonded_style (atom_style cfg) = true ->
    Write label [IntN n] ∈ header set_iter structure cfg v.

(** An exception other than the one of the combining rule. *)
Definition other (e : Py.exn) : Prop := e <> unsupported_combining_rule.

(** Lines 121-141: both dihedral styles are in use, by detection or by the
    arguments. *)
Definition conflicting_dihedral_styles (structure : Structure.t)
  (cfg : config) : bool :=
  let '(_, use_rb_torsions, use_dihedrals) := detect_styles structure cfg in
  (use_rb_torsions && use_dihedrals)%bool.

(** What claim C10 asks of a write: if it is a record of the Bonds section
    its type ID is 1, and if it is the count of bond types the count is
    1. *)
Definition bond_type_is_1 (w : write_call) : Prop :=
  (format w = "{:d}\t{:d}\t{:d}\t{:d}\n" ->
   exists i a1 a2, args w = [i; Int 1; a1; a2])
  /\ (format w = "{:d} bond types\n" -> args w = [Int 1]).

End ClaimSpec.

(** * Example inputs *)

Module Examples.

Import Lammps.

(** [join_dihedrals] on a structure whose dihedrals already carry their
    lists of terms and have distinct atoms: nothing to join. *)
Definition no_join (dihedrals : list Dihedral.t) : list Dihedral.t :=
  dihedrals.

(** A stand-in for [RB_to_OPLS]; no example has RB torsions. *)
Definition rb_unused (c0 c1 c2 c3 c4 c5 : Q) : Q * Q * Q * Q :=
  (c0, c1, c2, c3).

Definition atom (idx : nat) (type : string) (sigma epsilon : Q) : Atom.t :=
  {| Atom.idx := idx; Atom.type := type; Atom.name := "X";
     Atom.charge := 0; Atom.mass := 12;
     Atom.xx := 0; Atom.xy := 0; Atom.xz := 0;
     Atom.epsilon := epsilon; Atom.sigma := sigma |}.

Definition cubic_box : (Q * Q * Q) * (Q * Q * Q) :=
  ((10, 10, 10), (90, 90, 90))%Q.

Definition empty_structure : Structure.t :=
  {| Structure.atoms := [];
     Structure.bonds := []; Structure.bond_types := [];
     Structure.angles := []; Structure.urey_bradleys := [];
     Structure.rb_torsions := []; Structure.dihedrals := [];
     Structure.impropers := [];
     Structure.box := cubic_box;
     Structure.combining_rule := "lorentz";
     Structure.has_NBFIX := false;
     Structure.nbfix_types := [] |}.

Definition with_atoms (atoms : list Atom.t) (s : Structure.t)
  : Structure.t :=
  {| Structure.atoms := atoms;
     Structure.bonds := Structure.bonds s;
     Structure.bond_types := Structure.bond_types s;
     Structure.angles := Structure.angles s;
     Structure.urey_bradleys := Structure.urey_bradleys s;
     Structure.rb_torsions := Structure.rb_torsions s;
     Structure.dihedrals := Structure.dihedrals s;
     Structure.impropers := Structure.impropers s;
     Structure.box := Structure.box s;
     Structure.combining_rule := Structure.combining_rule s;
     Structure.has_NBFIX := Structure.has_NBFIX s;
     Structure.nbfix_types := Structure.nbfix_types s |}.

Definition with_bonds (bonds : list Bond.t) (bond_types : list BondType.t)
  (s : Structure.t) : Structure.t :=
  {| Structure.atoms := Structure.atoms s;
     Structure.bonds := bonds;
     Structure.bond_types := bond_types;
     Structure.angles := Structure.angles s;
     Structure.urey_bradleys := Structure.urey_bradleys s;
     Structure.rb_torsions := Structure.rb_torsions s;
     Structure.dihedrals := Structure.dihedrals s;
     Structure.impropers := Structure.impropers s;
     Structure.box := Structure.box s;
     Structure.combining_rule := Structure.combining_rule s;
     Structure.has_NBFIX := Structure.has_NBFIX s;
     Structure.nbfix_types := Structure.nbfix_types s |}.

Definition with_dihedrals (rb_torsions : list RBTorsion.t)
  (dihedrals : list Dihedral.t) (s : Structure.t) : Structure.t :=
  {| Structure.atoms := Structure.atoms s;
     Structure.bonds := Structure.bonds s;
     Structure.bond_types := Structure.bond_types s;
     Structure.angles := Structure.angles s;
     Structure.urey_bradleys := Structure.urey_bradleys s;
     Structure.rb_torsions := rb_torsions;
     Structure.dihedrals := dihedrals;
     Structure.impropers := Structure.impropers s;
     Structure.box := Structure.box s;
     Structure.combining_rule := Structure.combining_rule s;
     Structure.has_NBFIX := Structure.has_NBFIX s;
     Structure.nbfix_types := Structure.nbfix_types s |}.

Definition with_box (box : (Q * Q * Q) * (Q * Q * Q)) (s : Structure.t)
  : Structure.t :=
  {| Structure.atoms := Structure.atoms s;
     Structure.bonds := Structure.bonds s;
     Structure.bond_types := Structure.bond_types s;
     Structure.angles := Structure.angles s;
     Structure.urey_bradleys := Structure.urey_bradleys s;
     Structure.rb_torsions := Structure.rb_torsions s;
     Structure.dihedrals := Structure.dihedrals s;
     Structure.impropers := Structure.impropers s;
     Structure.box := box;
     Structure.combining_rule := Structure.combining_rule s;
     Structure.has_NBFIX := Structure.has_NBFIX s;
     Structure.nbfix_types := Structure.nbfix_types s |}.

Definition with_nbfix (combining_rule : string)
  (nbfix_types : list ((string * string) * (Q * Q))) (s : Structure.t)
  : Structure.t :=
  {| Structure.atoms := Structure.atoms s;
     Structure.bonds := Structure.bonds s;
     Structure.bond_types := Structure.bond_types s;
     Structure.angles := Structure.angles s;
     Structure.urey_bradleys := Structure.urey_bradleys s;
     Structure.rb_torsions := Structure.rb_torsions s;
     Structure.dihedrals := Structure.dihedrals s;
     Structure.impropers := Structure.impropers s;
     Structure.box := Structure.box s;
     Structure.combining_rule := combining_rule;
     Structure.has_NBFIX := true;
     Structure.nbfix_types := nbfix_types |}.

(** Three atoms of three types, in a chain of two bonds with the same
    parameters. *)
Definition A0 : Atom.t := atom 0 "A" 1 1.
Definition B1 : Atom.t := atom 1 "B" 1 1.
Definition C2 : Atom.t := atom 2 "C" 1 1.
Definition D3 : Atom.t := atom 3 "D" 1 1.

Definition spring : BondType.t := {| BondType.k := 1; BondType.req := 1 |}.

Definition chain : Structure.t :=
  with_bonds
    [ {| Bond.atom1 := A0; Bond.atom2 := B1; Bond.type := Some spring |};
      {| Bond.atom1 := B1; Bond.atom2 := C2; Bond.type := Some spring |} ]
    [spring]
    (with_atoms [A0; B1; C2] empty_structure).

(** The same chain before a force field was applied: no atom types, no
    bond types. *)
Definition untyped_chain : Structure.t :=
  let a0 := atom 0 "" 0 0 in
  let a1 := atom 1 "" 0 0 in
  let a2 := atom 2 "" 0 0 in
  with_bonds
    [ {| Bond.atom1 := a0; Bond.atom2 := a1; Bond.type := None |};
      {| Bond.atom1 := a1; Bond.atom2 := a2; Bond.type := None |} ]
    []
    (with_atoms [a0; a1; a2] empty_structure).

(** The chain with typed atoms but without bond types. *)
Definition chain_without_bond_types : Structure.t :=
  with_bonds
    [ {| Bond.atom1 := A0; Bond.atom2 := B1; Bond.type := None |};
      {| Bond.atom1 := B1; Bond.atom2 := C2; Bond.type := None |} ]
    []
    (with_atoms [A0; B1; C2] empty_structure).

(** Four atoms with two multi-term dihedrals, the first of them flagged
    improper. *)
Definition cosine : DihedralType.t :=
  {| DihedralType.phi_k := 1; DihedralType.per := 2;
     DihedralType.phase := 180;
     DihedralType.scee := 1; DihedralType.scnb := 1 |}.

Definition two_dihedrals : Structure.t :=
  with_dihedrals []
    [ {| Dihedral.atom1 := A0; Dihedral.atom2 := B1; Dihedral.atom3 := C2;
         Dihedral.atom4 := D3; Dihedral.improper := true;
         Dihedral.type := [cosine] |};
      {| Dihedral.atom1 := D3; Dihedral.atom2 := C2; Dihedral.atom3 := B1;
         Dihedral.atom4 := A0; Dihedral.improper := false;
         Dihedral.type := [cosine] |} ]
    (with_atoms [A0; B1; C2; D3] empty_structure).

(** An angle A-B-C with a Urey-Bradley term between its end atoms, and the
    same term with its atoms in reversed order. *)
Definition bend : AngleType.t :=
  {| AngleType.k := 50; AngleType.theteq := 109.5 |}.

Definition angle_ABC : Angle.t :=
  {| Angle.atom1 := A0; Angle.atom2 := B1; Angle.atom3 := C2;
     Angle.type := bend |}.

Definition stretch : BondType.t :=
  {| BondType.k := 5.0004; BondType.req := 2.1 |}.

Definition ub_AC : UreyBradley.t :=
  {| UreyBradley.atom1 := A0; UreyBradley.atom2 := C2;
     UreyBradley.type := stretch |}.

Definition ub_CA : UreyBradley.t :=
  {| UreyBradley.atom1 := C2; UreyBradley.atom2 := A0;
     UreyBradley.type := stretch |}.

(** Three atom types, an override for the pair A-B only, and a combining
    rule that the writer does not know. *)
Definition unknown_rule : Structure.t :=
  with_nbfix "waldman-hagler" [(("A", "B"), (1.2, 2.1)%Q)]
             (with_atoms [A0; B1; C2] empty_structure).

(** Four atoms carrying both RB torsions and multi-term dihedrals. *)
Definition ryckaert : RBTorsionType.t :=
  {| RBTorsionType.c0 := 1; RBTorsionType.c1 := 2; RBTorsionType.c2 := 3;
     RBTorsionType.c3 := 4; RBTorsionType.c4 := 5; RBTorsionType.c5 := 6;
     RBTorsionType.scee := 1; RBTorsionType.scnb := 1 |}.

Definition both_dihedral_styles : Structure.t :=
  with_dihedrals
    [ {| RBTorsion.atom1 := A0; RBTorsion.atom2 := B1;
         RBTorsion.atom3 := C2; RBTorsion.atom4 := D3;
         RBTorsion.type := ryckaert |} ]
    [ {| Dihedral.atom1 := A0; Dihedral.atom2 := B1; Dihedral.atom3 := C2;
         Dihedral.atom4 := D3; Dihedral.improper := false;
         Dihedral.type := [cosine] |} ]
    (with_atoms [A0; B1; C2; D3] empty_structure).

Definition style (atom_style : string) : config :=
  {| filename := "out.lammps";
     atom_style := atom_style;
     detect_forcefield_style := true;
     nbfix_in_data_file := true;
     use_urey_bradleys := false;
     use_rb_torsions := true;
     use_dihedrals := false |}.

(** A cell that does not exist: the angles alpha = beta = 0 and
    gamma = 90 degrees give lz^2 = -100. *)
Definition impossible_cell : Structure.t :=
  with_box ((10, 10, 10), (0, 0, 90))%Q chain.

(** Its box, as the writer holds it: lengths in nm. *)
Definition impossible_box : Box.t :=
  Box.of_lengths (0.1 * 10, 0.1 * 10, 0.1 * 10)%Q (0, 0, 90)%Q.

(** A cell with one angle of 90.0005 degrees. *)
Definition nearly_cubic : Box.t :=
  Box.of_lengths (1, 1, 1)%Q (90.0005, 90, 90)%Q.

(** The cell of the triclinic test of the repository. *)
Definition sheared : Box.t :=
  Box.of_lengths (2, 2, 2)%Q (60, 70, 80)%Q.

(** Two atom types with the Lennard-Jones parameters of the mixing-rule
    example, an override elsewhere in the force field switched on, none
    for this pair. *)
Definition two_types : Structure.t :=
  with_nbfix "lorentz" []
    (with_atoms [atom 0 "A" 3.5 0.066; atom 1 "B" 2.5 0.030]
                empty_structure).

(** The same two atoms under the type labels C2 and C10, with an override
    for the pair. *)
Definition natural_order : Structure.t :=
  with_nbfix "lorentz" [(("C2", "C10"), (1.2, 2.1)%Q)]
    (with_atoms [atom 0 "C2" 3.5 0.066; atom 1 "C10" 2.5 0.030]
                empty_structure).

(** And under the labels of the test of the repository, where the override
    is found. *)
Definition opls_types : Structure.t :=
  with_nbfix "lorentz"
    [(("opls_135", "opls_140"), (1.2, 2.1)%Q);
     (("opls_140", "opls_135"), (1.2, 2.1)%Q)]
    (with_atoms [atom 0 "opls_135" 3.5 0.066; atom 1 "opls_140" 2.5 0.030]
                empty_structure).

End Examples.

(** * The box of the specification *)

Module BoxSpec.

(** The formulas of the specification for a triclinic cell, over the real
    numbers: lengths [a], [b], [c] in the unit of the file, angles
    [alpha], [beta], [gamma] in radians. *)
Definition tenfold (q : Q) : R := Q2R (10 * q).

Definition a (box : Box.t) : R := tenfold (fst (fst (Box.lengths box))).
Definition b (box : Box.t) : R := tenfold (snd (fst (Box.lengths box))).
Definition c (box : Box.t) : R := tenfold (snd (Box.lengths box)).

Definition radians (deg : Q) : R := Q2R deg * PI / 180.

Definition alpha (box : Box.t) : R := radians (fst (fst (Box.angles box))).
Definition beta (box : Box.t) : R := radians (snd (fst (Box.angles box))).
Definition gamma (box : Box.t) : R := radians (snd (Box.angles box)).

Definition xlo (box : Box.t) : R := tenfold (fst (fst (Box.mins box))).
Definition ylo (box : Box.t) : R := tenfold (snd (fst (Box.mins box))).
Definition zlo (box : Box.t) : R := tenfold (snd (Box.mins box)).

(** [xy = b cos gamma], [xz = c cos beta]. *)
Definition xy (box : Box.t) : R := b box * cos (gamma box).
Definition xz (box : Box.t) : R := c box * cos (beta box).

(** [ly = sqrt(b^2 - xy^2)], [yz = (b c cos alpha - xy xz) / ly]. *)
Definition ly_squared (box : Box.t) : R := b box * b box - xy box * xy box.
Definition ly (box : Box.t) : R := sqrt (ly_squared box).
Definition yz (box : Box.t) : R :=
  (b box * c box * cos (alpha box) - xy box * xz box) / ly box.

(** [lz = sqrt(c^2 - xz^2 - yz^2)]. *)
Definition lz_squared (box : Box.t) : R :=
  c box * c box - xz box * xz box - yz box * yz box.

(** The tolerance of [np.allclose] around 90 degrees. *)
Definition tolerance : Q := Np.atol + Np.rtol * 90.

(** Every angle is 90 degrees within the tolerance. *)
Definition orthogonal (box : Box.t) : Prop :=
  (Qabs (fst (fst (Box.angles box)) - 90) <= tolerance
   /\ Qabs (snd (fst (Box.angles box)) - 90) <= tolerance
   /\ Qabs (snd (Box.angles box) - 90) <= tolerance)%Q.

End BoxSpec.

(** * The pair coefficients of the specification *)

Module PairSpec.

(** One step of a loop that sets the item [key c := val c] of a dict. *)
Definition set_item {C K V} `{EqDecision K} (key : C -> K) (val : C -> V)
  (d : Py.dict K V) (c : C) : Py.dict K V :=
  Py.dict_set (key c) (val c) d.

(** The parameter of an atom type: that of the last atom of the type. *)
Definition type_param {V} (f : Atom.t -> V) (atoms : list Atom.t)
  (t : string) : option V :=
  fold_left (fun acc atom => if decide (Atom.type atom = t)
                             then Some (f atom) else acc)
            atoms None.

Definition sigma_of (atoms : list Atom.t) (t : string) : Q :=
  default 0%Q (type_param Atom.sigma atoms t).
Definition epsilon_of (atoms : list Atom.t) (t : string) : Q :=
  default 0%Q (type_param Atom.epsilon atoms t).

(** The ID of an atom type: its position in the list of types, from 1. *)
Definition type_id (unique_types : list string) (t : string) : nat :=
  match Py.index_from 0 t unique_types with
  | Some i => i + 1
  | None => 0
  end.

(** The combining rules: "lorentz" takes the arithmetic mean of sigma,
    "geometric" the geometric mean; both the geometric mean of epsilon. *)
Definition mixed (rule : string) (s1 e1 s2 e2 : Q) : R * R :=
  ((if String.eqb rule "lorentz" then (Q2R s1 + Q2R s2) / 2
    else sqrt (Q2R s1 * Q2R s2))%R,
   sqrt (Q2R e1 * Q2R e2)).

(** An explicit override: [sigma = rmin / 2^(1/6)], epsilon as given. *)
Definition override (rmin epsilon : Q) : R * R :=
  ((Q2R rmin / Rpower 2 (1 / 6))%R, Q2R epsilon).

(** Both coefficients rounded to eight places. *)
Definition rounded (se : R * R) : R * R :=
  (Py.round_real (fst se) 8, Py.round_real (snd se) 8).

(** The coefficients [(sigma, epsilon)] of a pair of types, given the
    table of overrides that the writer looks the pair up in. *)
Definition pair_value (structure : Structure.t) (combo : string * string)
  : R * R :=
  let atoms := Structure.atoms structure in
  rounded
    match Py.dict_lookup combo
            (Lammps.sorted_nbfix_types (Structure.nbfix_types structure))
    with
    | Some (rmin, epsilon) => override rmin epsilon
    | None =>
        if decide (fst combo = snd combo)
        then (Q2R (sigma_of atoms (fst combo)),
              Q2R (epsilon_of atoms (fst combo)))
        else mixed (Structure.combining_rule structure)
                   (sigma_of atoms (fst combo)) (epsilon_of atoms (fst combo))
                   (sigma_of atoms (snd combo)) (epsilon_of atoms (snd combo))
    end.

(** The ID pair of a pair of types. *)
Definition pair_key (unique_types : list string) (combo : string * string)
  : nat * nat :=
  (type_id unique_types (fst combo), type_id unique_types (snd combo)).

End PairSpec.

(** * The records of the file *)

Module Records.

Import Lammps.

(** [atom_style in ['charge', 'full']]: the styles whose atom line carries
    the charge (lines 481-486). *)
Definition charged_style (atom_style : string) : bool :=
  bool_decide (atom_style ∈ ["charge"; "full"]).

(** The label an atom is typed by: its type with a force field, its name
    without (lines 108-111). *)
Definition label (forcefield : bool) (atom : Atom.t) : string :=
  if forcefield then Atom.type atom else Atom.name atom.

(** The fields of the line of the atom at position [i] of the structure,
    whose label is at position [k] of the sorted list of labels: the
    molecule ID 0 in the styles molecular and full, the charge in the
    styles charge and full (lines 479-492). *)
Definition atom_args (atom_style : string) (i k : nat) (atom : Atom.t)
  : list value :=
  [IntN (i + 1)]
  ++ (if bonded_style atom_style then [IntN 0] else [])
  ++ [IntN (k + 1)]
  ++ (if charged_style atom_style then [Float (Atom.charge atom)] else [])
  ++ [Float (Atom.xx atom); Float (Atom.xy atom); Float (Atom.xz atom)].

(** The number of keys that lines 246-257 make of a list of dihedrals:
    one per term of every dihedral that is not flagged improper. *)
Definition charmm_terms (dihedrals : list Dihedral.t) : nat :=
  list_sum
    (map (fun dihedral =>
            if Dihedral.improper dihedral then 0
            else length (Dihedral.type dihedral))
         dihedrals).

(** The formats of the writes, by the part of the writer that makes them:
    the parts that every file has (header, box, Masses, Atoms); *)
Definition general_formats : list string :=
  [ "{} - created by mBuild\n\n"; "{:d} atoms\n"; "{:d} atom types\n"; "\n";
    "{0:.6f} {1:.6f} {2}lo {2}hi\n";
    "{0:.6f} {1:.6f} xlo xhi\n"; "{0:.6f} {1:.6f} ylo yhi\n";
    "{0:.6f} {1:.6f} zlo zhi\n"; "{0:.6f} {1:.6f} {2:6f} xy xz yz\n";
    "\nMasses\n\n"; "{:d}\t{:.6f}\t# {}\n";
    "\nAtoms\n\n";
    "{index:d}\t{type_index:d}\t{x:.6f}\t{y:.6f}\t{z:.6f}\n";
    "{index:d}\t{type_index:d}\t{charge:.6f}\t{x:.6f}\t{y:.6f}\t{z:.6f}\n";
    "{index:d}\t{zero:d}\t{type_index:d}\t{x:.6f}\t{y:.6f}\t{z:.6f}\n";
    "{index:d}\t{zero:d}\t{type_index:d}\t{charge:.6f}\t{x:.6f}\t{y:.6f}\t{z:.6f}\n" ].

(** the counts and the records of the bonded terms (lines 277-292 and
    494-522); *)
Definition bonded_formats : list string :=
  [ "{:d} bonds\n"; "{:d} angles\n"; "{:d} dihedrals\n";
    "{:d} impropers\n\n";
    "{:d} bond types\n"; "{:d} angle types\n"; "{:d} dihedral types\n";
    "{:d} improper types\n";
    "\nBonds\n\n"; "{:d}\t{:d}\t{:d}\t{:d}\n";
    "\nAngles\n\n"; "{:d}\t{:d}\t{:d}\t{:d}\t{:d}\n";
    "\nDihedrals\n\n"; "\nImpropers\n\n";
    "{:d}\t{:d}\t{:d}\t{:d}\t{:d}\t{:d}\n" ].

(** the pair coefficients, by [has_NBFIX()] and [nbfix_in_data_file]
    (lines 395-416); *)
Definition pair_formats (has_NBFIX nbfix_in_data_file : bool)
  : list string :=
  if has_NBFIX then
    if nbfix_in_data_file then
      [ "\nPairIJ Coeffs # modified lj\n";
        "# type1 type2 \tepsilon (kcal/mol) \tsigma (Angstrom)\n";
        "{0} \t{1} \t{2} \t\t{3}\t\t# {4}\t{5}\n" ]
    else
      [ "\nPair Coeffs # lj\n\n"; "{}\t{:.5f}\t{:.5f}\n" ]
  else
    [ "\nPair Coeffs # lj \n";
      "#\tepsilon (kcal/mol)\t\tsigma (Angstrom)\n";
      "{}\t{:.5f}\t\t{:.5f}\t\t# {}\n" ].

(** and the coefficients of the bonded terms (lines 419-475). *)
Definition bonded_coeffs_formats : list string :=
  [ "\nBond Coeffs # harmonic\n";
    "#\tk(kcal/mol/angstrom^2)\t\treq(angstrom)\n";
    "{}\t{}\t\t{}\t\t# {}\t{}\n";
    "\nAngle Coeffs # charmm\n";
    "#\tk(kcal/mol/rad^2)\t\ttheteq(deg)\tk(kcal/mol/angstrom^2)\treq(angstrom)\n";
    "{}\t{}\t{:.5f}\t{:.5f}\t{:.5f}\n";
    "\nAngle Coeffs # harmonic\n";
    "#\tk(kcal/mol/rad^2)\t\ttheteq(deg)\n";
    "{}\t{}\t\t{:.5f}\t# {}\t{}\t{}\n";
    "\nDihedral Coeffs # opls\n";
    "#\tf1(kcal/mol)\tf2(kcal/mol)\tf3(kcal/mol)\tf4(kcal/mol)\n";
    "{}\t{:.5f}\t{:.5f}\t\t{:.5f}\t\t{:.5f}\t# {}\t{}\t{}\t{}\n";
    "\nDihedral Coeffs # charmm\n"; "#k, n, phi, weight\n";
    "{}\t{:.5f}\t{:d}\t{:d}\t{:.5f}\t# {}\t{}\t{}\t{}\n";
    "\nImproper Coeffs # harmonic\n"; "#k, psi\n";
    "{}\t{:.5f}\t{:.5f}\t# {}\t{}\t{}\t{}\n" ].

(** The formats that a call can write: the bonded terms only in the
    styles molecular and full, the coefficients only with a force
    field. *)
Definition file_formats (bonded forcefield has_NBFIX nbfix_in_data_file : bool)
  : list string :=
  general_formats
  ++ (if bonded then bonded_formats else [])
  ++ (if forcefield
      then pair_formats has_NBFIX nbfix_in_data_file
           ++ bonded_coeffs_formats
      else []).

End Records.

(** * More example inputs *)

Module Samples.

Import Lammps.

(** A fifth atom, of type A again and heavier than the first. *)
Definition heavy_A : Atom.t :=
  {| Atom.idx := 4; Atom.type := "A"; Atom.name := "X";
     Atom.charge := 0.5; Atom.mass := 13;
     Atom.xx := 1; Atom.xy := 2; Atom.xz := 3;
     Atom.epsilon := 1; Atom.sigma := 1 |}.

Definition twist : ImproperType.t :=
  {| ImproperType.psi_k := 1; ImproperType.psi_eq := 0 |}.

(** Five atoms of four types with three bonds, an angle, an RB torsion and
    an improper. *)
Definition molecule : Structure.t :=
  {| Structure.atoms :=
       [Examples.A0; Examples.B1; Examples.C2; Examples.D3; heavy_A];
     Structure.bonds :=
       [ {| Bond.atom1 := Examples.A0; Bond.atom2 := Examples.B1;
            Bond.type := Some Examples.spring |};
         {| Bond.atom1 := Examples.B1; Bond.atom2 := Examples.C2;
            Bond.type := Some Examples.spring |};
         {| Bond.atom1 := Examples.C2; Bond.atom2 := Examples.D3;
            Bond.type := Some Examples.spring |} ];
     Structure.bond_types := [Examples.spring];
     Structure.angles := [Examples.angle_ABC];
     Structure.urey_bradleys := [];
     Structure.rb_torsions :=
       [ {| RBTorsion.atom1 := Examples.A0; RBTorsion.atom2 := Examples.B1;
            RBTorsion.atom3 := Examples.C2; RBTorsion.atom4 := Examples.D3;
            RBTorsion.type := Examples.ryckaert |} ];
     Structure.dihedrals := [];
     Structure.impropers :=
       [ {| Improper.atom1 := Examples.A0; Improper.atom2 := Examples.B1;
            Improper.atom3 := Examples.C2; Improper.atom4 := Examples.D3;
            Improper.type := twist |} ];
     Structure.box := Examples.cubic_box;
     Structure.combining_rule := "lorentz";
     Structure.has_NBFIX := false;
     Structure.nbfix_types := [] |}.

(** The angle A-B-C with the Urey-Bradley term between its end atoms. *)
Definition bent : Structure.t :=
  {| Structure.atoms := [Examples.A0; Examples.B1; Examples.C2];
     Structure.bonds := [];
     Structure.bond_types := [];
     Structure.angles := [Examples.angle_ABC];
     Structure.urey_bradleys := [Examples.ub_AC];
     Structure.rb_torsions := [];
     Structure.dihedrals := [];
     Structure.impropers := [];
     Structure.box := Examples.cubic_box;
     Structure.combining_rule := "lorentz";
     Structure.has_NBFIX := false;
     Structure.nbfix_types := [] |}.

End Samples.

(** * Properties *)

(** Finds a call in a list that evaluates to its elements. *)
Ltac find_call := vm_compute; repeat first [left | right].
Ltac find_call_lazy := lazy; repeat first [left | right].

(** Evaluates the rationals under [Q2R] and turns them into quotients of
    integers. *)
Ltac eval_Q2R :=
  repeat match goal with
         | |- context [Q2R ?q] =>
             let q' := eval vm_compute in q in
             progress change (Q2R q) with (Q2R q')
         end;
  unfold Q2R; cbn [Qnum Qden].

(** ** Python built-ins *)

Module PyFacts.

Section Dicts.
Context {K V : Type} `{EqDecision K}.

Lemma dict_set_fresh (k : K) (v : V) (d : Py.dict K V) :
  k ∉ map fst d -> Py.dict_set k v d = d ++ [(k, v)].
Proof.
  induction d as [|[k' v'] d IH]; simpl; intros Hk; [reflexivity|].
  apply not_elem_of_cons in Hk as [Hne Hk].
  destruct (decide (k' = k)) as [->|_]; [congruence|].
  now rewrite IH.
Qed.

Lemma dict_fold_fresh (items d : Py.dict K V) :
  NoDup (map fst (d ++ items)) ->
  fold_left (fun d kv => Py.dict_set (fst kv) (snd kv) d) items d
  = d ++ items.
Proof.
  revert d; induction items as [|[k v] items IH]; intros d Hnd; simpl.
  - now rewrite app_nil_r.
  - rewrite dict_set_fresh.
    + rewrite IH; rewrite <- app_assoc; [reflexivity|exact Hnd].
    + rewrite map_app in Hnd. apply NoDup_app in Hnd as (_ & Hdis & _).
      intros Hin. apply (Hdis k Hin). simpl. left.
Qed.

(** A list of items with distinct keys is the dict it builds. *)
Lemma dict_of_list_nodup (items : list (K * V)) :
  NoDup (map fst items) -> Py.dict_of_list items = items.
Proof. intros Hnd. unfold Py.dict_of_list. now rewrite dict_fold_fresh. Qed.

Lemma dict_lookup_set_eq (k : K) (v : V) (d : Py.dict K V) :
  Py.dict_lookup k (Py.dict_set k v d) = Some v.
Proof.
  induction d as [|[k' v'] d IH]; simpl.
  - now rewrite decide_True.
  - destruct (decide (k' = k)) as [->|Hne]; simpl.
    + now rewrite decide_True.
    + now rewrite decide_False.
Qed.

Lemma dict_lookup_set_ne (k k0 : K) (v : V) (d : Py.dict K V) :
  k0 <> k -> Py.dict_lookup k (Py.dict_set k0 v d) = Py.dict_lookup k d.
Proof.
  intros Hne. induction d as [|[k' v'] d IH]; simpl.
  - now rewrite decide_False.
  - destruct (decide (k' = k0)) as [->|Hne']; simpl.
    + now rewrite !decide_False.
    + destruct (decide (k' = k)); [reflexivity|exact IH].
Qed.

Lemma dict_lookup_Some_elem (k : K) (v : V) (d : Py.dict K V) :
  Py.dict_lookup k d = Some v -> (k, v) ∈ d.
Proof.
  induction d as [|[k' v'] d IH]; simpl; [discriminate|].
  destruct (decide (k' = k)) as [->|_].
  - intros [= ->]. left.
  - intros Hl. right. now apply IH.
Qed.

Lemma dict_lookup_None_keys (k : K) (d : Py.dict K V) :
  Py.dict_lookup k d = None <-> k ∉ map fst d.
Proof.
  induction d as [|[k' v'] d IH]; simpl.
  - split; [intros _; apply not_elem_of_nil|reflexivity].
  - rewrite not_elem_of_cons. destruct (decide (k' = k)) as [->|Hne].
    + split; [discriminate|]. intros [Hk _]. congruence.
    + rewrite IH. split; [intros Hk; split; [congruence|exact Hk]|tauto].
Qed.

End Dicts.

Section Enumerate.
Context {K : Type} `{EqDecision K}.

Lemma enumerate_from_fst (i : nat) (l : list K) :
  map fst (Py.enumerate_from i l) = seq i (length l).
Proof. revert i; induction l; intros i; simpl; [|rewrite IHl]; reflexivity. Qed.

Lemma enumerate_from_flip_fst (i : nat) (l : list K) :
  map fst (map Spec.flip_item (Py.enumerate_from i l)) = l.
Proof. revert i; induction l; intros i; simpl; [|rewrite IHl]; reflexivity. Qed.

Lemma enumerate_from_length (i : nat) (l : list K) :
  length (Py.enumerate_from i l) = length l.
Proof. revert i; induction l; intros i; simpl; [|rewrite IHl]; reflexivity. Qed.

(** In the flipped enumeration of a duplicate-free list, a key is found at
    its position, counted from [i + 1]. *)
Lemma flipped_lookup (i : nat) (l : list K) (k : K) (n : nat) :
  NoDup l ->
  Py.dict_lookup k (map Spec.flip_item (Py.enumerate_from i l)) = Some n
  <-> exists j, l !! j = Some k /\ n = i + j + 1.
Proof.
  revert i; induction l as [|x l IH]; intros i Hnd; simpl.
  - split; [discriminate|]. intros (j & Hj & _). discriminate.
  - apply NoDup_cons in Hnd as [Hx Hnd].
    destruct (decide (x = k)) as [->|Hne].
    + split.
      * intros [= <-]. exists 0. split; [reflexivity|lia].
      * intros ([|j] & Hj & ->); [f_equal; lia|].
        simpl in Hj. exfalso. apply Hx.
        apply list_elem_of_lookup. now exists j.
    + rewrite (IH (S i) Hnd). split.
      * intros (j & Hj & ->). exists (S j). split; [exact Hj|lia].
      * intros ([|j] & Hj & ->); simpl in Hj; [congruence|].
        exists j. split; [exact Hj|lia].
Qed.

End Enumerate.

(** *** The two set orders of the model are set orders *)

Section SetOrders.
Context {K : Type} `{EqDecision K}.

Lemma first_occurrences_elem (seen l : list K) (x : K) :
  x ∈ Py.first_occurrences seen l <-> x ∈ l /\ x ∉ seen.
Proof.
  revert seen; induction l as [|y l IH]; intros seen; simpl.
  - split; [intros Hx; inversion Hx|intros [Hx _]; inversion Hx].
  - destruct (decide (y ∈ seen)) as [Hy|Hy].
    + rewrite IH, elem_of_cons. split; [tauto|].
      intros [[->|Hx] Hs]; [contradiction|tauto].
    + rewrite elem_of_cons, IH, not_elem_of_cons, elem_of_cons. split.
      * intros [->|(Hx & Hne & Hs)]; tauto.
      * intros [[->|Hx] Hs]; [tauto|].
        destruct (decide (x = y)); [tauto|right; tauto].
Qed.

Lemma first_occurrences_NoDup (seen l : list K) :
  NoDup (Py.first_occurrences seen l).
Proof.
  revert seen; induction l as [|y l IH]; intros seen; simpl.
  - constructor.
  - destruct (decide (y ∈ seen)); [apply IH|].
    apply NoDup_cons. split; [|apply IH].
    rewrite first_occurrences_elem, not_elem_of_cons. tauto.
Qed.

End SetOrders.

Lemma insertion_order_ok : Py.set_order_ok Py.insertion_order.
Proof.
  intros K H l. unfold Py.insertion_order. split.
  - apply first_occurrences_NoDup.
  - intros x. rewrite first_occurrences_elem. split; [tauto|].
    intros Hx. split; [exact Hx|apply not_elem_of_nil].
Qed.

Lemma reverse_order_ok : Py.set_order_ok Py.reverse_order.
Proof.
  intros K H l. unfold Py.reverse_order.
  destruct (insertion_order_ok K H l) as [Hnd Hel].
  unfold Py.insertion_order in Hnd, Hel.
  rewrite rev_alt. change (rev_append ?l []) with (reverse l). split.
  - now rewrite reverse_Permutation.
  - intros x. now rewrite elem_of_reverse.
Qed.

End PyFacts.

(** ** The type canonicaliser *)

Module Canonicaliser.

Section TypeIds.
Variable set_iter : Py.set_order.
Hypothesis set_iter_ok : Py.set_order_ok set_iter.

Lemma set_iter_NoDup {A} `{EqDecision A} (l : list A) :
  NoDup (set_iter A _ l).
Proof. apply set_iter_ok. Qed.

Lemma set_iter_elem {A} `{EqDecision A} (l : list A) (x : A) :
  x ∈ set_iter A _ l <-> x ∈ l.
Proof. apply set_iter_ok. Qed.

Context {K : Type} `{EqDecision K}.

(** The table lists the keys in set order, numbered from 1. *)
Lemma enumerate_set_eq (keys : list K) :
  Lammps.enumerate_set set_iter keys
  = map Spec.flip_item (Py.enumerate (set_iter K _ keys)).
Proof.
  unfold Lammps.enumerate_set, Py.enumerate.
  rewrite (PyFacts.dict_of_list_nodup (Py.enumerate_from 0 _)).
  - apply PyFacts.dict_of_list_nodup.
    rewrite PyFacts.enumerate_from_flip_fst. apply set_iter_NoDup.
  - rewrite PyFacts.enumerate_from_fst. apply NoDup_seq.
Qed.

Lemma table_lookup (keys : list K) (k : K) (n : nat) :
  Py.dict_lookup k (Lammps.enumerate_set set_iter keys) = Some n
  <-> exists j, set_iter K _ keys !! j = Some k /\ n = j + 1.
Proof.
  rewrite enumerate_set_eq. unfold Py.enumerate.
  rewrite PyFacts.flipped_lookup by apply set_iter_NoDup. reflexivity.
Qed.

Lemma table_length (keys : list K) :
  length (Lammps.enumerate_set set_iter keys) = length (set_iter K _ keys).
Proof.
  rewrite enumerate_set_eq. unfold Py.enumerate.
  now rewrite length_map, PyFacts.enumerate_from_length.
Qed.

(** A set has as many elements as the list has distinct ones. *)
Lemma distinct_count (keys : list K) :
  length (set_iter K _ keys) = length (remove_dups keys).
Proof.
  apply Permutation_length, NoDup_Permutation.
  - apply set_iter_NoDup.
  - apply NoDup_remove_dups.
  - intros x. rewrite elem_of_remove_dups. apply set_iter_elem.
Qed.

Lemma table_lookup_range (keys : list K) (k : K) (n : nat) :
  Py.dict_lookup k (Lammps.enumerate_set set_iter keys) = Some n ->
  k ∈ keys /\ 1 <= n <= length (remove_dups keys).
Proof.
  rewrite table_lookup. intros (j & Hj & ->). split.
  - apply set_iter_elem. apply list_elem_of_lookup. now exists j.
  - apply lookup_lt_Some in Hj. rewrite distinct_count in Hj. lia.
Qed.

Lemma table_lookup_total (keys : list K) (k : K) :
  k ∈ keys ->
  exists n, Py.dict_lookup k (Lammps.enumerate_set set_iter keys) = Some n.
Proof.
  intros Hk. apply set_iter_elem in Hk.
  apply list_elem_of_lookup in Hk as [j Hj].
  exists (j + 1). apply table_lookup. now exists j.
Qed.

(** Every lookup of a key of the list succeeds. *)
Lemma lookup_all_total (keys sub : list K) :
  (forall k, k ∈ sub -> k ∈ keys) ->
  exists ids,
    Lammps.lookup_all (Lammps.enumerate_set set_iter keys) sub = inr ids
    /\ Forall2
         (fun k id =>
            Py.dict_lookup k (Lammps.enumerate_set set_iter keys) = Some id
            /\ 1 <= id <= length (remove_dups keys))
         sub ids.
Proof.
  induction sub as [|k sub IH]; intros Hsub.
  - exists []. split; [reflexivity|constructor].
  - destruct IH as (ids & Hids & Hall).
    { intros k' Hk'. apply Hsub. now right. }
    destruct (table_lookup_total keys k) as [n Hn]; [apply Hsub; left|].
    exists (n :: ids). split.
    + unfold Lammps.lookup_all in *. simpl. unfold Py.dict_get at 1.
      rewrite Hn. simpl. rewrite Hids. reflexivity.
    + constructor; [|exact Hall]. split; [exact Hn|].
      now apply table_lookup_range in Hn.
Qed.

(** The IDs in use are exactly [1..N]. *)
Lemma ids_in_use (keys : list K) (ids : list nat) :
  Forall2
    (fun k id =>
       Py.dict_lookup k (Lammps.enumerate_set set_iter keys) = Some id
       /\ 1 <= id <= length (remove_dups keys))
    keys ids ->
  length (set_iter nat _ ids) = length (remove_dups keys).
Proof.
  intros Hall.
  rewrite <- (length_seq (length (remove_dups keys)) 1).
  apply Permutation_length, NoDup_Permutation.
  - apply set_iter_NoDup.
  - apply NoDup_seq.
  - intros id. rewrite elem_of_seq, set_iter_elem. split.
    + intros Hid. apply list_elem_of_lookup in Hid as [i Hi].
      destruct (Forall2_lookup_r _ _ _ _ _ Hall Hi) as (k & _ & _ & Hr). lia.
    + intros Hid.
      assert (Hj : id - 1 < length (set_iter K _ keys))
        by (rewrite distinct_count; lia).
      apply lookup_lt_is_Some in Hj; destruct Hj as [k Hk].
      assert (Hin : k ∈ keys).
      { apply set_iter_elem. apply list_elem_of_lookup. now exists (id - 1). }
      apply list_elem_of_lookup in Hin as [i Hi].
      destruct (Forall2_lookup_l _ _ _ _ _ Hall Hi) as (id' & Hid' & Hl & _).
      apply table_lookup in Hl as (j & Hj & ->).
      assert (j = id - 1).
      { eapply NoDup_lookup; [apply (set_iter_NoDup keys)|exact Hj|exact Hk]. }
      subst j. replace (id - 1 + 1) with id in Hid' by lia.
      apply list_elem_of_lookup. now exists i.
Qed.

(** The table built from a list of keys, and the IDs looked up for it. *)
Lemma enumerate_set_ok (keys : list K) :
  exists ids,
    Lammps.lookup_all (Lammps.enumerate_set set_iter keys) keys = inr ids
    /\ Spec.type_ids_ok set_iter keys
         (Lammps.enumerate_set set_iter keys) ids.
Proof.
  destruct (lookup_all_total keys keys) as (ids & Hids & Hall); [tauto|].
  exists ids. split; [exact Hids|]. unfold Spec.type_ids_ok.
  split; [|split; [|split; [|split]]].
  - now rewrite table_length, distinct_count.
  - intros k1 k2 id H1 H2.
    apply table_lookup in H1 as (j1 & Hj1 & ->).
    apply table_lookup in H2 as (j2 & Hj2 & Heq).
    assert (j1 = j2) by lia. subst j2. congruence.
  - intros id. split.
    + intros Hid.
      assert (Hj : id - 1 < length (set_iter K _ keys))
        by (rewrite distinct_count; lia).
      apply lookup_lt_is_Some in Hj; destruct Hj as [k Hk]. exists k. split.
      * apply set_iter_elem. apply list_elem_of_lookup. now exists (id - 1).
      * apply table_lookup. exists (id - 1). split; [exact Hk|lia].
    + intros (k & _ & Hk). now apply table_lookup_range in Hk.
  - exact Hall.
  - now apply ids_in_use.
Qed.

End TypeIds.

End Canonicaliser.

(** ** The stages of the writer *)

Module Stages.

Import Lammps.

Section Prepare.
Variable set_iter : Py.set_order.
Variable join_dihedrals : list Dihedral.t -> list Dihedral.t.

(** What [prepare] has done when it returns. *)
Lemma prepare_inv (structure : Structure.t) (cfg : config) (v : locals) :
  prepare set_iter join_dihedrals structure cfg = inr v ->
  atom_style cfg ∈ ["atomic"; "charge"; "molecular"; "full"]
  /\ (exists first, Structure.atoms structure !! 0 = Some first
        /\ forcefield v = negb (String.eqb (Atom.type first) ""))
  /\ types v = (if forcefield v then map Atom.type (Structure.atoms structure)
                else map Atom.name (Structure.atoms structure))
  /\ unique_types v = unique_types_of set_iter (types v)
  /\ detect_styles structure cfg
     = (urey_bradleys_used v, rb_torsions_used v, dihedrals_used v)
  /\ (rb_torsions_used v && dihedrals_used v)%bool = false
  /\ bonds v = map (fun bond => (Atom.idx (Bond.atom1 bond) + 1,
                                 Atom.idx (Bond.atom2 bond) + 1))
                   (Structure.bonds structure)
  /\ bond_tables set_iter structure
     = inr (bond_types v, unique_bond_types v)
  /\ angle_tables set_iter structure (urey_bradleys_used v)
     = inr (angle_types v, unique_angle_types v)
  /\ dihedral_tables set_iter join_dihedrals structure (dihedrals v)
       (rb_torsions_used v) (dihedrals_used v)
     = inr (dihedral_types v, unique_dihedral_types v)
  /\ improper_tables set_iter structure
     = inr (improper_types v, unique_improper_types v)
  /\ length (angles v) = length (Structure.angles structure)
  /\ length (impropers v) = length (Structure.impropers structure)
  /\ box v = Box.of_lengths
               (0.1 * fst (fst (fst (Structure.box structure))),
                0.1 * snd (fst (fst (Structure.box structure))),
                0.1 * snd (fst (Structure.box structure)))%Q
               (snd (Structure.box structure))
  /\ nonempty (dihedrals v)
     = (if rb_torsions_used v then nonempty (Structure.rb_torsions structure)
        else if dihedrals_used v then nonempty (Structure.dihedrals structure)
        else false)
  /\ xyz v = map (fun atom => (Atom.xx atom, Atom.xy atom, Atom.xz atom))
                 (Structure.atoms structure)
  /\ charges v = map Atom.charge (Structure.atoms structure).
Proof.
  unfold prepare. case_bool_decide as Hstyle; [|discriminate].
  destruct (Structure.atoms structure) as [|first atoms] eqn:Hatoms;
    [discriminate|]. cbn [Py.getitem lookup list_lookup Py.bind Py.ret].
  destruct (Structure.box structure) as [[[lx ly] lz] ang] eqn:Hbox.
  cbn [fst snd].
  destruct (detect_styles structure cfg) as [[ub rb] dih] eqn:Hdet.
  destruct (rb && dih)%bool eqn:Hconf; [discriminate|].
  destruct (bond_tables set_iter structure) as [?|[bts ubt]] eqn:Hb;
    [discriminate|].
  destruct (angle_tables set_iter structure ub) as [?|[ats uat]] eqn:Ha;
    [discriminate|].
  cbn [Py.bind].
  match goal with
  | |- context [dihedral_tables _ _ _ ?d _ _] => set (dihs := d)
  end.
  destruct (dihedral_tables set_iter join_dihedrals structure dihs rb dih)
    as [?|[dts udt]] eqn:Hd; [discriminate|].
  destruct (improper_tables set_iter structure) as [?|[its uit]] eqn:Hi;
    [discriminate|].
  cbn [Py.bind Py.ret fst snd]. intros [= <-]. cbn.
  rewrite ?length_map.
  assert (Hne : nonempty dihs
                = (if rb then nonempty (Structure.rb_torsions structure)
                   else if dih then nonempty (Structure.dihedrals structure)
                   else false)).
  { subst dihs. destruct rb; [|destruct dih];
      [destruct (Structure.rb_torsions structure)
      |destruct (Structure.dihedrals structure)|]; reflexivity. }
  repeat split; try reflexivity; try assumption.
  exists first. split; reflexivity.
Qed.

End Prepare.

End Stages.

(** ** Type IDs (claim C2) *)

Module TypeIds.

Import Lammps.

Section Categories.
Variable set_iter : Py.set_order.
Variable join_dihedrals : list Dihedral.t -> list Dihedral.t.
Hypothesis set_iter_ok : Py.set_order_ok set_iter.

Lemma nonempty_true {A} (l : list A) : l <> [] -> nonempty l = true.
Proof. destruct l; [congruence|reflexivity]. Qed.

Lemma nonempty_map {A B} (f : A -> B) (l : list A) :
  nonempty (map f l) = nonempty l.
Proof. destruct l; reflexivity. Qed.

Lemma nonempty_length {A B} (l : list A) (l' : list B) :
  length l = length l' -> nonempty l = nonempty l'.
Proof. destruct l, l'; simpl; congruence. Qed.

Lemma bond_type_ids (structure : Structure.t) (keys : list bond_key) :
  Structure.bonds structure <> [] ->
  Structure.bond_types structure <> [] ->
  Py.mapM bond_key_of (Structure.bonds structure) = inr keys ->
  exists ids table,
    bond_tables set_iter structure = inr (ids, Some table)
    /\ Spec.type_ids_ok set_iter keys table ids
    /\ ClaimSpec.header_declares set_iter join_dihedrals structure
         (fun _ => True) "{:d} bond types\n" (length (remove_dups keys)).
Proof.
  intros Hb Ht Hkeys.
  destruct (Canonicaliser.enumerate_set_ok set_iter set_iter_ok keys)
    as (ids & Hids & Hok).
  assert (Htab : bond_tables set_iter structure
                 = inr (ids, Some (enumerate_set set_iter keys))).
  { unfold bond_tables. rewrite (nonempty_true _ Hb).
    destruct (Structure.bond_types structure); [congruence|]. simpl.
    rewrite Hkeys. simpl. rewrite Hids. reflexivity. }
  exists ids, (enumerate_set set_iter keys).
  split; [exact Htab|]. split; [exact Hok|].
  intros cfg v Hv _ Hstyle.
  apply Stages.prepare_inv in Hv.
  destruct Hv as (_ & _ & _ & _ & _ & _ & Hbv & Hbt & _).
  rewrite Htab in Hbt. injection Hbt as Hty _.
  unfold header. rewrite Hstyle, Hbv, nonempty_map, (nonempty_true _ Hb).
  rewrite <- Hty. destruct Hok as (_ & _ & _ & _ & ->).
  set_solver.
Qed.

Lemma charmm_angle_type_ids (structure : Structure.t) :
  Structure.angles structure <> [] ->
  let keys := map (charmm_angle_key_of (Structure.urey_bradleys structure))
                  (Structure.angles structure) in
  exists ids table,
    angle_tables set_iter structure true = inr (ids, CharmmAngles table)
    /\ Spec.type_ids_ok set_iter keys table ids
    /\ ClaimSpec.header_declares set_iter join_dihedrals structure
         (fun v => urey_bradleys_used v = true)
         "{:d} angle types\n" (length (remove_dups keys)).
Proof.
  intros Ha keys.
  destruct (Canonicaliser.enumerate_set_ok set_iter set_iter_ok keys)
    as (ids & Hids & Hok).
  assert (Htab : angle_tables set_iter structure true
                 = inr (ids, CharmmAngles (enumerate_set set_iter keys))).
  { unfold angle_tables. rewrite (nonempty_true _ Ha). fold keys.
    rewrite Hids. reflexivity. }
  exists ids, (enumerate_set set_iter keys).
  split; [exact Htab|]. split; [exact Hok|].
  intros cfg v Hv Hub Hstyle.
  apply Stages.prepare_inv in Hv.
  destruct Hv as (_ & _ & _ & _ & _ & _ & _ & _ & Hat & _ & _ & Hlen & _).
  rewrite Hub, Htab in Hat. injection Hat as Hty _.
  unfold header.
  rewrite Hstyle, (nonempty_length _ _ Hlen), (nonempty_true _ Ha).
  rewrite <- Hty. destruct Hok as (_ & _ & _ & _ & ->).
  set_solver.
Qed.

Lemma harmonic_angle_type_ids (structure : Structure.t) :
  Structure.angles structure <> [] ->
  let keys := map angle_key_of (Structure.angles structure) in
  exists ids table,
    angle_tables set_iter structure false = inr (ids, HarmonicAngles table)
    /\ Spec.type_ids_ok set_iter keys table ids
    /\ ClaimSpec.header_declares set_iter join_dihedrals structure
         (fun v => urey_bradleys_used v = false)
         "{:d} angle types\n" (length (remove_dups keys)).
Proof.
  intros Ha keys.
  destruct (Canonicaliser.enumerate_set_ok set_iter set_iter_ok keys)
    as (ids & Hids & Hok).
  assert (Htab : angle_tables set_iter structure false
                 = inr (ids, HarmonicAngles (enumerate_set set_iter keys))).
  { unfold angle_tables. rewrite (nonempty_true _ Ha). fold keys.
    rewrite Hids. reflexivity. }
  exists ids, (enumerate_set set_iter keys).
  split; [exact Htab|]. split; [exact Hok|].
  intros cfg v Hv Hub Hstyle.
  apply Stages.prepare_inv in Hv.
  destruct Hv as (_ & _ & _ & _ & _ & _ & _ & _ & Hat & _ & _ & Hlen & _).
  rewrite Hub, Htab in Hat. injection Hat as Hty _.
  unfold header.
  rewrite Hstyle, (nonempty_length _ _ Hlen), (nonempty_true _ Ha).
  rewrite <- Hty. destruct Hok as (_ & _ & _ & _ & ->).
  set_solver.
Qed.

Lemma rb_torsion_type_ids (structure : Structure.t) :
  Structure.rb_torsions structure <> [] ->
  let keys := map rb_torsion_key_of (Structure.rb_torsions structure) in
  exists ids table,
    (forall dihedrals use_dihedrals,
        dihedrals <> [] ->
        dihedral_tables set_iter join_dihedrals structure dihedrals
                        true use_dihedrals
        = inr (ids, OplsDihedrals table))
    /\ Spec.type_ids_ok set_iter keys table ids
    /\ ClaimSpec.header_declares set_iter join_dihedrals structure
         (fun v => rb_torsions_used v = true)
         "{:d} dihedral types\n" (length (remove_dups keys)).
Proof.
  intros Hrb keys.
  destruct (Canonicaliser.enumerate_set_ok set_iter set_iter_ok keys)
    as (ids & Hids & Hok).
  assert (Htab : forall dihedrals use_dihedrals,
             dihedrals <> [] ->
             dihedral_tables set_iter join_dihedrals structure dihedrals
                             true use_dihedrals
             = inr (ids, OplsDihedrals (enumerate_set set_iter keys))).
  { intros dihedrals use_dihedrals Hd. unfold dihedral_tables.
    rewrite (nonempty_true _ Hd). fold keys. rewrite Hids. reflexivity. }
  exists ids, (enumerate_set set_iter keys).
  split; [exact Htab|]. split; [exact Hok|].
  intros cfg v Hv Hused Hstyle.
  apply Stages.prepare_inv in Hv.
  destruct Hv as (_ & _ & _ & _ & _ & _ & _ & _ & _ & Hdt & _ & _ & _ & _
                  & Hne & _).
  rewrite Hused, (nonempty_true _ Hrb) in Hne.
  assert (Hd : dihedrals v <> [])
    by (intros Heq; rewrite Heq in Hne; discriminate).
  rewrite Hused, (Htab _ _ Hd) in Hdt.
  injection Hdt as Hty _.
  unfold header. rewrite Hstyle, Hne.
  rewrite <- Hty. destruct Hok as (_ & _ & _ & _ & ->).
  set_solver.
Qed.

Lemma charmm_dihedral_type_ids (structure : Structure.t)
  (keys : list charmm_dihedral_key) :
  Structure.dihedrals structure <> [] ->
  charmm_dihedrals_of join_dihedrals structure = inr keys ->
  exists ids table,
    (forall dihedrals,
        dihedrals <> [] ->
        dihedral_tables set_iter join_dihedrals structure dihedrals
                        false true
        = inr (ids, CharmmDihedrals table))
    /\ Spec.type_ids_ok set_iter keys table ids
    /\ ClaimSpec.header_declares set_iter join_dihedrals structure
         (fun v => rb_torsions_used v = false /\ dihedrals_used v = true)
         "{:d} dihedral types\n" (length (remove_dups keys)).
Proof.
  intros Hdih Hkeys.
  destruct (Canonicaliser.enumerate_set_ok set_iter set_iter_ok keys)
    as (ids & Hids & Hok).
  assert (Htab : forall dihedrals,
             dihedrals <> [] ->
             dihedral_tables set_iter join_dihedrals structure dihedrals
                             false true
             = inr (ids, CharmmDihedrals (enumerate_set set_iter keys))).
  { intros dihedrals Hd. unfold dihedral_tables.
    rewrite (nonempty_true _ Hd), Hkeys. simpl. rewrite Hids. reflexivity. }
  exists ids, (enumerate_set set_iter keys).
  split; [exact Htab|]. split; [exact Hok|].
  intros cfg v Hv [Hrb Hused] Hstyle.
  apply Stages.prepare_inv in Hv.
  destruct Hv as (_ & _ & _ & _ & _ & _ & _ & _ & _ & Hdt & _ & _ & _ & _
                  & Hne & _).
  rewrite Hrb, Hused, (nonempty_true _ Hdih) in Hne.
  assert (Hd : dihedrals v <> [])
    by (intros Heq; rewrite Heq in Hne; discriminate).
  rewrite Hrb, Hused, (Htab _ Hd) in Hdt.
  injection Hdt as Hty _.
  unfold header. rewrite Hstyle, Hne.
  rewrite <- Hty. destruct Hok as (_ & _ & _ & _ & ->).
  set_solver.
Qed.

Lemma improper_type_ids (structure : Structure.t) :
  Structure.impropers structure <> [] ->
  let keys := map improper_key_of (Structure.impropers structure) in
  exists ids table,
    improper_tables set_iter structure = inr (ids, table)
    /\ Spec.type_ids_ok set_iter keys table ids
    /\ ClaimSpec.header_declares set_iter join_dihedrals structure
         (fun _ => True) "{:d} improper types\n" (length (remove_dups keys)).
Proof.
  intros Hi keys.
  destruct (Canonicaliser.enumerate_set_ok set_iter set_iter_ok keys)
    as (ids & Hids & Hok).
  assert (Htab : improper_tables set_iter structure
                 = inr (ids, enumerate_set set_iter keys)).
  { unfold improper_tables. rewrite (nonempty_true _ Hi). fold keys.
    rewrite Hids. reflexivity. }
  exists ids, (enumerate_set set_iter keys).
  split; [exact Htab|]. split; [exact Hok|].
  intros cfg v Hv _ Hstyle.
  apply Stages.prepare_inv in Hv.
  destruct Hv as (_ & _ & _ & _ & _ & _ & _ & _ & _ & _ & Hit & _ & Hlen & _).
  rewrite Htab in Hit. injection Hit as Hty _.
  unfold header.
  rewrite Hstyle, (nonempty_length _ _ Hlen), (nonempty_true _ Hi).
  rewrite <- Hty. destruct Hok as (_ & _ & _ & _ & ->).
  set_solver.
Qed.

End Categories.

End TypeIds.

Module TypeIdClaims.

Import Lammps.

(** Claim C2, as the code has it.  In every category with a non-empty
    instance list (for bonds: also a non-empty type table, and a type on
    every bond) the table of type IDs maps the distinct canonical keys
    one-to-one onto 1..N, every key of the category's key list resolves to
    exactly one ID in [1, N], and the count of types written in the header
    is N, the number of distinct canonical keys.  The key list has one key
    per bond, angle, RB torsion or improper; in multi-term mode it has one
    key per term of every joined dihedral that is not flagged improper. *)
Theorem type_ids_injective_onto_and_counted
  (set_iter : Py.set_order)
  (join_dihedrals : list Dihedral.t -> list Dihedral.t)
  (structure : Structure.t) :
  Py.set_order_ok set_iter ->
  (forall keys,
      Structure.bonds structure <> [] ->
      Structure.bond_types structure <> [] ->
      Py.mapM bond_key_of (Structure.bonds structure) = inr keys ->
      exists ids table,
        bond_tables set_iter structure = inr (ids, Some table)
        /\ Spec.type_ids_ok set_iter keys table ids
        /\ ClaimSpec.header_declares set_iter join_dihedrals structure
             (fun _ => True) "{:d} bond types\n"
             (length (remove_dups keys)))
  /\ (Structure.angles structure <> [] ->
      let keys :=
        map (charmm_angle_key_of (Structure.urey_bradleys structure))
            (Structure.angles structure) in
      exists ids table,
        angle_tables set_iter structure true = inr (ids, CharmmAngles table)
        /\ Spec.type_ids_ok set_iter keys table ids
        /\ ClaimSpec.header_declares set_iter join_dihedrals structure
             (fun v => urey_bradleys_used v = true)
             "{:d} angle types\n" (length (remove_dups keys)))
  /\ (Structure.angles structure <> [] ->
      let keys := map angle_key_of (Structure.angles structure) in
      exists ids table,
        angle_tables set_iter structure false
        = inr (ids, HarmonicAngles table)
        /\ Spec.type_ids_ok set_iter keys table ids
        /\ ClaimSpec.header_declares set_iter join_dihedrals structure
             (fun v => urey_bradleys_used v = false)
             "{:d} angle types\n" (length (remove_dups keys)))
  /\ (Structure.rb_torsions structure <> [] ->
      let keys := map rb_torsion_key_of (Structure.rb_torsions structure) in
      exists ids table,
        (forall dihedrals use_dihedrals,
            dihedrals <> [] ->
            dihedral_tables set_iter join_dihedrals structure dihedrals
                            true use_dihedrals
            = inr (ids, OplsDihedrals table))
        /\ Spec.type_ids_ok set_iter keys table ids
        /\ ClaimSpec.header_declares set_iter join_dihedrals structure
             (fun v => rb_torsions_used v = true)
             "{:d} dihedral types\n" (length (remove_dups keys)))
  /\ (forall keys,
      Structure.dihedrals structure <> [] ->
      charmm_dihedrals_of join_dihedrals structure = inr keys ->
      exists ids table,
        (forall dihedrals,
            dihedrals <> [] ->
            dihedral_tables set_iter join_dihedrals structure dihedrals
                            false true
            = inr (ids, CharmmDihedrals table))
        /\ Spec.type_ids_ok set_iter keys table ids
        /\ ClaimSpec.header_declares set_iter join_dihedrals structure
             (fun v => rb_torsions_used v = false /\ dihedrals_used v = true)
             "{:d} dihedral types\n" (length (remove_dups keys)))
  /\ (Structure.impropers structure <> [] ->
      let keys := map improper_key_of (Structure.impropers structure) in
      exists ids table,
        improper_tables set_iter structure = inr (ids, table)
        /\ Spec.type_ids_ok set_iter keys table ids
        /\ ClaimSpec.header_declares set_iter join_dihedrals structure
             (fun _ => True) "{:d} improper types\n"
             (length (remove_dups keys))).
Proof.
  intros Hok. repeat split.
  - intros keys. now apply TypeIds.bond_type_ids.
  - now apply TypeIds.charmm_angle_type_ids.
  - now apply TypeIds.harmonic_angle_type_ids.
  - now apply TypeIds.rb_torsion_type_ids.
  - intros keys. now apply TypeIds.charmm_dihedral_type_ids.
  - now apply TypeIds.improper_type_ids.
Qed.

(** The two bonds of the chain have two distinct keys; they get the IDs 1
    and 2, and the header of every bonded style says 2. *)
Lemma type_ids_of_the_chain :
  exists ids table,
    bond_tables Py.insertion_order Examples.chain = inr (ids, Some table)
    /\ Spec.type_ids_ok Py.insertion_order
         [(1.000, 1.000, ("A", "B")); (1.000, 1.000, ("B", "C"))]%Q
         table ids
    /\ ClaimSpec.header_declares Py.insertion_order Examples.no_join
         Examples.chain (fun _ => True) "{:d} bond types\n" 2.
Proof.
  destruct (type_ids_injective_onto_and_counted
              Py.insertion_order Examples.no_join Examples.chain
              PyFacts.insertion_order_ok) as [Hbonds _].
  apply (Hbonds [(1.000, 1.000, ("A", "B")); (1.000, 1.000, ("B", "C"))]%Q).
  - discriminate.
  - discriminate.
  - reflexivity.
Defined.

(** Claim C2 as stated fails for multi-term dihedrals.  The structure has
    two dihedrals, and the header declares one dihedral type; the one item
    of [dihedral_types] is the key of the second dihedral (the first is
    flagged improper and has no key), it is written as the type of the
    first dihedral, and the second dihedral has no ID: looking it up
    raises. *)
Lemma improper_flagged_dihedral_has_no_type_id :
  exists v,
    prepare Py.insertion_order Examples.no_join Examples.two_dihedrals
            (default_config "out.lammps")
    = inr v
    /\ dihedrals v = [(1, 2, 3, 4); (4, 3, 2, 1)]
    /\ dihedral_types v = [1]
    /\ Write "{:d} dihedral types\n" [Int 1]
       ∈ written (write_lammpsdata Py.insertion_order Examples.no_join
                    Examples.rb_unused Examples.two_dihedrals
                    (default_config "out.lammps"))
    /\ Write "{:d}\t{:d}\t{:d}\t{:d}\t{:d}\t{:d}\n"
             [Int 1; Int 1; Int 1; Int 2; Int 3; Int 4]
       ∈ written (write_lammpsdata Py.insertion_order Examples.no_join
                    Examples.rb_unused Examples.two_dihedrals
                    (default_config "out.lammps"))
    /\ Py.getitem (dihedral_types v) 1 = inl Py.IndexError
    /\ ended (write_lammpsdata Py.insertion_order Examples.no_join
                Examples.rb_unused Examples.two_dihedrals
                (default_config "out.lammps"))
       = inl Py.IndexError.
Proof.
  eexists. split; [vm_compute; reflexivity|].
  split; [reflexivity|]. split; [reflexivity|].
  split; [find_call|].
  split; [find_call|].
  split; reflexivity.
Qed.

End TypeIdClaims.

(** ** Determinism (claim C1) *)

Module Determinism.

Import Lammps.

(** Claim C1 fails on the code.  The type IDs of the bonded categories are
    assigned by enumerating a set (lines 173-177, 199-200, 205-210,
    219-230, 259-260, 264-268), and nothing fixes the order of that
    enumeration, unlike the atom types, which are sorted (line 114).  Both
    orders below are orders a set can have; on the chain of two bonds they
    give the two bonds, and the two lines of Bond Coeffs, opposite type
    IDs, so the two files differ. *)
Theorem set_iteration_order_changes_the_file :
  Py.set_order_ok Py.insertion_order
  /\ Py.set_order_ok Py.reverse_order
  /\ Write "{:d}\t{:d}\t{:d}\t{:d}\n" [Int 1; Int 1; Int 1; Int 2]
     ∈ written (write_lammpsdata Py.insertion_order Examples.no_join
                  Examples.rb_unused Examples.chain
                  (default_config "out.lammps"))
  /\ Write "{:d}\t{:d}\t{:d}\t{:d}\n" [Int 1; Int 2; Int 1; Int 2]
     ∈ written (write_lammpsdata Py.reverse_order Examples.no_join
                  Examples.rb_unused Examples.chain
                  (default_config "out.lammps"))
  /\ written (write_lammpsdata Py.insertion_order Examples.no_join
                Examples.rb_unused Examples.chain
                (default_config "out.lammps"))
     <> written (write_lammpsdata Py.reverse_order Examples.no_join
                   Examples.rb_unused Examples.chain
                   (default_config "out.lammps")).
Proof.
  split; [exact PyFacts.insertion_order_ok|].
  split; [exact PyFacts.reverse_order_ok|].
  split; [find_call|].
  split; [find_call|].
  intros Heq.
  apply (f_equal (fun calls : list write_call => args <$> calls !! 24)) in Heq.
  vm_compute in Heq. discriminate Heq.
Qed.

End Determinism.

(** ** Urey-Bradley angles (claim C9) *)

Module UreyBradleyKeys.

Import Lammps.

Lemma find_urey_bradley_no_match (angle : Angle.t)
  (urey_bradleys : list UreyBradley.t) (found : Q * Q) :
  (forall ub, ub ∈ urey_bradleys -> ub_matches angle ub = false) ->
  fold_left
    (fun (found : Q * Q) ub =>
       if ub_matches angle ub
       then (BondType.k (UreyBradley.type ub),
             BondType.req (UreyBradley.type ub))
       else found)
    urey_bradleys found
  = found.
Proof.
  revert found; induction urey_bradleys as [|ub ubs IH]; intros found Hno.
  - reflexivity.
  - simpl. rewrite (Hno ub) by left. apply IH.
    intros ub' Hub'. apply Hno. now right.
Qed.

(** The loop keeps the last term that matches. *)
Lemma find_urey_bradley_last (angle : Angle.t)
  (before after : list UreyBradley.t) (ub : UreyBradley.t) :
  ub_matches angle ub = true ->
  (forall ub', ub' ∈ after -> ub_matches angle ub' = false) ->
  find_urey_bradley angle (before ++ ub :: after)
  = (BondType.k (UreyBradley.type ub), BondType.req (UreyBradley.type ub)).
Proof.
  intros Hm Hafter. unfold find_urey_bradley.
  rewrite fold_left_app. simpl. rewrite Hm.
  now apply find_urey_bradley_no_match.
Qed.

(** Claim C9.  Under the Urey-Bradley style the key of an angle holds,
    rounded to three places, the [k] and [req] of the Urey-Bradley term
    whose two atoms are the first and the third atom of the angle, in this
    order (the last such term of the list, should there be several).  If no
    term matches in this order the two fields are zero; a term whose atoms
    are the end atoms of the angle in reversed order does not match. *)
Theorem charmm_angle_key_holds_the_matching_urey_bradley
  (angle : Angle.t) :
  (forall before after ub,
      ub_matches angle ub = true ->
      (forall ub', ub' ∈ after -> ub_matches angle ub' = false) ->
      charmm_angle_key_of (before ++ ub :: after) angle
      = (Py.round (AngleType.k (Angle.type angle)) 3,
         Py.round (AngleType.theteq (Angle.type angle)) 3,
         Py.round (BondType.k (UreyBradley.type ub)) 3,
         Py.round (BondType.req (UreyBradley.type ub)) 3,
         Py.sorted_pair (Atom.type (Angle.atom1 angle))
                        (Atom.type (Angle.atom3 angle))))
  /\ (forall urey_bradleys,
      (forall ub, ub ∈ urey_bradleys -> ub_matches angle ub = false) ->
      charmm_angle_key_of urey_bradleys angle
      = (Py.round (AngleType.k (Angle.type angle)) 3,
         Py.round (AngleType.theteq (Angle.type angle)) 3,
         0.000%Q, 0.000%Q,
         Py.sorted_pair (Atom.type (Angle.atom1 angle))
                        (Atom.type (Angle.atom3 angle))))
  /\ (forall ub,
      Atom.idx (Angle.atom1 angle) <> Atom.idx (Angle.atom3 angle) ->
      Atom.same (UreyBradley.atom1 ub) (Angle.atom3 angle) = true ->
      Atom.same (UreyBradley.atom2 ub) (Angle.atom1 angle) = true ->
      ub_matches angle ub = false).
Proof.
  split; [|split].
  - intros before after ub Hm Hafter. unfold charmm_angle_key_of.
    now rewrite (find_urey_bradley_last angle before after ub Hm Hafter).
  - intros urey_bradleys Hno. unfold charmm_angle_key_of, find_urey_bradley.
    now rewrite (find_urey_bradley_no_match angle urey_bradleys _ Hno).
  - intros ub Hne H1 H2. unfold ub_matches, Atom.same in *.
    apply Nat.eqb_eq in H1, H2. apply andb_false_iff. left.
    apply Nat.eqb_neq. congruence.
Qed.

(** On the angle A-B-C: the term A-C is found behind the reversed term
    C-A; the reversed term alone leaves the two fields at zero. *)
Lemma charmm_angle_key_of_ABC :
  charmm_angle_key_of [Examples.ub_CA; Examples.ub_AC] Examples.angle_ABC
  = (50.000, 109.500, 5.000, 2.100, ("A", "C"))%Q
  /\ charmm_angle_key_of [Examples.ub_CA] Examples.angle_ABC
     = (50.000, 109.500, 0.000, 0.000, ("A", "C"))%Q.
Proof.
  destruct (charmm_angle_key_holds_the_matching_urey_bradley
              Examples.angle_ABC) as (Hlast & Hnone & Hrev).
  split.
  - change [Examples.ub_CA; Examples.ub_AC]
      with ([Examples.ub_CA] ++ Examples.ub_AC :: []).
    rewrite Hlast.
    + reflexivity.
    + reflexivity.
    + intros ub' Hub'. inversion Hub'.
  - rewrite Hnone.
    + reflexivity.
    + intros ub Hub. apply list_elem_of_singleton in Hub as ->.
      apply Hrev; [discriminate|reflexivity|reflexivity].
Defined.

End UreyBradleyKeys.

(** ** Where the writer raises *)

Module Raises.

Import Lammps.

Lemma bind_inl {A B} (m : Py.result A) (k : A -> Py.result B) (e : Py.exn) :
  Py.bind m k = inl e -> m = inl e \/ exists a, m = inr a /\ k a = inl e.
Proof. destruct m as [e'|a]; simpl; [intros [= ->]; now left|eauto]. Qed.

Lemma mapM_inl {A B} (f : A -> Py.result B) (l : list A) (e : Py.exn) :
  Py.mapM f l = inl e -> exists x, x ∈ l /\ f x = inl e.
Proof.
  induction l as [|x l IH]; simpl; [discriminate|].
  intros Hb. apply bind_inl in Hb as [Hx|(y & _ & Hb)].
  - exists x. split; [left|exact Hx].
  - apply bind_inl in Hb as [Hl|(ys & _ & Hb)]; [|discriminate].
    destruct (IH Hl) as (x' & Hin & Hx'). exists x'. split; [now right|easy].
Qed.

Lemma and_then_inl (a b : emitted) (e : Py.exn) :
  snd (and_then a b) = inl e ->
  (snd a = inl e /\ and_then a b = a)
  \/ (snd a = inr tt /\ snd b = inl e
      /\ fst (and_then a b) = fst a ++ fst b).
Proof.
  destruct a as [wa [ea|[]]]; unfold and_then; simpl.
  - intros [= ->]. now left.
  - intros Hb. right. easy.
Qed.

Lemma and_then_inr (a b : emitted) :
  snd a = inr tt -> and_then a b = (fst a ++ fst b, snd b).
Proof. destruct a as [wa [ea|[]]]; unfold and_then; simpl; easy. Qed.

Lemma write_each_inl {A} (f : A -> Py.result write_call) (l : list A)
  (e : Py.exn) :
  snd (write_each f l) = inl e -> exists x, x ∈ l /\ f x = inl e.
Proof.
  induction l as [|x l IH]; simpl; [discriminate|].
  destruct (f x) as [e'|call] eqn:Hfx.
  - simpl. intros [= ->]. exists x. split; [left|exact Hfx].
  - unfold and_then. simpl. intros Hl.
    destruct (IH Hl) as (x' & Hin & Hx'). exists x'. split; [now right|easy].
Qed.

(** The exceptions of the look-ups. *)
Lemma index_inl {A} `{EqDecision A} (x : A) (l : list A) (e : Py.exn) :
  Py.index x l = inl e -> e = Py.ValueError "x is not in list".
Proof. unfold Py.index. destruct (Py.index_from 0 x l); now intros [=]. Qed.

Lemma getitem_inl {A} (l : list A) (i : nat) (e : Py.exn) :
  Py.getitem l i = inl e -> e = Py.IndexError.
Proof. unfold Py.getitem. destruct (l !! i); now intros [=]. Qed.

Lemma dict_get_inl {K V} `{EqDecision K} (k : K) (d : Py.dict K V)
  (e : Py.exn) :
  Py.dict_get k d = inl e -> e = Py.KeyError.
Proof. unfold Py.dict_get. destruct (Py.dict_lookup k d); now intros [=]. Qed.

Lemma index_other {A} `{EqDecision A} (x : A) (l : list A) (e : Py.exn) :
  Py.index x l = inl e -> ClaimSpec.other e.
Proof. intros He. apply index_inl in He as ->. discriminate. Qed.

Lemma getitem_other {A} (l : list A) (i : nat) (e : Py.exn) :
  Py.getitem l i = inl e -> ClaimSpec.other e.
Proof. intros He. apply getitem_inl in He as ->. discriminate. Qed.

Lemma dict_get_other {K V} `{EqDecision K} (k : K) (d : Py.dict K V)
  (e : Py.exn) :
  Py.dict_get k d = inl e -> ClaimSpec.other e.
Proof. intros He. apply dict_get_inl in He as ->. discriminate. Qed.

Lemma lookup_all_other {K} `{EqDecision K} (table : Py.dict K nat)
  (keys : list K) (e : Py.exn) :
  lookup_all table keys = inl e -> ClaimSpec.other e.
Proof.
  intros He. apply mapM_inl in He as (k & _ & He).
  now apply dict_get_other in He.
Qed.

Lemma by_type_id_other {V} (unique_types types : list string)
  (values : list V) (e : Py.exn) :
  by_type_id unique_types types values = inl e -> ClaimSpec.other e.
Proof.
  unfold by_type_id. intros He.
  apply bind_inl in He as [He|(? & _ & He)]; [|discriminate].
  apply mapM_inl in He as (tv & _ & He).
  apply bind_inl in He as [He|(? & _ & He)]; [|discriminate].
  now apply index_other in He.
Qed.

Section Sections.
Variable set_iter : Py.set_order.
Variable join_dihedrals : list Dihedral.t -> list Dihedral.t.
Variable RB_to_OPLS : Q -> Q -> Q -> Q -> Q -> Q -> Q * Q * Q * Q.

Lemma prepare_other (structure : Structure.t) (cfg : config) (e : Py.exn) :
  prepare set_iter join_dihedrals structure cfg = inl e -> ClaimSpec.other e.
Proof.
  unfold prepare. case_bool_decide; [|intros [= <-]; discriminate].
  intros He. apply bind_inl in He as [He|(first & _ & He)];
    [now apply getitem_other in He|].
  destruct (Structure.box structure) as [[[lx ly] lz] ang]. cbn [fst snd] in He.
  destruct (detect_styles structure cfg) as [[ub rb] dih].
  destruct (rb && dih)%bool; [injection He as <-; discriminate|].
  apply bind_inl in He as [He|(bt & _ & He)].
  { unfold bond_tables in He.
    destruct (nonempty (Structure.bonds structure)); [|discriminate].
    destruct (length (Structure.bond_types structure) =? 0); [discriminate|].
    apply bind_inl in He as [He|(keys & _ & He)].
    - apply mapM_inl in He as (bond & _ & He). unfold bond_key_of in He.
      destruct (Bond.type bond); [discriminate|].
      injection He as <-. discriminate.
    - apply bind_inl in He as [He|(? & _ & He)]; [|discriminate].
      now apply lookup_all_other in He. }
  apply bind_inl in He as [He|(agt & _ & He)].
  { unfold angle_tables in He.
    destruct (nonempty (Structure.angles structure)); [|discriminate].
    destruct ub;
      (apply bind_inl in He as [He|(? & _ & He)]; [|discriminate]);
      now apply lookup_all_other in He. }
  apply bind_inl in He as [He|(dt & _ & He)].
  { unfold dihedral_tables in He.
    match type of He with
    | (if nonempty ?d then _ else _) = _ => destruct (nonempty d)
    end; [|discriminate].
    destruct rb.
    - apply bind_inl in He as [He|(? & _ & He)]; [|discriminate].
      now apply lookup_all_other in He.
    - destruct dih; [|discriminate].
      apply bind_inl in He as [He|(keys & _ & He)].
      + unfold charmm_dihedrals_of in He.
        apply bind_inl in He as [He|(? & _ & He)]; [|discriminate].
        apply mapM_inl in He as (d & _ & He).
        unfold charmm_dihedral_keys_of in He.
        destruct (Dihedral.improper d); [discriminate|].
        destruct (Dihedral.type d); [|discriminate].
        injection He as <-. discriminate.
      + apply bind_inl in He as [He|(? & _ & He)]; [|discriminate].
        now apply lookup_all_other in He. }
  apply bind_inl in He as [He|(it & _ & He)]; [|discriminate].
  unfold improper_tables in He.
  destruct (nonempty (Structure.impropers structure)); [|discriminate].
  apply bind_inl in He as [He|(? & _ & He)]; [|discriminate].
  now apply lookup_all_other in He.
Qed.

Lemma masses_section_other (structure : Structure.t) (v : locals)
  (e : Py.exn) :
  snd (masses_section structure v) = inl e -> ClaimSpec.other e.
Proof.
  unfold masses_section, computing.
  destruct (by_type_id _ _ _) as [e'|mass_dict] eqn:Hd.
  - simpl. intros [= <-]. now apply by_type_id_other in Hd.
  - rewrite and_then_inr by reflexivity. simpl. intros He.
    apply write_each_inl in He as (item & _ & He).
    apply bind_inl in He as [He|(? & _ & He)]; [|discriminate].
    now apply getitem_other in He.
Qed.

Lemma atoms_section_other (cfg : config) (v : locals) (e : Py.exn) :
  snd (atoms_section cfg v) = inl e -> ClaimSpec.other e.
Proof.
  unfold atoms_section. rewrite and_then_inr by reflexivity. simpl.
  intros He. apply write_each_inl in He as ([i [[x y] z]] & _ & He).
  apply bind_inl in He as [He|(? & _ & He)];
    [now apply getitem_other in He|].
  apply bind_inl in He as [He|(? & _ & He)];
    [now apply index_other in He|].
  apply bind_inl in He as [He|(? & _ & He)];
    [now apply getitem_other in He|discriminate].
Qed.

Lemma bonded_sections_other (cfg : config) (v : locals) (e : Py.exn) :
  snd (bonded_sections cfg v) = inl e -> ClaimSpec.other e.
Proof.
  assert (Hb : forall e, snd (bonds_section v) = inl e -> ClaimSpec.other e).
  { intros e'. unfold bonds_section. destruct (nonempty (bonds v));
      [|discriminate].
    rewrite and_then_inr by reflexivity. simpl. intros He.
    apply write_each_inl in He as ([i [a1 a2]] & _ & He).
    apply bind_inl in He as [He|(? & _ & He)];
      [now apply getitem_other in He|discriminate]. }
  assert (Ha : forall e, snd (angles_section v) = inl e -> ClaimSpec.other e).
  { intros e'. unfold angles_section. destruct (nonempty (angles v));
      [|discriminate].
    rewrite and_then_inr by reflexivity. simpl. intros He.
    apply write_each_inl in He as ([i [[a1 a2] a3]] & _ & He).
    apply bind_inl in He as [He|(? & _ & He)];
      [now apply getitem_other in He|discriminate]. }
  assert (Hd : forall e, snd (dihedrals_section v) = inl e -> ClaimSpec.other e).
  { intros e'. unfold dihedrals_section. destruct (nonempty (dihedrals v));
      [|discriminate].
    rewrite and_then_inr by reflexivity. simpl. intros He.
    apply write_each_inl in He as ([i [[[a1 a2] a3] a4]] & _ & He).
    apply bind_inl in He as [He|(? & _ & He)];
      [now apply getitem_other in He|discriminate]. }
  assert (Hi : forall e, snd (impropers_section v) = inl e -> ClaimSpec.other e).
  { intros e'. unfold impropers_section. destruct (nonempty (impropers v));
      [|discriminate].
    rewrite and_then_inr by reflexivity. simpl. intros He.
    apply write_each_inl in He as ([i [[[a1 a2] a3] a4]] & _ & He).
    apply bind_inl in He as [He|(? & _ & He)];
      [now apply getitem_other in He|discriminate]. }
  unfold bonded_sections. destruct (bonded_style (atom_style cfg));
    [|discriminate].
  intros He.
  apply and_then_inl in He as [[He _]|(_ & He & _)]; [|now apply Hi].
  apply and_then_inl in He as [[He _]|(_ & He & _)]; [|now apply Hd].
  apply and_then_inl in He as [[He _]|(_ & He & _)]; [|now apply Ha].
  now apply Hb.
Qed.

End Sections.

End Raises.

(** ** Validation errors (claims C3 and C7) *)

Module Validation.

Import Lammps.

Section Writer.
Variable set_iter : Py.set_order.
Variable join_dihedrals : list Dihedral.t -> list Dihedral.t.
Variable RB_to_OPLS : Q -> Q -> Q -> Q -> Q -> Q -> Q * Q * Q * Q.

Lemma invalid_style_raises (structure : Structure.t) (cfg : config) :
  atom_style cfg ∉ ["atomic"; "charge"; "molecular"; "full"] ->
  write_lammpsdata set_iter join_dihedrals RB_to_OPLS structure cfg
  = {| file := None; ended := inl (invalid_atom_style (atom_style cfg)) |}.
Proof.
  intros Hstyle. unfold write_lammpsdata, prepare.
  now rewrite bool_decide_eq_false_2.
Qed.

Lemma conflicting_styles_raise (structure : Structure.t) (cfg : config) :
  atom_style cfg ∈ ["atomic"; "charge"; "molecular"; "full"] ->
  Structure.atoms structure <> [] ->
  ClaimSpec.conflicting_dihedral_styles structure cfg = true ->
  write_lammpsdata set_iter join_dihedrals RB_to_OPLS structure cfg
  = {| file := None; ended := inl multiple_dihedral_styles |}.
Proof.
  intros Hstyle Hatoms Hconf. unfold write_lammpsdata, prepare.
  rewrite bool_decide_eq_true_2 by exact Hstyle.
  destruct (Structure.atoms structure) as [|first atoms]; [congruence|].
  cbn [Py.getitem lookup list_lookup Py.bind Py.ret].
  destruct (Structure.box structure) as [[[lx ly] lz] ang]. cbn [fst snd].
  unfold ClaimSpec.conflicting_dihedral_styles in Hconf.
  destruct (detect_styles structure cfg) as [[ub rb] dih].
  now rewrite Hconf.
Qed.

Lemma pair_section_rule (structure : Structure.t) (cfg : config)
  (v : locals) (sigma_dict epsilon_dict : Py.dict nat Q)
  (forcefield_dict : Py.dict nat string) :
  snd (pair_section structure cfg v sigma_dict epsilon_dict forcefield_dict)
  = inl unsupported_combining_rule ->
  fst (pair_section structure cfg v sigma_dict epsilon_dict forcefield_dict)
  = []
  /\ Structure.has_NBFIX structure = true
  /\ pair_coeffs structure (unique_types v) sigma_dict epsilon_dict
     = inl unsupported_combining_rule.
Proof.
  unfold pair_section. destruct (Structure.has_NBFIX structure).
  - unfold computing. destruct (pair_coeffs _ _ _ _) as [e|coeffs].
    + simpl. intros [= ->]. easy.
    + intros He. exfalso. destruct (nbfix_in_data_file cfg).
      * rewrite Raises.and_then_inr in He by reflexivity. simpl in He.
        apply Raises.write_each_inl
          in He as ([[t1 t2] [sigma epsilon]] & _ & He).
        apply Raises.bind_inl in He as [He|(? & _ & He)];
          [now apply Raises.dict_get_other in He|].
        apply Raises.bind_inl in He as [He|(? & _ & He)];
          [now apply Raises.dict_get_other in He|discriminate].
      * apply Raises.and_then_inl in He as [[He _]|(_ & He & _)].
        -- rewrite Raises.and_then_inr in He by reflexivity. simpl in He.
           apply Raises.write_each_inl in He as (item & _ & He).
           apply Raises.bind_inl in He as [He|(? & _ & He)];
             [now apply Raises.dict_get_other in He|discriminate].
        -- destruct (Py.mapM _ coeffs) as [e|?] eqn:Hm; [|discriminate].
           simpl in He. injection He as ->.
           apply Raises.mapM_inl in Hm as (item & _ & Hm).
           apply Raises.bind_inl in Hm as [Hm|(? & _ & Hm)];
             [now apply Raises.dict_get_other in Hm|].
           apply Raises.bind_inl in Hm as [Hm|(? & _ & Hm)];
             [now apply Raises.dict_get_other in Hm|discriminate].
  - rewrite Raises.and_then_inr by reflexivity. simpl. intros He. exfalso.
    apply Raises.write_each_inl in He as (item & _ & He).
    apply Raises.bind_inl in He as [He|(? & _ & He)];
      [now apply Raises.dict_get_other in He|].
    apply Raises.bind_inl in He as [He|(? & _ & He)];
      [now apply Raises.dict_get_other in He|discriminate].
Qed.

Lemma coeffs_sections_end (v : locals) :
  snd (angle_coeffs_section v) = inr tt
  /\ snd (dihedral_coeffs_section RB_to_OPLS v) = inr tt
  /\ snd (improper_coeffs_section v) = inr tt.
Proof.
  unfold angle_coeffs_section, dihedral_coeffs_section,
    improper_coeffs_section.
  destruct (nonempty (angles v)), (nonempty (dihedrals v)),
    (nonempty (impropers v)), (unique_angle_types v),
    (unique_dihedral_types v); easy.
Qed.

Lemma bond_coeffs_section_other (v : locals) (e : Py.exn) :
  snd (bond_coeffs_section v) = inl e -> ClaimSpec.other e.
Proof.
  unfold bond_coeffs_section. destruct (nonempty (bonds v)); [|discriminate].
  rewrite Raises.and_then_inr by reflexivity.
  destruct (unique_bond_types v); simpl; [discriminate|].
  intros [= <-]. discriminate.
Qed.

(** The coefficient sections raise the error of the combining rule only
    from the loop over the pairs of types, before they wrote anything. *)
Lemma forcefield_sections_rule (structure : Structure.t) (cfg : config)
  (v : locals) :
  snd (forcefield_sections RB_to_OPLS structure cfg v)
  = inl unsupported_combining_rule ->
  fst (forcefield_sections RB_to_OPLS structure cfg v) = []
  /\ forcefield v = true
  /\ Structure.has_NBFIX structure = true.
Proof.
  unfold forcefield_sections. destruct (forcefield v); [|discriminate].
  unfold computing.
  destruct (by_type_id _ _ (map Atom.epsilon _)) as [e|epsilon_dict] eqn:He;
    [simpl; intros [= ->]; now apply Raises.by_type_id_other in He|].
  destruct (by_type_id _ _ (map Atom.sigma _)) as [e|sigma_dict] eqn:Hs;
    [simpl; intros [= ->]; now apply Raises.by_type_id_other in Hs|].
  destruct (by_type_id _ _ (map Atom.type _)) as [e|forcefield_dict] eqn:Hf;
    [simpl; intros [= ->]; now apply Raises.by_type_id_other in Hf|].
  destruct (coeffs_sections_end v) as (Ha & Hd & Hi).
  intros H.
  apply Raises.and_then_inl in H as [[H ->]|(_ & H & _)]; [|congruence].
  apply Raises.and_then_inl in H as [[H ->]|(_ & H & _)]; [|congruence].
  apply Raises.and_then_inl in H as [[H ->]|(_ & H & _)]; [|congruence].
  apply Raises.and_then_inl in H as [[H ->]|(_ & H & _)];
    [|now apply bond_coeffs_section_other in H].
  apply pair_section_rule in H as (-> & -> & _). easy.
Qed.

Lemma rule_error_after_masses (structure : Structure.t) (cfg : config) :
  ended (write_lammpsdata set_iter join_dihedrals RB_to_OPLS structure cfg)
  = inl unsupported_combining_rule ->
  exists v masses,
    prepare set_iter join_dihedrals structure cfg = inr v
    /\ masses_section structure v = (masses, inr tt)
    /\ file (write_lammpsdata set_iter join_dihedrals RB_to_OPLS
               structure cfg)
       = Some (header set_iter structure cfg v ++ box_section (box v)
               ++ masses).
Proof.
  unfold write_lammpsdata.
  destruct (prepare set_iter join_dihedrals structure cfg) as [e|v] eqn:Hv.
  - simpl. intros [= ->]. now apply Raises.prepare_other in Hv.
  - simpl. unfold write_file. intros H.
    exists v, (fst (masses_section structure v)).
    split; [reflexivity|].
    apply Raises.and_then_inl in H as [[H ->]|(_ & H & _)];
      [|now apply Raises.bonded_sections_other in H].
    apply Raises.and_then_inl in H as [[H ->]|(_ & H & _)];
      [|now apply Raises.atoms_section_other in H].
    apply Raises.and_then_inl in H as [[H _]|(Hm & H & ->)].
    { apply Raises.and_then_inl in H as [[H _]|(_ & H & _)];
        [discriminate|now apply Raises.masses_section_other in H]. }
    apply forcefield_sections_rule in H as (-> & _ & _).
    rewrite Raises.and_then_inr in Hm |- * by reflexivity.
    simpl in Hm |- *. split.
    + destruct (masses_section structure v) as [m r]. simpl in *. now subst.
    + now rewrite !app_nil_r, <- app_assoc.
Qed.

End Writer.

End Validation.

Module ValidationClaims.

Import Lammps.

(** Claim C3, as the code has it.  An unknown atom style and conflicting
    dihedral styles are rejected before the file is opened: nothing is
    written.  An unsupported combining rule is found only while the pair
    coefficients are derived, inside the [with open] block: by then the
    header, the box and the Masses section are in the file, and nothing
    follows them. *)
Theorem validation_errors_and_what_is_written
  (set_iter : Py.set_order)
  (join_dihedrals : list Dihedral.t -> list Dihedral.t)
  (RB_to_OPLS : Q -> Q -> Q -> Q -> Q -> Q -> Q * Q * Q * Q)
  (structure : Structure.t) (cfg : config) :
  (atom_style cfg ∉ ["atomic"; "charge"; "molecular"; "full"] ->
   write_lammpsdata set_iter join_dihedrals RB_to_OPLS structure cfg
   = {| file := None; ended := inl (invalid_atom_style (atom_style cfg)) |})
  /\ (atom_style cfg ∈ ["atomic"; "charge"; "molecular"; "full"] ->
      Structure.atoms structure <> [] ->
      ClaimSpec.conflicting_dihedral_styles structure cfg = true ->
      write_lammpsdata set_iter join_dihedrals RB_to_OPLS structure cfg
      = {| file := None; ended := inl multiple_dihedral_styles |})
  /\ (ended (write_lammpsdata set_iter join_dihedrals RB_to_OPLS
               structure cfg)
      = inl unsupported_combining_rule ->
      exists v masses,
        prepare set_iter join_dihedrals structure cfg = inr v
        /\ masses_section structure v = (masses, inr tt)
        /\ file (write_lammpsdata set_iter join_dihedrals RB_to_OPLS
                   structure cfg)
           = Some (header set_iter structure cfg v ++ box_section (box v)
                   ++ masses)).
Proof.
  split; [|split].
  - apply Validation.invalid_style_raises.
  - apply Validation.conflicting_styles_raise.
  - apply Validation.rule_error_after_masses.
Qed.

(** The three cases on examples: the atom style "foo", a structure with
    both kinds of dihedrals, and a structure with an unknown combining
    rule. *)
Lemma validation_errors_on_examples :
  write_lammpsdata Py.insertion_order Examples.no_join Examples.rb_unused
    Examples.chain (Examples.style "foo")
  = {| file := None; ended := inl (invalid_atom_style "foo") |}
  /\ write_lammpsdata Py.insertion_order Examples.no_join Examples.rb_unused
       Examples.both_dihedral_styles (Examples.style "full")
     = {| file := None; ended := inl multiple_dihedral_styles |}
  /\ exists v masses,
      prepare Py.insertion_order Examples.no_join Examples.unknown_rule
              (Examples.style "full") = inr v
      /\ masses_section Examples.unknown_rule v = (masses, inr tt)
      /\ file (write_lammpsdata Py.insertion_order Examples.no_join
                 Examples.rb_unused Examples.unknown_rule
                 (Examples.style "full"))
         = Some (header Py.insertion_order Examples.unknown_rule
                        (Examples.style "full") v
                 ++ box_section (box v) ++ masses).
Proof.
  split; [|split].
  - apply (validation_errors_and_what_is_written
             Py.insertion_order Examples.no_join Examples.rb_unused
             Examples.chain (Examples.style "foo")).
    compute_done.
  - apply (validation_errors_and_what_is_written
             Py.insertion_order Examples.no_join Examples.rb_unused
             Examples.both_dihedral_styles (Examples.style "full")).
    + compute_done.
    + discriminate.
    + reflexivity.
  - apply (validation_errors_and_what_is_written
             Py.insertion_order Examples.no_join Examples.rb_unused
             Examples.unknown_rule (Examples.style "full")).
    lazy. reflexivity.
Defined.

(** Claim C3 as stated fails for the combining rule: on the example the
    call ends with the error of the combining rule, and the file holds
    fifteen writes, the last of them the Masses section. *)
Lemma unsupported_combining_rule_leaves_a_partial_file :
  ended (write_lammpsdata Py.insertion_order Examples.no_join
           Examples.rb_unused Examples.unknown_rule (Examples.style "full"))
  = inl unsupported_combining_rule
  /\ length (written (write_lammpsdata Py.insertion_order Examples.no_join
                        Examples.rb_unused Examples.unknown_rule
                        (Examples.style "full")))
     = 15
  /\ Write "\nMasses\n\n" []
     ∈ written (write_lammpsdata Py.insertion_order Examples.no_join
                  Examples.rb_unused Examples.unknown_rule
                  (Examples.style "full")).
Proof.
  split; [lazy; reflexivity|]. split; [lazy; reflexivity|].
  find_call_lazy.
Qed.

(** Claim C7.  With detection on, a structure that has both RB torsions
    and multi-term dihedrals makes the writer raise the error of the
    multiple dihedral styles, before the file is opened.  (The atom style
    is one of the four that the writer knows, and the structure has an
    atom, as any structure with a dihedral has.) *)
Theorem both_dihedral_styles_detected_raise
  (set_iter : Py.set_order)
  (join_dihedrals : list Dihedral.t -> list Dihedral.t)
  (RB_to_OPLS : Q -> Q -> Q -> Q -> Q -> Q -> Q * Q * Q * Q)
  (structure : Structure.t) (cfg : config) :
  detect_forcefield_style cfg = true ->
  Structure.rb_torsions structure <> [] ->
  Structure.dihedrals structure <> [] ->
  atom_style cfg ∈ ["atomic"; "charge"; "molecular"; "full"] ->
  Structure.atoms structure <> [] ->
  write_lammpsdata set_iter join_dihedrals RB_to_OPLS structure cfg
  = {| file := None; ended := inl multiple_dihedral_styles |}.
Proof.
  intros Hdet Hrb Hdih Hstyle Hatoms.
  apply Validation.conflicting_styles_raise; try assumption.
  unfold ClaimSpec.conflicting_dihedral_styles, detect_styles.
  rewrite Hdet.
  now rewrite (TypeIds.nonempty_true _ Hrb), (TypeIds.nonempty_true _ Hdih).
Qed.

Lemma both_dihedral_styles_example :
  write_lammpsdata Py.reverse_order Examples.no_join Examples.rb_unused
    Examples.both_dihedral_styles (default_config "out.lammps")
  = {| file := None; ended := inl multiple_dihedral_styles |}.
Proof.
  apply both_dihedral_styles_detected_raise.
  - reflexivity.
  - discriminate.
  - discriminate.
  - compute_done.
  - discriminate.
Defined.

End ValidationClaims.

(** ** Bonds without bond types (claim C10) *)

Module UntypedBonds.

Import Lammps.

Lemma bind_inr {A B} (m : Py.result A) (k : A -> Py.result B) (b : B) :
  Py.bind m k = inr b -> exists a, m = inr a /\ k a = inr b.
Proof. destruct m as [e|a]; simpl; [discriminate|eauto]. Qed.

Section Calls.
Variable P : write_call -> Prop.

Lemma and_then_Forall (a b : emitted) :
  Forall P (fst a) -> Forall P (fst b) -> Forall P (fst (and_then a b)).
Proof.
  intros Ha Hb. unfold and_then. destruct (snd a); [exact Ha|].
  simpl. apply Forall_app. now split.
Qed.

Lemma elem_and_then_l (a b : emitted) (w : write_call) :
  w ∈ fst a -> w ∈ fst (and_then a b).
Proof.
  intros Hw. unfold and_then. destruct (snd a); [exact Hw|].
  simpl. apply elem_of_app. now left.
Qed.

Lemma write_each_Forall {A} (f : A -> Py.result write_call) (l : list A) :
  (forall x call, f x = inr call -> P call) ->
  Forall P (fst (write_each f l)).
Proof.
  intros Hf. induction l as [|x l IH]; simpl; [constructor|].
  destruct (f x) as [e|call] eqn:Hx; [constructor|].
  apply and_then_Forall; [|exact IH].
  constructor; [now apply (Hf x)|constructor].
Qed.

Lemma computing_Forall {A} (m : Py.result A) (k : A -> emitted) :
  (forall a, Forall P (fst (k a))) -> Forall P (fst (computing m k)).
Proof. intros Hk. destruct m; simpl; [constructor|apply Hk]. Qed.

Lemma map_Forall {A} (f : A -> write_call) (l : list A) :
  (forall x, P (f x)) -> Forall P (map f l).
Proof. intros Hf. induction l; simpl; constructor; auto. Qed.

End Calls.

Lemma other_format (w : write_call) :
  format w <> "{:d}\t{:d}\t{:d}\t{:d}\n" ->
  format w <> "{:d} bond types\n" ->
  ClaimSpec.bond_type_is_1 w.
Proof. intros H1 H2. split; intros H; contradiction. Qed.

Ltac other_format := apply other_format; simpl; discriminate.

(** Walks through a section: lists, loops and tests. *)
Ltac walk :=
  repeat first
    [ apply List.Forall_nil
    | apply and_then_Forall
    | apply computing_Forall; intros ?
    | apply Forall_app; split
    | apply List.Forall_cons; [other_format|]
    | apply map_Forall; intros ?
    | progress simpl fst
    | match goal with
      | |- Forall _ (fst (if ?b then _ else _)) => destruct b
      | |- Forall _ (if ?b then _ else _) => destruct b
      | |- Forall _ (fst (match ?t with _ => _ end)) => destruct t
      | |- Forall _ (match ?t with _ => _ end) => destruct t
      end ].

Section Writer.
Variable set_iter : Py.set_order.
Variable join_dihedrals : list Dihedral.t -> list Dihedral.t.
Variable RB_to_OPLS : Q -> Q -> Q -> Q -> Q -> Q -> Q * Q * Q * Q.
Hypothesis set_iter_ok : Py.set_order_ok set_iter.

Lemma set_of_ones (n : nat) :
  0 < n -> length (set_iter nat _ (repeat 1 n)) = 1.
Proof.
  intros Hn. change 1 with (length [1]) at 2.
  apply Permutation_length, NoDup_Permutation.
  - apply set_iter_ok.
  - apply NoDup_singleton.
  - intros x. destruct (set_iter_ok nat _ (repeat 1 n)) as [_ ->].
    rewrite list_elem_of_singleton. split.
    + intros Hx. apply list_elem_of_In, repeat_spec in Hx. exact Hx.
    + intros ->. destruct n; [lia|]. simpl. left.
Qed.

Lemma masses_section_formats (structure : Structure.t) (v : locals) :
  Forall ClaimSpec.bond_type_is_1 (fst (masses_section structure v)).
Proof.
  unfold masses_section. walk.
  apply write_each_Forall. intros item call Hcall.
  apply bind_inr in Hcall as (label & _ & [= <-]). other_format.
Qed.

Lemma box_section_formats (box : Box.t) :
  Forall ClaimSpec.bond_type_is_1 (box_section box).
Proof.
  unfold box_section. destruct (Np.allclose _ _).
  - destruct (Box.mins box) as [[? ?] ?], (Box.maxs box) as [[? ?] ?].
    walk.
  - walk.
Qed.

Lemma pair_section_formats (structure : Structure.t) (cfg : config)
  (v : locals) (sigma_dict epsilon_dict : Py.dict nat Q)
  (forcefield_dict : Py.dict nat string) :
  Forall ClaimSpec.bond_type_is_1
    (fst (pair_section structure cfg v sigma_dict epsilon_dict
            forcefield_dict)).
Proof.
  unfold pair_section. walk.
  - apply write_each_Forall. intros [[t1 t2] [sigma epsilon]] call Hcall.
    apply bind_inr in Hcall as (ff1 & _ & Hcall).
    apply bind_inr in Hcall as (ff2 & _ & [= <-]). other_format.
  - apply write_each_Forall. intros item call Hcall.
    apply bind_inr in Hcall as (sigma & _ & [= <-]). other_format.
  - apply write_each_Forall. intros item call Hcall.
    apply bind_inr in Hcall as (sigma & _ & Hcall).
    apply bind_inr in Hcall as (ff & _ & [= <-]). other_format.
Qed.

Lemma forcefield_sections_formats (structure : Structure.t) (cfg : config)
  (v : locals) :
  Forall ClaimSpec.bond_type_is_1
    (fst (forcefield_sections RB_to_OPLS structure cfg v)).
Proof.
  unfold forcefield_sections. destruct (forcefield v); [|constructor].
  apply computing_Forall; intros epsilon_dict.
  apply computing_Forall; intros sigma_dict.
  apply computing_Forall; intros forcefield_dict.
  repeat apply and_then_Forall.
  - apply pair_section_formats.
  - unfold bond_coeffs_section. walk.
    destruct x as [[[k req] [t1 t2]] idx]. other_format.
  - unfold angle_coeffs_section. walk.
    + destruct x as [[[[[k theteq] ub_k] ub_req] ?] idx]. other_format.
    + destruct x as [[[[k theteq] vertex] [t1 t3]] idx]. other_format.
  - unfold dihedral_coeffs_section. walk.
    + destruct x as [[[[[[[[[[[[c0 c1] c2] c3] c4] c5] ?] ?] t1] t2] t3] t4]
                       idx].
      destruct (RB_to_OPLS c0 c1 c2 c3 c4 c5) as [[[f1 f2] f3] f4].
      other_format.
    + destruct x as [[[[[[[[[[k n] phi] weight] ?] ?] t1] t2] t3] t4] idx].
      other_format.
  - unfold improper_coeffs_section. walk.
    destruct x as [[[[[[k psi] t1] t2] t3] t4] idx]. other_format.
Qed.

Lemma atoms_section_formats (cfg : config) (v : locals) :
  Forall ClaimSpec.bond_type_is_1 (fst (atoms_section cfg v)).
Proof.
  unfold atoms_section. walk.
  apply write_each_Forall. intros [i [[x y] z]] call Hcall.
  apply bind_inr in Hcall as (atom_type & _ & Hcall).
  apply bind_inr in Hcall as (type_index & _ & Hcall).
  apply bind_inr in Hcall as (charge & _ & [= <-]).
  repeat match goal with
         | |- context [if ?b then _ else _] => destruct b
         end; other_format.
Qed.

Lemma bonded_sections_formats (cfg : config) (v : locals) (n : nat) :
  bond_types v = repeat 1 n ->
  Forall ClaimSpec.bond_type_is_1 (fst (bonded_sections cfg v)).
Proof.
  intros Hty. unfold bonded_sections.
  destruct (bonded_style (atom_style cfg)); [|constructor].
  repeat apply and_then_Forall.
  - unfold bonds_section. walk.
    apply write_each_Forall. intros [i [a1 a2]] call Hcall.
    apply bind_inr in Hcall as (ty & Hty' & [= <-]).
    unfold Py.getitem in Hty'. rewrite Hty in Hty'.
    destruct (repeat 1 n !! i) as [ty'|] eqn:Hi; [|discriminate].
    injection Hty' as ->.
    apply list_elem_of_lookup_2, list_elem_of_In, repeat_spec in Hi as ->.
    split; [|discriminate]. intros _. now eexists _, _, _.
  - unfold angles_section. walk.
    apply write_each_Forall. intros [i [[a1 a2] a3]] call Hcall.
    apply bind_inr in Hcall as (ty & _ & [= <-]). other_format.
  - unfold dihedrals_section. walk.
    apply write_each_Forall. intros [i [[[a1 a2] a3] a4]] call Hcall.
    apply bind_inr in Hcall as (ty & _ & [= <-]). other_format.
  - unfold impropers_section. walk.
    apply write_each_Forall. intros [i [[[a1 a2] a3] a4]] call Hcall.
    apply bind_inr in Hcall as (ty & _ & [= <-]). other_format.
Qed.

Lemma header_formats (structure : Structure.t) (cfg : config) (v : locals)
  (n : nat) :
  0 < n -> bond_types v = repeat 1 n ->
  Forall ClaimSpec.bond_type_is_1 (header set_iter structure cfg v).
Proof.
  intros Hn Hty. unfold header. rewrite Hty, (set_of_ones n Hn).
  walk. constructor; [|constructor].
  split; [discriminate|reflexivity].
Qed.

(** Without bond types the table of line 171 is all ones. *)
Lemma bond_tables_untyped (structure : Structure.t) :
  Structure.bonds structure <> [] ->
  Structure.bond_types structure = [] ->
  bond_tables set_iter structure
  = inr (repeat 1 (length (Structure.bonds structure)), None).
Proof.
  intros Hb Ht. unfold bond_tables.
  now rewrite (TypeIds.nonempty_true _ Hb), Ht.
Qed.

Lemma untyped_bonds_calls (structure : Structure.t) (cfg : config) :
  Structure.bonds structure <> [] ->
  Structure.bond_types structure = [] ->
  Forall ClaimSpec.bond_type_is_1
    (written (write_lammpsdata set_iter join_dihedrals RB_to_OPLS
                structure cfg)).
Proof.
  intros Hb Ht. unfold write_lammpsdata, written.
  destruct (prepare set_iter join_dihedrals structure cfg) as [e|v] eqn:Hv;
    [constructor|].
  simpl. apply Stages.prepare_inv in Hv.
  destruct Hv as (_ & _ & _ & _ & _ & _ & _ & Hbt & _).
  rewrite (bond_tables_untyped structure Hb Ht) in Hbt.
  injection Hbt as Hty _.
  assert (Hn : 0 < length (Structure.bonds structure))
    by (destruct (Structure.bonds structure); [congruence|simpl; lia]).
  unfold write_file.
  apply and_then_Forall;
    [apply and_then_Forall;
     [apply and_then_Forall;
      [apply and_then_Forall; [apply and_then_Forall|]|]|]|].
  - now apply (header_formats _ _ _ (length (Structure.bonds structure))).
  - apply box_section_formats.
  - apply masses_section_formats.
  - apply forcefield_sections_formats.
  - apply atoms_section_formats.
  - now apply (bonded_sections_formats _ _
                 (length (Structure.bonds structure))).
Qed.

Lemma untyped_bonds_header (structure : Structure.t) (cfg : config)
  (v : locals) :
  Structure.bonds structure <> [] ->
  Structure.bond_types structure = [] ->
  prepare set_iter join_dihedrals structure cfg = inr v ->
  bonded_style (atom_style cfg) = true ->
  Write "{:d} bond types\n" [Int 1]
  ∈ written (write_lammpsdata set_iter join_dihedrals RB_to_OPLS
               structure cfg).
Proof.
  intros Hb Ht Hv Hstyle. unfold write_lammpsdata, written. rewrite Hv.
  simpl. pose proof (Stages.prepare_inv _ _ _ _ _ Hv) as Hinv.
  destruct Hinv as (_ & _ & _ & _ & _ & _ & Hbv & Hbt & _).
  rewrite (bond_tables_untyped structure Hb Ht) in Hbt.
  injection Hbt as Hty _.
  assert (Hn : 0 < length (Structure.bonds structure))
    by (destruct (Structure.bonds structure); [congruence|simpl; lia]).
  assert (Hin : Write "{:d} bond types\n" [Int 1]
                ∈ header set_iter structure cfg v).
  { unfold header.
    rewrite Hstyle, Hbv, TypeIds.nonempty_map, (TypeIds.nonempty_true _ Hb).
    rewrite <- Hty, (set_of_ones _ Hn). set_solver. }
  unfold write_file. do 5 apply elem_and_then_l. simpl.
  exact Hin.
Qed.

End Writer.

End UntypedBonds.

Module UntypedBondClaims.

Import Lammps.

(** Claim C10.  If the structure has bonds and its table of bond types is
    empty, then every record of the Bonds section that the call writes has
    type ID 1, and every count of bond types it writes is 1; the header
    holds that count whenever the call gets as far as the header with an
    atom style that carries bonded terms. *)
Theorem bonds_without_bond_types_have_type_1
  (set_iter : Py.set_order)
  (join_dihedrals : list Dihedral.t -> list Dihedral.t)
  (RB_to_OPLS : Q -> Q -> Q -> Q -> Q -> Q -> Q * Q * Q * Q)
  (structure : Structure.t) (cfg : config) :
  Py.set_order_ok set_iter ->
  Structure.bonds structure <> [] ->
  Structure.bond_types structure = [] ->
  Forall ClaimSpec.bond_type_is_1
    (written (write_lammpsdata set_iter join_dihedrals RB_to_OPLS
                structure cfg))
  /\ (forall v,
        prepare set_iter join_dihedrals structure cfg = inr v ->
        bonded_style (atom_style cfg) = true ->
        Write "{:d} bond types\n" [Int 1]
        ∈ written (write_lammpsdata set_iter join_dihedrals RB_to_OPLS
                     structure cfg)).
Proof.
  intros Hok Hb Ht. split.
  - now apply UntypedBonds.untyped_bonds_calls.
  - intros v. now apply UntypedBonds.untyped_bonds_header.
Qed.

(** The chain before a force field was applied: the call runs to its end,
    the header declares one bond type, and the two bonds are written with
    type 1. *)
Lemma untyped_chain_has_bond_type_1 :
  Forall ClaimSpec.bond_type_is_1
    (written (write_lammpsdata Py.insertion_order Examples.no_join
                Examples.rb_unused Examples.untyped_chain
                (default_config "out.lammps")))
  /\ Write "{:d} bond types\n" [Int 1]
     ∈ written (write_lammpsdata Py.insertion_order Examples.no_join
                  Examples.rb_unused Examples.untyped_chain
                  (default_config "out.lammps"))
  /\ ended (write_lammpsdata Py.insertion_order Examples.no_join
              Examples.rb_unused Examples.untyped_chain
              (default_config "out.lammps"))
     = inr tt
  /\ Write "{:d}\t{:d}\t{:d}\t{:d}\n" [Int 1; Int 1; Int 1; Int 2]
     ∈ written (write_lammpsdata Py.insertion_order Examples.no_join
                  Examples.rb_unused Examples.untyped_chain
                  (default_config "out.lammps"))
  /\ Write "{:d}\t{:d}\t{:d}\t{:d}\n" [Int 2; Int 1; Int 2; Int 3]
     ∈ written (write_lammpsdata Py.insertion_order Examples.no_join
                  Examples.rb_unused Examples.untyped_chain
                  (default_config "out.lammps")).
Proof.
  destruct (bonds_without_bond_types_have_type_1
              Py.insertion_order Examples.no_join Examples.rb_unused
              Examples.untyped_chain (default_config "out.lammps")
              PyFacts.insertion_order_ok) as [Hall Hheader].
  - discriminate.
  - reflexivity.
  - split; [exact Hall|]. split.
    + eapply Hheader; [vm_compute; reflexivity|reflexivity].
    + split; [reflexivity|]. split; find_call.
Defined.

(** With typed atoms the same bonds never reach the Bonds section: the
    Bond Coeffs section reads [unique_bond_types], which line 171 does not
    bind. *)
Lemma bond_coeffs_of_untyped_bonds_raise :
  ended (write_lammpsdata Py.insertion_order Examples.no_join
           Examples.rb_unused Examples.chain_without_bond_types
           (default_config "out.lammps"))
  = inl (Py.UnboundLocalError "unique_bond_types")
  /\ Write "{:d} bond types\n" [Int 1]
     ∈ written (write_lammpsdata Py.insertion_order Examples.no_join
                  Examples.rb_unused Examples.chain_without_bond_types
                  (default_config "out.lammps"))
  /\ Write "\nBonds\n\n" []
     ∉ written (write_lammpsdata Py.insertion_order Examples.no_join
                  Examples.rb_unused Examples.chain_without_bond_types
                  (default_config "out.lammps")).
Proof.
  split; [reflexivity|]. split; [find_call|].
  vm_compute. intros Hin.
  repeat (apply elem_of_cons in Hin as [Hin|Hin]; [discriminate Hin|]).
  inversion Hin.
Qed.

End UntypedBondClaims.

(** ** The box (claims C4 and C8) *)

Module BoxFacts.

Import Lammps.

Lemma allclose_orthogonal (box : Box.t) :
  Np.allclose (Box.angles box) (90, 90, 90)%Q = true
  <-> BoxSpec.orthogonal box.
Proof.
  unfold BoxSpec.orthogonal, Np.allclose.
  destruct (Box.angles box) as [[a1 a2] a3]. cbn [fst snd].
  rewrite !andb_true_iff. unfold Np.isclose. rewrite !Qle_bool_iff.
  change (Np.atol + Np.rtol * Qabs 90)%Q with BoxSpec.tolerance. tauto.
Qed.

Lemma np_sqrt_nonneg (r : R) :
  (0 <= r)%R -> Np.sqrt (Np.Fin r) = Np.Fin (sqrt r).
Proof. intros Hr. simpl. destruct (Rlt_dec r 0); [lra|reflexivity]. Qed.

Lemma np_sqrt_negative (r : R) :
  (r < 0)%R -> Np.sqrt (Np.Fin r) = Np.NaN.
Proof. intros Hr. simpl. destruct (Rlt_dec r 0); [reflexivity|lra]. Qed.

Lemma np_div_finite (x y : R) :
  (y <> 0)%R -> Np.div (Np.Fin x) (Np.Fin y) = Np.Fin (x / y).
Proof. intros Hy. simpl. destruct (Req_dec_T y 0); [lra|reflexivity]. Qed.

(** [b^2 - xy^2] is never negative. *)
Lemma ly_squared_nonneg (box : Box.t) : (0 <= BoxSpec.ly_squared box)%R.
Proof.
  unfold BoxSpec.ly_squared, BoxSpec.xy.
  pose proof (COS_bound (BoxSpec.gamma box)) as [Hlo Hhi].
  assert (H : (cos (BoxSpec.gamma box) * cos (BoxSpec.gamma box) <= 1)%R)
    by nra.
  pose proof (Rle_0_sqr (BoxSpec.b box)) as Hb. unfold Rsqr in Hb. nra.
Qed.

Lemma triclinic_cell_tilt (box : Box.t) :
  tilt_xy (triclinic_cell box) = Np.Fin (BoxSpec.xy box)
  /\ tilt_xz (triclinic_cell box) = Np.Fin (BoxSpec.xz box)
  /\ cell_ly (triclinic_cell box) = Np.Fin (BoxSpec.ly box)
  /\ xlo_bound (triclinic_cell box)
     = Np.Fin (BoxSpec.xlo box
               + Rmin (Rmin (Rmin 0 (BoxSpec.xy box)) (BoxSpec.xz box))
                      (BoxSpec.xy box + BoxSpec.xz box))
  /\ xhi_bound (triclinic_cell box)
     = Np.Fin (BoxSpec.xlo box + BoxSpec.a box
               + Rmax (Rmax (Rmax 0 (BoxSpec.xy box)) (BoxSpec.xz box))
                      (BoxSpec.xy box + BoxSpec.xz box))
  /\ zlo_bound (triclinic_cell box) = Np.Fin (BoxSpec.zlo box)
  /\ zhi_bound (triclinic_cell box)
     = Np.add (Np.Fin (BoxSpec.zlo box)) (cell_lz (triclinic_cell box)).
Proof.
  pose proof (ly_squared_nonneg box) as Hly.
  unfold BoxSpec.ly, BoxSpec.ly_squared, BoxSpec.xy, BoxSpec.xz, BoxSpec.a,
    BoxSpec.b, BoxSpec.c, BoxSpec.alpha, BoxSpec.beta, BoxSpec.gamma,
    BoxSpec.xlo, BoxSpec.zlo, BoxSpec.radians, BoxSpec.tenfold in *.
  unfold triclinic_cell.
  destruct (Box.lengths box) as [[la lb] lc].
  destruct (Box.angles box) as [[al be] ga].
  destruct (Box.mins box) as [[mx my] mz].
  cbn [fst snd] in *.
  cbn [tilt_xy tilt_xz cell_ly xlo_bound xhi_bound zlo_bound zhi_bound
       cell_lz].
  repeat split.
  cbn [Np.of_Q Np.radians Np.cos Np.mul Np.square Np.sub Np.neg Np.add].
  replace (_ + - _)%R with
    (Q2R (10 * lb) * Q2R (10 * lb)
     - Q2R (10 * lb) * cos (Q2R ga * PI / 180)
       * (Q2R (10 * lb) * cos (Q2R ga * PI / 180)))%R by ring.
  now apply np_sqrt_nonneg.
Qed.

Lemma triclinic_cell_y (box : Box.t) :
  (0 < BoxSpec.ly_squared box)%R ->
  tilt_yz (triclinic_cell box) = Np.Fin (BoxSpec.yz box)
  /\ ylo_bound (triclinic_cell box)
     = Np.Fin (BoxSpec.ylo box + Rmin 0 (BoxSpec.yz box))
  /\ yhi_bound (triclinic_cell box)
     = Np.Fin (BoxSpec.ylo box + BoxSpec.ly box + Rmax 0 (BoxSpec.yz box))
  /\ cell_lz (triclinic_cell box)
     = Np.sqrt (Np.Fin (BoxSpec.lz_squared box)).
Proof.
  intros Hly.
  assert (Hpos : (0 < BoxSpec.ly box)%R) by now apply sqrt_lt_R0.
  destruct (triclinic_cell_tilt box) as (_ & _ & Hcly & _).
  revert Hcly Hpos.
  unfold BoxSpec.lz_squared, BoxSpec.yz.
  generalize (BoxSpec.ly box) as l. intros l Hcly Hpos.
  unfold BoxSpec.xy, BoxSpec.xz, BoxSpec.a,
    BoxSpec.b, BoxSpec.c, BoxSpec.alpha, BoxSpec.beta, BoxSpec.gamma,
    BoxSpec.ylo, BoxSpec.radians, BoxSpec.tenfold in *.
  unfold triclinic_cell in *.
  destruct (Box.lengths box) as [[la lb] lc].
  destruct (Box.angles box) as [[al be] ga].
  destruct (Box.mins box) as [[mx my] mz].
  cbn [fst snd] in *.
  cbn [tilt_yz ylo_bound yhi_bound cell_lz cell_ly] in *.
  rewrite Hcly.
  cbn [Np.of_Q Np.radians Np.cos Np.mul Np.square Np.sub Np.neg Np.add].
  rewrite np_div_finite by lra.
  cbn [Np.of_Q Np.radians Np.cos Np.mul Np.square Np.sub Np.neg Np.add
       Np.min Np.max fold_left Np.min2 Np.max2].
  repeat split; repeat f_equal; unfold Rminus, Rdiv; ring.
Qed.

(** A negative [lz^2] is not rejected: its square root is [nan], and so is
    the upper bound of the z axis. *)
Lemma triclinic_cell_nan (box : Box.t) :
  (0 < BoxSpec.ly_squared box)%R ->
  (BoxSpec.lz_squared box < 0)%R ->
  cell_lz (triclinic_cell box) = Np.NaN
  /\ zhi_bound (triclinic_cell box) = Np.NaN.
Proof.
  intros Hly Hlz.
  destruct (triclinic_cell_y box Hly) as (_ & _ & _ & Hclz).
  destruct (triclinic_cell_tilt box) as (_ & _ & _ & _ & _ & _ & Hzhi).
  rewrite Hzhi, Hclz, np_sqrt_negative by exact Hlz. easy.
Qed.

Lemma box_section_orthogonal (box : Box.t) :
  BoxSpec.orthogonal box ->
  box_section box
  = [ Write "{0:.6f} {1:.6f} {2}lo {2}hi\n"
        [Float (10 * fst (fst (Box.mins box)));
         Float (10 * fst (fst (Box.maxs box))); Str "x"];
      Write "{0:.6f} {1:.6f} {2}lo {2}hi\n"
        [Float (10 * snd (fst (Box.mins box)));
         Float (10 * snd (fst (Box.maxs box))); Str "y"];
      Write "{0:.6f} {1:.6f} {2}lo {2}hi\n"
        [Float (10 * snd (Box.mins box));
         Float (10 * snd (Box.maxs box)); Str "z"] ].
Proof.
  intros Horth. apply allclose_orthogonal in Horth.
  unfold box_section. rewrite Horth.
  now destruct (Box.mins box) as [[? ?] ?], (Box.maxs box) as [[? ?] ?].
Qed.

Lemma box_section_triclinic (box : Box.t) :
  ~ BoxSpec.orthogonal box ->
  box_section box
  = [ Write "{0:.6f} {1:.6f} xlo xhi\n"
        [NpFloat (xlo_bound (triclinic_cell box));
         NpFloat (xhi_bound (triclinic_cell box))];
      Write "{0:.6f} {1:.6f} ylo yhi\n"
        [NpFloat (ylo_bound (triclinic_cell box));
         NpFloat (yhi_bound (triclinic_cell box))];
      Write "{0:.6f} {1:.6f} zlo zhi\n"
        [NpFloat (zlo_bound (triclinic_cell box));
         NpFloat (zhi_bound (triclinic_cell box))];
      Write "{0:.6f} {1:.6f} {2:6f} xy xz yz\n"
        [NpFloat (tilt_xy (triclinic_cell box));
         NpFloat (tilt_xz (triclinic_cell box));
         NpFloat (tilt_yz (triclinic_cell box))] ].
Proof.
  intros Horth. rewrite <- allclose_orthogonal in Horth.
  unfold box_section. now destruct (Np.allclose _ _).
Qed.

End BoxFacts.

Module BoxClaims.

Import Lammps.

Section Writer.
Variable set_iter : Py.set_order.
Variable join_dihedrals : list Dihedral.t -> list Dihedral.t.
Variable RB_to_OPLS : Q -> Q -> Q -> Q -> Q -> Q -> Q * Q * Q * Q.

Lemma and_then_assoc (a b c : emitted) :
  and_then (and_then a b) c = and_then a (and_then b c).
Proof.
  destruct a as [wa [ea|[]]], b as [wb [eb|[]]], c as [wc rc];
    unfold and_then; simpl; try reflexivity; now rewrite app_assoc.
Qed.

(** The writer after [prepare]: header and box, then the other sections,
    whose end is the end of the call. *)
Lemma written_split (structure : Structure.t) (cfg : config) (v : locals) :
  prepare set_iter join_dihedrals structure cfg = inr v ->
  written (write_lammpsdata set_iter join_dihedrals RB_to_OPLS
             structure cfg)
  = header set_iter structure cfg v ++ box_section (box v)
    ++ fst (and_then
              (and_then
                 (and_then (masses_section structure v)
                           (forcefield_sections RB_to_OPLS structure cfg v))
                 (atoms_section cfg v))
              (bonded_sections cfg v))
  /\ ended (write_lammpsdata set_iter join_dihedrals RB_to_OPLS
              structure cfg)
     = snd (and_then
              (and_then
                 (and_then (masses_section structure v)
                           (forcefield_sections RB_to_OPLS structure cfg v))
                 (atoms_section cfg v))
              (bonded_sections cfg v)).
Proof.
  intros Hv. unfold write_lammpsdata, written. rewrite Hv. simpl.
  unfold write_file. rewrite !and_then_assoc.
  unfold wrote at 1 2. rewrite !Raises.and_then_inr by reflexivity.
  simpl. now rewrite <- app_assoc.
Qed.

(** With a negative [lz^2] the line of the z bounds holds [nan]. *)
Lemma nan_bound_written (structure : Structure.t) (cfg : config)
  (v : locals) :
  prepare set_iter join_dihedrals structure cfg = inr v ->
  ~ BoxSpec.orthogonal (box v) ->
  (0 < BoxSpec.ly_squared (box v))%R ->
  (BoxSpec.lz_squared (box v) < 0)%R ->
  Write "{0:.6f} {1:.6f} zlo zhi\n"
        [NpFloat (Np.Fin (BoxSpec.zlo (box v))); NpFloat Np.NaN]
  ∈ written (write_lammpsdata set_iter join_dihedrals RB_to_OPLS
               structure cfg).
Proof.
  intros Hv Horth Hly Hlz.
  destruct (written_split structure cfg v Hv) as [-> _].
  rewrite (BoxFacts.box_section_triclinic (box v) Horth).
  destruct (BoxFacts.triclinic_cell_nan (box v) Hly Hlz) as [_ ->].
  destruct (BoxFacts.triclinic_cell_tilt (box v))
    as (_ & _ & _ & _ & _ & -> & _).
  apply elem_of_app. right. apply elem_of_app. left.
  right. right. left.
Qed.

End Writer.

(** Claim C8, as the code has it.  A box whose three angles are 90 degrees
    within the tolerance of [np.allclose] -- in particular one whose angles
    all equal 90 -- has a box section of exactly three 'lo hi' lines and no
    tilt line.  A box with an angle further from 90 has the three lines of
    bounds and one tilt line, with [xy = b cos gamma], [xz = c cos beta],
    the x bounds widened by the minimum and maximum of 0, xy, xz, xy+xz,
    and the z bounds unshifted; where [b^2 - xy^2] is positive,
    [yz = (b c cos alpha - xy xz) / ly] with [ly = sqrt(b^2 - xy^2)], and
    the y bounds are widened by the minimum and maximum of 0 and yz. *)
Theorem box_section_lines (box : Box.t) :
  ((fst (fst (Box.angles box)) == 90
    /\ snd (fst (Box.angles box)) == 90
    /\ snd (Box.angles box) == 90)%Q ->
   BoxSpec.orthogonal box)
  /\ (BoxSpec.orthogonal box ->
      box_section box
      = [ Write "{0:.6f} {1:.6f} {2}lo {2}hi\n"
            [Float (10 * fst (fst (Box.mins box)));
             Float (10 * fst (fst (Box.maxs box))); Str "x"];
          Write "{0:.6f} {1:.6f} {2}lo {2}hi\n"
            [Float (10 * snd (fst (Box.mins box)));
             Float (10 * snd (fst (Box.maxs box))); Str "y"];
          Write "{0:.6f} {1:.6f} {2}lo {2}hi\n"
            [Float (10 * snd (Box.mins box));
             Float (10 * snd (Box.maxs box)); Str "z"] ])
  /\ (~ BoxSpec.orthogonal box ->
      box_section box
      = [ Write "{0:.6f} {1:.6f} xlo xhi\n"
            [NpFloat
               (Np.Fin
                  (BoxSpec.xlo box
                   + Rmin (Rmin (Rmin 0 (BoxSpec.xy box)) (BoxSpec.xz box))
                          (BoxSpec.xy box + BoxSpec.xz box)));
             NpFloat
               (Np.Fin
                  (BoxSpec.xlo box + BoxSpec.a box
                   + Rmax (Rmax (Rmax 0 (BoxSpec.xy box)) (BoxSpec.xz box))
                          (BoxSpec.xy box + BoxSpec.xz box)))];
          Write "{0:.6f} {1:.6f} ylo yhi\n"
            [NpFloat (ylo_bound (triclinic_cell box));
             NpFloat (yhi_bound (triclinic_cell box))];
          Write "{0:.6f} {1:.6f} zlo zhi\n"
            [NpFloat (Np.Fin (BoxSpec.zlo box));
             NpFloat (Np.add (Np.Fin (BoxSpec.zlo box))
                             (cell_lz (triclinic_cell box)))];
          Write "{0:.6f} {1:.6f} {2:6f} xy xz yz\n"
            [NpFloat (Np.Fin (BoxSpec.xy box));
             NpFloat (Np.Fin (BoxSpec.xz box));
             NpFloat (tilt_yz (triclinic_cell box))] ]
      /\ ((0 < BoxSpec.ly_squared box)%R ->
          tilt_yz (triclinic_cell box) = Np.Fin (BoxSpec.yz box)
          /\ ylo_bound (triclinic_cell box)
             = Np.Fin (BoxSpec.ylo box + Rmin 0 (BoxSpec.yz box))
          /\ yhi_bound (triclinic_cell box)
             = Np.Fin (BoxSpec.ylo box + BoxSpec.ly box
                       + Rmax 0 (BoxSpec.yz box)))).
Proof.
  split; [|split].
  - intros (H1 & H2 & H3). unfold BoxSpec.orthogonal.
    rewrite H1, H2, H3. repeat split; discriminate.
  - apply BoxFacts.box_section_orthogonal.
  - intros Horth. split.
    + rewrite (BoxFacts.box_section_triclinic box Horth).
      destruct (BoxFacts.triclinic_cell_tilt box)
        as (-> & -> & _ & -> & -> & -> & ->).
      reflexivity.
    + intros Hly.
      destruct (BoxFacts.triclinic_cell_y box Hly) as (-> & -> & -> & _).
      easy.
Qed.

(** [b^2 - xy^2] is positive for a cell with a side [b] and an angle
    [gamma] strictly between 0 and 180 degrees. *)
Lemma ly_squared_pos (box : Box.t) :
  (BoxSpec.b box <> 0)%R ->
  (0 < BoxSpec.gamma box < PI)%R ->
  (0 < BoxSpec.ly_squared box)%R.
Proof.
  intros Hb [Hlo Hhi]. unfold BoxSpec.ly_squared, BoxSpec.xy.
  pose proof (sin_gt_0 _ Hlo Hhi) as Hsin.
  pose proof (sin2 (BoxSpec.gamma box)) as Hsq. unfold Rsqr in Hsq.
  replace (BoxSpec.b box * BoxSpec.b box
           - BoxSpec.b box * cos (BoxSpec.gamma box)
             * (BoxSpec.b box * cos (BoxSpec.gamma box)))%R
    with ((BoxSpec.b box * sin (BoxSpec.gamma box))
          * (BoxSpec.b box * sin (BoxSpec.gamma box)))%R by nra.
  assert (Hne : (BoxSpec.b box * sin (BoxSpec.gamma box) <> 0)%R) by nra.
  nra.
Qed.

(** The cell of the triclinic test: four lines, the last with the three
    tilt factors of the formulas. *)
Lemma box_section_of_the_sheared_cell :
  ~ BoxSpec.orthogonal Examples.sheared
  /\ length (box_section Examples.sheared) = 4
  /\ last (box_section Examples.sheared)
     = Some (Write "{0:.6f} {1:.6f} {2:6f} xy xz yz\n"
               [NpFloat (Np.Fin (BoxSpec.xy Examples.sheared));
                NpFloat (Np.Fin (BoxSpec.xz Examples.sheared));
                NpFloat (Np.Fin (BoxSpec.yz Examples.sheared))]).
Proof.
  assert (Hno : ~ BoxSpec.orthogonal Examples.sheared).
  { rewrite <- BoxFacts.allclose_orthogonal. vm_compute. discriminate. }
  destruct (box_section_lines Examples.sheared) as (_ & _ & Htri).
  destruct (Htri Hno) as [Hlines Hy].
  destruct Hy as (Hyz & _).
  { apply ly_squared_pos.
    - unfold BoxSpec.b, BoxSpec.tenfold. eval_Q2R. lra.
    - unfold BoxSpec.gamma, BoxSpec.radians. eval_Q2R.
      pose proof PI_RGT_0. lra. }
  split; [exact Hno|]. rewrite Hlines, Hyz. split; reflexivity.
Defined.

(** Claim C8 as stated fails for an angle that is not 90 degrees but
    within the tolerance of [np.allclose]: the box with the angles
    90.0005, 90, 90 has three 'lo hi' lines and no tilt line. *)
Lemma nearly_right_angle_has_no_tilt_line :
  ~ (fst (fst (Box.angles Examples.nearly_cubic)) == 90)%Q
  /\ box_section Examples.nearly_cubic
     = [ Write "{0:.6f} {1:.6f} {2}lo {2}hi\n"
           [Float (10 * 0); Float (10 * 1); Str "x"];
         Write "{0:.6f} {1:.6f} {2}lo {2}hi\n"
           [Float (10 * 0); Float (10 * 1); Str "y"];
         Write "{0:.6f} {1:.6f} {2}lo {2}hi\n"
           [Float (10 * 0); Float (10 * 1); Str "z"] ].
Proof.
  split; [|reflexivity]. simpl. unfold Qeq. simpl. lia.
Qed.

(** Claim C4, as the code has it.  For a box that is not orthogonal the
    writer raises nothing in the box transform, whatever the cell: the box
    section is written in full, four lines, and the call goes on with the
    Masses section; its end is the end of the remaining sections.
    [b^2 - xy^2] is never negative.  Where [c^2 - xz^2 - yz^2] is negative,
    [np.sqrt] gives [nan], and [nan] is written as the upper bound of the
    z axis. *)
Theorem degenerate_cell_is_written_with_nan
  (set_iter : Py.set_order)
  (join_dihedrals : list Dihedral.t -> list Dihedral.t)
  (RB_to_OPLS : Q -> Q -> Q -> Q -> Q -> Q -> Q * Q * Q * Q)
  (structure : Structure.t) (cfg : config) (v : locals) :
  prepare set_iter join_dihedrals structure cfg = inr v ->
  ~ BoxSpec.orthogonal (box v) ->
  written (write_lammpsdata set_iter join_dihedrals RB_to_OPLS
             structure cfg)
  = header set_iter structure cfg v ++ box_section (box v)
    ++ fst (and_then
              (and_then
                 (and_then (masses_section structure v)
                           (forcefield_sections RB_to_OPLS structure cfg v))
                 (atoms_section cfg v))
              (bonded_sections cfg v))
  /\ ended (write_lammpsdata set_iter join_dihedrals RB_to_OPLS
              structure cfg)
     = snd (and_then
              (and_then
                 (and_then (masses_section structure v)
                           (forcefield_sections RB_to_OPLS structure cfg v))
                 (atoms_section cfg v))
              (bonded_sections cfg v))
  /\ length (box_section (box v)) = 4
  /\ (0 <= BoxSpec.ly_squared (box v))%R
  /\ ((0 < BoxSpec.ly_squared (box v))%R ->
      (BoxSpec.lz_squared (box v) < 0)%R ->
      zhi_bound (triclinic_cell (box v)) = Np.NaN
      /\ Write "{0:.6f} {1:.6f} zlo zhi\n"
               [NpFloat (Np.Fin (BoxSpec.zlo (box v))); NpFloat Np.NaN]
         ∈ written (write_lammpsdata set_iter join_dihedrals RB_to_OPLS
                      structure cfg)).
Proof.
  intros Hv Horth.
  destruct (written_split set_iter join_dihedrals RB_to_OPLS
              structure cfg v Hv) as [Hw He].
  split; [exact Hw|]. split; [exact He|]. split; [|split].
  - now rewrite (BoxFacts.box_section_triclinic (box v) Horth).
  - apply BoxFacts.ly_squared_nonneg.
  - intros Hly Hlz. split.
    + now apply BoxFacts.triclinic_cell_nan.
    + now apply nan_bound_written.
Qed.

(** The cell with the angles 0, 0 and 90 degrees and sides of 10. *)
Lemma impossible_cell_geometry :
  ~ BoxSpec.orthogonal Examples.impossible_box
  /\ (0 < BoxSpec.ly_squared Examples.impossible_box)%R
  /\ (BoxSpec.lz_squared Examples.impossible_box < 0)%R.
Proof.
  assert (Hb : BoxSpec.b Examples.impossible_box = 10%R)
    by (unfold BoxSpec.b, BoxSpec.tenfold; eval_Q2R; lra).
  assert (Hc : BoxSpec.c Examples.impossible_box = 10%R)
    by (unfold BoxSpec.c, BoxSpec.tenfold; eval_Q2R; lra).
  assert (Hal : cos (BoxSpec.alpha Examples.impossible_box) = 1%R).
  { unfold BoxSpec.alpha, BoxSpec.radians. eval_Q2R.
    replace (0 * / 1 * PI / 180)%R with 0%R by lra. apply cos_0. }
  assert (Hbe : cos (BoxSpec.beta Examples.impossible_box) = 1%R).
  { unfold BoxSpec.beta, BoxSpec.radians. eval_Q2R.
    replace (0 * / 1 * PI / 180)%R with 0%R by lra. apply cos_0. }
  assert (Hga : cos (BoxSpec.gamma Examples.impossible_box) = 0%R).
  { unfold BoxSpec.gamma, BoxSpec.radians. eval_Q2R.
    replace (90 * / 1 * PI / 180)%R with (PI / 2)%R by lra. apply cos_PI2. }
  assert (Hxy : BoxSpec.xy Examples.impossible_box = 0%R)
    by (unfold BoxSpec.xy; rewrite Hga; lra).
  assert (Hxz : BoxSpec.xz Examples.impossible_box = 10%R)
    by (unfold BoxSpec.xz; rewrite Hbe, Hc; lra).
  assert (Hly2 : BoxSpec.ly_squared Examples.impossible_box = (10 * 10)%R)
    by (unfold BoxSpec.ly_squared; rewrite Hxy, Hb; lra).
  assert (Hly : BoxSpec.ly Examples.impossible_box = 10%R).
  { unfold BoxSpec.ly. rewrite Hly2. apply sqrt_square. lra. }
  assert (Hyz : BoxSpec.yz Examples.impossible_box = 10%R)
    by (unfold BoxSpec.yz; rewrite Hly, Hxy, Hxz, Hb, Hc, Hal; lra).
  split; [|split].
  - rewrite <- BoxFacts.allclose_orthogonal. vm_compute. discriminate.
  - rewrite Hly2. lra.
  - unfold BoxSpec.lz_squared. rewrite Hyz, Hxz, Hc. lra.
Qed.

Lemma impossible_cell_prepared :
  exists v,
    prepare Py.insertion_order Examples.no_join Examples.impossible_cell
            (default_config "out.lammps") = inr v
    /\ box v = Examples.impossible_box.
Proof. eexists. split; [vm_compute; reflexivity|reflexivity]. Qed.

(** On the impossible cell the call ends without an error, with the Masses
    and Atoms sections written after a z line that holds [nan]. *)
Lemma impossible_cell_is_written :
  exists v,
    prepare Py.insertion_order Examples.no_join Examples.impossible_cell
            (default_config "out.lammps") = inr v
    /\ (BoxSpec.lz_squared (box v) < 0)%R
    /\ zhi_bound (triclinic_cell (box v)) = Np.NaN
    /\ Write "{0:.6f} {1:.6f} zlo zhi\n"
             [NpFloat (Np.Fin (BoxSpec.zlo (box v))); NpFloat Np.NaN]
       ∈ written (write_lammpsdata Py.insertion_order Examples.no_join
                    Examples.rb_unused Examples.impossible_cell
                    (default_config "out.lammps"))
    /\ ended (write_lammpsdata Py.insertion_order Examples.no_join
                Examples.rb_unused Examples.impossible_cell
                (default_config "out.lammps"))
       = inr tt.
Proof.
  destruct impossible_cell_prepared as (v & Hv & Hbox).
  destruct impossible_cell_geometry as (Horth & Hly & Hlz).
  rewrite <- Hbox in Horth, Hly, Hlz.
  destruct (degenerate_cell_is_written_with_nan
              Py.insertion_order Examples.no_join Examples.rb_unused
              Examples.impossible_cell (default_config "out.lammps") v
              Hv Horth) as (_ & _ & _ & _ & Hnan).
  destruct (Hnan Hly Hlz) as [Hzhi Hin].
  exists v. split; [exact Hv|]. split; [exact Hlz|].
  split; [exact Hzhi|]. split; [exact Hin|]. lazy. reflexivity.
Defined.

(** Claim C4 as stated fails: the cell with the angles 0, 0 and 90 degrees
    has [lz^2 = -100], and the call ends without an error; the file holds
    [nan] as the upper z bound, and the Masses section after it. *)
Lemma impossible_cell_is_not_rejected :
  (BoxSpec.lz_squared Examples.impossible_box < 0)%R
  /\ ended (write_lammpsdata Py.insertion_order Examples.no_join
              Examples.rb_unused Examples.impossible_cell
              (default_config "out.lammps"))
     = inr tt
  /\ Write "{0:.6f} {1:.6f} zlo zhi\n"
           [NpFloat (Np.Fin (BoxSpec.zlo Examples.impossible_box));
            NpFloat Np.NaN]
     ∈ written (write_lammpsdata Py.insertion_order Examples.no_join
                  Examples.rb_unused Examples.impossible_cell
                  (default_config "out.lammps"))
  /\ Write "\nMasses\n\n" []
     ∈ written (write_lammpsdata Py.insertion_order Examples.no_join
                  Examples.rb_unused Examples.impossible_cell
                  (default_config "out.lammps")).
Proof.
  destruct impossible_cell_prepared as (v & Hv & Hbox).
  destruct impossible_cell_geometry as (Horth & Hly & Hlz).
  split; [exact Hlz|]. split; [lazy; reflexivity|]. split.
  - rewrite <- Hbox in *. now apply nan_bound_written.
  - destruct (written_split Py.insertion_order Examples.no_join
                Examples.rb_unused Examples.impossible_cell
                (default_config "out.lammps") v Hv) as [-> _].
    apply elem_of_app. right. apply elem_of_app. right.
    vm_compute in Hv. injection Hv as <-. find_call.
Qed.

End BoxClaims.

(** ** Pair coefficients (claims C5 and C6) *)

Module PairFacts.

Import Lammps.

(** *** Sorting and indexing the atom types *)

Lemma insert_sorted_perm (x : string) (l : list string) :
  Sorting.insert_sorted x l ≡ₚ x :: l.
Proof.
  induction l as [|y l IH]; simpl; [reflexivity|].
  destruct (Sorting.key_lt y x); [|reflexivity].
  rewrite IH. apply Permutation_swap.
Qed.

Lemma sort_natural_perm (l : list string) : Sorting.sort_natural l ≡ₚ l.
Proof.
  induction l as [|x l IH]; simpl; [reflexivity|].
  rewrite insert_sorted_perm. now rewrite IH.
Qed.

Section UniqueTypes.
Variable set_iter : Py.set_order.
Hypothesis set_iter_ok : Py.set_order_ok set_iter.

Lemma unique_types_NoDup (types : list string) :
  NoDup (unique_types_of set_iter types).
Proof.
  unfold unique_types_of. rewrite sort_natural_perm. apply set_iter_ok.
Qed.

Lemma unique_types_elem (types : list string) (t : string) :
  t ∈ unique_types_of set_iter types <-> t ∈ types.
Proof.
  unfold unique_types_of. rewrite sort_natural_perm. apply set_iter_ok.
Qed.

End UniqueTypes.

Lemma index_from_lookup {A} `{EqDecision A} (l : list A) (i j : nat)
  (x : A) :
  NoDup l -> l !! j = Some x -> Py.index_from i x l = Some (i + j).
Proof.
  revert i j; induction l as [|y l IH]; intros i j Hnd Hj; [discriminate|].
  apply NoDup_cons in Hnd as [Hy Hnd]. simpl.
  destruct j as [|j]; simpl in Hj.
  - injection Hj as ->. rewrite decide_True by reflexivity.
    f_equal. lia.
  - rewrite decide_False.
    + rewrite (IH (S i) j Hnd Hj). f_equal. lia.
    + intros ->. apply Hy. apply list_elem_of_lookup. now exists j.
Qed.

Lemma index_lookup {A} `{EqDecision A} (l : list A) (j : nat) (x : A) :
  NoDup l -> l !! j = Some x -> Py.index x l = inr j.
Proof.
  intros Hnd Hj. unfold Py.index.
  now rewrite (index_from_lookup l 0 j x Hnd Hj).
Qed.

Lemma index_elem {A} `{EqDecision A} (l : list A) (x : A) :
  NoDup l -> x ∈ l -> exists j, l !! j = Some x /\ Py.index x l = inr j.
Proof.
  intros Hnd Hx. apply list_elem_of_lookup in Hx as [j Hj].
  exists j. split; [exact Hj|now apply index_lookup].
Qed.

(** *** Dicts built in a loop *)

Section DictLoop.
Context {C K V : Type} `{EqDecision K}.
Variable key : C -> K.
Variable val : C -> V.

Local Abbreviation set_item := (PairSpec.set_item key val).

(** After the loop a key holds the value of the last item that set it; if
    all items with this key carry the same value, this value. *)
Lemma loop_lookup (l : list C) (d : Py.dict K V) (k : K) (v : V) :
  (forall c, c ∈ l -> key c = k -> val c = v) ->
  (Py.dict_lookup k d = Some v \/ exists c, c ∈ l /\ key c = k) ->
  Py.dict_lookup k (fold_left set_item l d) = Some v.
Proof.
  revert d; induction l as [|c l IH]; intros d Hval Hex; simpl.
  - destruct Hex as [Hd|(c & Hc & _)]; [exact Hd|inversion Hc].
  - apply IH.
    + intros c' Hc'. apply Hval. now right.
    + unfold PairSpec.set_item at 1. destruct (decide (key c = k)) as [Hk|Hk].
      * left. rewrite Hk, PyFacts.dict_lookup_set_eq. f_equal.
        apply Hval; [left|exact Hk].
      * rewrite PyFacts.dict_lookup_set_ne by exact Hk.
        destruct Hex as [Hd|(c' & Hc' & Hk')]; [now left|right].
        apply elem_of_cons in Hc' as [->|Hc']; [contradiction|].
        now exists c'.
Qed.

Lemma loop_lookup_Some (l : list C) (d : Py.dict K V) (k : K) (v : V) :
  Py.dict_lookup k (fold_left set_item l d) = Some v ->
  Py.dict_lookup k d = Some v \/ exists c, c ∈ l /\ key c = k /\ val c = v.
Proof.
  revert d; induction l as [|c l IH]; intros d; simpl; [now left|].
  intros Hl. apply IH in Hl as [Hl|(c' & Hc' & Hk & Hv)].
  - unfold PairSpec.set_item in Hl. destruct (decide (key c = k)) as [Hk|Hk].
    + rewrite Hk, PyFacts.dict_lookup_set_eq in Hl. injection Hl as <-.
      right. exists c. split; [left|easy].
    + rewrite PyFacts.dict_lookup_set_ne in Hl by exact Hk. now left.
  - right. exists c'. split; [now right|easy].
Qed.

(** A loop whose every step sets one item. *)
Lemma foldM_set_items (f : Py.dict K V -> C -> Py.result (Py.dict K V))
  (l : list C) (d : Py.dict K V) :
  (forall c acc, c ∈ l -> f acc c = inr (set_item acc c)) ->
  Py.foldM f l d = inr (fold_left set_item l d).
Proof.
  revert d; induction l as [|c l IH]; intros d Hf; simpl; [reflexivity|].
  rewrite Hf by left. simpl. apply IH.
  intros c' acc Hc'. apply Hf. now right.
Qed.

End DictLoop.

End PairFacts.

Module PairTable.

Import Lammps.

Section Types.
Variable unique_types : list string.
Hypothesis unique_types_NoDup : NoDup unique_types.

Lemma type_id_lookup (i : nat) (t : string) :
  unique_types !! i = Some t -> PairSpec.type_id unique_types t = i + 1.
Proof.
  intros Hi. unfold PairSpec.type_id.
  now rewrite (PairFacts.index_from_lookup _ 0 i t unique_types_NoDup Hi).
Qed.

Lemma index_type_id (t : string) :
  t ∈ unique_types ->
  exists i, unique_types !! i = Some t
            /\ Py.index t unique_types = inr i
            /\ PairSpec.type_id unique_types t = i + 1.
Proof.
  intros Ht.
  destruct (PairFacts.index_elem _ t unique_types_NoDup Ht) as (i & Hi & Hx).
  exists i. split; [exact Hi|]. split; [exact Hx|now apply type_id_lookup].
Qed.

Lemma type_id_inj (t1 t2 : string) :
  t1 ∈ unique_types -> t2 ∈ unique_types ->
  PairSpec.type_id unique_types t1 = PairSpec.type_id unique_types t2 ->
  t1 = t2.
Proof.
  intros H1 H2 Heq.
  destruct (index_type_id t1 H1) as (i1 & Hi1 & _ & E1).
  destruct (index_type_id t2 H2) as (i2 & Hi2 & _ & E2).
  assert (i1 = i2) by lia. congruence.
Qed.

(** The dict of a per-atom value by type ID holds, for every type, the
    value of the last atom of the type. *)
Lemma by_type_id_items {V} (f : Atom.t -> V) (atoms : list Atom.t) :
  (forall atom, atom ∈ atoms -> Atom.type atom ∈ unique_types) ->
  by_type_id unique_types (map Atom.type atoms) (map f atoms)
  = inr (fold_left
           (PairSpec.set_item
              (fun atom => PairSpec.type_id unique_types (Atom.type atom)) f)
           atoms []).
Proof.
  intros Hin. unfold by_type_id.
  assert (Hitems :
    Py.mapM
      (fun tv : string * V =>
         Py.bind (Py.index (fst tv) unique_types)
                 (fun i => Py.ret (i + 1, snd tv)))
      (zip (map Atom.type atoms) (map f atoms))
    = inr (map (fun atom =>
                  (PairSpec.type_id unique_types (Atom.type atom), f atom))
               atoms)).
  { induction atoms as [|atom atoms IH]; [reflexivity|]. simpl.
    destruct (index_type_id (Atom.type atom)) as (i & _ & -> & ->);
      [apply Hin; left|].
    simpl. rewrite IH; [reflexivity|].
    intros atom' Hatom'. apply Hin. now right. }
  rewrite Hitems. simpl. unfold Py.dict_of_list. f_equal.
  generalize (@nil (nat * V)) as d.
  clear Hitems Hin. induction atoms as [|atom atoms IH]; intros d;
    [reflexivity|]. simpl. now rewrite IH.
Qed.

Lemma type_param_lookup {V} (f : Atom.t -> V) (atoms : list Atom.t)
  (t : string) :
  (forall atom, atom ∈ atoms -> Atom.type atom ∈ unique_types) ->
  t ∈ unique_types ->
  Py.dict_lookup (PairSpec.type_id unique_types t)
    (fold_left
       (PairSpec.set_item
          (fun atom => PairSpec.type_id unique_types (Atom.type atom)) f)
       atoms [])
  = PairSpec.type_param f atoms t.
Proof.
  intros Hin Ht. unfold PairSpec.type_param.
  induction atoms as [|atom atoms IH] using rev_ind; [reflexivity|].
  rewrite !fold_left_app. simpl.
  assert (Hatom : Atom.type atom ∈ unique_types).
  { apply Hin. apply elem_of_app. right. left. }
  unfold PairSpec.set_item at 1.
  destruct (decide (Atom.type atom = t)) as [->|Hne].
  - now rewrite PyFacts.dict_lookup_set_eq.
  - rewrite PyFacts.dict_lookup_set_ne.
    + apply IH. intros atom' Hatom'. apply Hin. apply elem_of_app. now left.
    + intros Heq. apply Hne. now apply type_id_inj.
Qed.

Lemma type_param_Some {V} (f : Atom.t -> V) (atoms : list Atom.t)
  (t : string) :
  t ∈ map Atom.type atoms ->
  exists atom, atom ∈ atoms /\ Atom.type atom = t
               /\ PairSpec.type_param f atoms t = Some (f atom).
Proof.
  unfold PairSpec.type_param.
  induction atoms as [|atom atoms IH] using rev_ind; intros Ht;
    [inversion Ht|].
  rewrite fold_left_app. simpl.
  destruct (decide (Atom.type atom = t)) as [Heq|Hne].
  - exists atom. split; [apply elem_of_app; right; left|easy].
  - rewrite map_app in Ht. apply elem_of_app in Ht as [Ht|Ht].
    + destruct (IH Ht) as (atom' & Hin & Hty & Hp).
      exists atom'. split; [apply elem_of_app; now left|easy].
    + simpl in Ht. apply list_elem_of_singleton in Ht. congruence.
Qed.

End Types.

(** The pairs of the loop: every pair of types, the first not behind the
    second in the list of types. *)
Lemma combinations_elem {A} (l : list A) (x y : A) :
  (x, y) ∈ Py.combinations_with_replacement_2 l
  <-> exists i j, i <= j /\ l !! i = Some x /\ l !! j = Some y.
Proof.
  induction l as [|z l IH]; simpl.
  - split; [intros H; inversion H|intros (i & j & _ & H & _); discriminate].
  - rewrite elem_of_cons, elem_of_app, IH. split.
    + intros [[= -> ->]|[Hin|(i & j & Hij & Hi & Hj)]].
      * exists 0, 0. easy.
      * apply list_elem_of_In, in_map_iff in Hin as (y' & [= -> ->] & Hy').
        apply list_elem_of_In, list_elem_of_lookup in Hy' as [j Hj].
        exists 0, (S j). split; [lia|easy].
      * exists (S i), (S j). split; [lia|easy].
    + intros (i & j & Hij & Hi & Hj). destruct i as [|i].
      * injection Hi as ->. destruct j as [|j].
        -- injection Hj as ->. now left.
        -- right. left. apply list_elem_of_In, in_map_iff.
           exists y. split; [reflexivity|].
           apply list_elem_of_In, list_elem_of_lookup. now exists j.
      * destruct j as [|j]; [lia|]. right. right.
        exists i, j. split; [lia|easy].
Qed.

Section Table.
Variable set_iter : Py.set_order.
Hypothesis set_iter_ok : Py.set_order_ok set_iter.
Variable structure : Structure.t.

Local Abbreviation atoms := (Structure.atoms structure).
Local Abbreviation types := (map Atom.type (Structure.atoms structure)).
Local Abbreviation U :=
  (unique_types_of set_iter (map Atom.type (Structure.atoms structure))).
Local Abbreviation by_type f :=
  (fold_left
     (PairSpec.set_item
        (fun atom => PairSpec.type_id U (Atom.type atom)) f)
     (Structure.atoms structure) []).

Hypothesis rule_known :
  Structure.combining_rule structure = "lorentz"
  \/ Structure.combining_rule structure = "geometric".
Hypothesis parameters_nonneg :
  forall atom, atom ∈ atoms ->
               (0 <= Atom.sigma atom)%Q /\ (0 <= Atom.epsilon atom)%Q.

Lemma U_NoDup : NoDup U.
Proof. now apply PairFacts.unique_types_NoDup. Qed.

Lemma atom_type_in_U (atom : Atom.t) : atom ∈ atoms -> Atom.type atom ∈ U.
Proof.
  intros Hin. apply PairFacts.unique_types_elem; [exact set_iter_ok|].
  apply list_elem_of_In, in_map, list_elem_of_In, Hin.
Qed.

(** The look-up of a parameter by type ID. *)
Lemma param_get {V} (f : Atom.t -> V) (t : string) (i : nat) :
  U !! i = Some t ->
  exists atom,
    atom ∈ atoms /\ Atom.type atom = t
    /\ PairSpec.type_param f atoms t = Some (f atom)
    /\ Py.dict_get (i + 1) (by_type f) = inr (f atom).
Proof.
  intros Hi.
  assert (Ht : t ∈ U) by (apply list_elem_of_lookup; now exists i).
  assert (Hty : t ∈ types)
    by (now apply (PairFacts.unique_types_elem set_iter set_iter_ok)).
  destruct (type_param_Some f atoms t Hty) as (atom & Hin & Heq & Hp).
  exists atom. split; [exact Hin|]. split; [exact Heq|]. split; [exact Hp|].
  unfold Py.dict_get.
  rewrite <- (type_id_lookup U U_NoDup i t Hi).
  now rewrite (type_param_lookup U U_NoDup f atoms t atom_type_in_U Ht), Hp.
Qed.

Lemma Q2R_half (q : Q) : Q2R (q * 0.5) = (Q2R q / 2)%R.
Proof. rewrite Q2R_mult. unfold Q2R at 2. simpl. lra. Qed.

(** One step of the loop sets the coefficients of the specification. *)
Lemma pair_coeff_step (coeffs : Py.dict (nat * nat) (R * R))
  (combo : string * string) :
  fst combo ∈ U -> snd combo ∈ U ->
  pair_coeff structure U (by_type Atom.sigma) (by_type Atom.epsilon)
    (sorted_nbfix_types (Structure.nbfix_types structure)) coeffs combo
  = inr (PairSpec.set_item (PairSpec.pair_key U)
           (PairSpec.pair_value structure) coeffs combo).
Proof.
  destruct combo as [t1 t2]. cbn [fst snd]. intros H1 H2.
  destruct (index_type_id U U_NoDup t1 H1) as (i1 & Hi1 & Hx1 & Hid1).
  destruct (index_type_id U U_NoDup t2 H2) as (i2 & Hi2 & Hx2 & Hid2).
  unfold pair_coeff, PairSpec.set_item, PairSpec.pair_key,
    PairSpec.pair_value.
  cbn [fst snd]. rewrite Hx1, Hx2, Hid1, Hid2.
  destruct (Py.dict_lookup (t1, t2) _) as [[rmin epsilon]|];
    [reflexivity|].
  cbn [Py.bind].
  destruct (param_get Atom.sigma t1 i1 Hi1) as (a1 & Ha1 & _ & Ps1 & Gs1).
  destruct (param_get Atom.epsilon t1 i1 Hi1) as (b1 & Hb1 & _ & Pe1 & Ge1).
  destruct (param_get Atom.sigma t2 i2 Hi2) as (a2 & Ha2 & _ & Ps2 & Gs2).
  destruct (param_get Atom.epsilon t2 i2 Hi2) as (b2 & Hb2 & _ & Pe2 & Ge2).
  unfold PairSpec.sigma_of, PairSpec.epsilon_of.
  rewrite Ps1, Pe1, Ps2, Pe2. unfold default, from_option, Datatypes.id.
  unfold PairSpec.set_item in Gs1, Ge1, Gs2, Ge2.
  destruct (decide (t1 = t2)) as [->|Hne].
  - assert (i1 = i2) by (eapply NoDup_lookup; eauto using U_NoDup).
    subst i2. rewrite Nat.eqb_refl, Gs1, Ge1. reflexivity.
  - assert (Hi : (i1 + 1 =? i2 + 1) = false).
    { apply Nat.eqb_neq. intros Heq. apply Hne.
      assert (i1 = i2) by lia. congruence. }
    rewrite Hi, Gs1, Gs2, Ge1, Ge2.
    assert (He : pow_half (Atom.epsilon b1 * Atom.epsilon b2)
                 = PyReal (sqrt (Q2R (Atom.epsilon b1)
                                 * Q2R (Atom.epsilon b2)))).
    { unfold pow_half. rewrite <- Q2R_mult.
      destruct (Qle_bool 0 _) eqn:Hle; [reflexivity|].
      apply not_true_iff_false in Hle. exfalso. apply Hle.
      apply Qle_bool_iff, Qmult_le_0_compat; now apply parameters_nonneg. }
    unfold PairSpec.mixed, PairSpec.rounded.
    destruct rule_known as [Hrule|Hrule]; rewrite Hrule; cbn [String.eqb].
    + simpl. rewrite He. simpl. rewrite Q2R_half, Q2R_plus. reflexivity.
    + assert (Hs : pow_half (Atom.sigma a1 * Atom.sigma a2)
                   = PyReal (sqrt (Q2R (Atom.sigma a1)
                                   * Q2R (Atom.sigma a2)))).
      { unfold pow_half. rewrite <- Q2R_mult.
        destruct (Qle_bool 0 _) eqn:Hle; [reflexivity|].
        apply not_true_iff_false in Hle. exfalso. apply Hle.
        apply Qle_bool_iff, Qmult_le_0_compat; now apply parameters_nonneg. }
      simpl. rewrite Hs, He. reflexivity.
Qed.

Lemma combination_types (c : string * string) :
  c ∈ Py.combinations_with_replacement_2 U -> fst c ∈ U /\ snd c ∈ U.
Proof.
  destruct c as [x y]. intros Hc.
  apply combinations_elem in Hc as (i & j & _ & Hi & Hj).
  split; apply list_elem_of_lookup; eauto.
Qed.

(** The loop over the pairs of types sets, pair by pair, the coefficients
    of the specification. *)
Lemma pair_coeffs_eq :
  pair_coeffs structure U (by_type Atom.sigma) (by_type Atom.epsilon)
  = inr (fold_left
           (PairSpec.set_item (PairSpec.pair_key U)
                              (PairSpec.pair_value structure))
           (Py.combinations_with_replacement_2 U) []).
Proof.
  unfold pair_coeffs. apply PairFacts.foldM_set_items.
  intros c acc Hc. apply pair_coeff_step; now apply combination_types.
Qed.

(** The table of pair coefficients holds, under the IDs of every pair of
    types, the coefficients of the specification. *)
Lemma pair_coeffs_table :
  by_type_id U types (map Atom.sigma atoms) = inr (by_type Atom.sigma)
  /\ by_type_id U types (map Atom.epsilon atoms) = inr (by_type Atom.epsilon)
  /\ exists coeffs,
      pair_coeffs structure U (by_type Atom.sigma) (by_type Atom.epsilon)
      = inr coeffs
      /\ forall i1 i2 t1 t2,
          i1 <= i2 -> U !! i1 = Some t1 -> U !! i2 = Some t2 ->
          Py.dict_lookup (i1 + 1, i2 + 1) coeffs
          = Some (PairSpec.pair_value structure (t1, t2)).
Proof.
  split; [now apply by_type_id_items; [apply U_NoDup|apply atom_type_in_U]|].
  split; [now apply by_type_id_items; [apply U_NoDup|apply atom_type_in_U]|].
  eexists. split; [apply pair_coeffs_eq|].
  intros i1 i2 t1 t2 Hle Hi1 Hi2.
  assert (Hin : (t1, t2) ∈ Py.combinations_with_replacement_2 U)
    by (apply combinations_elem; eauto).
  replace (i1 + 1, i2 + 1) with (PairSpec.pair_key U (t1, t2)).
  2:{ unfold PairSpec.pair_key. cbn [fst snd].
      now rewrite (type_id_lookup U U_NoDup i1 t1 Hi1),
        (type_id_lookup U U_NoDup i2 t2 Hi2). }
  apply PairFacts.loop_lookup.
  - intros [x y] Hc Hkey. destruct (combination_types _ Hc) as [Hx Hy].
    destruct (combination_types _ Hin) as [Ht1 Ht2].
    unfold PairSpec.pair_key in Hkey. cbn [fst snd] in *.
    injection Hkey as Hk1 Hk2.
    apply (type_id_inj U U_NoDup) in Hk1, Hk2; try assumption.
    now subst.
  - right. now exists (t1, t2).
Qed.

End Table.

End PairTable.

(** ** Rounding to decimal places *)

Module Rounding.

Lemma round_half_even_real_error (x : R) :
  (- (1 / 2) <= IZR (Py.round_half_even_real x) - x <= 1 / 2)%R.
Proof.
  unfold Py.round_half_even_real.
  pose proof (Zfloor_bound x) as [Hlo Hhi].
  destruct (Rlt_dec _ _) as [Hlt|Hge]; [lra|].
  destruct (Rlt_dec _ _) as [Hgt|Hle]; [rewrite plus_IZR; lra|].
  destruct (Z.even _); [|rewrite plus_IZR]; lra.
Qed.

Lemma round_half_even_real_integer (z : Z) :
  Py.round_half_even_real (IZR z) = z.
Proof.
  unfold Py.round_half_even_real. rewrite ZfloorZ.
  destruct (Rlt_dec _ _) as [_|Hge]; [reflexivity|lra].
Qed.

Lemma pow10_pos (n : nat) : (0 < 10 ^ n)%R.
Proof. apply pow_lt. lra. Qed.

(** Rounding to [n] places moves a number by at most half a unit of the
    last place. *)
Lemma round_real_error (x : R) (n : nat) :
  (Rabs (Py.round_real x n - x) <= / (2 * 10 ^ n))%R.
Proof.
  unfold Py.round_real. pose proof (pow10_pos n) as Hp.
  pose proof (round_half_even_real_error (x * 10 ^ n)) as [Hlo Hhi].
  set (z := IZR (Py.round_half_even_real (x * 10 ^ n))) in *.
  assert (Hinv : (0 < / 10 ^ n)%R) by now apply Rinv_0_lt_compat.
  assert (Hd : (z / 10 ^ n - x = (z - x * 10 ^ n) * / 10 ^ n)%R)
    by (field; lra).
  replace (/ (2 * 10 ^ n))%R with (1 / 2 * / 10 ^ n)%R by (field; lra).
  rewrite Hd. apply Rabs_le. split; nra.
Qed.

(** A number with at most [n] places is its own rounding. *)
Lemma round_real_exact (x : R) (n : nat) (z : Z) :
  (x * 10 ^ n = IZR z)%R -> Py.round_real x n = x.
Proof.
  intros Hz. unfold Py.round_real. pose proof (pow10_pos n) as Hp.
  rewrite Hz, round_half_even_real_integer, <- Hz. field. lra.
Qed.

End Rounding.

(** The lines of the section [PairIJ Coeffs]. *)
Module PairFile.

Import Lammps.

Lemma write_each_inr {A} (f : A -> Py.result write_call) (l : list A) :
  (forall x, x ∈ l -> exists call, f x = inr call) ->
  snd (write_each f l) = inr tt.
Proof.
  induction l as [|x l IH]; intros Hf; [reflexivity|]. simpl.
  destruct (Hf x) as [call ->]; [left|].
  rewrite Raises.and_then_inr by reflexivity. simpl.
  apply IH. intros y Hy. apply Hf. now right.
Qed.

Lemma write_each_elem {A} (f : A -> Py.result write_call) (l : list A)
  (x : A) (call : write_call) :
  (forall y, y ∈ l -> exists c, f y = inr c) ->
  x ∈ l -> f x = inr call -> call ∈ fst (write_each f l).
Proof.
  induction l as [|y l IH]; intros Hf Hx Hcall; [inversion Hx|]. simpl.
  destruct (Hf y) as [c Hc]; [left|]. rewrite Hc.
  rewrite Raises.and_then_inr by reflexivity. simpl.
  apply elem_of_cons in Hx as [->|Hx].
  - replace c with call by congruence. left.
  - right. apply IH; [|exact Hx|exact Hcall].
    intros z Hz. apply Hf. now right.
Qed.

Lemma dict_set_elem {K V} `{EqDecision K} (k : K) (v : V)
  (d : Py.dict K V) (x : K * V) :
  x ∈ Py.dict_set k v d -> x = (k, v) \/ x ∈ d.
Proof.
  induction d as [|[k' v'] d IH]; simpl.
  - intros Hx. apply list_elem_of_singleton in Hx. now left.
  - destruct (decide (k' = k)) as [->|Hne]; intros Hx;
      apply elem_of_cons in Hx as [->|Hx].
    + now left.
    + right. now right.
    + right. left.
    + destruct (IH Hx) as [->|Hd]; [now left|]. right. now right.
Qed.

Lemma loop_items {C K V} `{EqDecision K} (key : C -> K) (val : C -> V)
  (l : list C) (d : Py.dict K V) (x : K * V) :
  x ∈ fold_left (PairSpec.set_item key val) l d ->
  x ∈ d \/ exists c, c ∈ l /\ x = (key c, val c).
Proof.
  revert d; induction l as [|c l IH]; intros d; simpl; [now left|].
  intros Hx. apply IH in Hx as [Hx|(c' & Hc' & ->)].
  - unfold PairSpec.set_item in Hx. apply dict_set_elem in Hx as [->|Hx].
    + right. exists c. split; [left|reflexivity].
    + now left.
  - right. exists c'. split; [now right|reflexivity].
Qed.

Section Writer.
Variable set_iter : Py.set_order.
Variable join_dihedrals : list Dihedral.t -> list Dihedral.t.
Variable RB_to_OPLS : Q -> Q -> Q -> Q -> Q -> Q -> Q * Q * Q * Q.
Hypothesis set_iter_ok : Py.set_order_ok set_iter.
Variable structure : Structure.t.
Variable cfg : config.
Variable v : locals.

Local Abbreviation atoms := (Structure.atoms structure).
Local Abbreviation U :=
  (unique_types_of set_iter (map Atom.type (Structure.atoms structure))).

Hypothesis prepared : prepare set_iter join_dihedrals structure cfg = inr v.
Hypothesis typed : forcefield v = true.
Hypothesis overrides : Structure.has_NBFIX structure = true.
Hypothesis in_file : nbfix_in_data_file cfg = true.
Hypothesis rule_known :
  Structure.combining_rule structure = "lorentz"
  \/ Structure.combining_rule structure = "geometric".
Hypothesis parameters_nonneg :
  forall atom, atom ∈ atoms ->
               (0 <= Atom.sigma atom)%Q /\ (0 <= Atom.epsilon atom)%Q.

Lemma types_of_typed_atoms :
  types v = map Atom.type atoms /\ unique_types v = U.
Proof.
  destruct (Stages.prepare_inv _ _ _ _ _ prepared)
    as (_ & _ & Htypes & Hunique & _).
  rewrite typed in Htypes. now rewrite Hunique, Htypes.
Qed.

(** The section of the masses ends without an exception. *)
Lemma masses_section_ends : snd (masses_section structure v) = inr tt.
Proof.
  unfold masses_section.
  destruct types_of_typed_atoms as [-> ->].
  rewrite (PairTable.by_type_id_items U
             (PairTable.U_NoDup set_iter set_iter_ok structure)
             Atom.mass atoms
             (PairTable.atom_type_in_U set_iter set_iter_ok structure)).
  cbn [computing]. rewrite Raises.and_then_inr by reflexivity.
  cbn [snd]. apply write_each_inr.
  intros [k m] Hitem. apply loop_items in Hitem as [Hitem|(atom & Hin & Heq)];
    [inversion Hitem|].
  injection Heq as -> ->. cbn [fst].
  assert (Ht : Atom.type atom ∈ U)
    by now apply (PairTable.atom_type_in_U set_iter set_iter_ok).
  apply list_elem_of_lookup in Ht as [i Hi].
  rewrite (PairTable.type_id_lookup U
             (PairTable.U_NoDup set_iter set_iter_ok structure) i _ Hi).
  replace (i + 1 - 1) with i by lia.
  unfold Py.getitem. rewrite Hi. simpl. eauto.
Qed.

(** The line of a pair of types in the section [PairIJ Coeffs]: the IDs of
    the two types, epsilon and sigma of the pair, and the two labels. *)
Lemma pair_line_written (i1 i2 : nat) (t1 t2 : string) :
  i1 <= i2 -> U !! i1 = Some t1 -> U !! i2 = Some t2 ->
  Write "{0} \t{1} \t{2} \t\t{3}\t\t# {4}\t{5}\n"
        [IntN (i1 + 1); IntN (i2 + 1);
         Real (snd (PairSpec.pair_value structure (t1, t2)));
         Real (fst (PairSpec.pair_value structure (t1, t2)));
         Str t1; Str t2]
  ∈ written (write_lammpsdata set_iter join_dihedrals RB_to_OPLS
               structure cfg).
Proof.
  intros Hle Hi1 Hi2.
  destruct (BoxClaims.written_split set_iter join_dihedrals RB_to_OPLS
              structure cfg v prepared) as [-> _].
  apply elem_of_app. right. apply elem_of_app. right.
  do 2 apply UntypedBonds.elem_and_then_l.
  rewrite Raises.and_then_inr by exact masses_section_ends.
  cbn [fst]. apply elem_of_app. right.
  unfold forcefield_sections. rewrite typed.
  destruct types_of_typed_atoms as [Htypes Hunique].
  rewrite Htypes, Hunique.
  pose proof (PairTable.U_NoDup set_iter set_iter_ok structure) as HU.
  pose proof (PairTable.atom_type_in_U set_iter set_iter_ok structure) as HinU.
  rewrite !(PairTable.by_type_id_items U HU _ atoms HinU).
  cbn [computing]. do 4 apply UntypedBonds.elem_and_then_l.
  unfold pair_section. rewrite overrides, Hunique.
  rewrite (PairTable.pair_coeffs_eq set_iter set_iter_ok structure
             rule_known parameters_nonneg).
  cbn [computing]. rewrite in_file.
  rewrite Raises.and_then_inr by reflexivity.
  cbn [fst]. apply elem_of_app. right.
  destruct (PairTable.pair_coeffs_table set_iter set_iter_ok structure
              rule_known parameters_nonneg)
    as (_ & _ & coeffs & Hc & Hlook).
  rewrite PairTable.pair_coeffs_eq in Hc by assumption.
  injection Hc as <-.
  specialize (Hlook i1 i2 t1 t2 Hle Hi1 Hi2).
  apply PyFacts.dict_lookup_Some_elem in Hlook.
  assert (Hlabel : forall i t, U !! i = Some t ->
            Py.dict_get (i + 1)
              (fold_left
                 (PairSpec.set_item
                    (fun atom => PairSpec.type_id U (Atom.type atom))
                    Atom.type) atoms [])
            = inr t).
  { intros i t Hi.
    destruct (PairTable.param_get set_iter set_iter_ok structure
                Atom.type t i Hi) as (atom & _ & Heq & _ & Hget).
    now rewrite Hget, Heq. }
  eapply write_each_elem; [|exact Hlook|].
  - intros [[k1 k2] [s e]] Hitem.
    apply loop_items in Hitem as [Hitem|([x y] & Hcombo & Heq)];
      [inversion Hitem|].
    apply PairTable.combinations_elem in Hcombo
      as (j1 & j2 & _ & Hj1 & Hj2).
    unfold PairSpec.pair_key in Heq. cbn [fst snd] in Heq.
    rewrite (PairTable.type_id_lookup U HU j1 x Hj1),
      (PairTable.type_id_lookup U HU j2 y Hj2) in Heq.
    injection Heq as -> -> _.
    rewrite (Hlabel j1 x Hj1), (Hlabel j2 y Hj2). simpl. eauto.
  - destruct (PairSpec.pair_value structure (t1, t2)) as [s e].
    rewrite (Hlabel i1 t1 Hi1), (Hlabel i2 t2 Hi2). reflexivity.
Qed.

End Writer.

End PairFile.

Module PairClaims.

Import Lammps.

(** Claim C5.  When the cross terms are derived (the structure has some
    override), two distinct atom types with the parameters [s1], [e1] and
    [s2], [e2] and no override under their pair get, rounded to eight
    places, [sigma = (s1 + s2) / 2] under "lorentz" and
    [sigma = sqrt (s1 s2)] under "geometric", and
    [epsilon = sqrt (e1 e2)] under both.  (The parameters of all atoms are
    not negative, as Lennard-Jones parameters are; [i1 < i2] are the
    places of the two types in the sorted list of types.) *)
Theorem mixing_rule_cross_coefficients
  (set_iter : Py.set_order) (structure : Structure.t)
  (i1 i2 : nat) (t1 t2 : string) (s1 e1 s2 e2 : Q) :
  Py.set_order_ok set_iter ->
  Structure.combining_rule structure = "lorentz"
  \/ Structure.combining_rule structure = "geometric" ->
  (forall atom, atom ∈ Structure.atoms structure ->
                (0 <= Atom.sigma atom)%Q /\ (0 <= Atom.epsilon atom)%Q) ->
  unique_types_of set_iter (map Atom.type (Structure.atoms structure)) !! i1
  = Some t1 ->
  unique_types_of set_iter (map Atom.type (Structure.atoms structure)) !! i2
  = Some t2 ->
  i1 < i2 ->
  (forall atom, atom ∈ Structure.atoms structure -> Atom.type atom = t1 ->
                Atom.sigma atom = s1 /\ Atom.epsilon atom = e1) ->
  (forall atom, atom ∈ Structure.atoms structure -> Atom.type atom = t2 ->
                Atom.sigma atom = s2 /\ Atom.epsilon atom = e2) ->
  Py.dict_lookup (t1, t2)
    (sorted_nbfix_types (Structure.nbfix_types structure)) = None ->
  exists sigma_dict epsilon_dict coeffs sigma epsilon,
    by_type_id
      (unique_types_of set_iter (map Atom.type (Structure.atoms structure)))
      (map Atom.type (Structure.atoms structure))
      (map Atom.sigma (Structure.atoms structure)) = inr sigma_dict
    /\ by_type_id
         (unique_types_of set_iter
            (map Atom.type (Structure.atoms structure)))
         (map Atom.type (Structure.atoms structure))
         (map Atom.epsilon (Structure.atoms structure)) = inr epsilon_dict
    /\ pair_coeffs structure
         (unique_types_of set_iter
            (map Atom.type (Structure.atoms structure)))
         sigma_dict epsilon_dict = inr coeffs
    /\ Py.dict_lookup (i1 + 1, i2 + 1) coeffs = Some (sigma, epsilon)
    /\ sigma
       = Py.round_real
           (if String.eqb (Structure.combining_rule structure) "lorentz"
            then (Q2R s1 + Q2R s2) / 2 else sqrt (Q2R s1 * Q2R s2)) 8
    /\ epsilon = Py.round_real (sqrt (Q2R e1 * Q2R e2)) 8
    /\ (Rabs (sigma
              - (if String.eqb (Structure.combining_rule structure) "lorentz"
                 then (Q2R s1 + Q2R s2) / 2 else sqrt (Q2R s1 * Q2R s2)))
        <= / (2 * 10 ^ 8))%R
    /\ (Rabs (epsilon - sqrt (Q2R e1 * Q2R e2)) <= / (2 * 10 ^ 8))%R.
Proof.
  intros Hok Hrule Hnonneg Hi1 Hi2 Hlt Hp1 Hp2 Hnone.
  destruct (PairTable.pair_coeffs_table set_iter Hok structure Hrule Hnonneg)
    as (Hs & He & coeffs & Hc & Hlook).
  specialize (Hlook i1 i2 t1 t2 (Nat.lt_le_incl _ _ Hlt) Hi1 Hi2).
  assert (Hne : t1 <> t2).
  { intros ->.
    assert (i1 = i2); [|lia].
    eapply NoDup_lookup; [|exact Hi1|exact Hi2].
    now apply PairFacts.unique_types_NoDup. }
  assert (Hparam : forall (f : Atom.t -> Q) t i,
    unique_types_of set_iter (map Atom.type (Structure.atoms structure)) !! i
    = Some t ->
    exists atom, atom ∈ Structure.atoms structure /\ Atom.type atom = t
                 /\ PairSpec.type_param f (Structure.atoms structure) t
                    = Some (f atom)).
  { intros f t i Hi. apply PairTable.type_param_Some.
    apply (PairFacts.unique_types_elem set_iter Hok).
    apply list_elem_of_lookup. now exists i. }
  assert (Hval : PairSpec.pair_value structure (t1, t2)
                 = PairSpec.rounded
                     (PairSpec.mixed (Structure.combining_rule structure)
                                     s1 e1 s2 e2)).
  { unfold PairSpec.pair_value. cbn [fst snd]. rewrite Hnone.
    rewrite decide_False by exact Hne.
    unfold PairSpec.sigma_of, PairSpec.epsilon_of.
    destruct (Hparam Atom.sigma t1 i1 Hi1) as (a1 & Ha1 & Ht1 & ->).
    destruct (Hparam Atom.epsilon t1 i1 Hi1) as (b1 & Hb1 & Hu1 & ->).
    destruct (Hparam Atom.sigma t2 i2 Hi2) as (a2 & Ha2 & Ht2 & ->).
    destruct (Hparam Atom.epsilon t2 i2 Hi2) as (b2 & Hb2 & Hu2 & ->).
    simpl.
    destruct (Hp1 a1 Ha1 Ht1) as [-> _], (Hp1 b1 Hb1 Hu1) as [_ ->],
      (Hp2 a2 Ha2 Ht2) as [-> _], (Hp2 b2 Hb2 Hu2) as [_ ->].
    reflexivity. }
  rewrite Hval in Hlook.
  eexists _, _, coeffs, _, _.
  split; [exact Hs|]. split; [exact He|]. split; [exact Hc|].
  split; [exact Hlook|]. split; [reflexivity|]. split; [reflexivity|].
  split; apply Rounding.round_real_error.
Qed.

Lemma Rabs_le_interval (a b : R) :
  (Rabs a <= b)%R -> (- b <= a <= b)%R.
Proof. unfold Rabs. destruct (Rcase_abs a); lra. Qed.

Lemma sqrt_between (x lo hi : R) :
  (0 <= lo)%R -> (0 <= hi)%R -> (lo * lo < x)%R -> (x < hi * hi)%R ->
  (lo < sqrt x < hi)%R.
Proof.
  intros Hlo Hhi Hl Hh. split.
  - rewrite <- (sqrt_square lo Hlo). apply sqrt_lt_1_alt. nra.
  - rewrite <- (sqrt_square hi Hhi). apply sqrt_lt_1_alt. nra.
Qed.

(** The geometric mean of the two well depths of the examples. *)
Lemma example_epsilon :
  (0.04449 < sqrt (Q2R 0.066 * Q2R 0.030) < 0.0445)%R.
Proof. apply sqrt_between; eval_Q2R; lra. Qed.

Lemma example_atoms_nonneg (t1 t2 : string) (atom : Atom.t) :
  atom ∈ [Examples.atom 0 t1 3.5 0.066; Examples.atom 1 t2 2.5 0.030] ->
  (0 <= Atom.sigma atom)%Q /\ (0 <= Atom.epsilon atom)%Q.
Proof.
  intros Hin. apply elem_of_cons in Hin as [->|Hin];
    [|apply list_elem_of_singleton in Hin as ->]; split; discriminate.
Qed.

(** The example of the claim: 3.5, 0.066 and 2.5, 0.030 under "lorentz"
    give sigma = 3 and epsilon = 0.0445 within 0.00002. *)
Lemma mixing_rule_example :
  exists sigma_dict epsilon_dict coeffs sigma epsilon,
    pair_coeffs Examples.two_types ["A"; "B"] sigma_dict epsilon_dict
    = inr coeffs
    /\ Py.dict_lookup (1, 2) coeffs = Some (sigma, epsilon)
    /\ sigma = 3%R
    /\ (Rabs (epsilon - 0.0445) < 0.00002)%R.
Proof.
  destruct (mixing_rule_cross_coefficients
              Py.insertion_order Examples.two_types 0 1 "A" "B"
              3.5 0.066 2.5 0.030 PyFacts.insertion_order_ok)
    as (sigma_dict & epsilon_dict & coeffs & sigma & epsilon
        & _ & _ & Hc & Hl & Hs & _ & _ & He).
  - now left.
  - apply example_atoms_nonneg.
  - reflexivity.
  - reflexivity.
  - lia.
  - intros atom Hin Hty. apply elem_of_cons in Hin as [->|Hin];
      [easy|]. apply list_elem_of_singleton in Hin as ->. discriminate.
  - intros atom Hin Hty. apply elem_of_cons in Hin as [->|Hin];
      [discriminate|]. now apply list_elem_of_singleton in Hin as ->.
  - reflexivity.
  - exists sigma_dict, epsilon_dict, coeffs, sigma, epsilon.
    split; [exact Hc|]. split; [exact Hl|]. split.
    + rewrite Hs. simpl String.eqb. cbv iota.
      rewrite (Rounding.round_real_exact _ 8 300000000);
        eval_Q2R; simpl pow; lra.
    + pose proof example_epsilon as [Hlo Hhi].
      apply Rabs_le_interval in He. apply Rabs_def1; lra.
Defined.

(** Claim C6 fails on the code where the natural order of two type labels
    is not their order as strings.  The types C2 and C10 have an override
    [rmin = 1.2], [epsilon = 2.1].  The writer files it under the sorted
    pair (C10, C2) (line 360) and looks it up under the pair of the
    naturally sorted list of types, (C2, C10) (lines 370-372): the override
    is not found, and the pair gets the coefficients of the combining
    rule, with an epsilon near 0.0445 where the override has 2.1; the line
    of the pair in the section [PairIJ Coeffs] of the file holds them.
    The test [test_nbfix] of the repository expects the override. *)
Theorem override_is_lost_when_the_orders_differ :
  unique_types_of Py.insertion_order
    (map Atom.type (Structure.atoms Examples.natural_order))
  = ["C2"; "C10"]
  /\ sorted_nbfix_types (Structure.nbfix_types Examples.natural_order)
     = [(("C10", "C2"), (1.2, 2.1)%Q)]
  /\ Write "{0} \t{1} \t{2} \t\t{3}\t\t# {4}\t{5}\n"
           [IntN 1; IntN 2;
            Real (snd (PairSpec.rounded
                         (PairSpec.mixed "lorentz" 3.5 0.066 2.5 0.030)));
            Real (fst (PairSpec.rounded
                         (PairSpec.mixed "lorentz" 3.5 0.066 2.5 0.030)));
            Str "C2"; Str "C10"]
     ∈ written (write_lammpsdata Py.insertion_order Examples.no_join
                  Examples.rb_unused Examples.natural_order
                  (default_config "out.lammps"))
  /\ exists sigma_dict epsilon_dict coeffs,
      by_type_id ["C2"; "C10"] ["C2"; "C10"] [3.5; 2.5]%Q = inr sigma_dict
      /\ by_type_id ["C2"; "C10"] ["C2"; "C10"] [0.066; 0.030]%Q
         = inr epsilon_dict
      /\ pair_coeffs Examples.natural_order ["C2"; "C10"]
           sigma_dict epsilon_dict = inr coeffs
      /\ Py.dict_lookup (1, 2) coeffs
         = Some (PairSpec.rounded
                   (PairSpec.mixed "lorentz" 3.5 0.066 2.5 0.030))
      /\ (snd (PairSpec.rounded
                 (PairSpec.mixed "lorentz" 3.5 0.066 2.5 0.030))
          < 0.05)%R
      /\ (2 < snd (PairSpec.rounded (PairSpec.override 1.2 2.1)))%R.
Proof.
  split; [reflexivity|]. split; [reflexivity|].
  split.
  { assert (Hv : exists v,
      prepare Py.insertion_order Examples.no_join Examples.natural_order
              (default_config "out.lammps") = inr v
      /\ forcefield v = true).
    { eexists. split; [vm_compute; reflexivity|reflexivity]. }
    destruct Hv as (v & Hv & Hff).
    exact (PairFile.pair_line_written Py.insertion_order Examples.no_join
             Examples.rb_unused PyFacts.insertion_order_ok
             Examples.natural_order (default_config "out.lammps") v
             Hv Hff eq_refl eq_refl (or_introl eq_refl)
             (example_atoms_nonneg "C2" "C10") 0 1 "C2" "C10"
             (Nat.le_succ_diag_r 0) eq_refl eq_refl). }
  destruct (PairTable.pair_coeffs_table
              Py.insertion_order PyFacts.insertion_order_ok
              Examples.natural_order)
    as (Hs & He & coeffs & Hc & Hlook).
  - now left.
  - apply example_atoms_nonneg.
  - eexists _, _, coeffs.
    split; [exact Hs|]. split; [exact He|]. split; [exact Hc|].
    split; [exact (Hlook 0 1 "C2" "C10" (Nat.le_succ_diag_r 0)
                     eq_refl eq_refl)|].
    unfold PairSpec.rounded, PairSpec.mixed, PairSpec.override.
    cbn [fst snd]. split.
    + pose proof example_epsilon as [Hlo Hhi].
      pose proof (Rounding.round_real_error
                    (sqrt (Q2R 0.066 * Q2R 0.030)) 8) as Herr.
      apply Rabs_le_interval in Herr. simpl pow in Herr. lra.
    + pose proof (Rounding.round_real_error (Q2R 2.1) 8) as Herr.
      apply Rabs_le_interval in Herr. simpl pow in Herr.
      assert (Q2R 2.1 = 2.1%R) by (eval_Q2R; lra). lra.
Qed.

(** Where the two orders agree the override is used: the types of the
    test of the repository. *)
Lemma override_is_used_for_the_opls_types :
  Write "{0} \t{1} \t{2} \t\t{3}\t\t# {4}\t{5}\n"
        [IntN 1; IntN 2;
         Real (snd (PairSpec.rounded (PairSpec.override 1.2 2.1)));
         Real (fst (PairSpec.rounded (PairSpec.override 1.2 2.1)));
         Str "opls_135"; Str "opls_140"]
  ∈ written (write_lammpsdata Py.insertion_order Examples.no_join
               Examples.rb_unused Examples.opls_types
               (default_config "out.lammps"))
  /\ exists sigma_dict epsilon_dict coeffs,
    pair_coeffs Examples.opls_types ["opls_135"; "opls_140"]
      sigma_dict epsilon_dict = inr coeffs
    /\ Py.dict_lookup (1, 2) coeffs
       = Some (PairSpec.rounded (PairSpec.override 1.2 2.1)).
Proof.
  split.
  { assert (Hv : exists v,
      prepare Py.insertion_order Examples.no_join Examples.opls_types
              (default_config "out.lammps") = inr v
      /\ forcefield v = true).
    { eexists. split; [vm_compute; reflexivity|reflexivity]. }
    destruct Hv as (v & Hv & Hff).
    exact (PairFile.pair_line_written Py.insertion_order Examples.no_join
             Examples.rb_unused PyFacts.insertion_order_ok
             Examples.opls_types (default_config "out.lammps") v
             Hv Hff eq_refl eq_refl (or_introl eq_refl)
             (example_atoms_nonneg "opls_135" "opls_140")
             0 1 "opls_135" "opls_140"
             (Nat.le_succ_diag_r 0) eq_refl eq_refl). }
  destruct (PairTable.pair_coeffs_table
              Py.insertion_order PyFacts.insertion_order_ok
              Examples.opls_types)
    as (Hs & He & coeffs & Hc & Hlook).
  - now left.
  - apply example_atoms_nonneg.
  - eexists _, _, coeffs. split; [exact Hc|].
    exact (Hlook 0 1 "opls_135" "opls_140" (Nat.le_succ_diag_r 0)
             eq_refl eq_refl).
Qed.

End PairClaims.

(** ** Loops that write *)

Module Loops.

Import Lammps.

(** Finds a call in a list built of literals and concatenations. *)
Ltac in_apps :=
  first [ apply list_elem_of_here
        | apply list_elem_of_further; in_apps
        | apply elem_of_app; first [left; in_apps | right; in_apps] ].

Lemma and_then_wrote (a b : list write_call) :
  and_then (wrote a) (wrote b) = wrote (a ++ b).
Proof. reflexivity. Qed.

Lemma and_then_ended (a b : emitted) :
  snd (and_then a b) = inr tt -> snd a = inr tt /\ snd b = inr tt.
Proof.
  destruct a as [wa [ea|[]]]; unfold and_then; simpl; [discriminate|].
  intros Hb. now split.
Qed.

Lemma and_then_snd (a b : emitted) :
  snd (and_then a b)
  = match snd a with inl e => inl e | inr _ => snd b end.
Proof. destruct a as [wa [ea|[]]]; reflexivity. Qed.

Lemma and_then_raised (a b : emitted) (e : Py.exn) :
  snd a = inl e -> and_then a b = a.
Proof. destruct a as [wa [ea|[]]]; [reflexivity|discriminate]. Qed.

Lemma and_then_wrote_l (a : list write_call) (b : emitted) :
  and_then (wrote a) b = (a ++ fst b, snd b).
Proof. reflexivity. Qed.

(** A loop none of whose steps raises writes one call per item. *)
Lemma write_each_map {A} (f : A -> Py.result write_call)
  (g : A -> write_call) (l : list A) :
  (forall x, x ∈ l -> f x = inr (g x)) ->
  write_each f l = wrote (map g l).
Proof.
  induction l as [|x l IH]; intros Hf; [reflexivity|]. simpl.
  rewrite Hf by left. rewrite IH; [reflexivity|].
  intros y Hy. apply Hf. now right.
Qed.

Lemma mapM_length {A B} (f : A -> Py.result B) (l : list A) (l' : list B) :
  Py.mapM f l = inr l' -> length l' = length l.
Proof.
  revert l'; induction l as [|x l IH]; intros l'; simpl.
  - intros [= <-]. reflexivity.
  - destruct (f x) as [e|y]; [discriminate|]. simpl.
    destruct (Py.mapM f l) as [e|ys]; [discriminate|]. simpl.
    intros [= <-]. simpl. f_equal. now apply IH.
Qed.

Lemma enumerate_from_lookup {A} (n i : nat) (l : list A) (x : A) :
  l !! i = Some x -> Py.enumerate_from n l !! i = Some (n + i, x).
Proof.
  revert n i; induction l as [|y l IH]; intros n i; [discriminate|].
  destruct i as [|i]; simpl.
  - intros [= ->]. f_equal. f_equal. lia.
  - intros Hi. rewrite (IH (S n) i Hi). f_equal. f_equal. lia.
Qed.

(** A loop over [enumerate(l)] none of whose steps raises writes one call
    per element, in order. *)
Lemma write_each_indexed {A} (f : nat * A -> Py.result write_call)
  (P : nat -> A -> write_call -> Prop) (n : nat) (l : list A) :
  (forall i x, l !! i = Some x ->
               exists call, f (n + i, x) = inr call /\ P (n + i) x call) ->
  exists lines,
    write_each f (Py.enumerate_from n l) = wrote lines
    /\ length lines = length l
    /\ forall i x, l !! i = Some x ->
         exists call, lines !! i = Some call /\ P (n + i) x call.
Proof.
  revert n; induction l as [|x l IH]; intros n Hf.
  - exists []. split; [reflexivity|]. split; [reflexivity|]. discriminate.
  - destruct (IH (S n)) as (lines & Hw & Hl & Hlines).
    { intros i y Hi. replace (S n + i) with (n + S i) by lia.
      now apply Hf. }
    destruct (Hf 0 x eq_refl) as (call & Hcall & HP).
    rewrite Nat.add_0_r in Hcall, HP.
    exists (call :: lines). split; [|split].
    + simpl. now rewrite Hcall, Hw.
    + simpl. now rewrite Hl.
    + intros [|i] y Hi; simpl in Hi.
      * injection Hi as <-. exists call. rewrite Nat.add_0_r. now split.
      * destruct (Hlines i y Hi) as (call' & Hc & HP').
        exists call'. replace (n + S i) with (S n + i) by lia. now split.
Qed.

Section Records.
Context {A : Type}.
Variable tys : list nat.
Variable f : nat * A -> Py.result write_call.
Variable g : nat -> nat -> A -> write_call.
Hypothesis f_eq :
  forall i row, f (i, row) = (ty <- Py.getitem tys i ;; Py.ret (g i ty row)).

(** [for i, row in enumerate(rows): data.write(... tys[i] ...)] where
    [tys] is long enough: one line per row. *)
Lemma records_from (n : nat) (rows : list A) :
  n + length rows <= length tys ->
  exists lines,
    write_each f (Py.enumerate_from n rows) = wrote lines
    /\ length lines = length rows
    /\ forall i row, rows !! i = Some row ->
         exists ty, tys !! (n + i) = Some ty
                    /\ lines !! i = Some (g (n + i) ty row).
Proof.
  revert n; induction rows as [|row rows IH]; intros n Hlen.
  - exists []. split; [reflexivity|]. split; [reflexivity|].
    intros i row Hi. discriminate.
  - simpl in Hlen. destruct (IH (S n)) as (lines & Hw & Hl & Hrows); [lia|].
    assert (Hn : n < length tys) by lia.
    apply lookup_lt_is_Some in Hn; destruct Hn as [ty Hty].
    exists (g n ty row :: lines). split; [|split].
    + simpl. rewrite f_eq. unfold Py.getitem. rewrite Hty. simpl.
      now rewrite Hw.
    + simpl. now rewrite Hl.
    + intros [|i] row' Hi; simpl in Hi.
      * injection Hi as <-. exists ty. rewrite Nat.add_0_r. now split.
      * destruct (Hrows i row' Hi) as (ty' & Hty' & Hline).
        exists ty'. replace (n + S i) with (S n + i) by lia. now split.
Qed.

Lemma records (rows : list A) :
  length rows <= length tys ->
  exists lines,
    write_each f (Py.enumerate rows) = wrote lines
    /\ length lines = length rows
    /\ forall i row, rows !! i = Some row ->
         exists ty, tys !! i = Some ty /\ lines !! i = Some (g i ty row).
Proof. intros Hlen. now apply (records_from 0). Qed.

(** Where [tys] is shorter than [rows] the loop raises [IndexError] after
    the lines that [tys] covers. *)
Lemma records_short_from (n : nat) (rows : list A) :
  n <= length tys < n + length rows ->
  snd (write_each f (Py.enumerate_from n rows)) = inl Py.IndexError
  /\ length (fst (write_each f (Py.enumerate_from n rows)))
     = length tys - n.
Proof.
  revert n; induction rows as [|row rows IH]; intros n Hlen;
    [simpl in Hlen; lia|].
  simpl in Hlen.
  change (write_each f (Py.enumerate_from n (row :: rows)))
    with (match f (n, row) with
          | inl e => failed e
          | inr call =>
              and_then (wrote [call])
                       (write_each f (Py.enumerate_from (S n) rows))
          end).
  rewrite f_eq. unfold Py.getitem.
  destruct (tys !! n) as [ty|] eqn:Hty; cbn [Py.bind Py.ret Py.raise].
  - apply lookup_lt_Some in Hty.
    destruct (IH (S n)) as [Hs Hf]; [lia|].
    rewrite Raises.and_then_inr by reflexivity. cbn [fst snd wrote].
    split; [exact Hs|]. rewrite length_app, Hf. simpl. lia.
  - apply lookup_ge_None in Hty. split; [reflexivity|]. simpl. lia.
Qed.

Lemma records_short (rows : list A) :
  length tys < length rows ->
  snd (write_each f (Py.enumerate rows)) = inl Py.IndexError
  /\ length (fst (write_each f (Py.enumerate rows))) = length tys.
Proof.
  intros Hlen. destruct (records_short_from 0 rows) as [Hs Hf]; [lia|].
  split; [exact Hs|]. unfold Py.enumerate. rewrite Hf. lia.
Qed.

End Records.

End Loops.

(** ** Dicts keyed by type ID *)

Module TypeDicts.

Import Lammps.

Section DictLoop.
Context {C K V : Type} `{EqDecision K}.
Variable key : C -> K.
Variable val : C -> V.

Lemma dict_set_keys (k : K) (v : V) (d : Py.dict K V) :
  map fst (Py.dict_set k v d)
  = if decide (k ∈ map fst d) then map fst d else map fst d ++ [k].
Proof.
  induction d as [|[k' v'] d IH].
  - destruct (decide (k ∈ map fst [])) as [Hin|_]; [inversion Hin|].
    reflexivity.
  - cbn [Py.dict_set map fst].
    destruct (decide (k ∈ k' :: map fst d)) as [Hin|Hin];
      destruct (decide (k' = k)) as [->|Hne]; cbn [map fst].
    + reflexivity.
    + rewrite IH. apply elem_of_cons in Hin as [->|Hin]; [congruence|].
      now rewrite decide_True.
    + exfalso. apply Hin. left.
    + rewrite IH, decide_False; [reflexivity|].
      intros Hk. apply Hin. now right.
Qed.

Lemma loop_keys_NoDup (l : list C) (d : Py.dict K V) :
  NoDup (map fst d) ->
  NoDup (map fst (fold_left (PairSpec.set_item key val) l d)).
Proof.
  revert d; induction l as [|c l IH]; intros d Hd; simpl; [exact Hd|].
  apply IH. unfold PairSpec.set_item. rewrite dict_set_keys.
  destruct (decide (key c ∈ map fst d)) as [Hin|Hin]; [exact Hd|].
  apply NoDup_app. split; [exact Hd|]. split; [|apply NoDup_singleton].
  intros k Hk Hk'. apply list_elem_of_singleton in Hk'. now subst.
Qed.

Lemma loop_keys_elem (l : list C) (d : Py.dict K V) (k : K) :
  k ∈ map fst (fold_left (PairSpec.set_item key val) l d)
  <-> k ∈ map fst d \/ exists c, c ∈ l /\ key c = k.
Proof.
  revert d; induction l as [|c l IH]; intros d; simpl.
  - split; [now left|]. intros [Hk|(c & Hc & _)]; [exact Hk|inversion Hc].
  - rewrite IH. unfold PairSpec.set_item at 1. rewrite dict_set_keys.
    split.
    + intros [Hk|(c' & Hc' & Hk)].
      * destruct (decide (key c ∈ map fst d)); [now left|].
        apply elem_of_app in Hk as [Hk|Hk]; [now left|].
        apply list_elem_of_singleton in Hk. right. exists c.
        split; [left|congruence].
      * right. exists c'. split; [now right|exact Hk].
    + intros [Hk|(c' & Hc' & Hk)].
      * left. destruct (decide (key c ∈ map fst d)); [exact Hk|].
        apply elem_of_app. now left.
      * apply elem_of_cons in Hc' as [->|Hc'].
        -- left. destruct (decide (key c ∈ map fst d)) as [Hin|Hin].
           ++ now rewrite <- Hk.
           ++ apply elem_of_app. right. rewrite Hk. left.
        -- right. now exists c'.
Qed.

(** Items of other keys leave the value of a key as it is. *)
Lemma loop_lookup_other (l : list C) (d : Py.dict K V) (k : K) :
  (forall c, c ∈ l -> key c <> k) ->
  Py.dict_lookup k (fold_left (PairSpec.set_item key val) l d)
  = Py.dict_lookup k d.
Proof.
  revert d; induction l as [|c l IH]; intros d Hl; simpl; [reflexivity|].
  rewrite IH by (intros c' Hc'; apply Hl; now right).
  unfold PairSpec.set_item. apply PyFacts.dict_lookup_set_ne. apply Hl. left.
Qed.

(** After the loop a key holds the value of the last item that set it. *)
Lemma loop_lookup_last (l1 l2 : list C) (c : C) (d : Py.dict K V) :
  (forall c', c' ∈ l2 -> key c' <> key c) ->
  Py.dict_lookup (key c)
    (fold_left (PairSpec.set_item key val) (l1 ++ c :: l2) d)
  = Some (val c).
Proof.
  intros Hl2. rewrite fold_left_app. simpl.
  rewrite loop_lookup_other by exact Hl2.
  unfold PairSpec.set_item at 1. apply PyFacts.dict_lookup_set_eq.
Qed.

Lemma set_items_elem (l : list C) (d : Py.dict K V) (x : K * V) :
  x ∈ fold_left (PairSpec.set_item key val) l d ->
  x ∈ d \/ exists c, c ∈ l /\ x = (key c, val c).
Proof. apply PairFile.loop_items. Qed.

End DictLoop.

(** A dict whose keys are distinct holds an item exactly when the lookup of
    its key gives its value. *)
Lemma dict_elem_lookup {K V} `{EqDecision K} (d : Py.dict K V) (k : K)
  (v : V) :
  NoDup (map fst d) -> (k, v) ∈ d -> Py.dict_lookup k d = Some v.
Proof.
  induction d as [|[k' v'] d IH]; simpl; intros Hnd Hin; [inversion Hin|].
  apply NoDup_cons in Hnd as [Hk' Hnd].
  apply elem_of_cons in Hin as [[= -> ->]|Hin].
  - now rewrite decide_True.
  - rewrite decide_False; [now apply IH|].
    intros ->. apply Hk'. apply list_elem_of_fmap. now exists (k, v).
Qed.

Section Labels.
Variable unique_types : list string.
Hypothesis unique_types_NoDup : NoDup unique_types.
Variable label : Atom.t -> string.
Variable atoms : list Atom.t.
Hypothesis labels_known :
  forall atom, atom ∈ atoms -> label atom ∈ unique_types.
Hypothesis labels_used :
  forall t, t ∈ unique_types -> t ∈ map label atoms.

Local Abbreviation id_of atom :=
  (PairSpec.type_id unique_types (label atom)).

(** The dict of a per-atom value by the ID of the label. *)
Lemma by_label_items {V} (f : Atom.t -> V) :
  by_type_id unique_types (map label atoms) (map f atoms)
  = inr (fold_left
           (PairSpec.set_item
              (fun atom => PairSpec.type_id unique_types (label atom)) f)
           atoms []).
Proof.
  unfold by_type_id.
  assert (Hitems :
    Py.mapM
      (fun tv : string * V =>
         Py.bind (Py.index (fst tv) unique_types)
                 (fun i => Py.ret (i + 1, snd tv)))
      (zip (map label atoms) (map f atoms))
    = inr (map (fun atom =>
                  (PairSpec.type_id unique_types (label atom), f atom))
               atoms)).
  { clear labels_used.
    induction atoms as [|atom atoms' IH]; [reflexivity|]. simpl.
    destruct (PairTable.index_type_id unique_types unique_types_NoDup
                (label atom)) as (i & _ & -> & ->);
      [apply labels_known; left|].
    simpl. rewrite IH; [reflexivity|].
    intros atom' Hatom'. apply labels_known. now right. }
  rewrite Hitems. simpl. unfold Py.dict_of_list. f_equal.
  generalize (@nil (nat * V)) as d.
  clear. induction atoms as [|atom atoms' IH]; intros d;
    [reflexivity|]. simpl. now rewrite IH.
Qed.

(** It has one item per label. *)
Lemma by_label_length {V} (f : Atom.t -> V) :
  length (fold_left
            (PairSpec.set_item
               (fun atom => PairSpec.type_id unique_types (label atom)) f)
            atoms [])
  = length unique_types.
Proof.
  rewrite <- (length_map fst),
    <- (length_map (PairSpec.type_id unique_types) unique_types).
  apply Permutation_length, NoDup_Permutation.
  - apply loop_keys_NoDup. constructor.
  - apply NoDup_fmap_2_strong; [|exact unique_types_NoDup].
    intros t1 t2 H1 H2. now apply PairTable.type_id_inj.
  - intros k. rewrite loop_keys_elem. split.
    + intros [Hk|(atom & Hin & <-)]; [inversion Hk|].
      apply list_elem_of_fmap. exists (label atom).
      split; [reflexivity|now apply labels_known].
    + intros Hk. apply list_elem_of_fmap in Hk as (t & -> & Ht).
      apply labels_used, list_elem_of_fmap in Ht as (atom & -> & Hin).
      right. now exists atom.
Qed.

(** Every item is the ID of a label, which the list of labels holds at
    the place before it. *)
Lemma by_label_item {V} (f : Atom.t -> V) (k : nat) (x : V) :
  (k, x) ∈ fold_left
             (PairSpec.set_item
                (fun atom => PairSpec.type_id unique_types (label atom)) f)
             atoms [] ->
  exists i atom, k = i + 1 /\ atom ∈ atoms
                 /\ unique_types !! i = Some (label atom).
Proof.
  intros Hin. apply set_items_elem in Hin as [Hin|(atom & Hatom & [= -> ->])];
    [inversion Hin|].
  destruct (PairTable.index_type_id unique_types unique_types_NoDup
              (label atom)) as (i & Hi & _ & ->);
    [now apply labels_known|].
  now exists i, atom.
Qed.

(** The value of a label is that of the last atom that carries it. *)
Lemma by_label_last {V} (f : Atom.t -> V) (l1 l2 : list Atom.t)
  (atom : Atom.t) (i : nat) :
  atoms = l1 ++ atom :: l2 ->
  (forall atom', atom' ∈ l2 -> label atom' <> label atom) ->
  unique_types !! i = Some (label atom) ->
  Py.dict_lookup (i + 1)
    (fold_left
       (PairSpec.set_item
          (fun atom => PairSpec.type_id unique_types (label atom)) f)
       atoms [])
  = Some (f atom).
Proof.
  intros Hatoms Hl2 Hi.
  rewrite <- (PairTable.type_id_lookup unique_types unique_types_NoDup
                i (label atom) Hi).
  rewrite Hatoms.
  apply (loop_lookup_last
           (fun atom => PairSpec.type_id unique_types (label atom)) f).
  intros atom' Hin Heq. apply (Hl2 atom' Hin).
  apply (PairTable.type_id_inj unique_types unique_types_NoDup);
    [| |exact Heq]; apply labels_known; rewrite Hatoms;
    apply elem_of_app; right; [right; exact Hin|left].
Qed.

End Labels.

End TypeDicts.

(** ** The sections of the file *)

Module Sections.

Import Lammps.

(** Applies [Loops.records] to the loop of the goal. *)
Ltac use_records tys g :=
  match goal with
  | |- context [write_each ?f (Py.enumerate ?rows)] =>
      let Hf := fresh "Hf" in
      assert (Hf : forall i row,
                 f (i, row)
                 = (ty <- Py.getitem tys i ;; Py.ret (g i ty row)));
      [ intros ? ?;
        repeat match goal with
               | p : (_ * _)%type |- _ => destruct p
               end;
        reflexivity
      | destruct (Loops.records tys f g Hf rows)
          as (lines & Hw & Hlen & Hlines) ]
  end.

Section Writer.
Variable set_iter : Py.set_order.
Variable join_dihedrals : list Dihedral.t -> list Dihedral.t.
Variable RB_to_OPLS : Q -> Q -> Q -> Q -> Q -> Q -> Q * Q * Q * Q.
Hypothesis set_iter_ok : Py.set_order_ok set_iter.
Variable structure : Structure.t.
Variable cfg : config.
Variable v : locals.
Hypothesis prepared : prepare set_iter join_dihedrals structure cfg = inr v.

Local Abbreviation atoms := (Structure.atoms structure).
Local Abbreviation label := (Records.label (forcefield v)).

Lemma types_are_labels : types v = map label atoms.
Proof.
  destruct (Stages.prepare_inv _ _ _ _ _ prepared)
    as (_ & _ & -> & _). unfold Records.label.
  destruct (forcefield v); reflexivity.
Qed.

Lemma unique_types_eq :
  unique_types v = unique_types_of set_iter (map label atoms).
Proof.
  destruct (Stages.prepare_inv _ _ _ _ _ prepared)
    as (_ & _ & _ & -> & _). now rewrite types_are_labels.
Qed.

Lemma labels_NoDup : NoDup (unique_types v).
Proof.
  rewrite unique_types_eq. now apply PairFacts.unique_types_NoDup.
Qed.

Lemma labels_known (atom : Atom.t) :
  atom ∈ atoms -> label atom ∈ unique_types v.
Proof.
  intros Hin. rewrite unique_types_eq.
  apply PairFacts.unique_types_elem; [exact set_iter_ok|].
  apply list_elem_of_fmap. now exists atom.
Qed.

Lemma labels_used (t : string) :
  t ∈ unique_types v -> t ∈ map label atoms.
Proof.
  rewrite unique_types_eq.
  now apply PairFacts.unique_types_elem.
Qed.

(** The count of atom types of the header is the length of the sorted
    list of labels. *)
Lemma declared_atom_types :
  length (set_iter string _ (types v)) = length (unique_types v).
Proof.
  destruct (Stages.prepare_inv _ _ _ _ _ prepared)
    as (_ & _ & _ & -> & _).
  unfold unique_types_of. now rewrite PairFacts.sort_natural_perm.
Qed.

Local Abbreviation by_label f :=
  (fold_left
     (PairSpec.set_item
        (fun atom => PairSpec.type_id (unique_types v) (label atom)) f)
     (Structure.atoms structure) []).

Lemma by_type_id_labels {V} (f : Atom.t -> V) :
  by_type_id (unique_types v) (types v) (map f atoms) = inr (by_label f).
Proof.
  rewrite types_are_labels.
  apply TypeDicts.by_label_items;
    [exact labels_NoDup|exact labels_known].
Qed.

(** The Masses section: its title and one line per item of the dict of
    masses. *)
Lemma masses_section_written :
  masses_section structure v
  = wrote
      (Write "\nMasses\n\n" []
       :: map (fun item : nat * Q =>
                 Write "{:d}\t{:.6f}\t# {}\n"
                       [IntN (fst item); Float (snd item);
                        Str (default EmptyString
                                     (unique_types v !! (fst item - 1)))])
              (by_label Atom.mass)).
Proof.
  unfold masses_section. rewrite by_type_id_labels. cbn [computing].
  rewrite (Loops.write_each_map _
             (fun item : nat * Q =>
                Write "{:d}\t{:.6f}\t# {}\n"
                      [IntN (fst item); Float (snd item);
                       Str (default EmptyString
                                    (unique_types v !! (fst item - 1)))])).
  - reflexivity.
  - intros [k m] Hitem.
    destruct (TypeDicts.by_label_item _ labels_NoDup _ _ labels_known
                _ _ _ Hitem) as (i & atom & -> & _ & Hi).
    cbn [fst snd]. replace (i + 1 - 1) with i by lia.
    unfold Py.getitem. now rewrite Hi.
Qed.

(** The body of the file in terms of its sections. *)
Lemma written_sections :
  written (write_lammpsdata set_iter join_dihedrals RB_to_OPLS
             structure cfg)
  = header set_iter structure cfg v ++ box_section (box v)
    ++ fst (and_then
              (and_then
                 (and_then (masses_section structure v)
                           (forcefield_sections RB_to_OPLS structure cfg v))
                 (atoms_section cfg v))
              (bonded_sections cfg v)).
Proof. now apply BoxClaims.written_split. Qed.

Lemma ended_sections :
  ended (write_lammpsdata set_iter join_dihedrals RB_to_OPLS
           structure cfg)
  = snd (and_then
           (and_then
              (and_then (masses_section structure v)
                        (forcefield_sections RB_to_OPLS structure cfg v))
              (atoms_section cfg v))
           (bonded_sections cfg v)).
Proof. now apply BoxClaims.written_split. Qed.

Lemma in_header (w : write_call) :
  w ∈ header set_iter structure cfg v ->
  w ∈ written (write_lammpsdata set_iter join_dihedrals RB_to_OPLS
                 structure cfg).
Proof. intros Hw. rewrite written_sections. apply elem_of_app. now left. Qed.

Lemma in_masses (w : write_call) :
  w ∈ fst (masses_section structure v) ->
  w ∈ written (write_lammpsdata set_iter join_dihedrals RB_to_OPLS
                 structure cfg).
Proof.
  intros Hw. rewrite written_sections.
  apply elem_of_app. right. apply elem_of_app. right.
  now do 3 apply UntypedBonds.elem_and_then_l.
Qed.

(** What [prepare] keeps of the bonded terms. *)
Lemma prepare_records :
  angles v = map (fun angle => (Atom.idx (Angle.atom1 angle) + 1,
                                Atom.idx (Angle.atom2 angle) + 1,
                                Atom.idx (Angle.atom3 angle) + 1))
                 (Structure.angles structure)
  /\ dihedrals v
     = (if rb_torsions_used v then
          map (fun dihedral => (Atom.idx (RBTorsion.atom1 dihedral) + 1,
                                Atom.idx (RBTorsion.atom2 dihedral) + 1,
                                Atom.idx (RBTorsion.atom3 dihedral) + 1,
                                Atom.idx (RBTorsion.atom4 dihedral) + 1))
              (Structure.rb_torsions structure)
        else if dihedrals_used v then
          map (fun dihedral => (Atom.idx (Dihedral.atom1 dihedral) + 1,
                                Atom.idx (Dihedral.atom2 dihedral) + 1,
                                Atom.idx (Dihedral.atom3 dihedral) + 1,
                                Atom.idx (Dihedral.atom4 dihedral) + 1))
              (Structure.dihedrals structure)
        else [])
  /\ impropers v
     = map (fun improper => (Atom.idx (Improper.atom1 improper) + 1,
                             Atom.idx (Improper.atom2 improper) + 1,
                             Atom.idx (Improper.atom3 improper) + 1,
                             Atom.idx (Improper.atom4 improper) + 1))
           (Structure.impropers structure).
Proof.
  revert prepared. unfold prepare.
  case_bool_decide as Hstyle; [|discriminate].
  destruct (Structure.atoms structure) as [|first atoms'] eqn:Hatoms;
    [discriminate|]. cbn [Py.getitem lookup list_lookup Py.bind Py.ret].
  destruct (Structure.box structure) as [[[lx ly] lz] ang] eqn:Hbox.
  cbn [fst snd].
  destruct (detect_styles structure cfg) as [[ub rb] dih] eqn:Hdet.
  destruct (rb && dih)%bool eqn:Hconf; [discriminate|].
  destruct (bond_tables set_iter structure) as [?|[bts ubt]] eqn:Hb;
    [discriminate|].
  destruct (angle_tables set_iter structure ub) as [?|[ats uat]] eqn:Ha;
    [discriminate|].
  cbn [Py.bind].
  match goal with
  | |- context [dihedral_tables _ _ _ ?d _ _] => set (dihs := d)
  end.
  destruct (dihedral_tables set_iter join_dihedrals structure dihs rb dih)
    as [?|[dts udt]] eqn:Hd; [discriminate|].
  destruct (improper_tables set_iter structure) as [?|[its uit]] eqn:Hi;
    [discriminate|].
  cbn [Py.bind Py.ret fst snd]. intros [= <-]. cbn.
  repeat split; reflexivity.
Qed.

(** The type IDs of the bonded terms: one per term. *)
Lemma lookup_all_length {K} `{EqDecision K} (table : Py.dict K nat)
  (keys : list K) (ids : list nat) :
  lookup_all table keys = inr ids -> length ids = length keys.
Proof. apply Loops.mapM_length. Qed.

Lemma bond_types_length :
  length (bond_types v) = length (Structure.bonds structure).
Proof.
  destruct (Stages.prepare_inv _ _ _ _ _ prepared)
    as (_ & _ & _ & _ & _ & _ & _ & Hbt & _).
  unfold bond_tables in Hbt.
  destruct (nonempty (Structure.bonds structure)) eqn:Hne.
  - destruct (length (Structure.bond_types structure) =? 0).
    + injection Hbt as <- _. apply repeat_length.
    + destruct (Py.mapM bond_key_of (Structure.bonds structure))
        as [e|keys] eqn:Hkeys; [discriminate|]. simpl in Hbt.
      destruct (lookup_all _ keys) as [e|ids] eqn:Hids; [discriminate|].
      injection Hbt as <- _.
      rewrite (lookup_all_length _ _ _ Hids).
      apply (Loops.mapM_length _ _ _ Hkeys).
  - injection Hbt as <- _.
    destruct (Structure.bonds structure); [reflexivity|discriminate].
Qed.

Lemma angle_types_length :
  length (angle_types v) = length (Structure.angles structure).
Proof.
  destruct (Stages.prepare_inv _ _ _ _ _ prepared)
    as (_ & _ & _ & _ & _ & _ & _ & _ & Hat & _).
  unfold angle_tables in Hat.
  destruct (nonempty (Structure.angles structure)) eqn:Hne.
  - destruct (urey_bradleys_used v).
    + destruct (lookup_all _ _) as [e|ids] eqn:Hids; [discriminate|].
      injection Hat as <- _.
      now rewrite (lookup_all_length _ _ _ Hids), length_map.
    + destruct (lookup_all _ _) as [e|ids] eqn:Hids; [discriminate|].
      injection Hat as <- _.
      now rewrite (lookup_all_length _ _ _ Hids), length_map.
  - injection Hat as <- _.
    destruct (Structure.angles structure); [reflexivity|discriminate].
Qed.

Lemma improper_types_length :
  length (improper_types v) = length (Structure.impropers structure).
Proof.
  destruct (Stages.prepare_inv _ _ _ _ _ prepared)
    as (_ & _ & _ & _ & _ & _ & _ & _ & _ & _ & Hit & _).
  unfold improper_tables in Hit.
  destruct (nonempty (Structure.impropers structure)) eqn:Hne.
  - destruct (lookup_all _ _) as [e|ids] eqn:Hids; [discriminate|].
    injection Hit as <- _.
    now rewrite (lookup_all_length _ _ _ Hids), length_map.
  - injection Hit as <- _.
    destruct (Structure.impropers structure); [reflexivity|discriminate].
Qed.

(** The keys of the CHARMM dihedrals: one per term of the dihedrals that
    are not improper. *)
Lemma charmm_dihedrals_length (keys : list charmm_dihedral_key) :
  charmm_dihedrals_of join_dihedrals structure = inr keys ->
  length keys
  = Records.charmm_terms (join_dihedrals (Structure.dihedrals structure)).
Proof.
  unfold charmm_dihedrals_of, Records.charmm_terms.
  generalize (join_dihedrals (Structure.dihedrals structure)) as l.
  intros l. revert keys. induction l as [|d l IH]; intros keys; simpl.
  - intros [= <-]. reflexivity.
  - destruct (charmm_dihedral_keys_of d) as [e|ks] eqn:Hd; [discriminate|].
    simpl. destruct (Py.mapM charmm_dihedral_keys_of l) as [e|kss];
      [discriminate|]. simpl. intros [= <-].
    rewrite length_app, (IH (concat kss) eq_refl). f_equal.
    unfold charmm_dihedral_keys_of, Py.ret in Hd.
    destruct (Dihedral.improper d); [now injection Hd as <-|].
    destruct (Dihedral.type d) as [|ty tys]; [discriminate|].
    injection Hd as <-. simpl. now rewrite length_map.
Qed.

Lemma dihedral_types_length :
  length (dihedral_types v)
  = (if nonempty (dihedrals v) then
       if rb_torsions_used v then length (Structure.rb_torsions structure)
       else if dihedrals_used v then
         Records.charmm_terms
           (join_dihedrals (Structure.dihedrals structure))
       else 0
     else 0).
Proof.
  destruct (Stages.prepare_inv _ _ _ _ _ prepared)
    as (_ & _ & _ & _ & _ & _ & _ & _ & _ & Hdt & _).
  unfold dihedral_tables in Hdt.
  destruct (nonempty (dihedrals v)); [|now injection Hdt as <- _].
  destruct (rb_torsions_used v).
  - destruct (lookup_all _ _) as [e|ids] eqn:Hids; [discriminate|].
    injection Hdt as <- _.
    now rewrite (lookup_all_length _ _ _ Hids), length_map.
  - destruct (dihedrals_used v); [|now injection Hdt as <- _].
    destruct (charmm_dihedrals_of join_dihedrals structure)
      as [e|keys] eqn:Hkeys; [discriminate|]. simpl in Hdt.
    destruct (lookup_all _ _) as [e|ids] eqn:Hids; [discriminate|].
    injection Hdt as <- _.
    rewrite (lookup_all_length _ _ _ Hids).
    now apply charmm_dihedrals_length.
Qed.

Lemma style_cases :
  atom_style cfg = "atomic" \/ atom_style cfg = "charge"
  \/ atom_style cfg = "molecular" \/ atom_style cfg = "full".
Proof.
  destruct (Stages.prepare_inv _ _ _ _ _ prepared) as (Hstyle & _).
  repeat (apply elem_of_cons in Hstyle as [Hstyle|Hstyle]; [tauto|]).
  inversion Hstyle.
Qed.

(** The Atoms section: its title and one line per atom. *)
Lemma atoms_section_written :
  exists lines,
    atoms_section cfg v = wrote (Write "\nAtoms\n\n" [] :: lines)
    /\ length lines = length atoms
    /\ forall i atom, atoms !! i = Some atom ->
         exists line k,
           lines !! i = Some line
           /\ unique_types v !! k = Some (label atom)
           /\ args line = Records.atom_args (atom_style cfg) i k atom.
Proof.
  destruct (Stages.prepare_inv _ _ _ _ _ prepared)
    as (_ & _ & _ & _ & _ & _ & _ & _ & _ & _ & _ & _ & _ & _ & _
        & Hxyz & Hcharges).
  unfold atoms_section. rewrite Hxyz, Hcharges, types_are_labels.
  unfold Py.enumerate.
  match goal with
  | |- context [write_each ?f _] =>
      destruct (Loops.write_each_indexed f
                  (fun i (_ : Q * Q * Q) line =>
                     exists atom k,
                       atoms !! i = Some atom
                       /\ unique_types v !! k = Some (label atom)
                       /\ args line
                          = Records.atom_args (atom_style cfg) i k atom)
                  0
                  (map (fun atom =>
                          (Atom.xx atom, Atom.xy atom, Atom.xz atom))
                       atoms))
        as (lines & Hw & Hlen & Hlines)
  end.
  - intros i [[x y] z] Hi. cbn [Nat.add].
    rewrite list_lookup_fmap in Hi.
    destruct (atoms !! i) as [atom|] eqn:Hatom; [|discriminate].
    injection Hi as <- <- <-.
    unfold Py.getitem. rewrite !list_lookup_fmap, Hatom. cbn.
    destruct (PairTable.index_type_id (unique_types v) labels_NoDup
                (label atom)) as (k & Hk & -> & _).
    { apply labels_known. apply list_elem_of_lookup. now exists i. }
    cbn. eexists. split; [reflexivity|]. exists atom, k.
    split; [reflexivity|]. split; [exact Hk|].
    destruct style_cases as [-> | [-> | [-> | ->]]]; reflexivity.
  - exists lines. split; [|split].
    + rewrite Hw. reflexivity.
    + now rewrite Hlen, length_map.
    + intros i atom Hi.
      destruct (Hlines i (Atom.xx atom, Atom.xy atom, Atom.xz atom))
        as (line & Hline & atom' & k & Hatom' & Hk & Hargs).
      { now rewrite list_lookup_fmap, Hi. }
      cbn [Nat.add] in *. rewrite Hi in Hatom'. injection Hatom' as <-.
      now exists line, k.
Qed.

(** The Bonds section: its title and one record per bond. *)
Lemma bonds_section_written :
  Structure.bonds structure <> [] ->
  exists lines,
    bonds_section v = wrote (Write "\nBonds\n\n" [] :: lines)
    /\ length lines = length (Structure.bonds structure)
    /\ forall i bond, Structure.bonds structure !! i = Some bond ->
         exists ty,
           bond_types v !! i = Some ty
           /\ lines !! i
              = Some (Write "{:d}\t{:d}\t{:d}\t{:d}\n"
                            [IntN (i + 1); IntN ty;
                             IntN (Atom.idx (Bond.atom1 bond) + 1);
                             IntN (Atom.idx (Bond.atom2 bond) + 1)]).
Proof.
  intros Hne.
  destruct (Stages.prepare_inv _ _ _ _ _ prepared)
    as (_ & _ & _ & _ & _ & _ & Hbonds & _).
  unfold bonds_section.
  rewrite Hbonds, TypeIds.nonempty_map, (TypeIds.nonempty_true _ Hne).
  use_records (bond_types v)
    (fun i ty (row : nat * nat) =>
                  Write "{:d}\t{:d}\t{:d}\t{:d}\n"
                        [IntN (i + 1); IntN ty;
                         IntN (fst row); IntN (snd row)]);
    [rewrite bond_types_length, length_map; lia|].
  exists lines. split; [|split].
  - rewrite Hw. reflexivity.
  - now rewrite Hlen, length_map.
  - intros i bond Hi.
    destruct (Hlines i (Atom.idx (Bond.atom1 bond) + 1,
                        Atom.idx (Bond.atom2 bond) + 1))
      as (ty & Hty & Hline); [now rewrite list_lookup_fmap, Hi|].
    now exists ty.
Qed.

(** The Angles section. *)
Lemma angles_section_written :
  Structure.angles structure <> [] ->
  exists lines,
    angles_section v = wrote (Write "\nAngles\n\n" [] :: lines)
    /\ length lines = length (Structure.angles structure)
    /\ forall i angle, Structure.angles structure !! i = Some angle ->
         exists ty,
           angle_types v !! i = Some ty
           /\ lines !! i
              = Some (Write "{:d}\t{:d}\t{:d}\t{:d}\t{:d}\n"
                            [IntN (i + 1); IntN ty;
                             IntN (Atom.idx (Angle.atom1 angle) + 1);
                             IntN (Atom.idx (Angle.atom2 angle) + 1);
                             IntN (Atom.idx (Angle.atom3 angle) + 1)]).
Proof.
  intros Hne. destruct prepare_records as (Hangles & _).
  unfold angles_section.
  rewrite Hangles, TypeIds.nonempty_map, (TypeIds.nonempty_true _ Hne).
  use_records (angle_types v)
    (fun i ty (row : nat * nat * nat) =>
                  Write "{:d}\t{:d}\t{:d}\t{:d}\t{:d}\n"
                        [IntN (i + 1); IntN ty; IntN (fst (fst row));
                         IntN (snd (fst row)); IntN (snd row)]);
    [rewrite angle_types_length, length_map; lia|].
  exists lines. split; [|split].
  - rewrite Hw. reflexivity.
  - now rewrite Hlen, length_map.
  - intros i angle Hi.
    destruct (Hlines i (Atom.idx (Angle.atom1 angle) + 1,
                        Atom.idx (Angle.atom2 angle) + 1,
                        Atom.idx (Angle.atom3 angle) + 1))
      as (ty & Hty & Hline); [now rewrite list_lookup_fmap, Hi|].
    now exists ty.
Qed.

(** The Impropers section: the atoms of a record are the third, the
    second, the first and the fourth atom of the improper. *)
Lemma impropers_section_written :
  Structure.impropers structure <> [] ->
  exists lines,
    impropers_section v = wrote (Write "\nImpropers\n\n" [] :: lines)
    /\ length lines = length (Structure.impropers structure)
    /\ forall i improper,
         Structure.impropers structure !! i = Some improper ->
         exists ty,
           improper_types v !! i = Some ty
           /\ lines !! i
              = Some (Write "{:d}\t{:d}\t{:d}\t{:d}\t{:d}\t{:d}\n"
                            [IntN (i + 1); IntN ty;
                             IntN (Atom.idx (Improper.atom3 improper) + 1);
                             IntN (Atom.idx (Improper.atom2 improper) + 1);
                             IntN (Atom.idx (Improper.atom1 improper) + 1);
                             IntN (Atom.idx (Improper.atom4 improper) + 1)]).
Proof.
  intros Hne. destruct prepare_records as (_ & _ & Himpropers).
  unfold impropers_section.
  rewrite Himpropers, TypeIds.nonempty_map, (TypeIds.nonempty_true _ Hne).
  use_records (improper_types v)
    (fun i ty (row : nat * nat * nat * nat) =>
                  Write "{:d}\t{:d}\t{:d}\t{:d}\t{:d}\t{:d}\n"
                        [IntN (i + 1); IntN ty; IntN (snd (fst row));
                         IntN (snd (fst (fst row)));
                         IntN (fst (fst (fst row))); IntN (snd row)]);
    [rewrite improper_types_length, length_map; lia|].
  exists lines. split; [|split].
  - rewrite Hw. reflexivity.
  - now rewrite Hlen, length_map.
  - intros i improper Hi.
    destruct (Hlines i (Atom.idx (Improper.atom1 improper) + 1,
                        Atom.idx (Improper.atom2 improper) + 1,
                        Atom.idx (Improper.atom3 improper) + 1,
                        Atom.idx (Improper.atom4 improper) + 1))
      as (ty & Hty & Hline); [now rewrite list_lookup_fmap, Hi|].
    now exists ty.
Qed.


(** The dicts of two per-atom values have the same keys. *)
Lemma by_label_lookup_total {V W} (f : Atom.t -> V) (g : Atom.t -> W)
  (k : nat) (x : V) :
  (k, x) ∈ by_label f -> exists y, Py.dict_lookup k (by_label g) = Some y.
Proof.
  intros Hin.
  assert (Hk : k ∈ map fst (by_label g)).
  { apply TypeDicts.loop_keys_elem. right.
    apply TypeDicts.set_items_elem in Hin as [Hin|(atom & Hatom & [= -> ->])];
      [inversion Hin|].
    now exists atom. }
  destruct (Py.dict_lookup k (by_label g)) as [y|] eqn:Hy; [now exists y|].
  now apply PyFacts.dict_lookup_None_keys in Hy.
Qed.

(** The Pair Coeffs section of a structure without overrides: one line per
    atom type. *)
Lemma pair_section_plain :
  Structure.has_NBFIX structure = false ->
  pair_section structure cfg v (by_label Atom.sigma) (by_label Atom.epsilon)
               (by_label Atom.type)
  = wrote
      ([ Write "\nPair Coeffs # lj \n" [];
         Write "#\tepsilon (kcal/mol)\t\tsigma (Angstrom)\n" [] ]
       ++ map (fun item : nat * Q =>
                 Write "{}\t{:.5f}\t\t{:.5f}\t\t# {}\n"
                       [IntN (fst item); Float (snd item);
                        Float (default 0%Q
                                 (Py.dict_lookup (fst item)
                                    (by_label Atom.sigma)));
                        Str (default EmptyString
                               (Py.dict_lookup (fst item)
                                  (by_label Atom.type)))])
              (by_label Atom.epsilon)).
Proof.
  intros Hnb. unfold pair_section. rewrite Hnb.
  rewrite (Loops.write_each_map _
             (fun item : nat * Q =>
                Write "{}\t{:.5f}\t\t{:.5f}\t\t# {}\n"
                      [IntN (fst item); Float (snd item);
                       Float (default 0%Q
                                (Py.dict_lookup (fst item)
                                   (by_label Atom.sigma)));
                       Str (default EmptyString
                              (Py.dict_lookup (fst item)
                                 (by_label Atom.type)))])).
  - reflexivity.
  - intros [k eps] Hitem. cbn [fst snd]. unfold Py.dict_get.
    destruct (by_label_lookup_total Atom.epsilon Atom.sigma k eps Hitem)
      as [s ->].
    destruct (by_label_lookup_total Atom.epsilon Atom.type k eps Hitem)
      as [t ->].
    reflexivity.
Qed.

(** The sections of the coefficients of the bonded terms end normally
    unless the table of bond types is unbound. *)
Lemma bonded_coeffs_end :
  snd (and_then
         (and_then
            (and_then (bond_coeffs_section v) (angle_coeffs_section v))
            (dihedral_coeffs_section RB_to_OPLS v))
         (improper_coeffs_section v))
  = snd (bond_coeffs_section v).
Proof.
  assert (Ha : snd (angle_coeffs_section v) = inr tt).
  { unfold angle_coeffs_section.
    destruct (nonempty (angles v)), (unique_angle_types v); reflexivity. }
  assert (Hd : snd (dihedral_coeffs_section RB_to_OPLS v) = inr tt).
  { unfold dihedral_coeffs_section.
    destruct (nonempty (dihedrals v)), (unique_dihedral_types v);
      reflexivity. }
  assert (Hi : snd (improper_coeffs_section v) = inr tt).
  { unfold improper_coeffs_section.
    destruct (nonempty (impropers v)); reflexivity. }
  destruct (bond_coeffs_section v) as [wb [e|[]]]; [reflexivity|].
  rewrite (Raises.and_then_inr (wb, inr tt)) by reflexivity.
  rewrite (Raises.and_then_inr (_, snd (angle_coeffs_section v)))
    by exact Ha.
  rewrite Raises.and_then_inr by exact Hd. exact Hi.
Qed.

(** With bonds, the table of bond types is bound exactly when the
    structure has bond types. *)
Lemma unique_bond_types_bound :
  Structure.bonds structure <> [] ->
  (unique_bond_types v = None <-> Structure.bond_types structure = []).
Proof.
  intros Hne.
  destruct (Stages.prepare_inv _ _ _ _ _ prepared)
    as (_ & _ & _ & _ & _ & _ & _ & Hbt & _).
  unfold bond_tables in Hbt. rewrite (TypeIds.nonempty_true _ Hne) in Hbt.
  destruct (Structure.bond_types structure) as [|bt bts]; simpl in Hbt.
  - injection Hbt as _ <-. tauto.
  - destruct (Py.mapM bond_key_of (Structure.bonds structure))
      as [e|keys]; [discriminate|]. simpl in Hbt.
    destruct (lookup_all _ keys) as [e|ids]; [discriminate|].
    injection Hbt as _ <-. split; discriminate.
Qed.

Lemma bond_coeffs_section_end :
  snd (bond_coeffs_section v)
  = (if nonempty (Structure.bonds structure) then
       match Structure.bond_types structure with
       | [] => inl (Py.UnboundLocalError "unique_bond_types")
       | _ :: _ => inr tt
       end
     else inr tt).
Proof.
  destruct (Stages.prepare_inv _ _ _ _ _ prepared)
    as (_ & _ & _ & _ & _ & _ & Hbonds & _).
  unfold bond_coeffs_section. rewrite Hbonds, TypeIds.nonempty_map.
  destruct (Structure.bonds structure) as [|b bs] eqn:Hb; [reflexivity|].
  cbn [nonempty].
  assert (Hne : Structure.bonds structure <> []) by now rewrite Hb.
  pose proof (unique_bond_types_bound Hne) as Hbound.
  destruct (unique_bond_types v) as [table|].
  - destruct (Structure.bond_types structure).
    + destruct Hbound as [_ Hbound]. now specialize (Hbound eq_refl).
    + reflexivity.
  - destruct Hbound as [Hbound _]. now rewrite (Hbound eq_refl).
Qed.

(** The sections of the coefficients of a structure without overrides. *)
Lemma forcefield_sections_typed :
  forcefield v = true ->
  forcefield_sections RB_to_OPLS structure cfg v
  = and_then
      (and_then
         (and_then
            (and_then
               (pair_section structure cfg v (by_label Atom.sigma)
                  (by_label Atom.epsilon) (by_label Atom.type))
               (bond_coeffs_section v))
            (angle_coeffs_section v))
         (dihedral_coeffs_section RB_to_OPLS v))
      (improper_coeffs_section v).
Proof.
  intros Hff. unfold forcefield_sections.
  rewrite !by_type_id_labels, Hff. reflexivity.
Qed.

(** The Dihedrals section ends normally exactly when there is a type ID
    for every dihedral. *)
Lemma dihedrals_section_end :
  snd (dihedrals_section v)
  = (if decide (length (dihedrals v) <= length (dihedral_types v))
     then inr tt else inl Py.IndexError).
Proof.
  unfold dihedrals_section.
  destruct (dihedrals v) as [|d ds] eqn:Hd.
  - rewrite decide_True by (simpl; lia). reflexivity.
  - cbn [nonempty]. rewrite <- Hd.
    rewrite Raises.and_then_inr by reflexivity. cbn [snd].
    match goal with
    | |- context [write_each ?f (Py.enumerate ?rows)] =>
        assert (Hf : forall i row,
                   f (i, row)
                   = (ty <- Py.getitem (dihedral_types v) i ;;
                      Py.ret (Write "{:d}\t{:d}\t{:d}\t{:d}\t{:d}\t{:d}\n"
                                [IntN (i + 1); IntN ty;
                                 IntN (fst (fst (fst row)));
                                 IntN (snd (fst (fst row)));
                                 IntN (snd (fst row)); IntN (snd row)])))
          by (intros i [[[a1 a2] a3] a4]; reflexivity);
        destruct (decide (length rows <= length (dihedral_types v)))
          as [Hle|Hgt];
        [ destruct (Loops.records _ f _ Hf rows Hle) as (lines & -> & _)
        | destruct (Loops.records_short _ f _ Hf rows) as [-> _]; [lia|] ]
    end; reflexivity.
Qed.

Lemma bonded_sections_end :
  snd (bonded_sections cfg v)
  = (if bonded_style (atom_style cfg) then snd (dihedrals_section v)
     else inr tt).
Proof.
  unfold bonded_sections.
  destruct (bonded_style (atom_style cfg)); [|reflexivity].
  assert (Hb : snd (bonds_section v) = inr tt).
  { destruct (Stages.prepare_inv _ _ _ _ _ prepared)
      as (_ & _ & _ & _ & _ & _ & Hbonds & _).
    destruct (Structure.bonds structure) as [|b bs] eqn:Hbs.
    - unfold bonds_section. now rewrite Hbonds.
    - destruct bonds_section_written as (lines & -> & _);
        [now rewrite Hbs|reflexivity]. }
  assert (Ha : snd (angles_section v) = inr tt).
  { destruct prepare_records as (Hangles & _).
    destruct (Structure.angles structure) as [|a l] eqn:Has.
    - unfold angles_section. now rewrite Hangles.
    - destruct angles_section_written as (lines & -> & _);
        [now rewrite Has|reflexivity]. }
  assert (Hi : snd (impropers_section v) = inr tt).
  { destruct prepare_records as (_ & _ & Himpropers).
    destruct (Structure.impropers structure) as [|a l] eqn:His.
    - unfold impropers_section. now rewrite Himpropers.
    - destruct impropers_section_written as (lines & -> & _);
        [now rewrite His|reflexivity]. }
  rewrite (Raises.and_then_inr (bonds_section v)) by exact Hb.
  rewrite (Raises.and_then_inr (_, snd (angles_section v))) by exact Ha.
  destruct (dihedrals_section v) as [wd [e|[]]] eqn:Hd; [reflexivity|].
  rewrite Raises.and_then_inr by reflexivity. exact Hi.
Qed.

(** How the call ends: as the coefficient sections end, and, if these end
    normally, as the Dihedrals section ends. *)
Lemma ended_as_sections :
  ended (write_lammpsdata set_iter join_dihedrals RB_to_OPLS
           structure cfg)
  = match snd (forcefield_sections RB_to_OPLS structure cfg v) with
    | inl e => inl e
    | inr _ => snd (bonded_sections cfg v)
    end.
Proof.
  rewrite ended_sections, masses_section_written.
  destruct atoms_section_written as (lines & -> & _).
  destruct (forcefield_sections RB_to_OPLS structure cfg v)
    as [wf [e|[]]]; reflexivity.
Qed.

(** Without overrides, the coefficient sections end as the Bond Coeffs
    section ends. *)
Lemma forcefield_sections_end :
  Structure.has_NBFIX structure = false ->
  snd (forcefield_sections RB_to_OPLS structure cfg v)
  = (if forcefield v then snd (bond_coeffs_section v) else inr tt).
Proof.
  intros Hnb. destruct (forcefield v) eqn:Hff.
  - rewrite (forcefield_sections_typed Hff), (pair_section_plain Hnb).
    rewrite !Loops.and_then_snd. cbn [snd wrote Py.ret].
    pose proof bonded_coeffs_end as Hend.
    rewrite !Loops.and_then_snd in Hend. exact Hend.
  - unfold forcefield_sections. now rewrite Hff.
Qed.

(** Where the table of bond types is unbound, the last thing written is
    the head of the Bond Coeffs section. *)
Lemma written_until_bond_coeffs :
  forcefield v = true ->
  Structure.has_NBFIX structure = false ->
  Structure.bonds structure <> [] ->
  Structure.bond_types structure = [] ->
  exists calls,
    written (write_lammpsdata set_iter join_dihedrals RB_to_OPLS
               structure cfg)
    = calls ++ [ Write "\nBond Coeffs # harmonic\n" [];
                 Write "#\tk(kcal/mol/angstrom^2)\t\treq(angstrom)\n" [] ].
Proof.
  intros Hff Hnb Hne Hbt.
  destruct (Stages.prepare_inv _ _ _ _ _ prepared)
    as (_ & _ & _ & _ & _ & _ & Hbonds & _).
  assert (Hb : bond_coeffs_section v
               = ([ Write "\nBond Coeffs # harmonic\n" [];
                    Write "#\tk(kcal/mol/angstrom^2)\t\treq(angstrom)\n"
                          [] ],
                  inl (Py.UnboundLocalError "unique_bond_types"))).
  { unfold bond_coeffs_section.
    rewrite Hbonds, TypeIds.nonempty_map, (TypeIds.nonempty_true _ Hne).
    destruct (unique_bond_types_bound Hne) as [_ Hnone].
    now rewrite (Hnone Hbt). }
  rewrite written_sections, masses_section_written,
    (forcefield_sections_typed Hff), (pair_section_plain Hnb), Hb.
  match goal with
  | |- context [and_then (wrote ?p) (?b, inl ?e)] =>
      change (and_then (wrote p) (b, inl e)) with (p ++ b, @inl _ unit e)
  end.
  rewrite !(Loops.and_then_raised (_, inl _) _
              (Py.UnboundLocalError "unique_bond_types")) by reflexivity.
  rewrite (Loops.and_then_wrote_l (_ :: _)). cbn [fst snd].
  rewrite !(Loops.and_then_raised (_, inl _) _
              (Py.UnboundLocalError "unique_bond_types")) by reflexivity.
  cbn [fst]. eexists. rewrite !app_assoc. reflexivity.
Qed.

Lemma in_forcefield_sections (w : write_call) :
  w ∈ fst (forcefield_sections RB_to_OPLS structure cfg v) ->
  w ∈ written (write_lammpsdata set_iter join_dihedrals RB_to_OPLS
                 structure cfg).
Proof.
  intros Hw. rewrite written_sections, masses_section_written.
  apply elem_of_app. right. apply elem_of_app. right.
  do 2 apply UntypedBonds.elem_and_then_l.
  rewrite Loops.and_then_wrote_l. cbn [fst].
  apply elem_of_app. now right.
Qed.

Lemma in_pair_section (w : write_call) :
  forcefield v = true ->
  w ∈ fst (pair_section structure cfg v (by_label Atom.sigma)
             (by_label Atom.epsilon) (by_label Atom.type)) ->
  w ∈ written (write_lammpsdata set_iter join_dihedrals RB_to_OPLS
                 structure cfg).
Proof.
  intros Hff Hw. apply in_forcefield_sections.
  rewrite (forcefield_sections_typed Hff).
  now do 4 apply UntypedBonds.elem_and_then_l.
Qed.

End Writer.

End Sections.

(** ** The formats of the writes *)

Module Formats.

Import Lammps.

(** Finds a string in a list of literals. *)
Ltac in_list :=
  cbn [format];
  solve [repeat first [apply list_elem_of_here | apply list_elem_of_further]].

(** The leaf of a walk: destructs what the format of the call hangs on,
    then finds the format. *)
Ltac leaf :=
  repeat match goal with
         | x : (_ * _)%type |- _ => destruct x
         end;
  repeat match goal with
         | |- context [let '(_, _) := ?t in _] => destruct t
         | |- context [if ?b then _ else _] => destruct b
         end;
  in_list.

Ltac peel H :=
  repeat match type of H with
         | Py.bind _ _ = inr _ =>
             apply UntypedBonds.bind_inr in H as (? & _ & H)
         end;
  unfold Py.ret in H;
  repeat match type of H with
         | context [if ?b then _ else _] => destruct b
         end;
  injection H as <-.

Ltac walk :=
  repeat first
    [ apply List.Forall_nil
    | apply UntypedBonds.and_then_Forall
    | apply UntypedBonds.computing_Forall; intros ?
    | apply Forall_app; split
    | apply List.Forall_cons; [leaf|]
    | apply UntypedBonds.map_Forall; intros ?; leaf
    | apply UntypedBonds.write_each_Forall;
      let H := fresh "Hcall" in
      intros ? ? H;
      repeat match goal with
             | x : (_ * _)%type |- _ => destruct x
             end;
      peel H; in_list
    | progress simpl fst
    | match goal with
      | |- Forall _ (fst (if ?b then _ else _)) => destruct b
      | |- Forall _ (if ?b then _ else _) => destruct b
      | |- Forall _ (fst (match ?t with _ => _ end)) => destruct t
      | |- Forall _ (match ?t with _ => _ end) => destruct t
      end ].

Section Writer.
Variable set_iter : Py.set_order.
Variable join_dihedrals : list Dihedral.t -> list Dihedral.t.
Variable RB_to_OPLS : Q -> Q -> Q -> Q -> Q -> Q -> Q * Q * Q * Q.
Variable structure : Structure.t.
Variable cfg : config.
Variable v : locals.

Lemma header_format_list :
  Forall (fun w => format w
                   ∈ Records.general_formats
                     ++ (if bonded_style (atom_style cfg)
                         then Records.bonded_formats else []))
         (header set_iter structure cfg v).
Proof.
  unfold header. destruct (bonded_style (atom_style cfg)); walk.
Qed.

Lemma box_section_format_list :
  Forall (fun w => format w ∈ Records.general_formats)
         (box_section (box v)).
Proof.
  unfold box_section. destruct (Np.allclose _ _).
  - destruct (Box.mins (box v)) as [[? ?] ?],
      (Box.maxs (box v)) as [[? ?] ?]. walk.
  - walk.
Qed.

Lemma masses_section_format_list :
  Forall (fun w => format w ∈ Records.general_formats)
         (fst (masses_section structure v)).
Proof. unfold masses_section. walk. Qed.

Lemma atoms_section_format_list :
  Forall (fun w => format w ∈ Records.general_formats)
         (fst (atoms_section cfg v)).
Proof. unfold atoms_section. walk. Qed.

Lemma bonded_sections_format_list :
  Forall (fun w => format w
                   ∈ (if bonded_style (atom_style cfg)
                      then Records.bonded_formats else []))
         (fst (bonded_sections cfg v)).
Proof.
  unfold bonded_sections. destruct (bonded_style (atom_style cfg));
    [|constructor].
  unfold bonds_section, angles_section, dihedrals_section,
    impropers_section. walk.
Qed.

Lemma forcefield_sections_format_list :
  Forall (fun w => format w
                   ∈ (if forcefield v
                      then Records.pair_formats
                             (Structure.has_NBFIX structure)
                             (nbfix_in_data_file cfg)
                           ++ Records.bonded_coeffs_formats
                      else []))
         (fst (forcefield_sections RB_to_OPLS structure cfg v)).
Proof.
  unfold forcefield_sections. destruct (forcefield v); [|constructor].
  unfold pair_section, bond_coeffs_section, angle_coeffs_section,
    dihedral_coeffs_section, improper_coeffs_section.
  destruct (Structure.has_NBFIX structure), (nbfix_in_data_file cfg);
    walk.
Qed.

End Writer.

(** Every write of a call has one of the formats of the parts of the
    writer that the atom style, the force field and the switches of the
    overrides select. *)
Lemma written_formats
  (set_iter : Py.set_order)
  (join_dihedrals : list Dihedral.t -> list Dihedral.t)
  (RB_to_OPLS : Q -> Q -> Q -> Q -> Q -> Q -> Q * Q * Q * Q)
  (structure : Structure.t) (cfg : config) (v : locals) :
  prepare set_iter join_dihedrals structure cfg = inr v ->
  Forall (fun w => format w
                   ∈ Records.file_formats
                       (bonded_style (atom_style cfg)) (forcefield v)
                       (Structure.has_NBFIX structure)
                       (nbfix_in_data_file cfg))
         (written (write_lammpsdata set_iter join_dihedrals RB_to_OPLS
                     structure cfg)).
Proof.
  intros Hv. unfold write_lammpsdata, written. rewrite Hv.
  cbn [file]. unfold write_file, Records.file_formats.
  apply UntypedBonds.and_then_Forall;
    [apply UntypedBonds.and_then_Forall;
     [apply UntypedBonds.and_then_Forall;
      [apply UntypedBonds.and_then_Forall;
       [apply UntypedBonds.and_then_Forall|]|]|]|];
    cbn [fst wrote].
  - eapply Forall_impl; [apply header_format_list|].
    intros w Hw. cbn beta in Hw. rewrite !elem_of_app in *. tauto.
  - eapply Forall_impl; [apply box_section_format_list|].
    intros w Hw. cbn beta in Hw. rewrite !elem_of_app. tauto.
  - eapply Forall_impl; [apply masses_section_format_list|].
    intros w Hw. cbn beta in Hw. rewrite !elem_of_app. tauto.
  - eapply Forall_impl; [apply forcefield_sections_format_list|].
    intros w Hw. cbn beta in Hw. rewrite !elem_of_app. tauto.
  - eapply Forall_impl; [apply atoms_section_format_list|].
    intros w Hw. cbn beta in Hw. rewrite !elem_of_app. tauto.
  - eapply Forall_impl; [apply bonded_sections_format_list|].
    intros w Hw. cbn beta in Hw. rewrite !elem_of_app. tauto.
Qed.

End Formats.

(** ** The Masses and Atoms sections *)

Module AtomSections.

Import Lammps.

(** After the tables are built, the Masses section is written in full:
    its title and as many lines as the header declares atom types. *)
Theorem masses_lines_match_the_declared_atom_types
  (set_iter : Py.set_order)
  (join_dihedrals : list Dihedral.t -> list Dihedral.t)
  (structure : Structure.t) (cfg : config) (v : locals) :
  Py.set_order_ok set_iter ->
  prepare set_iter join_dihedrals structure cfg = inr v ->
  exists lines,
    masses_section structure v = wrote (Write "\nMasses\n\n" [] :: lines)
    /\ Forall (fun line => format line = "{:d}\t{:.6f}\t# {}\n") lines
    /\ Write "{:d} atom types\n" [IntN (length lines)]
       ∈ header set_iter structure cfg v.
Proof.
  intros Hok Hv. eexists. split; [|split].
  - apply (Sections.masses_section_written set_iter join_dihedrals Hok
             structure cfg v Hv).
  - apply Forall_forall. intros line Hline.
    apply list_elem_of_fmap in Hline as (item & -> & _). reflexivity.
  - rewrite length_map.
    rewrite (TypeDicts.by_label_length (unique_types v)
               (Sections.labels_NoDup set_iter join_dihedrals Hok
                  structure cfg v Hv)).
    + rewrite <- (Sections.declared_atom_types set_iter join_dihedrals
                    structure cfg v Hv).
      unfold header. set_solver.
    + apply (Sections.labels_known set_iter join_dihedrals Hok
               structure cfg v Hv).
    + apply (Sections.labels_used set_iter join_dihedrals Hok
               structure cfg v Hv).
Qed.

Lemma masses_of_the_molecule :
  exists v lines,
    prepare Py.insertion_order Examples.no_join Samples.molecule
            (default_config "out.lammps") = inr v
    /\ masses_section Samples.molecule v
       = wrote (Write "\nMasses\n\n" [] :: lines)
    /\ Forall (fun line => format line = "{:d}\t{:.6f}\t# {}\n") lines
    /\ Write "{:d} atom types\n" [IntN (length lines)]
       ∈ header Py.insertion_order Samples.molecule
           (default_config "out.lammps") v.
Proof.
  assert (Hv : exists v,
    prepare Py.insertion_order Examples.no_join Samples.molecule
            (default_config "out.lammps") = inr v)
    by (eexists; vm_compute; reflexivity).
  destruct Hv as [v Hv].
  destruct (masses_lines_match_the_declared_atom_types
              Py.insertion_order Examples.no_join Samples.molecule
              (default_config "out.lammps") v
              PyFacts.insertion_order_ok Hv) as (lines & Hm & Hf & Hh).
  now exists v, lines.
Defined.

(** The mass written for a type is that of the last atom that carries the
    label of the type (its type with a force field, its name without),
    on the line of the ID of the label. *)
Theorem mass_of_a_type_is_that_of_its_last_atom
  (set_iter : Py.set_order)
  (join_dihedrals : list Dihedral.t -> list Dihedral.t)
  (RB_to_OPLS : Q -> Q -> Q -> Q -> Q -> Q -> Q * Q * Q * Q)
  (structure : Structure.t) (cfg : config) (v : locals)
  (before after : list Atom.t) (atom : Atom.t) :
  Py.set_order_ok set_iter ->
  prepare set_iter join_dihedrals structure cfg = inr v ->
  Structure.atoms structure = before ++ atom :: after ->
  (forall atom', atom' ∈ after ->
                 Records.label (forcefield v) atom'
                 <> Records.label (forcefield v) atom) ->
  exists i,
    unique_types v !! i = Some (Records.label (forcefield v) atom)
    /\ Write "{:d}\t{:.6f}\t# {}\n"
             [IntN (i + 1); Float (Atom.mass atom);
              Str (Records.label (forcefield v) atom)]
       ∈ written (write_lammpsdata set_iter join_dihedrals RB_to_OPLS
                    structure cfg).
Proof.
  intros Hok Hv Hatoms Hlast.
  pose proof (Sections.labels_NoDup set_iter join_dihedrals Hok
                structure cfg v Hv) as HU.
  pose proof (Sections.labels_known set_iter join_dihedrals Hok
                structure cfg v Hv) as Hknown.
  assert (Hin : atom ∈ Structure.atoms structure).
  { rewrite Hatoms. apply elem_of_app. right. left. }
  destruct (PairTable.index_type_id (unique_types v) HU
              (Records.label (forcefield v) atom) (Hknown atom Hin))
    as (i & Hi & _ & _).
  exists i. split; [exact Hi|].
  apply (Sections.in_masses set_iter join_dihedrals RB_to_OPLS
           structure cfg v Hv).
  rewrite (Sections.masses_section_written set_iter join_dihedrals Hok
             structure cfg v Hv).
  cbn [fst wrote]. right.
  apply list_elem_of_fmap. exists (i + 1, Atom.mass atom). split.
  - cbn [fst snd]. replace (i + 1 - 1) with i by lia. now rewrite Hi.
  - apply PyFacts.dict_lookup_Some_elem.
    now apply (TypeDicts.by_label_last (unique_types v) HU
                 (Records.label (forcefield v))
                 (Structure.atoms structure) Hknown Atom.mass
                 before after atom i).
Qed.

Lemma mass_of_type_A_of_the_molecule :
  exists v i,
    prepare Py.insertion_order Examples.no_join Samples.molecule
            (default_config "out.lammps") = inr v
    /\ unique_types v !! i = Some "A"
    /\ Write "{:d}\t{:.6f}\t# {}\n" [IntN (i + 1); Float 13; Str "A"]
       ∈ written (write_lammpsdata Py.insertion_order Examples.no_join
                    Examples.rb_unused Samples.molecule
                    (default_config "out.lammps")).
Proof.
  assert (Hv : exists v,
    prepare Py.insertion_order Examples.no_join Samples.molecule
            (default_config "out.lammps") = inr v
    /\ forcefield v = true)
    by (eexists; split; [vm_compute; reflexivity|reflexivity]).
  destruct Hv as (v & Hv & Hff).
  destruct (mass_of_a_type_is_that_of_its_last_atom
              Py.insertion_order Examples.no_join Examples.rb_unused
              Samples.molecule (default_config "out.lammps") v
              [Examples.A0; Examples.B1; Examples.C2; Examples.D3] []
              Samples.heavy_A PyFacts.insertion_order_ok Hv eq_refl)
    as (i & Hi & Hline).
  - intros atom' Hin. inversion Hin.
  - rewrite Hff in Hi, Hline. now exists v, i.
Defined.



End AtomSections.

(** ** The sections of the bonded terms *)

Module BondedSections.

Import Lammps.

Section Writer.
Variable set_iter : Py.set_order.
Variable join_dihedrals : list Dihedral.t -> list Dihedral.t.
Variable structure : Structure.t.
Variable cfg : config.
Variable v : locals.
Hypothesis prepared : prepare set_iter join_dihedrals structure cfg = inr v.
Hypothesis bonded : bonded_style (atom_style cfg) = true.


End Writer.











End BondedSections.

(** ** The coefficient sections and the end of the call *)

Module CoeffSections.

Import Lammps.

(** Without overrides, the Pair Coeffs section holds, on the line of the
    ID of every atom type, the epsilon and the sigma of the last atom of
    the type, and the type. *)
Theorem pair_coeffs_of_a_type_are_those_of_its_last_atom
  (set_iter : Py.set_order)
  (join_dihedrals : list Dihedral.t -> list Dihedral.t)
  (RB_to_OPLS : Q -> Q -> Q -> Q -> Q -> Q -> Q * Q * Q * Q)
  (structure : Structure.t) (cfg : config) (v : locals)
  (before after : list Atom.t) (atom : Atom.t) :
  Py.set_order_ok set_iter ->
  prepare set_iter join_dihedrals structure cfg = inr v ->
  forcefield v = true ->
  Structure.has_NBFIX structure = false ->
  Structure.atoms structure = before ++ atom :: after ->
  (forall atom', atom' ∈ after -> Atom.type atom' <> Atom.type atom) ->
  exists i,
    unique_types v !! i = Some (Atom.type atom)
    /\ Write "{}\t{:.5f}\t\t{:.5f}\t\t# {}\n"
             [IntN (i + 1); Float (Atom.epsilon atom);
              Float (Atom.sigma atom); Str (Atom.type atom)]
       ∈ written (write_lammpsdata set_iter join_dihedrals RB_to_OPLS
                    structure cfg).
Proof.
  intros Hok Hv Hff Hnb Hatoms Hlast.
  pose proof (Sections.labels_NoDup set_iter join_dihedrals Hok
                structure cfg v Hv) as HU.
  pose proof (Sections.labels_known set_iter join_dihedrals Hok
                structure cfg v Hv) as Hknown.
  pose proof (Sections.pair_section_plain structure cfg v Hnb) as Hpair.
  pose proof (Sections.in_pair_section set_iter join_dihedrals RB_to_OPLS
                Hok structure cfg v Hv) as Hin_pair.
  assert (Hlast_of : forall V (f : Atom.t -> V) i,
    unique_types v !! i = Some (Records.label (forcefield v) atom) ->
    Py.dict_lookup (i + 1)
      (fold_left
         (PairSpec.set_item
            (fun atom => PairSpec.type_id (unique_types v)
                           (Records.label (forcefield v) atom)) f)
         (Structure.atoms structure) [])
    = Some (f atom)).
  { intros V f i Hi.
    apply (TypeDicts.by_label_last (unique_types v) HU
             (Records.label (forcefield v))
             (Structure.atoms structure) Hknown f before after atom i
             Hatoms); [|exact Hi].
    rewrite Hff. exact Hlast. }
  assert (Hin : atom ∈ Structure.atoms structure).
  { rewrite Hatoms. apply elem_of_app. right. left. }
  destruct (PairTable.index_type_id (unique_types v) HU
              (Records.label (forcefield v) atom) (Hknown atom Hin))
    as (i & Hi & _ & _).
  exists i. split; [now rewrite Hff in Hi|].
  apply (Hin_pair _ Hff). rewrite Hpair. cbn [fst wrote].
  apply elem_of_app. right.
  apply list_elem_of_fmap. exists (i + 1, Atom.epsilon atom). split.
  - cbn [fst snd].
    now rewrite (Hlast_of _ Atom.sigma i Hi), (Hlast_of _ Atom.type i Hi).
  - apply PyFacts.dict_lookup_Some_elem. now apply Hlast_of.
Qed.

Lemma pair_coeffs_of_type_D_of_the_molecule :
  exists v i,
    prepare Py.insertion_order Examples.no_join Samples.molecule
            (default_config "out.lammps") = inr v
    /\ unique_types v !! i = Some "D"
    /\ Write "{}\t{:.5f}\t\t{:.5f}\t\t# {}\n"
             [IntN (i + 1); Float 1; Float 1; Str "D"]
       ∈ written (write_lammpsdata Py.insertion_order Examples.no_join
                    Examples.rb_unused Samples.molecule
                    (default_config "out.lammps")).
Proof.
  assert (Hv : exists v,
    prepare Py.insertion_order Examples.no_join Samples.molecule
            (default_config "out.lammps") = inr v
    /\ forcefield v = true)
    by (eexists; split; [vm_compute; reflexivity|reflexivity]).
  destruct Hv as (v & Hv & Hff).
  destruct (pair_coeffs_of_a_type_are_those_of_its_last_atom
              Py.insertion_order Examples.no_join Examples.rb_unused
              Samples.molecule (default_config "out.lammps") v
              [Examples.A0; Examples.B1; Examples.C2] [Samples.heavy_A]
              Examples.D3 PyFacts.insertion_order_ok Hv Hff eq_refl eq_refl)
    as (i & Hi & Hline).
  - intros atom' Hin. apply list_elem_of_singleton in Hin as ->.
    discriminate.
  - now exists v, i.
Defined.

(** Typed atoms with bonds but no bond types: the tables are built, with
    every bond of type 1, but the Bond Coeffs section reads the table of
    bond types, which line 171 leaves unbound.  Without overrides the call
    ends with [UnboundLocalError], and the last two writes are the head
    of the Bond Coeffs section. *)
Theorem typed_atoms_with_untyped_bonds_raise
  (set_iter : Py.set_order)
  (join_dihedrals : list Dihedral.t -> list Dihedral.t)
  (RB_to_OPLS : Q -> Q -> Q -> Q -> Q -> Q -> Q * Q * Q * Q)
  (structure : Structure.t) (cfg : config) (v : locals) :
  Py.set_order_ok set_iter ->
  prepare set_iter join_dihedrals structure cfg = inr v ->
  forcefield v = true ->
  Structure.has_NBFIX structure = false ->
  Structure.bonds structure <> [] ->
  Structure.bond_types structure = [] ->
  ended (write_lammpsdata set_iter join_dihedrals RB_to_OPLS
           structure cfg)
  = inl (Py.UnboundLocalError "unique_bond_types")
  /\ exists calls,
      written (write_lammpsdata set_iter join_dihedrals RB_to_OPLS
                 structure cfg)
      = calls ++ [ Write "\nBond Coeffs # harmonic\n" [];
                   Write "#\tk(kcal/mol/angstrom^2)\t\treq(angstrom)\n"
                         [] ].
Proof.
  intros Hok Hv Hff Hnb Hne Hbt. split.
  - rewrite (Sections.ended_as_sections set_iter join_dihedrals RB_to_OPLS
               Hok structure cfg v Hv).
    rewrite (Sections.forcefield_sections_end set_iter join_dihedrals
               RB_to_OPLS Hok structure cfg v Hv Hnb), Hff.
    rewrite (Sections.bond_coeffs_section_end set_iter join_dihedrals
               structure cfg v Hv).
    now rewrite (TypeIds.nonempty_true _ Hne), Hbt.
  - now apply (Sections.written_until_bond_coeffs set_iter join_dihedrals
                 RB_to_OPLS Hok structure cfg v Hv).
Qed.

Lemma chain_without_bond_types_raises :
  ended (write_lammpsdata Py.insertion_order Examples.no_join
           Examples.rb_unused Examples.chain_without_bond_types
           (default_config "out.lammps"))
  = inl (Py.UnboundLocalError "unique_bond_types")
  /\ exists calls,
      written (write_lammpsdata Py.insertion_order Examples.no_join
                 Examples.rb_unused Examples.chain_without_bond_types
                 (default_config "out.lammps"))
      = calls ++ [ Write "\nBond Coeffs # harmonic\n" [];
                   Write "#\tk(kcal/mol/angstrom^2)\t\treq(angstrom)\n"
                         [] ].
Proof.
  assert (Hv : exists v,
    prepare Py.insertion_order Examples.no_join
            Examples.chain_without_bond_types
            (default_config "out.lammps") = inr v
    /\ forcefield v = true)
    by (eexists; split; [vm_compute; reflexivity|reflexivity]).
  destruct Hv as (v & Hv & Hff).
  apply (typed_atoms_with_untyped_bonds_raise
           Py.insertion_order Examples.no_join Examples.rb_unused
           Examples.chain_without_bond_types (default_config "out.lammps")
           v PyFacts.insertion_order_ok Hv Hff eq_refl);
    [discriminate|reflexivity].
Defined.

(** When the call ends normally.  After the tables are built, and without
    overrides, only two things can go wrong: typed atoms with bonds but
    no bond types, and, in the styles molecular and full, CHARMM dihedrals
    with fewer terms than there are dihedrals. *)
Theorem call_ends_normally_iff
  (set_iter : Py.set_order)
  (join_dihedrals : list Dihedral.t -> list Dihedral.t)
  (RB_to_OPLS : Q -> Q -> Q -> Q -> Q -> Q -> Q * Q * Q * Q)
  (structure : Structure.t) (cfg : config) (v : locals) :
  Py.set_order_ok set_iter ->
  prepare set_iter join_dihedrals structure cfg = inr v ->
  Structure.has_NBFIX structure = false ->
  ended (write_lammpsdata set_iter join_dihedrals RB_to_OPLS
           structure cfg) = inr tt
  <-> (forcefield v = true -> Structure.bonds structure <> [] ->
       Structure.bond_types structure <> [])
      /\ (bonded_style (atom_style cfg) = true ->
          dihedrals_used v = true ->
          length (Structure.dihedrals structure)
          <= Records.charmm_terms
               (join_dihedrals (Structure.dihedrals structure))).
Proof.
  intros Hok Hv Hnb.
  rewrite (Sections.ended_as_sections set_iter join_dihedrals RB_to_OPLS
             Hok structure cfg v Hv).
  rewrite (Sections.forcefield_sections_end set_iter join_dihedrals
             RB_to_OPLS Hok structure cfg v Hv Hnb).
  rewrite (Sections.bond_coeffs_section_end set_iter join_dihedrals
             structure cfg v Hv).
  rewrite (Sections.bonded_sections_end set_iter join_dihedrals
             structure cfg v Hv).
  rewrite (Sections.dihedrals_section_end v).
  destruct (Stages.prepare_inv _ _ _ _ _ Hv)
    as (_ & _ & _ & _ & _ & Hconf & _).
  destruct (Sections.prepare_records set_iter join_dihedrals
              structure cfg v Hv) as (_ & Hd & _).
  pose proof (Sections.dihedral_types_length set_iter join_dihedrals
                structure cfg v Hv) as Hlen.
  assert (Hdih :
    length (dihedrals v) <= length (dihedral_types v)
    <-> (dihedrals_used v = true ->
         length (Structure.dihedrals structure)
         <= Records.charmm_terms
              (join_dihedrals (Structure.dihedrals structure)))).
  { destruct (rb_torsions_used v).
    - simpl in Hconf. rewrite Hconf. rewrite Hlen, Hd, TypeIds.nonempty_map.
      rewrite length_map.
      destruct (Structure.rb_torsions structure); simpl;
        split; (lia || discriminate).
    - destruct (dihedrals_used v).
      + rewrite Hlen, Hd, TypeIds.nonempty_map, length_map.
        destruct (Structure.dihedrals structure) eqn:Hds; simpl.
        * split; [lia|]. intros _. lia.
        * split; [intros Hle _; exact Hle|intros Hle; now apply Hle].
      + rewrite Hd. simpl. split; [discriminate|lia]. }
  destruct (forcefield v), (bonded_style (atom_style cfg)),
    (Structure.bonds structure) as [|b bs],
    (Structure.bond_types structure) as [|t ts],
    (decide (length (dihedrals v) <= length (dihedral_types v)))
      as [Hle|Hgt];
    cbn [nonempty]; split;
    try discriminate; try reflexivity;
    try (intros _; split; intros; try congruence; now apply Hdih);
    try (intros [Hb Hd']; exfalso; first
           [ now apply (Hb eq_refl)
           | apply Hgt, Hdih; now apply Hd' ]).
Qed.

Lemma the_molecule_is_written_in_full :
  ended (write_lammpsdata Py.insertion_order Examples.no_join
           Examples.rb_unused Samples.molecule
           (default_config "out.lammps")) = inr tt.
Proof.
  assert (Hv : exists v,
    prepare Py.insertion_order Examples.no_join Samples.molecule
            (default_config "out.lammps") = inr v
    /\ dihedrals_used v = false)
    by (eexists; split; [vm_compute; reflexivity|reflexivity]).
  destruct Hv as (v & Hv & Hdih).
  apply (call_ends_normally_iff
           Py.insertion_order Examples.no_join Examples.rb_unused
           Samples.molecule (default_config "out.lammps") v
           PyFacts.insertion_order_ok Hv eq_refl).
  split.
  - intros _ _. discriminate.
  - intros _ Hd. rewrite Hdih in Hd. discriminate.
Defined.

End CoeffSections.

(** ** The overrides of the pair coefficients *)

Module Overrides.

Import Lammps.

(** The table of overrides as a loop that sets items. *)
Lemma sorted_nbfix_types_loop
  (nbfix_types : list ((string * string) * (Q * Q))) :
  sorted_nbfix_types nbfix_types
  = fold_left
      (PairSpec.set_item
         (fun item : (string * string) * (Q * Q) =>
            Py.sorted_pair (fst (fst item)) (snd (fst item)))
         snd)
      nbfix_types [].
Proof. reflexivity. Qed.

Lemma sorted_pair_ordered (a b : string) :
  String.ltb (snd (Py.sorted_pair a b)) (fst (Py.sorted_pair a b)) = false.
Proof.
  unfold Py.sorted_pair. destruct (String.ltb b a) eqn:Hba; cbn [fst snd].
  - unfold String.ltb in *. rewrite String.compare_antisym.
    destruct (String.compare b a); simpl; congruence.
  - exact Hba.
Qed.

(** Every key of the table is a pair in ascending string order. *)
Lemma sorted_nbfix_keys
  (nbfix_types : list ((string * string) * (Q * Q))) (t1 t2 : string) :
  String.ltb t2 t1 = true ->
  Py.dict_lookup (t1, t2) (sorted_nbfix_types nbfix_types) = None.
Proof.
  intros Hlt. apply PyFacts.dict_lookup_None_keys.
  rewrite sorted_nbfix_types_loop, TypeDicts.loop_keys_elem.
  intros [Hin|([[a b] val] & _ & Hkey)]; [inversion Hin|].
  cbn [fst snd] in Hkey.
  pose proof (sorted_pair_ordered a b) as Hord.
  rewrite Hkey in Hord. cbn [fst snd] in Hord. congruence.
Qed.

(** The table holds an override under the sorted pair of its labels, if
    no later override has the same sorted pair. *)
Lemma sorted_nbfix_last
  (before after : list ((string * string) * (Q * Q)))
  (a b : string) (val : Q * Q) :
  (forall item, item ∈ after ->
                Py.sorted_pair (fst (fst item)) (snd (fst item))
                <> Py.sorted_pair a b) ->
  Py.dict_lookup (Py.sorted_pair a b)
    (sorted_nbfix_types (before ++ ((a, b), val) :: after))
  = Some val.
Proof.
  intros Hafter. rewrite sorted_nbfix_types_loop.
  apply (TypeDicts.loop_lookup_last
           (fun item : (string * string) * (Q * Q) =>
              Py.sorted_pair (fst (fst item)) (snd (fst item)))
           snd before after ((a, b), val)).
  exact Hafter.
Qed.

Section Writer.
Variable set_iter : Py.set_order.
Variable join_dihedrals : list Dihedral.t -> list Dihedral.t.
Variable RB_to_OPLS : Q -> Q -> Q -> Q -> Q -> Q -> Q * Q * Q * Q.
Hypothesis set_iter_ok : Py.set_order_ok set_iter.
Variable structure : Structure.t.
Variable cfg : config.
Variable v : locals.
Hypothesis prepared : prepare set_iter join_dihedrals structure cfg = inr v.
Hypothesis typed : forcefield v = true.
Hypothesis overrides : Structure.has_NBFIX structure = true.
Hypothesis in_file : nbfix_in_data_file cfg = true.
Hypothesis rule_known :
  Structure.combining_rule structure = "lorentz"
  \/ Structure.combining_rule structure = "geometric".
Hypothesis parameters_nonneg :
  forall atom, atom ∈ Structure.atoms structure ->
               (0 <= Atom.sigma atom)%Q /\ (0 <= Atom.epsilon atom)%Q.

(** The line of a pair of types, in terms of the list of types of the
    writer. *)
Lemma pair_line (i1 i2 : nat) (t1 t2 : string) :
  i1 <= i2 ->
  unique_types v !! i1 = Some t1 -> unique_types v !! i2 = Some t2 ->
  Write "{0} \t{1} \t{2} \t\t{3}\t\t# {4}\t{5}\n"
        [IntN (i1 + 1); IntN (i2 + 1);
         Real (snd (PairSpec.pair_value structure (t1, t2)));
         Real (fst (PairSpec.pair_value structure (t1, t2)));
         Str t1; Str t2]
  ∈ written (write_lammpsdata set_iter join_dihedrals RB_to_OPLS
               structure cfg).
Proof.
  destruct (PairFile.types_of_typed_atoms set_iter join_dihedrals
              structure cfg v prepared typed) as [_ ->].
  now apply PairFile.pair_line_written with (v := v).
Qed.

End Writer.

(** An override is written for its pair of types when the string order of
    the two labels is their order in the sorted list of types: the line
    of the pair holds [epsilon] as given and [sigma = rmin / 2^(1/6)],
    both rounded to eight places.  The override may be given under either
    order of the labels; of several for one pair the last counts. *)
Theorem override_is_written_when_the_orders_agree
  (set_iter : Py.set_order)
  (join_dihedrals : list Dihedral.t -> list Dihedral.t)
  (RB_to_OPLS : Q -> Q -> Q -> Q -> Q -> Q -> Q * Q * Q * Q)
  (structure : Structure.t) (cfg : config) (v : locals)
  (before after : list ((string * string) * (Q * Q)))
  (a b t1 t2 : string) (rmin epsilon : Q) (i1 i2 : nat) :
  Py.set_order_ok set_iter ->
  prepare set_iter join_dihedrals structure cfg = inr v ->
  forcefield v = true ->
  Structure.has_NBFIX structure = true ->
  nbfix_in_data_file cfg = true ->
  Structure.combining_rule structure = "lorentz"
  \/ Structure.combining_rule structure = "geometric" ->
  (forall atom, atom ∈ Structure.atoms structure ->
                (0 <= Atom.sigma atom)%Q /\ (0 <= Atom.epsilon atom)%Q) ->
  Structure.nbfix_types structure
  = before ++ ((a, b), (rmin, epsilon)) :: after ->
  (forall item, item ∈ after ->
                Py.sorted_pair (fst (fst item)) (snd (fst item))
                <> Py.sorted_pair a b) ->
  Py.sorted_pair a b = (t1, t2) ->
  unique_types v !! i1 = Some t1 ->
  unique_types v !! i2 = Some t2 ->
  i1 <= i2 ->
  Write "{0} \t{1} \t{2} \t\t{3}\t\t# {4}\t{5}\n"
        [IntN (i1 + 1); IntN (i2 + 1);
         Real (Py.round_real (Q2R epsilon) 8);
         Real (Py.round_real (Q2R rmin / Rpower 2 (1 / 6)) 8);
         Str t1; Str t2]
  ∈ written (write_lammpsdata set_iter join_dihedrals RB_to_OPLS
               structure cfg).
Proof.
  intros Hok Hv Hff Hnb Hin Hrule Hnonneg Hnbfix Hafter Hsorted Hi1 Hi2 Hle.
  pose proof (pair_line set_iter join_dihedrals RB_to_OPLS Hok structure
                cfg v Hv Hff Hnb Hin Hrule Hnonneg i1 i2 t1 t2 Hle Hi1 Hi2)
    as Hline.
  unfold PairSpec.pair_value in Hline.
  rewrite Hnbfix, <- Hsorted, (sorted_nbfix_last _ _ _ _ _ Hafter) in Hline.
  exact Hline.
Qed.

Lemma override_of_the_opls_types_is_written :
  Write "{0} \t{1} \t{2} \t\t{3}\t\t# {4}\t{5}\n"
        [IntN 1; IntN 2;
         Real (Py.round_real (Q2R 2.1) 8);
         Real (Py.round_real (Q2R 1.2 / Rpower 2 (1 / 6)) 8);
         Str "opls_135"; Str "opls_140"]
  ∈ written (write_lammpsdata Py.insertion_order Examples.no_join
               Examples.rb_unused Examples.opls_types
               (default_config "out.lammps")).
Proof.
  assert (Hv : exists v,
    prepare Py.insertion_order Examples.no_join Examples.opls_types
            (default_config "out.lammps") = inr v
    /\ forcefield v = true
    /\ unique_types v = ["opls_135"; "opls_140"])
    by (eexists; split; [vm_compute; reflexivity|split; reflexivity]).
  destruct Hv as (v & Hv & Hff & HU).
  apply (override_is_written_when_the_orders_agree
           Py.insertion_order Examples.no_join Examples.rb_unused
           Examples.opls_types (default_config "out.lammps") v
           [(("opls_135", "opls_140"), (1.2, 2.1)%Q)] []
           "opls_140" "opls_135" "opls_135" "opls_140" 1.2 2.1 0 1
           PyFacts.insertion_order_ok Hv Hff eq_refl eq_refl
           (or_introl eq_refl)).
  - intros atom Hatom.
    repeat (apply elem_of_cons in Hatom as [->|Hatom];
            [split; discriminate|]).
    inversion Hatom.
  - reflexivity.
  - intros item Hitem. inversion Hitem.
  - reflexivity.
  - now rewrite HU.
  - now rewrite HU.
  - lia.
Defined.

(** An override for two types whose string order is the reverse of their
    order in the sorted list of types is never used, whatever the table
    of overrides holds: the line of the pair holds the coefficients of the
    combining rule. *)
Theorem override_against_the_string_order_is_ignored
  (set_iter : Py.set_order)
  (join_dihedrals : list Dihedral.t -> list Dihedral.t)
  (RB_to_OPLS : Q -> Q -> Q -> Q -> Q -> Q -> Q * Q * Q * Q)
  (structure : Structure.t) (cfg : config) (v : locals)
  (t1 t2 : string) (i1 i2 : nat) :
  Py.set_order_ok set_iter ->
  prepare set_iter join_dihedrals structure cfg = inr v ->
  forcefield v = true ->
  Structure.has_NBFIX structure = true ->
  nbfix_in_data_file cfg = true ->
  Structure.combining_rule structure = "lorentz"
  \/ Structure.combining_rule structure = "geometric" ->
  (forall atom, atom ∈ Structure.atoms structure ->
                (0 <= Atom.sigma atom)%Q /\ (0 <= Atom.epsilon atom)%Q) ->
  unique_types v !! i1 = Some t1 ->
  unique_types v !! i2 = Some t2 ->
  i1 < i2 ->
  String.ltb t2 t1 = true ->
  Write "{0} \t{1} \t{2} \t\t{3}\t\t# {4}\t{5}\n"
        [IntN (i1 + 1); IntN (i2 + 1);
         Real (snd (PairSpec.rounded
                      (PairSpec.mixed (Structure.combining_rule structure)
                         (PairSpec.sigma_of (Structure.atoms structure) t1)
                         (PairSpec.epsilon_of (Structure.atoms structure) t1)
                         (PairSpec.sigma_of (Structure.atoms structure) t2)
                         (PairSpec.epsilon_of (Structure.atoms structure)
                                              t2))));
         Real (fst (PairSpec.rounded
                      (PairSpec.mixed (Structure.combining_rule structure)
                         (PairSpec.sigma_of (Structure.atoms structure) t1)
                         (PairSpec.epsilon_of (Structure.atoms structure) t1)
                         (PairSpec.sigma_of (Structure.atoms structure) t2)
                         (PairSpec.epsilon_of (Structure.atoms structure)
                                              t2))));
         Str t1; Str t2]
  ∈ written (write_lammpsdata set_iter join_dihedrals RB_to_OPLS
               structure cfg).
Proof.
  intros Hok Hv Hff Hnb Hin Hrule Hnonneg Hi1 Hi2 Hlt Hstr.
  pose proof (pair_line set_iter join_dihedrals RB_to_OPLS Hok structure
                cfg v Hv Hff Hnb Hin Hrule Hnonneg i1 i2 t1 t2
                (Nat.lt_le_incl _ _ Hlt) Hi1 Hi2) as Hline.
  unfold PairSpec.pair_value in Hline.
  rewrite (sorted_nbfix_keys _ t1 t2 Hstr) in Hline. cbn [fst snd] in Hline.
  rewrite decide_False in Hline; [exact Hline|].
  intros ->. unfold String.ltb in Hstr.
  pose proof (String.compare_antisym t2 t2) as Hanti.
  destruct (String.compare t2 t2); simpl in Hanti; discriminate.
Qed.

Lemma override_of_C2_and_C10_is_ignored :
  Write "{0} \t{1} \t{2} \t\t{3}\t\t# {4}\t{5}\n"
        [IntN 1; IntN 2;
         Real (snd (PairSpec.rounded
                      (PairSpec.mixed "lorentz" 3.5 0.066 2.5 0.030)));
         Real (fst (PairSpec.rounded
                      (PairSpec.mixed "lorentz" 3.5 0.066 2.5 0.030)));
         Str "C2"; Str "C10"]
  ∈ written (write_lammpsdata Py.insertion_order Examples.no_join
               Examples.rb_unused Examples.natural_order
               (default_config "out.lammps")).
Proof.
  assert (Hv : exists v,
    prepare Py.insertion_order Examples.no_join Examples.natural_order
            (default_config "out.lammps") = inr v
    /\ forcefield v = true
    /\ unique_types v = ["C2"; "C10"])
    by (eexists; split; [vm_compute; reflexivity|split; reflexivity]).
  destruct Hv as (v & Hv & Hff & HU).
  apply (override_against_the_string_order_is_ignored
           Py.insertion_order Examples.no_join Examples.rb_unused
           Examples.natural_order (default_config "out.lammps") v
           "C2" "C10" 0 1
           PyFacts.insertion_order_ok Hv Hff eq_refl eq_refl
           (or_introl eq_refl)).
  - intros atom Hatom.
    repeat (apply elem_of_cons in Hatom as [->|Hatom];
            [split; discriminate|]).
    inversion Hatom.
  - now rewrite HU.
  - now rewrite HU.
  - lia.
  - reflexivity.
Defined.

End Overrides.

(** ** Errors before the file is opened *)

Module EarlyErrors.

Import Lammps.

Lemma mapM_raises {A B} (f : A -> Py.result B) (l : list A) (x : A)
  (e : Py.exn) :
  x ∈ l -> f x = inl e ->
  (forall y e', f y = inl e' -> e' = e) ->
  Py.mapM f l = inl e.
Proof.
  intros Hx Hfx Hall. induction l as [|y l IH]; [inversion Hx|]. simpl.
  destruct (f y) as [e'|z] eqn:Hfy.
  - simpl. f_equal. now apply (Hall y).
  - simpl. apply elem_of_cons in Hx as [->|Hx]; [congruence|].
    now rewrite (IH Hx).
Qed.

(** A structure without atoms: [structure[0]] raises [IndexError] after
    the check of the atom style, and no file is opened. *)
Theorem structure_without_atoms_raises
  (set_iter : Py.set_order)
  (join_dihedrals : list Dihedral.t -> list Dihedral.t)
  (RB_to_OPLS : Q -> Q -> Q -> Q -> Q -> Q -> Q * Q * Q * Q)
  (structure : Structure.t) (cfg : config) :
  atom_style cfg ∈ ["atomic"; "charge"; "molecular"; "full"] ->
  Structure.atoms structure = [] ->
  write_lammpsdata set_iter join_dihedrals RB_to_OPLS structure cfg
  = {| file := None; ended := inl Py.IndexError |}.
Proof.
  intros Hstyle Hatoms. unfold write_lammpsdata, prepare.
  rewrite bool_decide_eq_true_2 by exact Hstyle.
  now rewrite Hatoms.
Qed.

Lemma empty_structure_raises :
  write_lammpsdata Py.insertion_order Examples.no_join Examples.rb_unused
    Examples.empty_structure (default_config "out.lammps")
  = {| file := None; ended := inl Py.IndexError |}.
Proof.
  apply structure_without_atoms_raises; [|reflexivity].
  unfold default_config, atom_style. set_solver.
Defined.

(** A bond without a type in a structure that has bond types: the key of
    the bond reads [bond.type.k], which raises [AttributeError]; the table
    of bond types is the first to be built, so this is how the call ends,
    before the file is opened. *)
Theorem bond_without_type_raises
  (set_iter : Py.set_order)
  (join_dihedrals : list Dihedral.t -> list Dihedral.t)
  (RB_to_OPLS : Q -> Q -> Q -> Q -> Q -> Q -> Q * Q * Q * Q)
  (structure : Structure.t) (cfg : config) (bond : Bond.t) :
  atom_style cfg ∈ ["atomic"; "charge"; "molecular"; "full"] ->
  Structure.atoms structure <> [] ->
  ClaimSpec.conflicting_dihedral_styles structure cfg = false ->
  Structure.bond_types structure <> [] ->
  bond ∈ Structure.bonds structure ->
  Bond.type bond = None ->
  write_lammpsdata set_iter join_dihedrals RB_to_OPLS structure cfg
  = {| file := None; ended := inl Py.AttributeError |}.
Proof.
  intros Hstyle Hatoms Hconf Hbt Hbond Hnone.
  assert (Htab : bond_tables set_iter structure = inl Py.AttributeError).
  { unfold bond_tables.
    destruct (Structure.bonds structure) as [|b bs] eqn:Hbs;
      [inversion Hbond|]. cbn [nonempty].
    destruct (Structure.bond_types structure); [congruence|]. simpl length.
    cbn [Nat.eqb].
    rewrite (mapM_raises bond_key_of (b :: bs) bond Py.AttributeError Hbond).
    - reflexivity.
    - unfold bond_key_of. now rewrite Hnone.
    - intros y e'. unfold bond_key_of. destruct (Bond.type y);
        [discriminate|]. now intros [= <-]. }
  unfold write_lammpsdata, prepare.
  rewrite bool_decide_eq_true_2 by exact Hstyle.
  destruct (Structure.atoms structure) as [|first atoms]; [congruence|].
  cbn [Py.getitem lookup list_lookup Py.bind Py.ret].
  destruct (Structure.box structure) as [[[lx ly] lz] ang].
  cbn [fst snd]. unfold ClaimSpec.conflicting_dihedral_styles in Hconf.
  destruct (detect_styles structure cfg) as [[ub rb] dih].
  rewrite Hconf, Htab. reflexivity.
Qed.

Lemma bond_without_type_in_the_chain_raises :
  write_lammpsdata Py.insertion_order Examples.no_join Examples.rb_unused
    (Examples.with_bonds
       [ {| Bond.atom1 := Examples.A0; Bond.atom2 := Examples.B1;
            Bond.type := Some Examples.spring |};
         {| Bond.atom1 := Examples.B1; Bond.atom2 := Examples.C2;
            Bond.type := None |} ]
       [Examples.spring] Examples.chain)
    (default_config "out.lammps")
  = {| file := None; ended := inl Py.AttributeError |}.
Proof.
  apply (bond_without_type_raises _ _ _ _ _
           {| Bond.atom1 := Examples.B1; Bond.atom2 := Examples.C2;
              Bond.type := None |}).
  - unfold default_config, atom_style. set_solver.
  - discriminate.
  - reflexivity.
  - discriminate.
  - right. left.
  - reflexivity.
Defined.

(** A CHARMM dihedral that is not flagged improper and has no term: the
    weight [1 / len(dihedral.type)] raises [ZeroDivisionError].  When the
    CHARMM dihedrals are in use the call then ends before the file is
    opened. *)
Theorem dihedral_without_terms_raises
  (set_iter : Py.set_order)
  (join_dihedrals : list Dihedral.t -> list Dihedral.t)
  (RB_to_OPLS : Q -> Q -> Q -> Q -> Q -> Q -> Q * Q * Q * Q)
  (structure : Structure.t) (cfg : config) (dihedral : Dihedral.t) :
  dihedral ∈ join_dihedrals (Structure.dihedrals structure) ->
  Dihedral.improper dihedral = false ->
  Dihedral.type dihedral = [] ->
  charmm_dihedrals_of join_dihedrals structure = inl Py.ZeroDivisionError
  /\ (Structure.dihedrals structure <> [] ->
      snd (detect_styles structure cfg) = true ->
      exists e,
        write_lammpsdata set_iter join_dihedrals RB_to_OPLS structure cfg
        = {| file := None; ended := inl e |}).
Proof.
  intros Hin Himp Hty.
  assert (Hkeys : charmm_dihedrals_of join_dihedrals structure
                  = inl Py.ZeroDivisionError).
  { unfold charmm_dihedrals_of.
    rewrite (mapM_raises charmm_dihedral_keys_of _ dihedral
               Py.ZeroDivisionError Hin).
    - reflexivity.
    - unfold charmm_dihedral_keys_of. now rewrite Himp, Hty.
    - intros y e'. unfold charmm_dihedral_keys_of.
      destruct (Dihedral.improper y); [discriminate|].
      destruct (Dihedral.type y); [|discriminate]. now intros [= <-]. }
  split; [exact Hkeys|]. intros Hne Hdih.
  unfold write_lammpsdata.
  destruct (prepare set_iter join_dihedrals structure cfg) as [e|v] eqn:Hv;
    [now exists e|]. exfalso.
  destruct (Stages.prepare_inv _ _ _ _ _ Hv)
    as (_ & _ & _ & _ & Hdet & Hconf & _ & _ & _ & Hdt & _).
  destruct (Sections.prepare_records set_iter join_dihedrals
              structure cfg v Hv) as (_ & Hd & _).
  rewrite Hdet in Hdih. cbn [snd] in Hdih.
  rewrite Hdih, andb_true_r in Hconf. rewrite Hconf, Hdih in Hd, Hdt.
  unfold dihedral_tables in Hdt.
  rewrite Hd, TypeIds.nonempty_map, (TypeIds.nonempty_true _ Hne), Hkeys
    in Hdt.
  discriminate.
Qed.

Lemma dihedral_without_terms_example :
  charmm_dihedrals_of Examples.no_join
    (Examples.with_dihedrals []
       [ {| Dihedral.atom1 := Examples.A0; Dihedral.atom2 := Examples.B1;
            Dihedral.atom3 := Examples.C2; Dihedral.atom4 := Examples.D3;
            Dihedral.improper := false; Dihedral.type := [] |} ]
       Examples.two_dihedrals)
  = inl Py.ZeroDivisionError
  /\ exists e,
      write_lammpsdata Py.insertion_order Examples.no_join
        Examples.rb_unused
        (Examples.with_dihedrals []
           [ {| Dihedral.atom1 := Examples.A0;
                Dihedral.atom2 := Examples.B1;
                Dihedral.atom3 := Examples.C2;
                Dihedral.atom4 := Examples.D3;
                Dihedral.improper := false; Dihedral.type := [] |} ]
           Examples.two_dihedrals)
        (default_config "out.lammps")
      = {| file := None; ended := inl e |}.
Proof.
  destruct (dihedral_without_terms_raises
              Py.insertion_order Examples.no_join Examples.rb_unused
              (Examples.with_dihedrals []
                 [ {| Dihedral.atom1 := Examples.A0;
                      Dihedral.atom2 := Examples.B1;
                      Dihedral.atom3 := Examples.C2;
                      Dihedral.atom4 := Examples.D3;
                      Dihedral.improper := false; Dihedral.type := [] |} ]
                 Examples.two_dihedrals)
              (default_config "out.lammps")
              {| Dihedral.atom1 := Examples.A0;
                 Dihedral.atom2 := Examples.B1;
                 Dihedral.atom3 := Examples.C2;
                 Dihedral.atom4 := Examples.D3;
                 Dihedral.improper := false; Dihedral.type := [] |})
    as [Hkeys Hcall].
  - left.
  - reflexivity.
  - reflexivity.
  - split; [exact Hkeys|]. apply Hcall; [discriminate|reflexivity].
Defined.

End EarlyErrors.

(** ** What a call never writes *)

Module Absent.

Import Lammps.

(** Shows that none of the strings of a list of literals is in another. *)
Ltac not_among Hin :=
  repeat (apply elem_of_cons in Hin as [Hin|Hin];
          [rewrite Hin; compute_done|]);
  inversion Hin.

(** In the styles atomic and charge no count, no title and no record of a
    bonded term is written, whatever bonded terms the structure has. *)
Theorem no_bonded_terms_in_the_styles_atomic_and_charge
  (set_iter : Py.set_order)
  (join_dihedrals : list Dihedral.t -> list Dihedral.t)
  (RB_to_OPLS : Q -> Q -> Q -> Q -> Q -> Q -> Q * Q * Q * Q)
  (structure : Structure.t) (cfg : config) :
  bonded_style (atom_style cfg) = false ->
  Forall (fun w => format w ∉ Records.bonded_formats)
         (written (write_lammpsdata set_iter join_dihedrals RB_to_OPLS
                     structure cfg)).
Proof.
  intros Hstyle.
  destruct (prepare set_iter join_dihedrals structure cfg) as [e|v] eqn:Hv.
  - unfold write_lammpsdata, written. rewrite Hv. constructor.
  - eapply Forall_impl;
      [apply (Formats.written_formats _ _ _ _ _ v Hv)|].
    intros w Hin. cbn beta in Hin. rewrite Hstyle in Hin.
    unfold Records.file_formats, Records.pair_formats in Hin.
    destruct (forcefield v), (Structure.has_NBFIX structure),
      (nbfix_in_data_file cfg);
      vm_compute app in Hin; not_among Hin.
Qed.

Lemma no_bonded_terms_of_the_molecule_in_the_style_atomic :
  Forall (fun w => format w ∉ Records.bonded_formats)
         (written (write_lammpsdata Py.insertion_order Examples.no_join
                     Examples.rb_unused Samples.molecule
                     (Examples.style "atomic"))).
Proof.
  now apply no_bonded_terms_in_the_styles_atomic_and_charge.
Defined.

(** Where the first atom has no type, no section of coefficients is
    written: neither pair coefficients nor coefficients of bonded terms,
    whatever the other atoms and the bonded terms carry. *)
Theorem no_coefficients_without_a_type_on_the_first_atom
  (set_iter : Py.set_order)
  (join_dihedrals : list Dihedral.t -> list Dihedral.t)
  (RB_to_OPLS : Q -> Q -> Q -> Q -> Q -> Q -> Q * Q * Q * Q)
  (structure : Structure.t) (cfg : config) (first : Atom.t) :
  Structure.atoms structure !! 0 = Some first ->
  Atom.type first = "" ->
  Forall (fun w =>
            (format w ∉ Records.bonded_coeffs_formats)
            /\ forall has_NBFIX nbfix_in_data_file,
                 format w
                 ∉ Records.pair_formats has_NBFIX nbfix_in_data_file)
         (written (write_lammpsdata set_iter join_dihedrals RB_to_OPLS
                     structure cfg)).
Proof.
  intros Hfirst Hty.
  destruct (prepare set_iter join_dihedrals structure cfg) as [e|v] eqn:Hv.
  - unfold write_lammpsdata, written. rewrite Hv. constructor.
  - destruct (Stages.prepare_inv _ _ _ _ _ Hv)
      as (_ & (first' & Hfirst' & Hff) & _).
    rewrite Hfirst in Hfirst'. injection Hfirst' as <-.
    rewrite Hty in Hff. cbn in Hff.
    eapply Forall_impl;
      [apply (Formats.written_formats _ _ _ _ _ v Hv)|].
    intros w Hin. cbn beta in Hin. rewrite Hff in Hin.
    unfold Records.file_formats in Hin.
    destruct (bonded_style (atom_style cfg));
      vm_compute app in Hin.
    + split; [|intros [|] [|]]; not_among Hin.
    + split; [|intros [|] [|]]; not_among Hin.
Qed.

Lemma no_coefficients_of_the_untyped_chain :
  Forall (fun w =>
            (format w ∉ Records.bonded_coeffs_formats)
            /\ forall has_NBFIX nbfix_in_data_file,
                 format w
                 ∉ Records.pair_formats has_NBFIX nbfix_in_data_file)
         (written (write_lammpsdata Py.insertion_order Examples.no_join
                     Examples.rb_unused Examples.untyped_chain
                     (default_config "out.lammps"))).
Proof.
  now apply (no_coefficients_without_a_type_on_the_first_atom
               _ _ _ _ _ (Examples.atom 0 "" 0 0)).
Defined.

(** With [nbfix_in_data_file] switched off the cross terms of the pair
    coefficients are not written (they are printed for the input script):
    the file has no PairIJ Coeffs section. *)
Theorem cross_terms_are_not_written_unless_asked_for
  (set_iter : Py.set_order)
  (join_dihedrals : list Dihedral.t -> list Dihedral.t)
  (RB_to_OPLS : Q -> Q -> Q -> Q -> Q -> Q -> Q * Q * Q * Q)
  (structure : Structure.t) (cfg : config) :
  nbfix_in_data_file cfg = false ->
  Forall (fun w =>
            format w
            ∉ [ "\nPairIJ Coeffs # modified lj\n";
                "# type1 type2 \tepsilon (kcal/mol) \tsigma (Angstrom)\n";
                "{0} \t{1} \t{2} \t\t{3}\t\t# {4}\t{5}\n" ])
         (written (write_lammpsdata set_iter join_dihedrals RB_to_OPLS
                     structure cfg)).
Proof.
  intros Hfile.
  destruct (prepare set_iter join_dihedrals structure cfg) as [e|v] eqn:Hv.
  - unfold write_lammpsdata, written. rewrite Hv. constructor.
  - eapply Forall_impl;
      [apply (Formats.written_formats _ _ _ _ _ v Hv)|].
    intros w Hin. cbn beta in Hin. rewrite Hfile in Hin.
    unfold Records.file_formats, Records.pair_formats in Hin.
    destruct (bonded_style (atom_style cfg)), (forcefield v),
      (Structure.has_NBFIX structure);
      vm_compute app in Hin; not_among Hin.
Qed.

Lemma cross_terms_of_the_opls_types_are_not_written :
  Forall (fun w =>
            format w
            ∉ [ "\nPairIJ Coeffs # modified lj\n";
                "# type1 type2 \tepsilon (kcal/mol) \tsigma (Angstrom)\n";
                "{0} \t{1} \t{2} \t\t{3}\t\t# {4}\t{5}\n" ])
         (written (write_lammpsdata Py.insertion_order Examples.no_join
                     Examples.rb_unused Examples.opls_types
                     {| filename := "out.lammps"; atom_style := "full";
                        detect_forcefield_style := true;
                        nbfix_in_data_file := false;
                        use_urey_bradleys := false;
                        use_rb_torsions := true;
                        use_dihedrals := false |})).
Proof.
  now apply cross_terms_are_not_written_unless_asked_for.
Defined.

End Absent.

(** ** The lines of the coefficients of the bonded terms *)

Module CoeffLines.

Import Lammps.

Section Tables.
Variable set_iter : Py.set_order.
Hypothesis set_iter_ok : Py.set_order_ok set_iter.
Context {K : Type} `{EqDecision K}.

(** The table of a list of keys has as many items as the IDs of the keys
    are distinct, and holds every key with the ID looked up for it. *)
Lemma table_of_keys (keys : list K) (ids : list nat) :
  lookup_all (enumerate_set set_iter keys) keys = inr ids ->
  length (enumerate_set set_iter keys) = length (set_iter nat _ ids)
  /\ forall i k, keys !! i = Some k ->
       exists id, ids !! i = Some id
                  /\ (k, id) ∈ enumerate_set set_iter keys.
Proof.
  intros Hids.
  destruct (Canonicaliser.enumerate_set_ok set_iter set_iter_ok keys)
    as (ids' & Hids' & Hlen & _ & _ & Hall & Hcount).
  rewrite Hids in Hids'. injection Hids' as <-. split.
  - now rewrite Hlen, Hcount.
  - intros i k Hi.
    destruct (Forall2_lookup_l _ _ _ _ _ Hall Hi) as (id & Hid & Hl & _).
    exists id. split; [exact Hid|].
    now apply PyFacts.dict_lookup_Some_elem.
Qed.

End Tables.

(** The Bond Coeffs section has as many lines as the header declares bond
    types, and the type ID in the record of a bond is the ID of the line
    that holds the parameters of the bond, rounded to three places, and
    the sorted types of its atoms. *)
Theorem bond_coeffs_lines
  (set_iter : Py.set_order)
  (join_dihedrals : list Dihedral.t -> list Dihedral.t)
  (structure : Structure.t) (cfg : config) (v : locals) :
  Py.set_order_ok set_iter ->
  prepare set_iter join_dihedrals structure cfg = inr v ->
  Structure.bonds structure <> [] ->
  Structure.bond_types structure <> [] ->
  exists lines,
    bond_coeffs_section v
    = wrote (Write "\nBond Coeffs # harmonic\n" []
             :: Write "#\tk(kcal/mol/angstrom^2)\t\treq(angstrom)\n" []
             :: lines)
    /\ (bonded_style (atom_style cfg) = true ->
        Write "{:d} bond types\n" [IntN (length lines)]
        ∈ header set_iter structure cfg v)
    /\ forall i bond ty,
         Structure.bonds structure !! i = Some bond ->
         Bond.type bond = Some ty ->
         exists id,
           bond_types v !! i = Some id
           /\ Write "{}\t{}\t\t{}\t\t# {}\t{}\n"
                    [IntN id; Float (Py.round (BondType.k ty) 3);
                     Float (Py.round (BondType.req ty) 3);
                     Str (fst (Py.sorted_pair
                                 (Atom.type (Bond.atom1 bond))
                                 (Atom.type (Bond.atom2 bond))));
                     Str (snd (Py.sorted_pair
                                 (Atom.type (Bond.atom1 bond))
                                 (Atom.type (Bond.atom2 bond))))]
              ∈ lines.
Proof.
  intros Hok Hv Hne Hbt.
  destruct (Stages.prepare_inv _ _ _ _ _ Hv)
    as (_ & _ & _ & _ & _ & _ & Hbonds & Htab & _).
  unfold bond_tables in Htab. rewrite (TypeIds.nonempty_true _ Hne) in Htab.
  destruct (Structure.bond_types structure) as [|bt bts]; [congruence|].
  cbn [length Nat.eqb] in Htab.
  destruct (Py.mapM bond_key_of (Structure.bonds structure))
    as [e|keys] eqn:Hkeys; [discriminate|]. cbn [Py.bind] in Htab.
  destruct (lookup_all (enumerate_set set_iter keys) keys)
    as [e|ids] eqn:Hids; [discriminate|].
  injection Htab as Hty Htable.
  destruct (table_of_keys set_iter Hok keys ids Hids) as [Hlen Hitems].
  exists (map (fun item : bond_key * nat =>
                 let '((k, req, (t1, t2)), idx) := item in
                 Write "{}\t{}\t\t{}\t\t# {}\t{}\n"
                       [IntN idx; Float k; Float req; Str t1; Str t2])
              (enumerate_set set_iter keys)).
  split; [|split].
  - unfold bond_coeffs_section.
    rewrite Hbonds, TypeIds.nonempty_map, (TypeIds.nonempty_true _ Hne).
    rewrite <- Htable. reflexivity.
  - intros Hstyle. rewrite length_map, Hlen, Hty. unfold header.
    rewrite Hstyle, Hbonds, TypeIds.nonempty_map,
      (TypeIds.nonempty_true _ Hne).
    Loops.in_apps.
  - intros i bond ty Hi Hbty.
    assert (Hkey : keys !! i
                   = Some (Py.round (BondType.k ty) 3,
                           Py.round (BondType.req ty) 3,
                           Py.sorted_pair (Atom.type (Bond.atom1 bond))
                                          (Atom.type (Bond.atom2 bond)))).
    { clear -Hkeys Hi Hbty. revert keys i Hkeys Hi.
      induction (Structure.bonds structure) as [|b bs IH];
        intros keys i Hkeys Hi; [discriminate|].
      simpl in Hkeys.
      destruct (bond_key_of b) as [e|key] eqn:Hb; [discriminate|].
      destruct (Py.mapM bond_key_of bs) as [e|keys'] eqn:Hbs;
        [discriminate|]. injection Hkeys as <-.
      destruct i as [|i]; simpl in Hi |- *.
      - injection Hi as ->. unfold bond_key_of in Hb.
        rewrite Hbty in Hb. now injection Hb as <-.
      - now apply IH. }
    destruct (Hitems i _ Hkey) as (id & Hid & Hin).
    exists id. split; [now rewrite <- Hty|].
    apply list_elem_of_fmap. eexists. split; [|exact Hin].
    destruct (Py.sorted_pair _ _). reflexivity.
Qed.

Lemma bond_coeffs_of_the_molecule :
  exists v lines id,
    prepare Py.insertion_order Examples.no_join Samples.molecule
            (default_config "out.lammps") = inr v
    /\ bond_coeffs_section v
       = wrote (Write "\nBond Coeffs # harmonic\n" []
                :: Write "#\tk(kcal/mol/angstrom^2)\t\treq(angstrom)\n" []
                :: lines)
    /\ Write "{:d} bond types\n" [IntN (length lines)]
       ∈ header Py.insertion_order Samples.molecule
           (default_config "out.lammps") v
    /\ bond_types v !! 2 = Some id
    /\ Write "{}\t{}\t\t{}\t\t# {}\t{}\n"
             [IntN id; Float (Py.round 1 3); Float (Py.round 1 3);
              Str "C"; Str "D"]
       ∈ lines.
Proof.
  assert (Hv : exists v,
    prepare Py.insertion_order Examples.no_join Samples.molecule
            (default_config "out.lammps") = inr v)
    by (eexists; vm_compute; reflexivity).
  destruct Hv as [v Hv].
  destruct (bond_coeffs_lines
              Py.insertion_order Examples.no_join Samples.molecule
              (default_config "out.lammps") v
              PyFacts.insertion_order_ok Hv)
    as (lines & Hw & Hcount & Hlines); [discriminate|discriminate|].
  destruct (Hlines 2 _ Examples.spring eq_refl eq_refl)
    as (id & Hid & Hline).
  exists v, lines, id. split; [exact Hv|]. split; [exact Hw|].
  split; [now apply Hcount|]. split; [exact Hid|exact Hline].
Defined.

(** The same for harmonic angles: the line of the type ID of an angle
    holds its rounded parameters, the type of its vertex between the
    sorted types of its end atoms. *)
Theorem harmonic_angle_coeffs_lines
  (set_iter : Py.set_order)
  (join_dihedrals : list Dihedral.t -> list Dihedral.t)
  (structure : Structure.t) (cfg : config) (v : locals) :
  Py.set_order_ok set_iter ->
  prepare set_iter join_dihedrals structure cfg = inr v ->
  Structure.angles structure <> [] ->
  urey_bradleys_used v = false ->
  exists lines,
    angle_coeffs_section v
    = wrote (Write "\nAngle Coeffs # harmonic\n" []
             :: Write "#\tk(kcal/mol/rad^2)\t\ttheteq(deg)\n" []
             :: lines)
    /\ (bonded_style (atom_style cfg) = true ->
        Write "{:d} angle types\n" [IntN (length lines)]
        ∈ header set_iter structure cfg v)
    /\ forall i angle,
         Structure.angles structure !! i = Some angle ->
         exists id,
           angle_types v !! i = Some id
           /\ Write "{}\t{}\t\t{:.5f}\t# {}\t{}\t{}\n"
                    [IntN id;
                     Float (Py.round (AngleType.k (Angle.type angle)) 3);
                     Float (Py.round (AngleType.theteq (Angle.type angle))
                                     3);
                     Str (fst (Py.sorted_pair
                                 (Atom.type (Angle.atom1 angle))
                                 (Atom.type (Angle.atom3 angle))));
                     Str (Atom.type (Angle.atom2 angle));
                     Str (snd (Py.sorted_pair
                                 (Atom.type (Angle.atom1 angle))
                                 (Atom.type (Angle.atom3 angle))))]
              ∈ lines.
Proof.
  intros Hok Hv Hne Hub.
  destruct (Stages.prepare_inv _ _ _ _ _ Hv)
    as (_ & _ & _ & _ & _ & _ & _ & _ & Htab & _ & _ & Hangles & _).
  unfold angle_tables in Htab.
  rewrite (TypeIds.nonempty_true _ Hne), Hub in Htab.
  destruct (lookup_all _ _) as [e|ids] eqn:Hids; [discriminate|].
  injection Htab as Hty Htable.
  destruct (table_of_keys set_iter Hok _ ids Hids) as [Hlen Hitems].
  exists (map (fun item : angle_key * nat =>
                 let '((k, theteq, vertex, (t1, t3)), idx) := item in
                 Write "{}\t{}\t\t{:.5f}\t# {}\t{}\t{}\n"
                       [IntN idx; Float k; Float theteq; Str t1;
                        Str vertex; Str t3])
              (enumerate_set set_iter
                 (map angle_key_of (Structure.angles structure)))).
  split; [|split].
  - unfold angle_coeffs_section.
    rewrite (TypeIds.nonempty_length _ _ Hangles),
      (TypeIds.nonempty_true _ Hne), <- Htable. reflexivity.
  - intros Hstyle. rewrite length_map, Hlen, Hty. unfold header.
    rewrite Hstyle, (TypeIds.nonempty_length _ _ Hangles),
      (TypeIds.nonempty_true _ Hne).
    Loops.in_apps.
  - intros i angle Hi.
    destruct (Hitems i (angle_key_of angle)) as (id & Hid & Hin);
      [now rewrite list_lookup_fmap, Hi|].
    exists id. split; [now rewrite <- Hty|].
    apply list_elem_of_fmap. eexists. split; [|exact Hin].
    unfold angle_key_of. destruct (Py.sorted_pair _ _). reflexivity.
Qed.

Lemma harmonic_angle_coeffs_of_the_molecule :
  exists v lines id,
    prepare Py.insertion_order Examples.no_join Samples.molecule
            (default_config "out.lammps") = inr v
    /\ angle_coeffs_section v
       = wrote (Write "\nAngle Coeffs # harmonic\n" []
                :: Write "#\tk(kcal/mol/rad^2)\t\ttheteq(deg)\n" []
                :: lines)
    /\ Write "{:d} angle types\n" [IntN (length lines)]
       ∈ header Py.insertion_order Samples.molecule
           (default_config "out.lammps") v
    /\ angle_types v !! 0 = Some id
    /\ Write "{}\t{}\t\t{:.5f}\t# {}\t{}\t{}\n"
             [IntN id; Float (Py.round 50 3); Float (Py.round 109.5 3);
              Str "A"; Str "B"; Str "C"]
       ∈ lines.
Proof.
  assert (Hv : exists v,
    prepare Py.insertion_order Examples.no_join Samples.molecule
            (default_config "out.lammps") = inr v
    /\ urey_bradleys_used v = false)
    by (eexists; split; [vm_compute; reflexivity|reflexivity]).
  destruct Hv as (v & Hv & Hub).
  destruct (harmonic_angle_coeffs_lines
              Py.insertion_order Examples.no_join Samples.molecule
              (default_config "out.lammps") v
              PyFacts.insertion_order_ok Hv)
    as (lines & Hw & Hcount & Hlines); [discriminate|exact Hub|].
  destruct (Hlines 0 _ eq_refl) as (id & Hid & Hline).
  exists v, lines, id. split; [exact Hv|]. split; [exact Hw|].
  split; [now apply Hcount|]. split; [exact Hid|exact Hline].
Defined.

(** With Urey-Bradley terms in use, the line of the type ID of an angle
    holds its rounded parameters and those of the Urey-Bradley term
    found for it, zeros if none was found. *)
Theorem charmm_angle_coeffs_lines
  (set_iter : Py.set_order)
  (join_dihedrals : list Dihedral.t -> list Dihedral.t)
  (structure : Structure.t) (cfg : config) (v : locals) :
  Py.set_order_ok set_iter ->
  prepare set_iter join_dihedrals structure cfg = inr v ->
  Structure.angles structure <> [] ->
  urey_bradleys_used v = true ->
  exists lines,
    angle_coeffs_section v
    = wrote (Write "\nAngle Coeffs # charmm\n" []
             :: Write "#\tk(kcal/mol/rad^2)\t\ttheteq(deg)\tk(kcal/mol/angstrom^2)\treq(angstrom)\n" []
             :: lines)
    /\ (bonded_style (atom_style cfg) = true ->
        Write "{:d} angle types\n" [IntN (length lines)]
        ∈ header set_iter structure cfg v)
    /\ forall i angle,
         Structure.angles structure !! i = Some angle ->
         exists id,
           angle_types v !! i = Some id
           /\ Write "{}\t{}\t{:.5f}\t{:.5f}\t{:.5f}\n"
                    [IntN id;
                     Float (Py.round (AngleType.k (Angle.type angle)) 3);
                     Float (Py.round (AngleType.theteq (Angle.type angle))
                                     3);
                     Float (Py.round
                              (fst (find_urey_bradley angle
                                      (Structure.urey_bradleys structure)))
                              3);
                     Float (Py.round
                              (snd (find_urey_bradley angle
                                      (Structure.urey_bradleys structure)))
                              3)]
              ∈ lines.
Proof.
  intros Hok Hv Hne Hub.
  destruct (Stages.prepare_inv _ _ _ _ _ Hv)
    as (_ & _ & _ & _ & _ & _ & _ & _ & Htab & _ & _ & Hangles & _).
  unfold angle_tables in Htab.
  rewrite (TypeIds.nonempty_true _ Hne), Hub in Htab.
  destruct (lookup_all _ _) as [e|ids] eqn:Hids; [discriminate|].
  injection Htab as Hty Htable.
  destruct (table_of_keys set_iter Hok _ ids Hids) as [Hlen Hitems].
  exists (map (fun item : charmm_angle_key * nat =>
                 let '((k, theteq, ub_k, ub_req, _), idx) := item in
                 Write "{}\t{}\t{:.5f}\t{:.5f}\t{:.5f}\n"
                       [IntN idx; Float k; Float theteq; Float ub_k;
                        Float ub_req])
              (enumerate_set set_iter
                 (map (charmm_angle_key_of
                         (Structure.urey_bradleys structure))
                      (Structure.angles structure)))).
  split; [|split].
  - unfold angle_coeffs_section.
    rewrite (TypeIds.nonempty_length _ _ Hangles),
      (TypeIds.nonempty_true _ Hne), <- Htable. reflexivity.
  - intros Hstyle. rewrite length_map, Hlen, Hty. unfold header.
    rewrite Hstyle, (TypeIds.nonempty_length _ _ Hangles),
      (TypeIds.nonempty_true _ Hne).
    Loops.in_apps.
  - intros i angle Hi.
    destruct (Hitems i (charmm_angle_key_of
                          (Structure.urey_bradleys structure) angle))
      as (id & Hid & Hin); [now rewrite list_lookup_fmap, Hi|].
    exists id. split; [now rewrite <- Hty|].
    apply list_elem_of_fmap. eexists. split; [|exact Hin].
    unfold charmm_angle_key_of.
    destruct (find_urey_bradley _ _). reflexivity.
Qed.

Lemma charmm_angle_coeffs_example :
  exists v lines id,
    prepare Py.insertion_order Examples.no_join Samples.bent
            (default_config "out.lammps") = inr v
    /\ angle_coeffs_section v
       = wrote (Write "\nAngle Coeffs # charmm\n" []
                :: Write "#\tk(kcal/mol/rad^2)\t\ttheteq(deg)\tk(kcal/mol/angstrom^2)\treq(angstrom)\n" []
                :: lines)
    /\ Write "{:d} angle types\n" [IntN (length lines)]
       ∈ header Py.insertion_order Samples.bent
           (default_config "out.lammps") v
    /\ angle_types v !! 0 = Some id
    /\ Write "{}\t{}\t{:.5f}\t{:.5f}\t{:.5f}\n"
             [IntN id; Float (Py.round 50 3); Float (Py.round 109.5 3);
              Float (Py.round 5.0004 3); Float (Py.round 2.1 3)]
       ∈ lines.
Proof.
  assert (Hv : exists v,
    prepare Py.insertion_order Examples.no_join Samples.bent
            (default_config "out.lammps") = inr v
    /\ urey_bradleys_used v = true)
    by (eexists; split; [vm_compute; reflexivity|reflexivity]).
  destruct Hv as (v & Hv & Hub).
  destruct (charmm_angle_coeffs_lines
              Py.insertion_order Examples.no_join Samples.bent
              (default_config "out.lammps") v
              PyFacts.insertion_order_ok Hv)
    as (lines & Hw & Hcount & Hlines); [discriminate|exact Hub|].
  destruct (Hlines 0 _ eq_refl) as (id & Hid & Hline).
  exists v, lines, id. split; [exact Hv|]. split; [exact Hw|].
  split; [now apply Hcount|]. split; [exact Hid|exact Hline].
Defined.

(** The line of the type ID of an RB torsion holds the OPLS coefficients
    that [RB_to_OPLS] makes of its rounded RB coefficients, and the types
    of its four atoms. *)
Theorem rb_torsion_coeffs_lines
  (set_iter : Py.set_order)
  (join_dihedrals : list Dihedral.t -> list Dihedral.t)
  (RB_to_OPLS : Q -> Q -> Q -> Q -> Q -> Q -> Q * Q * Q * Q)
  (structure : Structure.t) (cfg : config) (v : locals) :
  Py.set_order_ok set_iter ->
  prepare set_iter join_dihedrals structure cfg = inr v ->
  Structure.rb_torsions structure <> [] ->
  rb_torsions_used v = true ->
  exists lines,
    dihedral_coeffs_section RB_to_OPLS v
    = wrote (Write "\nDihedral Coeffs # opls\n" []
             :: Write "#\tf1(kcal/mol)\tf2(kcal/mol)\tf3(kcal/mol)\tf4(kcal/mol)\n" []
             :: lines)
    /\ (bonded_style (atom_style cfg) = true ->
        Write "{:d} dihedral types\n" [IntN (length lines)]
        ∈ header set_iter structure cfg v)
    /\ forall i dihedral,
         Structure.rb_torsions structure !! i = Some dihedral ->
         exists id,
           dihedral_types v !! i = Some id
           /\ (let ty := RBTorsion.type dihedral in
               let '(f1, f2, f3, f4) :=
                 RB_to_OPLS (Py.round (RBTorsionType.c0 ty) 3)
                            (Py.round (RBTorsionType.c1 ty) 3)
                            (Py.round (RBTorsionType.c2 ty) 3)
                            (Py.round (RBTorsionType.c3 ty) 3)
                            (Py.round (RBTorsionType.c4 ty) 3)
                            (Py.round (RBTorsionType.c5 ty) 3) in
               Write "{}\t{:.5f}\t{:.5f}\t\t{:.5f}\t\t{:.5f}\t# {}\t{}\t{}\t{}\n"
                     [IntN id; Float f1; Float f2; Float f3; Float f4;
                      Str (Atom.type (RBTorsion.atom1 dihedral));
                      Str (Atom.type (RBTorsion.atom2 dihedral));
                      Str (Atom.type (RBTorsion.atom3 dihedral));
                      Str (Atom.type (RBTorsion.atom4 dihedral))]
               ∈ lines).
Proof.
  intros Hok Hv Hne Hrb.
  destruct (Stages.prepare_inv _ _ _ _ _ Hv)
    as (_ & _ & _ & _ & _ & _ & _ & _ & _ & Htab & _ & _ & _ & _
        & Hdne & _).
  rewrite Hrb, (TypeIds.nonempty_true _ Hne) in Hdne.
  unfold dihedral_tables in Htab. rewrite Hdne, Hrb in Htab.
  destruct (lookup_all _ _) as [e|ids] eqn:Hids; [discriminate|].
  injection Htab as Hty Htable.
  destruct (table_of_keys set_iter Hok _ ids Hids) as [Hlen Hitems].
  exists (map (fun item : rb_torsion_key * nat =>
                 let '((c0, c1, c2, c3, c4, c5, _, _, t1, t2, t3, t4),
                       idx) := item in
                 let '(f1, f2, f3, f4) := RB_to_OPLS c0 c1 c2 c3 c4 c5 in
                 Write "{}\t{:.5f}\t{:.5f}\t\t{:.5f}\t\t{:.5f}\t# {}\t{}\t{}\t{}\n"
                       [IntN idx; Float f1; Float f2; Float f3; Float f4;
                        Str t1; Str t2; Str t3; Str t4])
              (enumerate_set set_iter
                 (map rb_torsion_key_of (Structure.rb_torsions structure)))).
  split; [|split].
  - unfold dihedral_coeffs_section. rewrite Hdne, <- Htable. reflexivity.
  - intros Hstyle. rewrite length_map, Hlen, Hty. unfold header.
    rewrite Hstyle, Hdne.
    repeat match goal with
           | |- context [if ?b then _ else _] => destruct b
           end; Loops.in_apps.
  - intros i dihedral Hi.
    destruct (Hitems i (rb_torsion_key_of dihedral)) as (id & Hid & Hin);
      [now rewrite list_lookup_fmap, Hi|].
    exists id. split; [now rewrite <- Hty|]. cbn zeta.
    destruct (RB_to_OPLS _ _ _ _ _ _) as [[[f1 f2] f3] f4] eqn:Hf.
    apply list_elem_of_fmap. eexists. split; [|exact Hin].
    unfold rb_torsion_key_of. now rewrite Hf.
Qed.

Lemma rb_torsion_coeffs_of_the_molecule :
  exists v lines id,
    prepare Py.insertion_order Examples.no_join Samples.molecule
            (default_config "out.lammps") = inr v
    /\ dihedral_coeffs_section Examples.rb_unused v
       = wrote (Write "\nDihedral Coeffs # opls\n" []
                :: Write "#\tf1(kcal/mol)\tf2(kcal/mol)\tf3(kcal/mol)\tf4(kcal/mol)\n" []
                :: lines)
    /\ Write "{:d} dihedral types\n" [IntN (length lines)]
       ∈ header Py.insertion_order Samples.molecule
           (default_config "out.lammps") v
    /\ dihedral_types v !! 0 = Some id
    /\ Write "{}\t{:.5f}\t{:.5f}\t\t{:.5f}\t\t{:.5f}\t# {}\t{}\t{}\t{}\n"
             [IntN id; Float (Py.round 1 3); Float (Py.round 2 3);
              Float (Py.round 3 3); Float (Py.round 4 3);
              Str "A"; Str "B"; Str "C"; Str "D"]
       ∈ lines.
Proof.
  assert (Hv : exists v,
    prepare Py.insertion_order Examples.no_join Samples.molecule
            (default_config "out.lammps") = inr v
    /\ rb_torsions_used v = true)
    by (eexists; split; [vm_compute; reflexivity|reflexivity]).
  destruct Hv as (v & Hv & Hrb).
  destruct (rb_torsion_coeffs_lines
              Py.insertion_order Examples.no_join Examples.rb_unused
              Samples.molecule (default_config "out.lammps") v
              PyFacts.insertion_order_ok Hv)
    as (lines & Hw & Hcount & Hlines); [discriminate|exact Hrb|].
  destruct (Hlines 0 _ eq_refl) as (id & Hid & Hline).
  exists v, lines, id. split; [exact Hv|]. split; [exact Hw|].
  split; [now apply Hcount|]. split; [exact Hid|exact Hline].
Defined.

(** The line of the type ID of an improper holds its rounded parameters
    and the types of its four atoms, in the order of the improper. *)
Theorem improper_coeffs_lines
  (set_iter : Py.set_order)
  (join_dihedrals : list Dihedral.t -> list Dihedral.t)
  (structure : Structure.t) (cfg : config) (v : locals) :
  Py.set_order_ok set_iter ->
  prepare set_iter join_dihedrals structure cfg = inr v ->
  Structure.impropers structure <> [] ->
  exists lines,
    improper_coeffs_section v
    = wrote (Write "\nImproper Coeffs # harmonic\n" []
             :: Write "#k, psi\n" []
             :: lines)
    /\ (bonded_style (atom_style cfg) = true ->
        Write "{:d} improper types\n" [IntN (length lines)]
        ∈ header set_iter structure cfg v)
    /\ forall i improper,
         Structure.impropers structure !! i = Some improper ->
         exists id,
           improper_types v !! i = Some id
           /\ Write "{}\t{:.5f}\t{:.5f}\t# {}\t{}\t{}\t{}\n"
                    [IntN id;
                     Float (Py.round
                              (ImproperType.psi_k (Improper.type improper))
                              3);
                     Float (Py.round
                              (ImproperType.psi_eq (Improper.type improper))
                              3);
                     Str (Atom.type (Improper.atom1 improper));
                     Str (Atom.type (Improper.atom2 improper));
                     Str (Atom.type (Improper.atom3 improper));
                     Str (Atom.type (Improper.atom4 improper))]
              ∈ lines.
Proof.
  intros Hok Hv Hne.
  destruct (Stages.prepare_inv _ _ _ _ _ Hv)
    as (_ & _ & _ & _ & _ & _ & _ & _ & _ & _ & Htab & _ & Himpropers & _).
  unfold improper_tables in Htab.
  rewrite (TypeIds.nonempty_true _ Hne) in Htab.
  destruct (lookup_all _ _) as [e|ids] eqn:Hids; [discriminate|].
  injection Htab as Hty Htable.
  destruct (table_of_keys set_iter Hok _ ids Hids) as [Hlen Hitems].
  exists (map (fun item : improper_key * nat =>
                 let '((k, psi, t1, t2, t3, t4), idx) := item in
                 Write "{}\t{:.5f}\t{:.5f}\t# {}\t{}\t{}\t{}\n"
                       [IntN idx; Float k; Float psi;
                        Str t1; Str t2; Str t3; Str t4])
              (enumerate_set set_iter
                 (map improper_key_of (Structure.impropers structure)))).
  split; [|split].
  - unfold improper_coeffs_section.
    rewrite (TypeIds.nonempty_length _ _ Himpropers),
      (TypeIds.nonempty_true _ Hne), <- Htable. reflexivity.
  - intros Hstyle. rewrite length_map, Hlen, Hty. unfold header.
    rewrite Hstyle, (TypeIds.nonempty_length _ _ Himpropers),
      (TypeIds.nonempty_true _ Hne).
    repeat match goal with
           | |- context [if ?b then _ else _] => destruct b
           end; Loops.in_apps.
  - intros i improper Hi.
    destruct (Hitems i (improper_key_of improper)) as (id & Hid & Hin);
      [now rewrite list_lookup_fmap, Hi|].
    exists id. split; [now rewrite <- Hty|].
    apply list_elem_of_fmap. eexists. split; [|exact Hin]. reflexivity.
Qed.

Lemma improper_coeffs_of_the_molecule :
  exists v lines id,
    prepare Py.insertion_order Examples.no_join Samples.molecule
            (default_config "out.lammps") = inr v
    /\ improper_coeffs_section v
       = wrote (Write "\nImproper Coeffs # harmonic\n" []
                :: Write "#k, psi\n" []
                :: lines)
    /\ Write "{:d} improper types\n" [IntN (length lines)]
       ∈ header Py.insertion_order Samples.molecule
           (default_config "out.lammps") v
    /\ improper_types v !! 0 = Some id
    /\ Write "{}\t{:.5f}\t{:.5f}\t# {}\t{}\t{}\t{}\n"
             [IntN id; Float (Py.round 1 3); Float (Py.round 0 3);
              Str "A"; Str "B"; Str "C"; Str "D"]
       ∈ lines.
Proof.
  assert (Hv : exists v,
    prepare Py.insertion_order Examples.no_join Samples.molecule
            (default_config "out.lammps") = inr v)
    by (eexists; vm_compute; reflexivity).
  destruct Hv as [v Hv].
  destruct (improper_coeffs_lines
              Py.insertion_order Examples.no_join Samples.molecule
              (default_config "out.lammps") v
              PyFacts.insertion_order_ok Hv)
    as (lines & Hw & Hcount & Hlines); [discriminate|].
  destruct (Hlines 0 _ eq_refl) as (id & Hid & Hline).
  exists v, lines, id. split; [exact Hv|]. split; [exact Hw|].
  split; [now apply Hcount|]. split; [exact Hid|exact Hline].
Defined.

End CoeffLines.

(** ** The coefficients of the CHARMM dihedrals *)

Module CharmmCoeffs.

Import Lammps.

Lemma mapM_elem {A B} (f : A -> Py.result B) (l : list A) (l' : list B)
  (x : A) :
  Py.mapM f l = inr l' -> x ∈ l -> exists y, f x = inr y /\ y ∈ l'.
Proof.
  revert l'; induction l as [|a l IH]; intros l' Hl Hx; [inversion Hx|].
  simpl in Hl. destruct (f a) as [e|b] eqn:Hfa; [discriminate|].
  destruct (Py.mapM f l) as [e|bs]; [discriminate|].
  injection Hl as <-. apply elem_of_cons in Hx as [->|Hx].
  - exists b. split; [exact Hfa|left].
  - destruct (IH bs eq_refl Hx) as (y & Hy & Hin).
    exists y. split; [exact Hy|now right].
Qed.

(** With CHARMM dihedrals, every term of a dihedral that is not flagged
    improper has a line in the Dihedral Coeffs section: its rounded
    parameters, the weight [1 / n] of a dihedral of [n] terms rounded to
    four places, and the types of the four atoms.  The section has as
    many lines as the header declares dihedral types. *)
Theorem charmm_dihedral_coeffs_lines
  (set_iter : Py.set_order)
  (join_dihedrals : list Dihedral.t -> list Dihedral.t)
  (RB_to_OPLS : Q -> Q -> Q -> Q -> Q -> Q -> Q * Q * Q * Q)
  (structure : Structure.t) (cfg : config) (v : locals) :
  Py.set_order_ok set_iter ->
  prepare set_iter join_dihedrals structure cfg = inr v ->
  Structure.dihedrals structure <> [] ->
  dihedrals_used v = true ->
  exists lines,
    dihedral_coeffs_section RB_to_OPLS v
    = wrote (Write "\nDihedral Coeffs # charmm\n" []
             :: Write "#k, n, phi, weight\n" []
             :: lines)
    /\ (bonded_style (atom_style cfg) = true ->
        Write "{:d} dihedral types\n" [IntN (length lines)]
        ∈ header set_iter structure cfg v)
    /\ forall dihedral term,
         dihedral ∈ join_dihedrals (Structure.dihedrals structure) ->
         Dihedral.improper dihedral = false ->
         term ∈ Dihedral.type dihedral ->
         exists id,
           Write "{}\t{:.5f}\t{:d}\t{:d}\t{:.5f}\t# {}\t{}\t{}\t{}\n"
                 [IntN id;
                  Float (Py.round (DihedralType.phi_k term) 3);
                  Int (Py.round_half_even (DihedralType.per term));
                  Int (Py.round_half_even (DihedralType.phase term));
                  Float (Py.round
                           (1 / inject_Z
                                  (Z.of_nat
                                     (length (Dihedral.type dihedral))))
                           4);
                  Str (Atom.type (Dihedral.atom1 dihedral));
                  Str (Atom.type (Dihedral.atom2 dihedral));
                  Str (Atom.type (Dihedral.atom3 dihedral));
                  Str (Atom.type (Dihedral.atom4 dihedral))]
           ∈ lines.
Proof.
  intros Hok Hv Hne Hdih.
  destruct (Stages.prepare_inv _ _ _ _ _ Hv)
    as (_ & _ & _ & _ & _ & Hconf & _ & _ & _ & Htab & _ & _ & _ & _
        & Hdne & _).
  rewrite Hdih, andb_true_r in Hconf.
  rewrite Hconf, Hdih, (TypeIds.nonempty_true _ Hne) in Hdne.
  unfold dihedral_tables in Htab. rewrite Hdne, Hconf, Hdih in Htab.
  destruct (charmm_dihedrals_of join_dihedrals structure)
    as [e|keys] eqn:Hkeys; [discriminate|]. cbn [Py.bind] in Htab.
  destruct (lookup_all _ _) as [e|ids] eqn:Hids; [discriminate|].
  injection Htab as Hty Htable.
  destruct (CoeffLines.table_of_keys set_iter Hok keys ids Hids)
    as [Hlen _].
  exists (map (fun item : charmm_dihedral_key * nat =>
                 let '((k, n, phi, weight, _, _, t1, t2, t3, t4), idx) :=
                   item in
                 Write "{}\t{:.5f}\t{:d}\t{:d}\t{:.5f}\t# {}\t{}\t{}\t{}\n"
                       [IntN idx; Float k; Int n; Int phi; Float weight;
                        Str t1; Str t2; Str t3; Str t4])
              (enumerate_set set_iter keys)).
  split; [|split].
  - unfold dihedral_coeffs_section. rewrite Hdne, <- Htable. reflexivity.
  - intros Hstyle. rewrite length_map, Hlen, Hty. unfold header.
    rewrite Hstyle, Hdne.
    repeat match goal with
           | |- context [if ?b then _ else _] => destruct b
           end; Loops.in_apps.
  - intros dihedral term Hin Himp Hterm.
    unfold charmm_dihedrals_of in Hkeys.
    destruct (Py.mapM charmm_dihedral_keys_of
                (join_dihedrals (Structure.dihedrals structure)))
      as [e|per_dihedral] eqn:Hper; [discriminate|].
    injection Hkeys as Hkeys.
    destruct (mapM_elem _ _ _ _ Hper Hin) as (ks & Hks & Hks_in).
    set (key := (Py.round (DihedralType.phi_k term) 3,
                 Py.round_half_even (DihedralType.per term),
                 Py.round_half_even (DihedralType.phase term),
                 Py.round
                   (1 / inject_Z
                          (Z.of_nat (length (Dihedral.type dihedral))))
                   4,
                 Py.round (DihedralType.scee term) 1,
                 Py.round (DihedralType.scnb term) 1,
                 Atom.type (Dihedral.atom1 dihedral),
                 Atom.type (Dihedral.atom2 dihedral),
                 Atom.type (Dihedral.atom3 dihedral),
                 Atom.type (Dihedral.atom4 dihedral))
          : charmm_dihedral_key).
    assert (Hkey : key ∈ keys).
    { rewrite <- Hkeys. apply list_elem_of_In, in_concat.
      exists ks. split; [now apply list_elem_of_In|].
      apply list_elem_of_In.
      unfold charmm_dihedral_keys_of, Py.ret in Hks. rewrite Himp in Hks.
      destruct (Dihedral.type dihedral) as [|ty tys] eqn:Htys;
        [inversion Hterm|].
      assert (Hmap : ks = map (fun dih_type =>
                  (Py.round (DihedralType.phi_k dih_type) 3,
                   Py.round_half_even (DihedralType.per dih_type),
                   Py.round_half_even (DihedralType.phase dih_type),
                   Py.round (1 / inject_Z (Z.of_nat (length (ty :: tys))))
                            4,
                   Py.round (DihedralType.scee dih_type) 1,
                   Py.round (DihedralType.scnb dih_type) 1,
                   Atom.type (Dihedral.atom1 dihedral),
                   Atom.type (Dihedral.atom2 dihedral),
                   Atom.type (Dihedral.atom3 dihedral),
                   Atom.type (Dihedral.atom4 dihedral)))
               (ty :: tys)) by congruence.
      rewrite Hmap. apply list_elem_of_fmap. now exists term. }
    destruct (Canonicaliser.table_lookup_total set_iter Hok keys key Hkey)
      as [id Hid].
    exists id. apply list_elem_of_fmap. exists (key, id).
    split; [reflexivity|]. now apply PyFacts.dict_lookup_Some_elem.
Qed.

Lemma charmm_dihedral_coeffs_of_the_two_dihedrals :
  exists v lines id,
    prepare Py.insertion_order Examples.no_join Examples.two_dihedrals
            (default_config "out.lammps") = inr v
    /\ dihedral_coeffs_section Examples.rb_unused v
       = wrote (Write "\nDihedral Coeffs # charmm\n" []
                :: Write "#k, n, phi, weight\n" []
                :: lines)
    /\ Write "{:d} dihedral types\n" [IntN (length lines)]
       ∈ header Py.insertion_order Examples.two_dihedrals
           (default_config "out.lammps") v
    /\ Write "{}\t{:.5f}\t{:d}\t{:d}\t{:.5f}\t# {}\t{}\t{}\t{}\n"
             [IntN id; Float (Py.round 1 3); Int 2; Int 180;
              Float (Py.round (1 / 1) 4);
              Str "D"; Str "C"; Str "B"; Str "A"]
       ∈ lines.
Proof.
  assert (Hv : exists v,
    prepare Py.insertion_order Examples.no_join Examples.two_dihedrals
            (default_config "out.lammps") = inr v
    /\ dihedrals_used v = true)
    by (eexists; split; [vm_compute; reflexivity|reflexivity]).
  destruct Hv as (v & Hv & Hdih).
  destruct (charmm_dihedral_coeffs_lines
              Py.insertion_order Examples.no_join Examples.rb_unused
              Examples.two_dihedrals (default_config "out.lammps") v
              PyFacts.insertion_order_ok Hv)
    as (lines & Hw & Hcount & Hlines); [discriminate|exact Hdih|].
  destruct (Hlines
              {| Dihedral.atom1 := Examples.D3;
                 Dihedral.atom2 := Examples.C2;
                 Dihedral.atom3 := Examples.B1;
                 Dihedral.atom4 := Examples.A0;
                 Dihedral.improper := false;
                 Dihedral.type := [Examples.cosine] |}
              Examples.cosine) as (id & Hline).
  - right. left.
  - reflexivity.
  - left.
  - exists v, lines, id. split; [exact Hv|]. split; [exact Hw|].
    split; [now apply Hcount|exact Hline].
Defined.

End CharmmCoeffs.

(** ** When the file is opened *)

Module Opening.

Import Lammps.

Lemma mapM_total {A B} (f : A -> Py.result B) (l : list A) :
  (forall x, x ∈ l -> exists y, f x = inr y) ->
  exists l', Py.mapM f l = inr l'.
Proof.
  induction l as [|x l IH]; intros Hf; [now exists []|].
  destruct (Hf x) as [y Hy]; [left|].
  destruct IH as [l' Hl']; [intros z Hz; apply Hf; now right|].
  exists (y :: l'). simpl. now rewrite Hy, Hl'.
Qed.

Section Tables.
Variable set_iter : Py.set_order.
Variable join_dihedrals : list Dihedral.t -> list Dihedral.t.
Hypothesis set_iter_ok : Py.set_order_ok set_iter.
Variable structure : Structure.t.

Lemma lookup_all_keys {K} `{EqDecision K} (keys : list K) :
  exists ids, lookup_all (enumerate_set set_iter keys) keys = inr ids.
Proof.
  destruct (Canonicaliser.lookup_all_total set_iter set_iter_ok keys keys)
    as (ids & Hids & _); [tauto|]. now exists ids.
Qed.

Lemma bond_tables_total :
  (Structure.bonds structure <> [] ->
   Structure.bond_types structure <> [] ->
   forall bond, bond ∈ Structure.bonds structure ->
                Bond.type bond <> None) ->
  exists tables, bond_tables set_iter structure = inr tables.
Proof.
  intros Htyped. unfold bond_tables.
  destruct (Structure.bonds structure) as [|b bs] eqn:Hb;
    [now eexists|]. cbn [nonempty].
  destruct (Structure.bond_types structure) as [|t ts] eqn:Ht;
    [now eexists|]. cbn [length Nat.eqb].
  destruct (mapM_total bond_key_of (b :: bs)) as [keys Hkeys].
  { intros bond Hin. unfold bond_key_of.
    destruct (Bond.type bond) eqn:Hty; [now eexists|].
    exfalso. now apply (Htyped ltac:(discriminate) ltac:(discriminate)
                          bond Hin). }
  rewrite Hkeys. cbn [Py.bind].
  destruct (lookup_all_keys keys) as [ids ->]. now eexists.
Qed.

Lemma angle_tables_total (use_urey_bradleys : bool) :
  exists tables,
    angle_tables set_iter structure use_urey_bradleys = inr tables.
Proof.
  unfold angle_tables.
  destruct (nonempty (Structure.angles structure)); [|now eexists].
  destruct use_urey_bradleys.
  - destruct (lookup_all_keys
                (map (charmm_angle_key_of
                        (Structure.urey_bradleys structure))
                     (Structure.angles structure))) as [ids ->].
    now eexists.
  - destruct (lookup_all_keys
                (map angle_key_of (Structure.angles structure)))
      as [ids ->].
    now eexists.
Qed.

Lemma improper_tables_total :
  exists tables, improper_tables set_iter structure = inr tables.
Proof.
  unfold improper_tables.
  destruct (nonempty (Structure.impropers structure)); [|now eexists].
  destruct (lookup_all_keys
              (map improper_key_of (Structure.impropers structure)))
    as [ids ->].
  now eexists.
Qed.

Lemma dihedral_tables_total (dihedrals : list (nat * nat * nat * nat))
  (use_rb_torsions use_dihedrals : bool) :
  (nonempty dihedrals = true -> use_rb_torsions = false ->
   use_dihedrals = true ->
   forall dihedral,
     dihedral ∈ join_dihedrals (Structure.dihedrals structure) ->
     Dihedral.improper dihedral = false ->
     Dihedral.type dihedral <> []) ->
  exists tables,
    dihedral_tables set_iter join_dihedrals structure dihedrals
                    use_rb_torsions use_dihedrals
    = inr tables.
Proof.
  intros Hterms. unfold dihedral_tables.
  destruct (nonempty dihedrals); [|now eexists].
  destruct use_rb_torsions.
  - destruct (lookup_all_keys
                (map rb_torsion_key_of (Structure.rb_torsions structure)))
      as [ids ->].
    now eexists.
  - destruct use_dihedrals; [|now eexists].
    unfold charmm_dihedrals_of.
    destruct (mapM_total charmm_dihedral_keys_of
                (join_dihedrals (Structure.dihedrals structure)))
      as [per_dihedral ->].
    { intros d Hin. unfold charmm_dihedral_keys_of.
      destruct (Dihedral.improper d) eqn:Himp; [now eexists|].
      destruct (Dihedral.type d) eqn:Hty; [|now eexists].
      exfalso. now apply (Hterms eq_refl eq_refl eq_refl d Hin Himp). }
    cbn [Py.bind Py.ret].
    destruct (lookup_all_keys (concat per_dihedral)) as [ids ->].
    now eexists.
Qed.

End Tables.

(** The file is opened exactly when the atom style is one of the four, the
    structure has an atom, the dihedral styles do not conflict, every bond
    has a type if the structure has bond types, and, with CHARMM dihedrals
    in use, every dihedral that is not flagged improper has a term. *)
Theorem file_is_opened_iff
  (set_iter : Py.set_order)
  (join_dihedrals : list Dihedral.t -> list Dihedral.t)
  (RB_to_OPLS : Q -> Q -> Q -> Q -> Q -> Q -> Q * Q * Q * Q)
  (structure : Structure.t) (cfg : config) :
  Py.set_order_ok set_iter ->
  file (write_lammpsdata set_iter join_dihedrals RB_to_OPLS structure cfg)
  <> None
  <-> atom_style cfg ∈ ["atomic"; "charge"; "molecular"; "full"]
      /\ Structure.atoms structure <> []
      /\ ClaimSpec.conflicting_dihedral_styles structure cfg = false
      /\ (Structure.bonds structure <> [] ->
          Structure.bond_types structure <> [] ->
          forall bond, bond ∈ Structure.bonds structure ->
                       Bond.type bond <> None)
      /\ (snd (detect_styles structure cfg) = true ->
          Structure.dihedrals structure <> [] ->
          forall dihedral,
            dihedral ∈ join_dihedrals (Structure.dihedrals structure) ->
            Dihedral.improper dihedral = false ->
            Dihedral.type dihedral <> []).
Proof.
  intros Hok. split.
  - intros Hfile. unfold write_lammpsdata in Hfile.
    destruct (prepare set_iter join_dihedrals structure cfg) as [e|v] eqn:Hv;
      [now contradict Hfile|]. clear Hfile.
    destruct (Stages.prepare_inv _ _ _ _ _ Hv)
      as (Hstyle & (first & Hfirst & _) & _ & _ & Hdet & Hconf & _ & Hbt
          & _ & Hdt & _).
    destruct (Sections.prepare_records set_iter join_dihedrals
                structure cfg v Hv) as (_ & Hd & _).
    split; [exact Hstyle|]. split; [|split; [|split]].
    + intros Hnil. now rewrite Hnil in Hfirst.
    + unfold ClaimSpec.conflicting_dihedral_styles. now rewrite Hdet.
    + intros Hne Hty bond Hin Hnone.
      unfold bond_tables in Hbt.
      rewrite (TypeIds.nonempty_true _ Hne) in Hbt.
      destruct (Structure.bond_types structure); [congruence|].
      cbn [length Nat.eqb] in Hbt.
      destruct (Py.mapM bond_key_of (Structure.bonds structure))
        as [e|keys] eqn:Hkeys; [discriminate|].
      destruct (CharmmCoeffs.mapM_elem _ _ _ _ Hkeys Hin) as (key & Hkey & _).
      unfold bond_key_of in Hkey. now rewrite Hnone in Hkey.
    + rewrite Hdet. cbn [snd]. intros Hdih Hne d Hin Himp Hty.
      rewrite Hdih, andb_true_r in Hconf. rewrite Hconf, Hdih in Hd, Hdt.
      unfold dihedral_tables in Hdt.
      rewrite Hd, TypeIds.nonempty_map, (TypeIds.nonempty_true _ Hne) in Hdt.
      unfold charmm_dihedrals_of in Hdt.
      destruct (Py.mapM charmm_dihedral_keys_of
                  (join_dihedrals (Structure.dihedrals structure)))
        as [e|per_dihedral] eqn:Hper; [discriminate|].
      destruct (CharmmCoeffs.mapM_elem _ _ _ _ Hper Hin) as (ks & Hks & _).
      unfold charmm_dihedral_keys_of in Hks.
      now rewrite Himp, Hty in Hks.
  - intros (Hstyle & Hatoms & Hconf & Hbonds & Hterms).
    unfold write_lammpsdata, prepare.
    rewrite bool_decide_eq_true_2 by exact Hstyle.
    destruct (Structure.atoms structure) as [|first atoms]; [congruence|].
    cbn [Py.getitem lookup list_lookup Py.bind Py.ret].
    destruct (Structure.box structure) as [[[lx ly] lz] ang].
    cbn [fst snd]. unfold ClaimSpec.conflicting_dihedral_styles in Hconf.
    destruct (detect_styles structure cfg) as [[ub rb] dih] eqn:Hdet.
    rewrite Hconf. cbn [snd] in Hterms.
    destruct (bond_tables_total set_iter Hok structure Hbonds)
      as [bt ->].
    destruct (angle_tables_total set_iter Hok structure ub) as [agt ->].
    cbn [Py.bind].
    match goal with
    | |- context [dihedral_tables _ _ _ ?d _ _] =>
        destruct (dihedral_tables_total set_iter join_dihedrals Hok
                    structure d rb dih) as [dt ->]
    end.
    { intros Hne -> ->. apply Hterms; [reflexivity|].
      intros Hnil. rewrite Hnil in Hne. discriminate. }
    destruct (improper_tables_total set_iter Hok structure) as [it ->].
    discriminate.
Qed.

Lemma the_file_of_the_molecule_is_opened :
  file (write_lammpsdata Py.insertion_order Examples.no_join
          Examples.rb_unused Samples.molecule
          (default_config "out.lammps"))
  <> None.
Proof.
  apply file_is_opened_iff; [exact PyFacts.insertion_order_ok|].
  split; [unfold default_config, atom_style; Loops.in_apps|].
  split; [discriminate|]. split; [reflexivity|]. split.
  - intros _ _ bond Hin.
    repeat (apply elem_of_cons in Hin as [->|Hin]; [discriminate|]).
    inversion Hin.
  - discriminate.
Defined.

End Opening.
